(** * tau2 domain toolkits and the green-agent loop: a shallow embedding

    The Python sources under [tau2/domains/*/tools.py] and
    [agentify_tau_bench/green_agent/agent.py] are embedded as Rocq
    functions.  A toolkit method that receives [self.db] becomes a
    computation in a state-and-exception monad over the domain database;
    Python [float] is the kernel's binary64 [float]; a Python [dict] is an
    insertion-ordered association list; an exception is a value of [exn]. *)

From Stdlib Require Import ZArith Floats List String Ascii Bool Lia DecimalString Sorted.
Import ListNotations.
Local Open Scope string_scope.

(* ================================================================== *)
(** ** Python values *)
(* ================================================================== *)

Module Py.

(** *** Floats

    [round(x, 2)] on a float: CPython prints the exact binary value with
    two decimals, ties to even, and reads the decimal string back as the
    nearest double.  NaN, infinities and zeros round to themselves, and so
    does any value whose hundredths do not fit in 53 bits (its spacing is
    already coarser than 0.01). *)

Definition half_even (num den : Z) : Z :=
  let q := (num / den)%Z in
  match (2 * (num mod den) ?= den)%Z with
  | Lt => q
  | Gt => (q + 1)%Z
  | Eq => if Z.even q then q else (q + 1)%Z
  end.

Definition centi_magnitude (m : positive) (e : Z) : Z :=
  if (0 <=? e)%Z then (Z.pos m * 100 * 2 ^ e)%Z
  else half_even (Z.pos m * 100) (2 ^ (- e)).

Definition round2 (x : float) : float :=
  match Prim2SF x with
  | S754_finite s m e =>
      let n := centi_magnitude m e in
      if (n <? 2 ^ 53)%Z then
        let r := (PrimFloat.of_uint63 (Uint63.of_Z n) / 100)%float in
        if s then (- r)%float else r
      else x
  | _ => x
  end.

(** The exact value of a finite float, counted in units of [2^-1074]
    (the spacing of the subnormals, of which every double is a multiple);
    [None] for NaN and the infinities. *)
Definition exact_units (x : float) : option Z :=
  match Prim2SF x with
  | S754_zero _ => Some 0%Z
  | S754_finite s m e =>
      let mag := Z.shiftl (Z.pos m) (e + 1074) in
      Some (if s then (- mag)%Z else mag)
  | _ => None
  end.

Definition finite (x : float) : Prop := exact_units x <> None.

(** [float(n)] for an [int]: the nearest double, ties to even;
    [OverflowError] past the largest double. *)
Definition float_of_int (n : Z) : option float :=
  let f := SF2Prim (binary_normalize prec emax n 0 false) in
  if PrimFloat.is_infinity f then None else Some f.

(** [int(x)] for a float: truncation towards zero; [None] for NaN and the
    infinities, on which it raises. *)
Definition int_of_float (x : float) : option Z :=
  match Prim2SF x with
  | S754_zero _ => Some 0%Z
  | S754_finite s m e =>
      let mag := if (0 <=? e)%Z then (Z.pos m * 2 ^ e)%Z else (Z.pos m / 2 ^ (- e))%Z in
      Some (if s then (- mag)%Z else mag)
  | _ => None
  end.

(** *** Strings *)

Definition lower_ascii (c : ascii) : ascii :=
  let n := nat_of_ascii c in
  if (65 <=? n)%nat && (n <=? 90)%nat then ascii_of_nat (n + 32) else c.

(** [str.lower()], on the ASCII letters. *)
Fixpoint lower (s : string) : string :=
  match s with
  | EmptyString => EmptyString
  | String c s' => String (lower_ascii c) (lower s')
  end.

Fixpoint chars (s : string) : list ascii :=
  match s with
  | EmptyString => []
  | String c s' => c :: chars s'
  end.

Fixpoint has_prefix (p s : string) : bool :=
  match p, s with
  | EmptyString, _ => true
  | String a p', String b s' => Ascii.eqb a b && has_prefix p' s'
  | String _ _, EmptyString => false
  end.

(** [s.find(sub) != -1]. *)
Fixpoint contains (sub s : string) : bool :=
  has_prefix sub s ||
  match s with
  | EmptyString => false
  | String _ s' => contains sub s'
  end.

(** Truthiness of an [Optional[str]]: [None] and [""] are falsy. *)
Definition truthy (o : option string) : bool :=
  match o with
  | Some s => negb (s =? "")
  | None => false
  end.

(** [a or b] where [a : Optional[str]] and [b : str]. *)
Definition or_else (o : option string) (d : string) : string :=
  match o with
  | Some s => if s =? "" then d else s
  | None => d
  end.

Definition str_lt (a b : string) : bool :=
  match String.compare a b with Lt => true | _ => false end.

(** The decimal digits of a natural number, as [str(n)] gives them. *)
Definition str_of_nat (n : nat) : string := NilZero.string_of_uint (Nat.to_uint n).

Fixpoint zeros (k : nat) : string :=
  match k with
  | O => EmptyString
  | S k' => String "0" (zeros k')
  end.

(** [f"{n:07d}"] for a non-negative [n]. *)
Definition format_07d (n : nat) : string :=
  let s := str_of_nat n in zeros (7 - String.length s) ++ s.

(** *** Dictionaries

    A [dict] keeps its keys in insertion order and the toolkits iterate
    over [items()] and [values()] taking the first hit, so a dictionary is
    a list of bindings: lookup takes the first binding of a key,
    assignment overwrites it in place or appends a new one. *)

Definition dict (V : Type) : Type := list (string * V).

Fixpoint dict_get {V} (k : string) (d : dict V) : option V :=
  match d with
  | [] => None
  | (k', v) :: d' => if k =? k' then Some v else dict_get k d'
  end.

Definition dict_mem {V} (k : string) (d : dict V) : bool :=
  match dict_get k d with Some _ => true | None => false end.

Fixpoint dict_set {V} (k : string) (v : V) (d : dict V) : dict V :=
  match d with
  | [] => [(k, v)]
  | (k', v') :: d' => if k =? k' then (k', v) :: d' else (k', v') :: dict_set k v d'
  end.

(** In-place mutation of the object bound to [k]; nothing happens when
    [k] is unbound (the callers have looked the key up before). *)
Fixpoint dict_update {V} (k : string) (f : V -> V) (d : dict V) : dict V :=
  match d with
  | [] => []
  | (k', v) :: d' => if k =? k' then (k', f v) :: d' else (k', v) :: dict_update k f d'
  end.

Definition dict_keys {V} (d : dict V) : list string := map fst d.
Definition dict_values {V} (d : dict V) : list V := map snd d.

(** In-place mutation of the [i]-th element of a list. *)
Fixpoint list_update {A} (i : nat) (f : A -> A) (l : list A) : list A :=
  match l, i with
  | [], _ => []
  | x :: l', O => f x :: l'
  | x :: l', S i' => x :: list_update i' f l'
  end.

Definition mem_str (x : string) (l : list string) : bool := existsb (String.eqb x) l.

Definition count_str (x : string) (l : list string) : nat :=
  List.length (filter (String.eqb x) l).

(** *** JSON values, as [json.loads] builds them and [json.dumps] prints
    them; a number keeps its literal. *)

#[local] Unset Elimination Schemes.
Inductive json : Type :=
| JNull
| JBool (b : bool)
| JNumber (literal : string)
| JStr (s : string)
| JArr (items : list json)
| JObj (fields : list (string * json)).
#[local] Set Elimination Schemes.

(** *** Exceptions and the toolkit monad *)

Inductive exn : Type :=
| ValueError (msg : string)
| ValidationError (msg : string)
| KeyError (key : string)
| TypeError (msg : string)
| OverflowError (msg : string)
| AssertionError (msg : string).

(** [isinstance(e, ValueError)]: pydantic's [ValidationError] derives from
    [ValueError]. *)
Definition is_ValueError (e : exn) : bool :=
  match e with
  | ValueError _ | ValidationError _ => true
  | _ => false
  end.

Inductive result (A : Type) : Type :=
| Ok (a : A)
| Raise (e : exn).
Arguments Ok {A} a.
Arguments Raise {A} e.

(** A method body: it runs on the database and leaves a result together
    with the database as it stands when the method returns or raises. *)
Definition M (S A : Type) : Type := S -> result A * S.

Definition ret {S A} (a : A) : M S A := fun s => (Ok a, s).
Definition raise {S A} (e : exn) : M S A := fun s => (Raise e, s).
Definition bind {S A B} (m : M S A) (k : A -> M S B) : M S B :=
  fun s => match m s with
           | (Ok a, s') => k a s'
           | (Raise e, s') => (Raise e, s')
           end.
Definition gets {S A} (f : S -> A) : M S A := fun s => (Ok (f s), s).
Definition modify {S} (f : S -> S) : M S unit := fun s => (Ok tt, f s).
Definition lift {S A} (r : result A) : M S A := fun s => (r, s).

(** [try: body except ValueError: handler]. *)
Definition try_ValueError {S A} (body : M S A) (handler : M S A) : M S A :=
  fun s => match body s with
           | (Raise e, s') => if is_ValueError e then handler s' else (Raise e, s')
           | r => r
           end.

(** A field declared [Literal[...]]: the model constructor refuses any
    other string. *)
Definition validate_literal {S} (field : string) (allowed : list string) (v : string)
  : M S unit :=
  if mem_str v allowed then ret tt
  else raise (ValidationError ("Input should be one of the literals of " ++ field)).

(** [str(n)] for an [int]. *)
Definition str_of_int (n : Z) : string :=
  match n with
  | Zneg p => "-" ++ str_of_nat (Pos.to_nat p)
  | _ => str_of_nat (Z.to_nat n)
  end.

(** [l.remove(x)]: the first element equal to [x] goes. *)
Fixpoint remove_first (x : string) (l : list string) : list string :=
  match l with
  | [] => []
  | y :: l' => if y =? x then l' else y :: remove_first x l'
  end.

End Py.

Export Py.

Declare Scope py_scope.
Delimit Scope py_scope with py.
Notation "x <- m ;; k" := (bind m (fun x => k))
  (at level 61, m at next level, right associativity) : py_scope.
Notation "m ;;; k" := (bind m (fun _ => k))
  (at level 61, right associativity) : py_scope.
Local Open Scope py_scope.

Inductive ToolType : Type := READ | WRITE | GENERIC.

(* ================================================================== *)
(** ** Bank domain: [tau2/domains/bank] *)
(* ================================================================== *)

Module Bank.

(** *** data_model.py *)

Record BankAddress : Type := {
  address1 : string; address2 : string; city : string;
  state : string; zip : string; country : string }.

Record ClientName : Type := {
  cn_first_name : string; cn_last_name : string; cn_middle_name : option string }.

Record ClientContact : Type := { email : string; phone : string }.

Record AccountBalance : Type := {
  current : float; available : float; on_hold : float }.

Record AccountFeatures : Type := {
  checks_enabled : bool; atm_access : bool; online_banking : bool }.

Record Account : Type := {
  acc_account_id : string;
  acc_type : string;                     (* AccountType *)
  acc_currency : string;
  acc_status : string;                   (* AccountStatus *)
  acc_account_number_masked : string;
  acc_routing_number : string;
  acc_balance : AccountBalance;
  acc_interest_rate_apr : option float;
  acc_overdraft_limit : option float;
  acc_opened_at : string;
  acc_features : AccountFeatures }.

Record CardExtraInfo : Type := {
  brand : string; last_four : string; exp_month : string; exp_year : string }.

Record CardLimits : Type := { daily_atm_limit : float; daily_pos_limit : float }.

Record Card : Type := {
  card_id : string;
  card_type : string;                    (* CardType *)
  card_linked_account_id : string;
  card_status : string;                  (* CardStatus *)
  card_issuer : string;
  card_extra_info : CardExtraInfo;
  card_limits : CardLimits;
  card_pin_set : bool }.

Record KYCInfo : Type := {
  kyc_status : string; last_reviewed_at : string; tax_id_masked : string }.

Record MerchantInfo : Type := {
  merchant_name : string; mcc : string; merchant_city : string; merchant_country : string }.

Record ExchangeInfo : Type := {
  source_currency : string; target_currency : string; rate : float;
  source_amount : float; target_amount : float }.

Record TransactionFee : Type := {
  fee_type : string; fee_amount : float; fee_currency : string }.

Record TransactionHold : Type := {
  is_hold : bool; release_at : option string; hold_reason : option string }.

Record Transaction : Type := {
  transaction_id : string;
  tx_client_id : string;
  tx_account_id : string;
  timestamp : string;
  tx_type : string;                      (* TransactionType *)
  direction : string;                    (* TransactionDirection *)
  amount : float;
  tx_currency : string;
  description : option string;
  method : string;                       (* TransactionMethod *)
  tx_status : string;                    (* TransactionStatus *)
  merchant : option MerchantInfo;
  related_transaction_id : option string;
  exchange : option ExchangeInfo;
  fees : list TransactionFee;
  hold : option TransactionHold;
  balance_after : option float }.

Record Collateral : Type := {
  collateral_type : string; collateral_description : string;
  value_amount : float; value_currency : string }.

Record LoanPaymentScheduleEntry : Type := {
  due_date : string; sched_amount : float; sched_currency : string;
  sched_status : string; sched_transaction_id : option string }.

Record LoanRepaymentHistoryEntry : Type := {
  rh_transaction_id : string;
  posted_at : string;
  rh_amount : float;
  rh_currency : string;
  rh_method : string;                    (* TransactionMethod *)
  principal_component : float;
  interest_component : float;
  fees_component : float }.

Record EscrowAccount : Type := {
  escrow_account_id : string; escrow_balance : float; escrow_currency : string }.

Record Loan : Type := {
  loan_id : string;
  loan_client_id : string;
  linked_repayment_account_id : string;
  loan_type : string;
  principal : float;
  loan_currency : string;
  loan_interest_rate_apr : float;
  amortization : string;
  term_months : Z;
  origination_date : string;
  first_payment_date : string;
  maturity_date : string;
  loan_status : string;
  collateral : option Collateral;
  payment_schedule : list LoanPaymentScheduleEntry;
  repayment_history : list LoanRepaymentHistoryEntry;
  escrow : option EscrowAccount }.

Record BeneficiaryName : Type := {
  display_name : option string; bn_first_name : option string;
  bn_last_name : option string; business_name : option string }.

Record BankDetails : Type := {
  bank_name : string; bd_account_number_masked : string;
  bd_routing_number : option string; iban : option string; swift_bic : option string }.

Record TransferLimits : Type := { per_transfer_limit : float; daily_limit : float }.

Record BeneficiaryVerification : Type := {
  ver_status : string;                   (* VerificationStatus *)
  ver_method : string;                   (* VerificationMethod *)
  verified_at : option string }.

Record Beneficiary : Type := {
  beneficiary_id : string;
  bnf_client_id : string;
  bnf_name : BeneficiaryName;
  bnf_type : string;                     (* BeneficiaryType *)
  bank_details : BankDetails;
  bnf_address : BankAddress;
  allowed_from_account_ids : list string;
  transfer_limits : TransferLimits;
  verification : BeneficiaryVerification;
  bnf_status : string;                   (* BeneficiaryStatus *)
  bnf_created_at : string;
  bnf_notes : option string }.

Record Client : Type := {
  client_id : string;
  name : ClientName;
  contact : ClientContact;
  address : BankAddress;
  accounts : dict Account;
  cards : dict Card;
  loan_ids : list string;
  beneficiary_ids : list string;
  created_at : string;
  kyc : KYCInfo }.

Record BankDB : Type := {
  clients : dict Client;
  transactions : dict Transaction;
  loans : dict Loan;
  beneficiaries : dict Beneficiary }.

Definition TransactionType_literals : list string :=
  ["deposit"; "withdrawal"; "transfer"; "payment"; "fee"; "interest"].
Definition TransactionDirection_literals : list string := ["debit"; "credit"].
Definition TransactionMethod_literals : list string :=
  ["ACH"; "Wire"; "Card"; "ATM"; "Internal"].
Definition TransactionStatus_literals : list string := ["pending"; "posted"; "reversed"].
Definition BeneficiaryType_literals : list string := ["individual"; "business"].
Definition VerificationStatus_literals : list string := ["pending"; "verified"; "failed"].
Definition VerificationMethod_literals : list string :=
  ["micro_deposits"; "document"; "instant"].
Definition BeneficiaryStatus_literals : list string := ["active"; "suspended"; "revoked"].

(** Attribute assignment on the objects the tools mutate. *)

Definition set_available (x : float) (b : AccountBalance) : AccountBalance :=
  {| current := current b; available := x; on_hold := on_hold b |}.

Definition set_current (x : float) (b : AccountBalance) : AccountBalance :=
  {| current := x; available := available b; on_hold := on_hold b |}.

Definition set_acc_balance (f : AccountBalance -> AccountBalance) (a : Account) : Account :=
  {| acc_account_id := acc_account_id a; acc_type := acc_type a;
     acc_currency := acc_currency a; acc_status := acc_status a;
     acc_account_number_masked := acc_account_number_masked a;
     acc_routing_number := acc_routing_number a;
     acc_balance := f (acc_balance a);
     acc_interest_rate_apr := acc_interest_rate_apr a;
     acc_overdraft_limit := acc_overdraft_limit a;
     acc_opened_at := acc_opened_at a; acc_features := acc_features a |}.

Definition set_acc_status (s : string) (a : Account) : Account :=
  {| acc_account_id := acc_account_id a; acc_type := acc_type a;
     acc_currency := acc_currency a; acc_status := s;
     acc_account_number_masked := acc_account_number_masked a;
     acc_routing_number := acc_routing_number a;
     acc_balance := acc_balance a;
     acc_interest_rate_apr := acc_interest_rate_apr a;
     acc_overdraft_limit := acc_overdraft_limit a;
     acc_opened_at := acc_opened_at a; acc_features := acc_features a |}.

Definition set_card_status (s : string) (c : Card) : Card :=
  {| card_id := card_id c; card_type := card_type c;
     card_linked_account_id := card_linked_account_id c; card_status := s;
     card_issuer := card_issuer c; card_extra_info := card_extra_info c;
     card_limits := card_limits c; card_pin_set := card_pin_set c |}.

Definition set_accounts (f : dict Account -> dict Account) (c : Client) : Client :=
  {| client_id := client_id c; name := name c; contact := contact c;
     address := address c; accounts := f (accounts c); cards := cards c;
     loan_ids := loan_ids c; beneficiary_ids := beneficiary_ids c;
     created_at := created_at c; kyc := kyc c |}.

Definition set_cards (f : dict Card -> dict Card) (c : Client) : Client :=
  {| client_id := client_id c; name := name c; contact := contact c;
     address := address c; accounts := accounts c; cards := f (cards c);
     loan_ids := loan_ids c; beneficiary_ids := beneficiary_ids c;
     created_at := created_at c; kyc := kyc c |}.

Definition set_beneficiary_ids (f : list string -> list string) (c : Client) : Client :=
  {| client_id := client_id c; name := name c; contact := contact c;
     address := address c; accounts := accounts c; cards := cards c;
     loan_ids := loan_ids c; beneficiary_ids := f (beneficiary_ids c);
     created_at := created_at c; kyc := kyc c |}.

Definition set_verification (v : BeneficiaryVerification) (b : Beneficiary) : Beneficiary :=
  {| beneficiary_id := beneficiary_id b; bnf_client_id := bnf_client_id b;
     bnf_name := bnf_name b; bnf_type := bnf_type b; bank_details := bank_details b;
     bnf_address := bnf_address b;
     allowed_from_account_ids := allowed_from_account_ids b;
     transfer_limits := transfer_limits b; verification := v;
     bnf_status := bnf_status b; bnf_created_at := bnf_created_at b;
     bnf_notes := bnf_notes b |}.

Definition set_repayment_history
  (f : list LoanRepaymentHistoryEntry -> list LoanRepaymentHistoryEntry) (l : Loan) : Loan :=
  {| loan_id := loan_id l; loan_client_id := loan_client_id l;
     linked_repayment_account_id := linked_repayment_account_id l;
     loan_type := loan_type l; principal := principal l;
     loan_currency := loan_currency l;
     loan_interest_rate_apr := loan_interest_rate_apr l;
     amortization := amortization l; term_months := term_months l;
     origination_date := origination_date l;
     first_payment_date := first_payment_date l; maturity_date := maturity_date l;
     loan_status := loan_status l; collateral := collateral l;
     payment_schedule := payment_schedule l;
     repayment_history := f (repayment_history l); escrow := escrow l |}.

Definition set_related_transaction_id (r : option string) (t : Transaction) : Transaction :=
  {| transaction_id := transaction_id t; tx_client_id := tx_client_id t;
     tx_account_id := tx_account_id t; timestamp := timestamp t;
     tx_type := tx_type t; direction := direction t; amount := amount t;
     tx_currency := tx_currency t; description := description t;
     method := method t; tx_status := tx_status t; merchant := merchant t;
     related_transaction_id := r; exchange := exchange t; fees := fees t;
     hold := hold t; balance_after := balance_after t |}.

Definition set_clients (f : dict Client -> dict Client) (db : BankDB) : BankDB :=
  {| clients := f (clients db); transactions := transactions db;
     loans := loans db; beneficiaries := beneficiaries db |}.

Definition set_transactions (f : dict Transaction -> dict Transaction) (db : BankDB) : BankDB :=
  {| clients := clients db; transactions := f (transactions db);
     loans := loans db; beneficiaries := beneficiaries db |}.

Definition set_loans (f : dict Loan -> dict Loan) (db : BankDB) : BankDB :=
  {| clients := clients db; transactions := transactions db;
     loans := f (loans db); beneficiaries := beneficiaries db |}.

Definition set_beneficiaries (f : dict Beneficiary -> dict Beneficiary) (db : BankDB) : BankDB :=
  {| clients := clients db; transactions := transactions db;
     loans := loans db; beneficiaries := f (beneficiaries db) |}.

(** The account object [db.clients[cid].accounts[aid]], mutated in place. *)
Definition upd_account (cid aid : string) (f : Account -> Account) : BankDB -> BankDB :=
  set_clients (dict_update cid (set_accounts (dict_update aid f))).

Definition upd_card (cid kid : string) (f : Card -> Card) : BankDB -> BankDB :=
  set_clients (dict_update cid (set_cards (dict_update kid f))).

(** The same object read back after earlier assignments of the method. *)
Definition account_at (cid aid : string) : M BankDB Account :=
  fun db =>
    match dict_get cid (clients db) with
    | Some c =>
        match dict_get aid (accounts c) with
        | Some a => (Ok a, db)
        | None => (Raise (KeyError aid), db)
        end
    | None => (Raise (KeyError cid), db)
    end.

(** *** tools.py *)

Section Tools.

(** [datetime.utcnow().isoformat(timespec="seconds") + "Z"] at the call. *)
Variable now : string.

(** [str(round(float(eval(expression, {"__builtins__": None}, {})), 2))]:
    the interpreter evaluating a string of digits, operators, parentheses,
    dots and spaces in an empty namespace. *)
Variable py_calc : string -> result string.

(** [json.dumps(value, sort_keys=True)]. *)
Variable json_dumps_sorted : json -> string.

(** Internal helpers *)

Definition _get_client (client_id : string) : M BankDB Client :=
  fun db =>
    match dict_get client_id (clients db) with
    | None => (Raise (ValueError "Client not found"), db)
    | Some c => (Ok c, db)
    end.

Fixpoint find_account (account_id : string) (cs : dict Client) : option (string * Account) :=
  match cs with
  | [] => None
  | (cid, client) :: cs' =>
      match dict_get account_id (accounts client) with
      | Some a => Some (cid, a)
      | None => find_account account_id cs'
      end
  end.

Definition _get_account_by_id (account_id : string) : M BankDB (string * Account) :=
  fun db =>
    match find_account account_id (clients db) with
    | Some r => (Ok r, db)
    | None => (Raise (ValueError "Account not found"), db)
    end.

Definition _get_account (client_id account_id : string) : M BankDB Account :=
  client <- _get_client client_id ;;
  match dict_get account_id (accounts client) with
  | None => raise (ValueError "Account not found for this client")
  | Some a => ret a
  end.

Fixpoint find_card (card_id : string) (cs : dict Client) : option (string * Card) :=
  match cs with
  | [] => None
  | (cid, client) :: cs' =>
      match dict_get card_id (cards client) with
      | Some c => Some (cid, c)
      | None => find_card card_id cs'
      end
  end.

Definition _get_card_by_id (card_id : string) : M BankDB (string * Card) :=
  fun db =>
    match find_card card_id (clients db) with
    | Some r => (Ok r, db)
    | None => (Raise (ValueError "Card not found"), db)
    end.

Definition _get_loan (loan_id : string) : M BankDB Loan :=
  fun db =>
    match dict_get loan_id (loans db) with
    | None => (Raise (ValueError "Loan not found"), db)
    | Some l => (Ok l, db)
    end.

Definition _get_beneficiary (beneficiary_id : string) : M BankDB Beneficiary :=
  fun db =>
    match dict_get beneficiary_id (beneficiaries db) with
    | None => (Raise (ValueError "Beneficiary not found"), db)
    | Some b => (Ok b, db)
    end.

Definition _now : M BankDB string := ret now.

Definition _generate_transaction_id : M BankDB string :=
  gets (fun db => "tx_" ++ format_07d (List.length (transactions db) + 1)).

Definition _assert_account_active (account : Account) : M BankDB unit :=
  if negb (acc_status account =? "active")
  then raise (ValueError "Account is not active")
  else ret tt.

Definition _assert_card_active_or_blocked (card : Card) : M BankDB unit :=
  if negb (mem_str (card_status card) ["active"; "blocked"])
  then raise (ValueError "Card not in a manageable state")
  else ret tt.

Definition _assert_beneficiary_owned_by_client (client_id beneficiary_id : string)
  : M BankDB unit :=
  client <- _get_client client_id ;;
  if negb (mem_str beneficiary_id (beneficiary_ids client))
  then raise (ValueError "Beneficiary not owned by this client")
  else ret tt.

(** [Transaction(...)]: pydantic checks the four [Literal] fields. *)
Definition new_Transaction (t : Transaction) : M BankDB Transaction :=
  validate_literal "type" TransactionType_literals (tx_type t) ;;;
  validate_literal "direction" TransactionDirection_literals (direction t) ;;;
  validate_literal "method" TransactionMethod_literals (method t) ;;;
  validate_literal "status" TransactionStatus_literals (tx_status t) ;;;
  ret t.

Definition new_LoanRepaymentHistoryEntry (e : LoanRepaymentHistoryEntry)
  : M BankDB LoanRepaymentHistoryEntry :=
  validate_literal "method" TransactionMethod_literals (rh_method e) ;;;
  ret e.

Definition new_BeneficiaryVerification (v : BeneficiaryVerification)
  : M BankDB BeneficiaryVerification :=
  validate_literal "status" VerificationStatus_literals (ver_status v) ;;;
  validate_literal "method" VerificationMethod_literals (ver_method v) ;;;
  ret v.

Definition new_Beneficiary (b : Beneficiary) : M BankDB Beneficiary :=
  validate_literal "type" BeneficiaryType_literals (bnf_type b) ;;;
  validate_literal "status" BeneficiaryStatus_literals (bnf_status b) ;;;
  ret b.

(** Generic utilities *)

Definition calculate_allowed : list ascii := chars "0123456789+-*/(). ".

Definition calculate (expression : string) : M BankDB string :=
  if negb (forallb (fun c => existsb (Ascii.eqb c) calculate_allowed) (chars expression))
  then raise (ValueError "Invalid characters in expression")
  else lift (py_calc expression).

Definition transfer_to_human_agents (summary : string) : M BankDB string :=
  ret "Transfer successful".

(** READ tools *)

Fixpoint first_with_email (email : string) (cs : dict Client) : option string :=
  match cs with
  | [] => None
  | (cid, client) :: cs' =>
      if lower (Bank.email (contact client)) =? lower email then Some cid
      else first_with_email email cs'
  end.

Definition find_client_id_by_email (email : string) : M BankDB string :=
  fun db =>
    match first_with_email email (clients db) with
    | Some cid => (Ok cid, db)
    | None => (Raise (ValueError "Client not found"), db)
    end.

Definition get_client_details (client_id : string) : M BankDB Client :=
  _get_client client_id.

Definition get_account_details (account_id : string) : M BankDB Account :=
  r <- _get_account_by_id account_id ;;
  ret (snd r).

Definition get_card_details (card_id : string) : M BankDB Card :=
  r <- _get_card_by_id card_id ;;
  ret (snd r).

Definition get_loan_details (loan_id : string) : M BankDB Loan :=
  _get_loan loan_id.

Definition get_beneficiary_details (beneficiary_id : string) : M BankDB Beneficiary :=
  _get_beneficiary beneficiary_id.

Definition account_summary (acc : Account) : json :=
  JObj [("type", JStr (acc_type acc));
        ("status", JStr (acc_status acc));
        ("masked", JStr (acc_account_number_masked acc));
        ("currency", JStr (acc_currency acc))].

Definition list_client_accounts (client_id : string) : M BankDB string :=
  client <- _get_client client_id ;;
  let summary := map (fun kv => (fst kv, account_summary (snd kv))) (accounts client) in
  ret (json_dumps_sorted (JObj summary)).

(** [" ".join(filter(None, [first, last]))]. *)
Definition join_names (first last : option string) : string :=
  match truthy first, truthy last with
  | true, true => or_else first "" ++ " " ++ or_else last ""
  | true, false => or_else first ""
  | false, true => or_else last ""
  | false, false => ""
  end.

Definition beneficiary_display (b : Beneficiary) : string :=
  let n := bnf_name b in
  if truthy (display_name n) then or_else (display_name n) ""
  else if truthy (business_name n) then or_else (business_name n) ""
  else if negb (join_names (bn_first_name n) (bn_last_name n) =? "")
       then join_names (bn_first_name n) (bn_last_name n)
  else "Unnamed Beneficiary".

Definition list_client_beneficiaries (client_id : string) : M BankDB string :=
  client <- _get_client client_id ;;
  bs <- gets beneficiaries ;;
  let result :=
    fold_left
      (fun (acc : dict json) (bid : string) =>
         match dict_get bid bs with
         | Some b => dict_set bid (JStr (beneficiary_display b)) acc
         | None => acc
         end)
      (beneficiary_ids client) [] in
  ret (json_dumps_sorted (JObj result)).

(** [list.sort(key=lambda t: t.timestamp, reverse=True)]: stable, the
    later timestamps first. *)
Fixpoint insert_desc (t : Transaction) (l : list Transaction) : list Transaction :=
  match l with
  | [] => [t]
  | u :: l' =>
      if str_lt (timestamp t) (timestamp u) then u :: insert_desc t l'
      else t :: u :: l'
  end.

Definition sort_desc (l : list Transaction) : list Transaction :=
  fold_right insert_desc [] l.

Definition get_recent_transactions (account_id : string) (limit : Z)
  : M BankDB (list Transaction) :=
  _get_account_by_id account_id ;;;
  all_txs <- gets (fun db => dict_values (transactions db)) ;;
  let txs :=
    filter (fun tx => (tx_account_id tx =? account_id)
                      && mem_str (tx_status tx) ["posted"; "pending"]) all_txs in
  ret (firstn (Z.to_nat (Z.max 0 limit)) (sort_desc txs)).

Definition in_range (start_date end_date : option string) (ts : string) : bool :=
  if truthy start_date && str_lt ts (or_else start_date "") then false
  else if truthy end_date && str_lt (or_else end_date "") ts then false
  else true.

Definition amount_ok (min_amount max_amount : option float) (a : float) : bool :=
  match min_amount with
  | Some lo => if (a <? lo)%float then false
               else match max_amount with
                    | Some hi => negb (hi <? a)%float
                    | None => true
                    end
  | None => match max_amount with
            | Some hi => negb (hi <? a)%float
            | None => true
            end
  end.

Definition merchant_lower_name (tx : Transaction) : string :=
  match merchant tx with
  | Some m => if merchant_name m =? "" then "" else lower (merchant_name m)
  | None => ""
  end.

Definition search_transactions (client_id account_id : string)
  (start_date end_date : option string) (min_amount max_amount : option float)
  (transaction_type status merchant_name_contains : option string)
  : M BankDB (list Transaction) :=
  _get_account client_id account_id ;;;
  let m_sub := if truthy merchant_name_contains
               then Some (lower (or_else merchant_name_contains "")) else None in
  all_txs <- gets (fun db => dict_values (transactions db)) ;;
  let keep (tx : Transaction) : bool :=
    if negb (tx_account_id tx =? account_id) then false
    else if negb (in_range start_date end_date (timestamp tx)) then false
    else if negb (amount_ok min_amount max_amount (amount tx)) then false
    else if truthy transaction_type
            && negb (tx_type tx =? or_else transaction_type "") then false
    else if truthy status && negb (tx_status tx =? or_else status "") then false
    else if truthy m_sub
            && negb (contains (or_else m_sub "") (merchant_lower_name tx)) then false
    else true in
  ret (sort_desc (filter keep all_txs)).

(** WRITE tools *)

(** [d[k]] on a dictionary read earlier in the method. *)
Definition getitem {V} (d : dict V) (k : string) : M BankDB V :=
  match dict_get k d with
  | Some v => ret v
  | None => raise (KeyError k)
  end.

Definition debit (amount : float) (cid aid : string) : M BankDB unit :=
  modify (upd_account cid aid
            (set_acc_balance (fun b => set_available (round2 (available b - amount)%float) b))) ;;;
  modify (upd_account cid aid
            (set_acc_balance (fun b => set_current (round2 (current b - amount)%float) b))).

Definition credit (amount : float) (cid aid : string) : M BankDB unit :=
  modify (upd_account cid aid
            (set_acc_balance (fun b => set_available (round2 (available b + amount)%float) b))) ;;;
  modify (upd_account cid aid
            (set_acc_balance (fun b => set_current (round2 (current b + amount)%float) b))).

Definition initiate_internal_transfer
  (client_id from_account_id to_account_id : string) (amount : float)
  (description : option string) : M BankDB (list Transaction) :=
  if (amount <=? 0)%float then raise (ValueError "Amount must be greater than zero") else
  client <- _get_client client_id ;;
  if negb (dict_mem from_account_id (accounts client))
     || negb (dict_mem to_account_id (accounts client))
  then raise (ValueError "Both accounts must belong to the same client") else
  from_acc <- getitem (accounts client) from_account_id ;;
  to_acc <- getitem (accounts client) to_account_id ;;
  _assert_account_active from_acc ;;;
  _assert_account_active to_acc ;;;
  if acc_type from_acc =? "credit"
  then raise (ValueError "Transfers from a credit account are not supported") else
  if negb (acc_currency from_acc =? acc_currency to_acc)
  then raise (ValueError "Cross-currency internal transfers are not supported") else
  if (available (acc_balance from_acc) <? amount)%float
  then raise (ValueError "Insufficient available balance") else
  ts_now <- _now ;;
  let currency := acc_currency from_acc in
  (* Update balances *)
  debit amount client_id from_account_id ;;;
  credit amount client_id to_account_id ;;;
  (* Create linked transactions *)
  tx_id_out <- _generate_transaction_id ;;
  from_acc' <- account_at client_id from_account_id ;;
  tx_out <- new_Transaction
    {| transaction_id := tx_id_out;
       tx_client_id := client_id;
       tx_account_id := from_account_id;
       timestamp := ts_now;
       tx_type := "transfer";
       direction := "debit";
       amount := round2 amount;
       tx_currency := currency;
       description := Some (or_else description ("Internal transfer to " ++ to_account_id));
       method := "Internal";
       tx_status := "posted";
       merchant := None;
       related_transaction_id := None;
       exchange := None;
       fees := [];
       hold := None;
       balance_after := Some (current (acc_balance from_acc')) |} ;;
  tx_id_in <- _generate_transaction_id ;;
  to_acc' <- account_at client_id to_account_id ;;
  tx_in <- new_Transaction
    {| transaction_id := tx_id_in;
       tx_client_id := client_id;
       tx_account_id := to_account_id;
       timestamp := ts_now;
       tx_type := "transfer";
       direction := "credit";
       amount := round2 amount;
       tx_currency := currency;
       description := Some (or_else description ("Internal transfer from " ++ from_account_id));
       method := "Internal";
       tx_status := "posted";
       merchant := None;
       related_transaction_id := Some tx_id_out;
       exchange := None;
       fees := [];
       hold := None;
       balance_after := Some (current (acc_balance to_acc')) |} ;;
  (* Link reverse relation *)
  let tx_out := set_related_transaction_id (Some tx_id_in) tx_out in
  (* Save *)
  modify (set_transactions (dict_set tx_id_out tx_out)) ;;;
  modify (set_transactions (dict_set tx_id_in tx_in)) ;;;
  ret [tx_out; tx_in].

Fixpoint first_missing_account (ids : list string) (accs : dict Account) : option string :=
  match ids with
  | [] => None
  | acc_id :: ids' =>
      if negb (dict_mem acc_id accs) then Some acc_id else first_missing_account ids' accs
  end.

Definition add_beneficiary
  (client_id beneficiary_id beneficiary_type : string)
  (display_name first_name last_name business_name : option string)
  (bank_name account_number_masked : string)
  (routing_number iban swift_bic : option string)
  (address1 address2 city state zip country : string)
  (allowed_from_account_ids : list string)
  (per_transfer_limit daily_limit : float)
  (verification_method : string) : M BankDB Beneficiary :=
  client <- _get_client client_id ;;
  (* Validate allowed accounts belong to client *)
  match first_missing_account allowed_from_account_ids (accounts client) with
  | Some acc_id =>
      raise (ValueError ("Allowed account " ++ acc_id ++ " does not belong to client"))
  | None =>
  (* Construct beneficiary model *)
  let name :=
    {| Bank.display_name := display_name; bn_first_name := first_name;
       bn_last_name := last_name; Bank.business_name := business_name |} in
  let bank_details :=
    {| Bank.bank_name := bank_name; bd_account_number_masked := account_number_masked;
       bd_routing_number := routing_number; Bank.iban := iban;
       Bank.swift_bic := swift_bic |} in
  let address :=
    {| Bank.address1 := address1; Bank.address2 := address2; Bank.city := city;
       Bank.state := state; Bank.zip := zip; Bank.country := country |} in
  let limits :=
    {| Bank.per_transfer_limit := per_transfer_limit; Bank.daily_limit := daily_limit |} in
  verification <- new_BeneficiaryVerification
    {| ver_status := "pending"; ver_method := verification_method; verified_at := None |} ;;
  created <- _now ;;
  beneficiary <- new_Beneficiary
    {| Bank.beneficiary_id := beneficiary_id;
       bnf_client_id := client_id;
       bnf_name := name;
       bnf_type := beneficiary_type;
       Bank.bank_details := bank_details;
       bnf_address := address;
       Bank.allowed_from_account_ids := allowed_from_account_ids;
       transfer_limits := limits;
       Bank.verification := verification;
       bnf_status := "active";
       bnf_created_at := created;
       bnf_notes := None |} ;;
  modify (set_beneficiaries (dict_set beneficiary_id beneficiary)) ;;;
  (if negb (mem_str beneficiary_id (beneficiary_ids client))
   then modify (set_clients
                  (dict_update client_id
                     (set_beneficiary_ids (fun l => (l ++ [beneficiary_id])%list))))
   else ret tt) ;;;
  ret beneficiary
  end.

Definition upd_beneficiary (bid : string) (f : Beneficiary -> Beneficiary)
  : BankDB -> BankDB :=
  set_beneficiaries (dict_update bid f).

Definition verify_beneficiary (client_id beneficiary_id method : string)
  : M BankDB Beneficiary :=
  _assert_beneficiary_owned_by_client client_id beneficiary_id ;;;
  b <- _get_beneficiary beneficiary_id ;;
  modify (upd_beneficiary beneficiary_id
            (fun b => set_verification
               {| ver_status := "verified";
                  ver_method := ver_method (verification b);
                  verified_at := verified_at (verification b) |} b)) ;;;
  modify (upd_beneficiary beneficiary_id
            (fun b => set_verification
               {| ver_status := ver_status (verification b);
                  ver_method := method;
                  verified_at := verified_at (verification b) |} b)) ;;;
  ts <- _now ;;
  modify (upd_beneficiary beneficiary_id
            (fun b => set_verification
               {| ver_status := ver_status (verification b);
                  ver_method := ver_method (verification b);
                  verified_at := Some ts |} b)) ;;;
  ret (set_verification
         {| ver_status := "verified"; ver_method := method; verified_at := Some ts |} b).

Definition initiate_transfer_to_beneficiary
  (client_id from_account_id beneficiary_id : string) (amount : float)
  (method : string) (description : option string) : M BankDB Transaction :=
  if (amount <=? 0)%float then raise (ValueError "Amount must be greater than zero") else
  client <- _get_client client_id ;;
  if negb (dict_mem from_account_id (accounts client))
  then raise (ValueError "Source account must belong to the client") else
  acc <- getitem (accounts client) from_account_id ;;
  _assert_account_active acc ;;;
  _assert_beneficiary_owned_by_client client_id beneficiary_id ;;;
  b <- _get_beneficiary beneficiary_id ;;
  if negb (bnf_status b =? "active")
  then raise (ValueError "Beneficiary is not active") else
  if negb (ver_status (verification b) =? "verified")
  then raise (ValueError "Beneficiary must be verified before transfers") else
  if negb (mem_str from_account_id (allowed_from_account_ids b))
  then raise (ValueError "This account is not authorized for transfers to the beneficiary") else
  if (Bank.per_transfer_limit (transfer_limits b) <? amount)%float
  then raise (ValueError "Amount exceeds per-transfer limit for beneficiary") else
  if (available (acc_balance acc) <? amount)%float
  then raise (ValueError "Insufficient available balance") else
  (* Update balances *)
  debit amount client_id from_account_id ;;;
  (* Create transaction (debit from source) *)
  tx_id <- _generate_transaction_id ;;
  ts <- _now ;;
  acc' <- account_at client_id from_account_id ;;
  tx <- new_Transaction
    {| transaction_id := tx_id;
       tx_client_id := client_id;
       tx_account_id := from_account_id;
       timestamp := ts;
       tx_type := "transfer";
       direction := "debit";
       amount := round2 amount;
       tx_currency := acc_currency acc;
       description :=
         Some (or_else description
                 ("Transfer to beneficiary "
                    ++ or_else (Bank.display_name (bnf_name b)) (Bank.beneficiary_id b)));
       Bank.method := method;
       tx_status := "posted";
       merchant := None;
       related_transaction_id := None;
       exchange := None;
       fees := [];
       hold := None;
       balance_after := Some (current (acc_balance acc')) |} ;;
  modify (set_transactions (dict_set tx_id tx)) ;;;
  ret tx.

Definition freeze_card (card_id reason : string) : M BankDB Card :=
  r <- _get_card_by_id card_id ;;
  let (cid, card) := (r : string * Card) in
  _assert_card_active_or_blocked card ;;;
  if card_status card =? "blocked" then ret card (* already blocked *) else
  modify (upd_card cid card_id (set_card_status "blocked")) ;;;
  ret (set_card_status "blocked" card).

Definition unfreeze_card (card_id : string) : M BankDB Card :=
  r <- _get_card_by_id card_id ;;
  let (cid, card) := (r : string * Card) in
  _assert_card_active_or_blocked card ;;;
  if card_status card =? "active" then ret card (* already active *) else
  modify (upd_card cid card_id (set_card_status "active")) ;;;
  ret (set_card_status "active" card).

Definition freeze_account (account_id reason : string) : M BankDB Account :=
  r <- _get_account_by_id account_id ;;
  let (cid, acc) := (r : string * Account) in
  if acc_status acc =? "closed"
  then raise (ValueError "Account is closed and cannot be frozen") else
  modify (upd_account cid account_id (set_acc_status "frozen")) ;;;
  ret (set_acc_status "frozen" acc).

Definition unfreeze_account (account_id : string) : M BankDB Account :=
  r <- _get_account_by_id account_id ;;
  let (cid, acc) := (r : string * Account) in
  if acc_status acc =? "closed"
  then raise (ValueError "Account is closed and cannot be unfrozen") else
  modify (upd_account cid account_id (set_acc_status "active")) ;;;
  ret (set_acc_status "active" acc).

Definition make_loan_payment
  (client_id loan_id from_account_id : string) (amount : float)
  (method : string) (description : option string) : M BankDB Transaction :=
  if (amount <=? 0)%float then raise (ValueError "Amount must be greater than zero") else
  client <- _get_client client_id ;;
  if negb (dict_mem from_account_id (accounts client))
  then raise (ValueError "Source account must belong to the client") else
  loan <- _get_loan loan_id ;;
  if negb (loan_client_id loan =? client_id)
  then raise (ValueError "Loan does not belong to the client") else
  acc <- getitem (accounts client) from_account_id ;;
  _assert_account_active acc ;;;
  if (available (acc_balance acc) <? amount)%float
  then raise (ValueError "Insufficient available balance") else
  (* Update balances *)
  debit amount client_id from_account_id ;;;
  (* Record transaction *)
  tx_id <- _generate_transaction_id ;;
  ts <- _now ;;
  acc' <- account_at client_id from_account_id ;;
  tx <- new_Transaction
    {| transaction_id := tx_id;
       tx_client_id := client_id;
       tx_account_id := from_account_id;
       timestamp := ts;
       tx_type := "payment";
       direction := "debit";
       amount := round2 amount;
       tx_currency := acc_currency acc;
       description := Some (or_else description ("Loan payment " ++ loan_id));
       Bank.method := method;
       tx_status := "posted";
       merchant := None;
       related_transaction_id := None;
       exchange := None;
       fees := [];
       hold := None;
       balance_after := Some (current (acc_balance acc')) |} ;;
  modify (set_transactions (dict_set tx_id tx)) ;;;
  (* Update loan repayment history (simplified allocation) *)
  entry <- new_LoanRepaymentHistoryEntry
    {| rh_transaction_id := tx_id;
       posted_at := timestamp tx;
       rh_amount := Bank.amount tx;
       rh_currency := tx_currency tx;
       rh_method := Bank.method tx;
       principal_component := Bank.amount tx;
       interest_component := 0%float;
       fees_component := 0%float |} ;;
  modify (set_loans (dict_update loan_id (set_repayment_history (fun h => (h ++ [entry])%list)))) ;;;
  ret tx.

(** The toolkit's registry: every method carrying an [@is_tool]
    decorator, as a call with its arguments, the [ToolType] of its
    decorator, and the method it runs. *)

Inductive Call : Type :=
| Calculate (expression : string)
| TransferToHumanAgents (summary : string)
| FindClientIdByEmail (email : string)
| GetClientDetails (client_id : string)
| GetAccountDetails (account_id : string)
| GetCardDetails (card_id : string)
| GetLoanDetails (loan_id : string)
| GetBeneficiaryDetails (beneficiary_id : string)
| ListClientAccounts (client_id : string)
| ListClientBeneficiaries (client_id : string)
| GetRecentTransactions (account_id : string) (limit : Z)
| SearchTransactions (client_id account_id : string)
    (start_date end_date : option string) (min_amount max_amount : option float)
    (transaction_type status merchant_name_contains : option string)
| InitiateInternalTransfer (client_id from_account_id to_account_id : string)
    (amount : float) (description : option string)
| AddBeneficiary (client_id beneficiary_id beneficiary_type : string)
    (display_name first_name last_name business_name : option string)
    (bank_name account_number_masked : string)
    (routing_number iban swift_bic : option string)
    (address1 address2 city state zip country : string)
    (allowed_from_account_ids : list string)
    (per_transfer_limit daily_limit : float) (verification_method : string)
| VerifyBeneficiary (client_id beneficiary_id method : string)
| InitiateTransferToBeneficiary (client_id from_account_id beneficiary_id : string)
    (amount : float) (method : string) (description : option string)
| FreezeCard (card_id reason : string)
| UnfreezeCard (card_id : string)
| FreezeAccount (account_id reason : string)
| UnfreezeAccount (account_id : string)
| MakeLoanPayment (client_id loan_id from_account_id : string) (amount : float)
    (method : string) (description : option string).

Definition tool_type (c : Call) : ToolType :=
  match c with
  | Calculate _ | TransferToHumanAgents _ => GENERIC
  | FindClientIdByEmail _ | GetClientDetails _ | GetAccountDetails _
  | GetCardDetails _ | GetLoanDetails _ | GetBeneficiaryDetails _
  | ListClientAccounts _ | ListClientBeneficiaries _
  | GetRecentTransactions _ _ | SearchTransactions _ _ _ _ _ _ _ _ _ => READ
  | _ => WRITE
  end.

Inductive Value : Type :=
| VStr (s : string)
| VClient (c : Client)
| VAccount (a : Account)
| VCard (c : Card)
| VLoan (l : Loan)
| VBeneficiary (b : Beneficiary)
| VTransaction (t : Transaction)
| VTransactions (ts : list Transaction).

Definition returning {A} (wrap : A -> Value) (m : M BankDB A) : M BankDB Value :=
  x <- m ;; ret (wrap x).

Definition use_tool (c : Call) : M BankDB Value :=
  match c with
  | Calculate e => returning VStr (calculate e)
  | TransferToHumanAgents s => returning VStr (transfer_to_human_agents s)
  | FindClientIdByEmail e => returning VStr (find_client_id_by_email e)
  | GetClientDetails c => returning VClient (get_client_details c)
  | GetAccountDetails a => returning VAccount (get_account_details a)
  | GetCardDetails k => returning VCard (get_card_details k)
  | GetLoanDetails l => returning VLoan (get_loan_details l)
  | GetBeneficiaryDetails b => returning VBeneficiary (get_beneficiary_details b)
  | ListClientAccounts c => returning VStr (list_client_accounts c)
  | ListClientBeneficiaries c => returning VStr (list_client_beneficiaries c)
  | GetRecentTransactions a l => returning VTransactions (get_recent_transactions a l)
  | SearchTransactions c a sd ed lo hi ty st ms =>
      returning VTransactions (search_transactions c a sd ed lo hi ty st ms)
  | InitiateInternalTransfer c f t a d =>
      returning VTransactions (initiate_internal_transfer c f t a d)
  | AddBeneficiary c b ty dn fn ln bn bk am rn ib sw a1 a2 ci st zp co al pl dl vm =>
      returning VBeneficiary
        (add_beneficiary c b ty dn fn ln bn bk am rn ib sw a1 a2 ci st zp co al pl dl vm)
  | VerifyBeneficiary c b m => returning VBeneficiary (verify_beneficiary c b m)
  | InitiateTransferToBeneficiary c f b a m d =>
      returning VTransaction (initiate_transfer_to_beneficiary c f b a m d)
  | FreezeCard k r => returning VCard (freeze_card k r)
  | UnfreezeCard k => returning VCard (unfreeze_card k)
  | FreezeAccount a r => returning VAccount (freeze_account a r)
  | UnfreezeAccount a => returning VAccount (unfreeze_account a)
  | MakeLoanPayment c l f a m d => returning VTransaction (make_loan_payment c l f a m d)
  end.

End Tools.

End Bank.

(* ================================================================== *)
(** ** Travel agency domain: [tau2/domains/travel] *)
(* ================================================================== *)

Module Travel.

(** *** data_model.py *)

Record PersonName : Type := { first_name : string; last_name : string }.

Record PostalAddress : Type := {
  street : string; pa_city : string; state : string; pa_country : string; zip : string }.

Record ContactInfo : Type := { email : string; phone : string }.

Record PassportInfo : Type := {
  number : string; nationality : string; expiry : string }.

Record TravelerPreferences : Type := {
  dietary : option string; accessibility : option string;
  pref_room_type : option string; bed_preference : option string;
  other : option string }.

Record PaymentExtraInfo : Type := { brand : option string; last_four : option string }.

Record TravelerPaymentMethod : Type := {
  source : string; payment_method_id : string; extra_info : option PaymentExtraInfo }.

Record Companion : Type := {
  co_first_name : string; co_last_name : string; co_dob : string;
  co_passport : option PassportInfo }.

Record BookingTravelerInfo : Type := {
  bt_first_name : string; bt_last_name : string; bt_dob : string }.

Record RoomingInfo : Type := { room_type : string; occupancy : Z }.

Record BookingAddOn : Type := {
  addon_type : string; addon_description : string; price : float }.

Record BookingPayment : Type := { payment_id : string; amount : float }.

Record Location : Type := { city : string; country : string }.

Record PackageDeparture : Type := {
  dep_status : string;
  base_price : float;
  currency : string;
  available_slots : Z;
  early_bird_deadline : string }.

Record ItineraryItem : Type := {
  day : Z; title : string; it_description : string; it_location : Location;
  included_meals : list string }.

Record Accommodation : Type := {
  acm_name : string; acm_type : string; acm_location : Location; nights : Z }.

Record TransportationInfo : Type := {
  international : string; domestic : string; ground : string }.

Record Activity : Type := {
  act_name : string; act_description : string; act_day : Z }.

Record PackagePolicies : Type := {
  cancellation_policy : string; change_policy : string; refund_policy : string }.

Record Package : Type := {
  package_id : string;
  pkg_name : string;
  category : string;
  pkg_description : string;
  destinations : list Location;
  duration_days : Z;
  departure_points : list Location;
  departures : dict PackageDeparture;
  itinerary : list ItineraryItem;
  inclusions : list string;
  exclusions : list string;
  accommodations : list Accommodation;
  transportation : TransportationInfo;
  activities : list Activity;
  policies : PackagePolicies;
  pkg_notes : option string;
  managed_by_agents : list string }.

Record Booking : Type := {
  booking_id : string;
  bk_package_id : string;
  bk_agent_id : string;
  booking_date : string;
  departure_date : string;
  status : string;
  bk_travelers : list BookingTravelerInfo;
  rooming : RoomingInfo;
  add_ons : list BookingAddOn;
  insurance : option string;
  payment_history : list BookingPayment;
  total_price : float;
  notes : option string }.

Record Traveler : Type := {
  traveler_id : string;
  tr_name : PersonName;
  tr_address : PostalAddress;
  tr_contact : ContactInfo;
  tr_dob : string;
  tr_passport : option PassportInfo;
  preferences : option TravelerPreferences;
  payment_methods : dict TravelerPaymentMethod;
  saved_companions : list Companion;
  memberships : list string;
  bookings : list Booking }.

Record AgencyInfo : Type := { agency_name : string; agency_address : PostalAddress }.

Record AvailabilityDay : Type := { slots : list string; timezone : string }.

Record Agent : Type := {
  agent_id : string;
  ag_name : PersonName;
  ag_contact : ContactInfo;
  agency : AgencyInfo;
  certifications : list string;
  languages : list string;
  regions_of_expertise : list string;
  commission_rate : float;
  employment_status : string;
  assigned_travelers : list string;
  managed_packages : list string;
  bookings_handled : list string;
  availability : dict AvailabilityDay;
  ag_notes : option string }.

Record TravelAgencyDB : Type := {
  packages : dict Package;
  travelers : dict Traveler;
  agents : dict Agent }.

(** Attribute assignment on the objects [cancel_booking] mutates. *)

Definition set_payment_history (f : list BookingPayment -> list BookingPayment)
  (b : Booking) : Booking :=
  {| booking_id := booking_id b; bk_package_id := bk_package_id b;
     bk_agent_id := bk_agent_id b; booking_date := booking_date b;
     departure_date := departure_date b; status := status b;
     bk_travelers := bk_travelers b; rooming := rooming b; add_ons := add_ons b;
     insurance := insurance b; payment_history := f (payment_history b);
     total_price := total_price b; notes := notes b |}.

Definition set_status (s : string) (b : Booking) : Booking :=
  {| booking_id := booking_id b; bk_package_id := bk_package_id b;
     bk_agent_id := bk_agent_id b; booking_date := booking_date b;
     departure_date := departure_date b; status := s;
     bk_travelers := bk_travelers b; rooming := rooming b; add_ons := add_ons b;
     insurance := insurance b; payment_history := payment_history b;
     total_price := total_price b; notes := notes b |}.

Definition set_bookings (f : list Booking -> list Booking) (t : Traveler) : Traveler :=
  {| traveler_id := traveler_id t; tr_name := tr_name t; tr_address := tr_address t;
     tr_contact := tr_contact t; tr_dob := tr_dob t; tr_passport := tr_passport t;
     preferences := preferences t; payment_methods := payment_methods t;
     saved_companions := saved_companions t; memberships := memberships t;
     bookings := f (bookings t) |}.

Definition set_available_slots (f : Z -> Z) (d : PackageDeparture) : PackageDeparture :=
  {| dep_status := dep_status d; base_price := base_price d; currency := currency d;
     available_slots := f (available_slots d);
     early_bird_deadline := early_bird_deadline d |}.

Definition set_departures (f : dict PackageDeparture -> dict PackageDeparture)
  (p : Package) : Package :=
  {| package_id := package_id p; pkg_name := pkg_name p; category := category p;
     pkg_description := pkg_description p; destinations := destinations p;
     duration_days := duration_days p; departure_points := departure_points p;
     departures := f (departures p); itinerary := itinerary p;
     inclusions := inclusions p; exclusions := exclusions p;
     accommodations := accommodations p; transportation := transportation p;
     activities := activities p; policies := policies p; pkg_notes := pkg_notes p;
     managed_by_agents := managed_by_agents p |}.

Definition set_travelers (f : dict Traveler -> dict Traveler) (db : TravelAgencyDB)
  : TravelAgencyDB :=
  {| packages := packages db; travelers := f (travelers db); agents := agents db |}.

Definition set_packages (f : dict Package -> dict Package) (db : TravelAgencyDB)
  : TravelAgencyDB :=
  {| packages := f (packages db); travelers := travelers db; agents := agents db |}.

(** A booking object is reached through the position of its owner in
    [db.travelers] and its position in the owner's [bookings] list. *)
Definition BookingRef : Type := (nat * nat)%type.

Definition upd_booking (r : BookingRef) (f : Booking -> Booking)
  : TravelAgencyDB -> TravelAgencyDB :=
  set_travelers
    (list_update (fst r)
       (fun kv => (fst kv, set_bookings (list_update (snd r) f) (snd kv)))).

(** *** tools.py *)

Section Tools.

(** [str(round(float(eval(expression, {"__builtins__": None}, {})), 2))]. *)
Variable py_calc : string -> result string.

Definition _get_traveler (traveler_id : string) : M TravelAgencyDB Traveler :=
  fun db =>
    match dict_get traveler_id (travelers db) with
    | None => (Raise (ValueError ("Traveler " ++ traveler_id ++ " not found")), db)
    | Some t => (Ok t, db)
    end.

Definition _get_agent (agent_id : string) : M TravelAgencyDB Agent :=
  fun db =>
    match dict_get agent_id (agents db) with
    | None => (Raise (ValueError ("Agent " ++ agent_id ++ " not found")), db)
    | Some a => (Ok a, db)
    end.

Definition _get_package (package_id : string) : M TravelAgencyDB Package :=
  fun db =>
    match dict_get package_id (packages db) with
    | None => (Raise (ValueError ("Package " ++ package_id ++ " not found")), db)
    | Some p => (Ok p, db)
    end.

Fixpoint find_in_bookings (booking_id : string) (bs : list Booking)
  : option (nat * Booking) :=
  match bs with
  | [] => None
  | b :: bs' =>
      if Travel.booking_id b =? booking_id then Some (O, b)
      else match find_in_bookings booking_id bs' with
           | Some (i, b') => Some (S i, b')
           | None => None
           end
  end.

Fixpoint find_booking (booking_id : string) (ts : dict Traveler)
  : option (BookingRef * Traveler * Booking) :=
  match ts with
  | [] => None
  | (_, traveler) :: ts' =>
      match find_in_bookings booking_id (bookings traveler) with
      | Some (i, b) => Some ((O, i), traveler, b)
      | None =>
          match find_booking booking_id ts' with
          | Some ((t, i), traveler', b) => Some ((S t, i), traveler', b)
          | None => None
          end
      end
  end.

(** Find a booking by ID across all travelers. *)
Definition _get_booking (booking_id : string)
  : M TravelAgencyDB (BookingRef * Traveler * Booking) :=
  fun db =>
    match find_booking booking_id (travelers db) with
    | Some r => (Ok r, db)
    | None => (Raise (ValueError ("Booking " ++ booking_id ++ " not found")), db)
    end.

(** The loop over the candidates: [try: self._get_booking(booking_id)]
    and [except ValueError: return booking_id]. *)
Fixpoint first_free_id (candidates : list string) : M TravelAgencyDB string :=
  match candidates with
  | [] => raise (ValueError "Too many bookings created")
  | booking_id :: rest =>
      returned <- try_ValueError
                    (_get_booking booking_id ;;; ret None)
                    (ret (Some booking_id)) ;;
      match returned with
      | Some id => ret id
      | None => first_free_id rest
      end
  end.

(** Get a new booking id. Assume each task makes at most 3 bookings. *)
Definition _get_new_booking_id : M TravelAgencyDB string :=
  first_free_id ["TAU001"; "TAU002"; "TAU003"].

(** Read tools *)

Definition get_traveler_details (traveler_id : string) : M TravelAgencyDB Traveler :=
  _get_traveler traveler_id.

Definition get_agent_details (agent_id : string) : M TravelAgencyDB Agent :=
  _get_agent agent_id.

Definition get_package_details (package_id : string) : M TravelAgencyDB Package :=
  _get_package package_id.

Definition get_booking_details (booking_id : string) : M TravelAgencyDB Booking :=
  r <- _get_booking booking_id ;;
  ret (snd r).

Definition is_None (o : option string) : bool :=
  match o with None => true | Some _ => false end.

Definition eq_opt (s : string) (o : option string) : bool :=
  match o with Some x => s =? x | None => false end.

Definition search_packages
  (destination_city destination_country category departure_date : option string)
  : M TravelAgencyDB (list Package) :=
  pkgs <- gets (fun db => dict_values (packages db)) ;;
  let keep (pkg : Package) : bool :=
    if (truthy destination_city || truthy destination_country)
       && negb (existsb
                  (fun loc =>
                     (is_None destination_city || eq_opt (city loc) destination_city)
                     && (is_None destination_country
                         || eq_opt (country loc) destination_country))
                  (destinations pkg))
    then false
    else if truthy category && negb (eq_opt (Travel.category pkg) category) then false
    else if truthy departure_date
            && negb (dict_mem (or_else departure_date "") (departures pkg)) then false
    else existsb
           (fun d => (dep_status d =? "available") && (0 <? available_slots d)%Z)
           (dict_values (departures pkg)) in
  ret (filter keep pkgs).

Definition same_place (a b : Location) : bool :=
  (city a =? city b) && (country a =? country b).

Definition list_all_destinations : M TravelAgencyDB (list Location) :=
  pkgs <- gets (fun db => dict_values (packages db)) ;;
  ret (fold_left
         (fun (dests : list Location) (loc : Location) =>
            if existsb (same_place loc) dests then dests else (dests ++ [loc])%list)
         (List.concat (map destinations pkgs)) []).

(** Write tools *)

Definition refund_of (p : BookingPayment) : BookingPayment :=
  {| payment_id := payment_id p; amount := (- amount p)%float |}.

(** Cancel a booking and process refunds (negative payments).
    Restores departure available slots. *)
Definition cancel_booking (booking_id : string) : M TravelAgencyDB Booking :=
  r <- _get_booking booking_id ;;
  let '(ref, traveler, booking) := (r : BookingRef * Traveler * Booking) in
  package <- _get_package (bk_package_id booking) ;;
  (* Refund all payments as negative entries *)
  let refunds := map refund_of (payment_history booking) in
  modify (upd_booking ref (set_payment_history (fun h => (h ++ refunds)%list))) ;;;
  (* Update status *)
  modify (upd_booking ref (set_status "cancelled")) ;;;
  (* Restore available slots based on traveler count *)
  (if dict_mem (departure_date booking) (departures package)
   then modify (set_packages
                  (dict_update (bk_package_id booking)
                     (set_departures
                        (dict_update (departure_date booking)
                           (set_available_slots
                              (fun n => (n + Z.of_nat (List.length (bk_travelers booking)))%Z))))))
   else ret tt (* KeyError caught: a warning is logged *)) ;;;
  ret (set_status "cancelled"
         (set_payment_history (fun h => (h ++ refunds)%list) booking)).

(** Generic tools *)

Definition transfer_to_human_agents (summary : string) : M TravelAgencyDB string :=
  ret "Transfer successful".

Definition calculate_allowed : list ascii := chars "0123456789+-*/(). ".

Definition calculate (expression : string) : M TravelAgencyDB string :=
  if negb (forallb (fun c => existsb (Ascii.eqb c) calculate_allowed) (chars expression))
  then raise (ValueError "Invalid characters in expression")
  else lift (py_calc expression).

(** The READ and GENERIC methods of the registry. *)
Inductive Call : Type :=
| GetTravelerDetails (traveler_id : string)
| GetAgentDetails (agent_id : string)
| GetPackageDetails (package_id : string)
| GetBookingDetails (booking_id : string)
| SearchPackages (destination_city destination_country category departure_date : option string)
| ListAllDestinations
| TransferToHumanAgents (summary : string)
| Calculate (expression : string)
| CancelBooking (booking_id : string).

Definition tool_type (c : Call) : ToolType :=
  match c with
  | TransferToHumanAgents _ | Calculate _ => GENERIC
  | CancelBooking _ => WRITE
  | _ => READ
  end.

Inductive Value : Type :=
| VStr (s : string)
| VTraveler (t : Traveler)
| VAgent (a : Agent)
| VPackage (p : Package)
| VPackages (ps : list Package)
| VBooking (b : Booking)
| VLocations (ls : list Location).

Definition returning {A} (wrap : A -> Value) (m : M TravelAgencyDB A)
  : M TravelAgencyDB Value :=
  x <- m ;; ret (wrap x).

Definition use_tool (c : Call) : M TravelAgencyDB Value :=
  match c with
  | GetTravelerDetails t => returning VTraveler (get_traveler_details t)
  | GetAgentDetails a => returning VAgent (get_agent_details a)
  | GetPackageDetails p => returning VPackage (get_package_details p)
  | GetBookingDetails b => returning VBooking (get_booking_details b)
  | SearchPackages ci co ca dd => returning VPackages (search_packages ci co ca dd)
  | ListAllDestinations => returning VLocations list_all_destinations
  | TransferToHumanAgents s => returning VStr (transfer_to_human_agents s)
  | Calculate e => returning VStr (calculate e)
  | CancelBooking b => returning VBooking (cancel_booking b)
  end.

End Tools.


(** *** tools.py: the other WRITE tools *)

Definition set_add_ons (a : list BookingAddOn) (b : Booking) : Booking :=
  {| booking_id := booking_id b; bk_package_id := bk_package_id b;
     bk_agent_id := bk_agent_id b; booking_date := booking_date b;
     departure_date := departure_date b; status := status b;
     bk_travelers := bk_travelers b; rooming := rooming b; add_ons := a;
     insurance := insurance b; payment_history := payment_history b;
     total_price := total_price b; notes := notes b |}.

Definition set_total_price (x : float) (b : Booking) : Booking :=
  {| booking_id := booking_id b; bk_package_id := bk_package_id b;
     bk_agent_id := bk_agent_id b; booking_date := booking_date b;
     departure_date := departure_date b; status := status b;
     bk_travelers := bk_travelers b; rooming := rooming b; add_ons := add_ons b;
     insurance := insurance b; payment_history := payment_history b;
     total_price := x; notes := notes b |}.

Definition set_departure_date (d : string) (b : Booking) : Booking :=
  {| booking_id := booking_id b; bk_package_id := bk_package_id b;
     bk_agent_id := bk_agent_id b; booking_date := booking_date b;
     departure_date := d; status := status b;
     bk_travelers := bk_travelers b; rooming := rooming b; add_ons := add_ons b;
     insurance := insurance b; payment_history := payment_history b;
     total_price := total_price b; notes := notes b |}.

Definition set_bk_travelers (t : list BookingTravelerInfo) (b : Booking) : Booking :=
  {| booking_id := booking_id b; bk_package_id := bk_package_id b;
     bk_agent_id := bk_agent_id b; booking_date := booking_date b;
     departure_date := departure_date b; status := status b;
     bk_travelers := t; rooming := rooming b; add_ons := add_ons b;
     insurance := insurance b; payment_history := payment_history b;
     total_price := total_price b; notes := notes b |}.

Definition set_rooming (r : RoomingInfo) (b : Booking) : Booking :=
  {| booking_id := booking_id b; bk_package_id := bk_package_id b;
     bk_agent_id := bk_agent_id b; booking_date := booking_date b;
     departure_date := departure_date b; status := status b;
     bk_travelers := bk_travelers b; rooming := r; add_ons := add_ons b;
     insurance := insurance b; payment_history := payment_history b;
     total_price := total_price b; notes := notes b |}.

Definition set_assigned_travelers (f : list string -> list string) (a : Agent) : Agent :=
  {| agent_id := agent_id a; ag_name := ag_name a; ag_contact := ag_contact a;
     agency := agency a; certifications := certifications a; languages := languages a;
     regions_of_expertise := regions_of_expertise a;
     commission_rate := commission_rate a; employment_status := employment_status a;
     assigned_travelers := f (assigned_travelers a);
     managed_packages := managed_packages a; bookings_handled := bookings_handled a;
     availability := availability a; ag_notes := ag_notes a |}.

Definition set_bookings_handled (f : list string -> list string) (a : Agent) : Agent :=
  {| agent_id := agent_id a; ag_name := ag_name a; ag_contact := ag_contact a;
     agency := agency a; certifications := certifications a; languages := languages a;
     regions_of_expertise := regions_of_expertise a;
     commission_rate := commission_rate a; employment_status := employment_status a;
     assigned_travelers := assigned_travelers a;
     managed_packages := managed_packages a; bookings_handled := f (bookings_handled a);
     availability := availability a; ag_notes := ag_notes a |}.

Definition set_availability (f : dict AvailabilityDay -> dict AvailabilityDay) (a : Agent)
  : Agent :=
  {| agent_id := agent_id a; ag_name := ag_name a; ag_contact := ag_contact a;
     agency := agency a; certifications := certifications a; languages := languages a;
     regions_of_expertise := regions_of_expertise a;
     commission_rate := commission_rate a; employment_status := employment_status a;
     assigned_travelers := assigned_travelers a;
     managed_packages := managed_packages a; bookings_handled := bookings_handled a;
     availability := f (availability a); ag_notes := ag_notes a |}.

Definition set_slots (f : list string -> list string) (d : AvailabilityDay)
  : AvailabilityDay :=
  {| slots := f (slots d); timezone := timezone d |}.

Definition set_agents (f : dict Agent -> dict Agent) (db : TravelAgencyDB)
  : TravelAgencyDB :=
  {| packages := packages db; travelers := travelers db; agents := f (agents db) |}.

(** [package.departures[date].available_slots] of the package object
    [db.packages[package_id]]. *)
Definition upd_slots (package_id date : string) (f : Z -> Z)
  : TravelAgencyDB -> TravelAgencyDB :=
  set_packages
    (dict_update package_id (set_departures (dict_update date (set_available_slots f)))).

Section Bookings.

(** The builtin [sum] over floats (its rounding is the interpreter's),
    [insurance.strip().lower()], and the text of a float in an error
    message. *)
Variable py_sum : list float -> float.
Variable strip_lower : string -> string.
Variable str_of_float : float -> string.

(** Get current date in YY-MM-DD format (simple stub). *)
Definition _get_today_date : string := "2024-05-15".

Definition _validate_departure (package : Package) (departure_date : string)
  (required_slots : Z) : M TravelAgencyDB PackageDeparture :=
  match dict_get departure_date (departures package) with
  | None =>
      raise (ValueError ("Package " ++ package_id package ++ " not offered on "
                           ++ departure_date))
  | Some dep =>
      if negb (dep_status dep =? "available")
      then raise (ValueError ("Departure on " ++ departure_date ++ " for package "
                                ++ package_id package ++ " is not available"))
      else if (available_slots dep <? required_slots)%Z
      then raise (ValueError ("Not enough slots on " ++ departure_date ++ ". Needed "
                                ++ str_of_int required_slots ++ ", available "
                                ++ str_of_int (available_slots dep)))
      else ret dep
  end.

(** An [int] operand of a float operation. *)
Definition as_float (n : Z) : M TravelAgencyDB float :=
  match float_of_int n with
  | Some f => ret f
  | None => raise (OverflowError "int too large to convert to float")
  end.

Definition _calc_total_price (base_price_per_person : float) (num_travelers : Z)
  (add_ons : list BookingAddOn) (insurance : option string) : M TravelAgencyDB float :=
  n <- as_float num_travelers ;;
  let total := (base_price_per_person * n)%float in
  let total := (total + py_sum (map price add_ons))%float in
  (* Simple insurance mapping (example policy) *)
  total <- (if truthy insurance then
              let ins_lower := strip_lower (or_else insurance "") in
              if ins_lower =? "standard" then
                n <- as_float num_travelers ;; ret (total + 50.0 * n)%float
              else if ins_lower =? "premium" then
                n <- as_float num_travelers ;; ret (total + 100.0 * n)%float
              else
                (* No charge for unknown label; kept for compatibility *)
                ret (total + 0.0)%float
            else ret total) ;;
  ret (round2 total).

Fixpoint first_unknown_payment (payments : list BookingPayment)
  (methods : dict TravelerPaymentMethod) : option string :=
  match payments with
  | [] => None
  | p :: rest =>
      if negb (dict_mem (payment_id p) methods) then Some (payment_id p)
      else first_unknown_payment rest methods
  end.

Definition _validate_payments (traveler : Traveler) (payments : list BookingPayment)
  (expected_total : float) : M TravelAgencyDB unit :=
  (* Validate payment methods exist *)
  match first_unknown_payment payments (payment_methods traveler) with
  | Some pid => raise (ValueError ("Payment method " ++ pid ++ " not found for traveler"))
  | None =>
      let paid := round2 (py_sum (map amount payments)) in
      if negb (round2 expected_total =? paid)%float
      then raise (ValueError ("Payment amount does not add up, total price is "
                                ++ str_of_float expected_total ++ ", but paid "
                                ++ str_of_float paid))
      else ret tt
  end.

(** Create a new booking for a traveler.  Travelers, rooming, add-ons and
    payments are taken as model objects (given as dicts they are built
    into them before anything else is done). *)
Definition book_package (traveler_id package_id departure_date : string)
  (travelers : list BookingTravelerInfo) (rooming : RoomingInfo)
  (add_ons : list BookingAddOn) (insurance : option string)
  (payment_methods : list BookingPayment) (agent_id : option string)
  : M TravelAgencyDB Booking :=
  traveler <- _get_traveler traveler_id ;;
  package <- _get_package package_id ;;
  (* agent selection *)
  agent_id <- match agent_id with
              | None =>
                  match managed_by_agents package with
                  | [] => raise (ValueError "No managing agent available for this package")
                  | first :: _ => ret first
                  end
              | Some given => ret given
              end ;;
  agent <- _get_agent agent_id ;;
  let num_travelers := Z.of_nat (List.length travelers) in
  departure <- _validate_departure package departure_date num_travelers ;;
  (* Compute total price *)
  total_price <- _calc_total_price (base_price departure) num_travelers add_ons insurance ;;
  (* Validate and record payments *)
  _validate_payments traveler payment_methods total_price ;;;
  booking_id <- _get_new_booking_id ;;
  let booking :=
    {| Travel.booking_id := booking_id;
       bk_package_id := package_id;
       bk_agent_id := agent_id;
       booking_date := _get_today_date;
       Travel.departure_date := departure_date;
       status := "confirmed";
       bk_travelers := travelers;
       Travel.rooming := rooming;
       Travel.add_ons := add_ons;
       Travel.insurance := insurance;
       payment_history := payment_methods;
       Travel.total_price := total_price;
       notes := None |} in
  (* Update DB state *)
  modify (set_travelers
            (dict_update traveler_id (set_bookings (fun l => (l ++ [booking])%list)))) ;;;
  (* Decrement available slots *)
  modify (upd_slots package_id departure_date (fun n => (n - num_travelers)%Z)) ;;;
  (* Link traveler to agent (assigned list) *)
  (if negb (mem_str traveler_id (assigned_travelers agent))
   then modify (set_agents
                  (dict_update agent_id
                     (set_assigned_travelers (fun l => (l ++ [traveler_id])%list))))
   else ret tt) ;;;
  (* Track booking ID in agent records *)
  (if negb (mem_str booking_id (bookings_handled agent))
   then modify (set_agents
                  (dict_update agent_id
                     (set_bookings_handled (fun l => (l ++ [booking_id])%list))))
   else ret tt) ;;;
  ret booking.

(** Replace add-ons for a booking and charge/refund the difference. *)
Definition update_booking_add_ons (booking_id : string) (add_ons : list BookingAddOn)
  (payment_method_id : string) : M TravelAgencyDB Booking :=
  r <- _get_booking booking_id ;;
  let '(ref, traveler, booking) := (r : BookingRef * Traveler * Booking) in
  package <- _get_package (bk_package_id booking) ;;
  (* Validate payment method *)
  if negb (dict_mem payment_method_id (payment_methods traveler))
  then raise (ValueError ("Payment method " ++ payment_method_id
                            ++ " not found for traveler")) else
  (* Retrieve base price of current departure *)
  departure <- _validate_departure package (departure_date booking) 0 ;;
  let old_total := total_price booking in
  new_total <- _calc_total_price (base_price departure)
                 (Z.of_nat (List.length (bk_travelers booking))) add_ons
                 (insurance booking) ;;
  let delta := round2 (new_total - old_total)%float in
  (* Record payment if delta != 0 *)
  let record (h : list BookingPayment) : list BookingPayment :=
    (h ++ [{| payment_id := payment_method_id; amount := delta |}])%list in
  (if negb (delta =? 0)%float
   then modify (upd_booking ref (set_payment_history record))
   else ret tt) ;;;
  (* Update booking *)
  modify (upd_booking ref (set_add_ons add_ons)) ;;;
  modify (upd_booking ref (set_total_price new_total)) ;;;
  ret (set_total_price new_total
         (set_add_ons add_ons
            (if negb (delta =? 0)%float then set_payment_history record booking
             else booking))).

(** Change departure date for a booking and charge/refund base price
    differences.  Updates departure slots accordingly. *)
Definition update_booking_departure_date (booking_id new_departure_date : string)
  (payment_method_id : string) : M TravelAgencyDB Booking :=
  r <- _get_booking booking_id ;;
  let '(ref, traveler, booking) := (r : BookingRef * Traveler * Booking) in
  package <- _get_package (bk_package_id booking) ;;
  if negb (dict_mem payment_method_id (payment_methods traveler))
  then raise (ValueError ("Payment method " ++ payment_method_id
                            ++ " not found for traveler")) else
  let num_travelers := Z.of_nat (List.length (bk_travelers booking)) in
  (* Validate availability on new date *)
  new_dep <- _validate_departure package new_departure_date num_travelers ;;
  (* Calculate price delta (base price difference only) *)
  let old_total_price := total_price booking in
  new_total_price <- _calc_total_price (base_price new_dep) num_travelers
                       (Travel.add_ons booking) (insurance booking) ;;
  let delta := round2 (new_total_price - old_total_price)%float in
  (* Update slots: return to old, take from new *)
  (if dict_mem (departure_date booking) (departures package)
   then modify (upd_slots (bk_package_id booking) (departure_date booking)
                  (fun n => (n + num_travelers)%Z))
   else ret tt (* KeyError caught: a warning is logged *)) ;;;
  modify (upd_slots (bk_package_id booking) new_departure_date
            (fun n => (n - num_travelers)%Z)) ;;;
  (* Record payment if needed *)
  let record (h : list BookingPayment) : list BookingPayment :=
    (h ++ [{| payment_id := payment_method_id; amount := delta |}])%list in
  (if negb (delta =? 0)%float
   then modify (upd_booking ref (set_payment_history record))
   else ret tt) ;;;
  (* Update booking fields *)
  modify (upd_booking ref (set_departure_date new_departure_date)) ;;;
  modify (upd_booking ref (set_total_price new_total_price)) ;;;
  ret (set_total_price new_total_price
         (set_departure_date new_departure_date
            (if negb (delta =? 0)%float then set_payment_history record booking
             else booking))).

(** Update traveler details for a booking.  The number of travelers must
    remain unchanged. *)
Definition update_booking_travelers (booking_id : string)
  (travelers : list BookingTravelerInfo) : M TravelAgencyDB Booking :=
  r <- _get_booking booking_id ;;
  let '(ref, _, booking) := (r : BookingRef * Traveler * Booking) in
  if negb (List.length travelers =? List.length (bk_travelers booking))%nat
  then raise (ValueError "Number of travelers does not match current booking") else
  modify (upd_booking ref (set_bk_travelers travelers)) ;;;
  ret (set_bk_travelers travelers booking).

(** Update rooming configuration. *)
Definition update_booking_rooming (booking_id : string) (rooming : RoomingInfo)
  : M TravelAgencyDB Booking :=
  r <- _get_booking booking_id ;;
  let '(ref, _, booking) := (r : BookingRef * Traveler * Booking) in
  modify (upd_booking ref (set_rooming rooming)) ;;;
  ret (set_rooming rooming booking).

(** Schedule a meeting with an agent by reserving an available time slot.
    Removes the slot from availability if found. *)
Definition schedule_agent_meeting (agent_id date time_range traveler_id : string)
  : M TravelAgencyDB string :=
  agent <- _get_agent agent_id ;;
  _get_traveler traveler_id ;;;  (* validate traveler exists *)
  match dict_get date (availability agent) with
  | None => raise (ValueError ("Agent is not available on " ++ date))
  | Some avail_day =>
      if negb (mem_str time_range (slots avail_day))
      then raise (ValueError ("Time slot " ++ time_range ++ " not available on " ++ date))
      else
        (* Reserve the slot by removing it *)
        modify (set_agents
                  (dict_update agent_id
                     (set_availability
                        (dict_update date (set_slots (remove_first time_range)))))) ;;;
        ret ("Meeting scheduled with agent " ++ agent_id ++ " on " ++ date ++ " at "
               ++ time_range)
  end.

(** The WRITE methods of the registry. *)
Inductive WriteCall : Type :=
| BookPackage (traveler_id package_id departure_date : string)
    (travelers : list BookingTravelerInfo) (rooming : RoomingInfo)
    (add_ons : list BookingAddOn) (insurance : option string)
    (payment_methods : list BookingPayment) (agent_id : option string)
| CancelBooking' (booking_id : string)
| UpdateBookingAddOns (booking_id : string) (add_ons : list BookingAddOn)
    (payment_method_id : string)
| UpdateBookingDepartureDate (booking_id new_departure_date payment_method_id : string)
| UpdateBookingTravelers (booking_id : string) (travelers : list BookingTravelerInfo)
| UpdateBookingRooming (booking_id : string) (rooming : RoomingInfo)
| ScheduleAgentMeeting (agent_id date time_range traveler_id : string).

Definition use_write_tool (c : WriteCall) : M TravelAgencyDB Value :=
  match c with
  | BookPackage t p d ts r a i pm ag =>
      returning VBooking (book_package t p d ts r a i pm ag)
  | CancelBooking' b => returning VBooking (cancel_booking b)
  | UpdateBookingAddOns b a p => returning VBooking (update_booking_add_ons b a p)
  | UpdateBookingDepartureDate b d p =>
      returning VBooking (update_booking_departure_date b d p)
  | UpdateBookingTravelers b ts => returning VBooking (update_booking_travelers b ts)
  | UpdateBookingRooming b r => returning VBooking (update_booking_rooming b r)
  | ScheduleAgentMeeting a d t tr => returning VStr (schedule_agent_meeting a d t tr)
  end.

End Bookings.

End Travel.

(* ================================================================== *)
(** ** Railway domain: [tau2/domains/railway] *)
(* ================================================================== *)

Module Railway.

(** *** data_model.py *)

Inductive Insurance : Type := yes | no.
Inductive MembershipLevel : Type := gold | silver | regular.
Inductive ServiceType : Type := high_speed | express | regional.
Inductive TripType : Type := one_way | round_trip | multi_city.
Inductive TravelClass : Type := sleeper | ac_2_tier | first_class.
Inductive MealPreference : Type := veg | non_veg | no_meal.

(** The values of the [Literal] types, as the strings a caller passes. *)
Definition Insurance_of (s : string) : option Insurance :=
  if s =? "yes" then Some yes else if s =? "no" then Some no else None.

Definition TripType_of (s : string) : option TripType :=
  if s =? "one_way" then Some one_way
  else if s =? "round_trip" then Some round_trip
  else if s =? "multi_city" then Some multi_city
  else None.

Definition TravelClass_of (s : string) : option TravelClass :=
  if s =? "sleeper" then Some sleeper
  else if s =? "ac_2_tier" then Some ac_2_tier
  else if s =? "first_class" then Some first_class
  else None.

Definition MealPreference_of (s : string) : option MealPreference :=
  if s =? "veg" then Some veg
  else if s =? "non_veg" then Some non_veg
  else if s =? "none" then Some no_meal
  else None.

Record Name : Type := { first_name : string; last_name : string }.

Record Address : Type := {
  address1 : string; address2 : option string; city : string;
  country : string; state : string; zip : string }.

Record Passenger : Type := {
  pax_first_name : string; pax_last_name : string; pax_dob : string }.

Record RailPayment : Type := { payment_id : string; amount : float }.

Record CardExtraInfo : Type := { brand : string; last_four : string }.

Record WalletExtraInfo : Type := { wallet_amount : Z }.

(** [PaymentMethodRail = Union[CardPayment, WalletPayment, OtherPayment]];
    the [source] literal is the tag. *)
Inductive PaymentMethodRail : Type :=
| CardPayment (id : string) (extra_info : CardExtraInfo)
| WalletPayment (id : string) (extra_info : WalletExtraInfo)
| OtherPayment (id : string) (extra_info : dict json).

Definition source (m : PaymentMethodRail) : string :=
  match m with
  | CardPayment _ _ => "card"
  | WalletPayment _ _ => "wallet"
  | OtherPayment _ _ => "other"
  end.

Record TrainDateStatusFields : Type := {
  platform : option string;
  actual_departure_time_local : option string;
  actual_arrival_time_local : option string }.

(** [TrainDateStatus]: the [status] literal is the tag. *)
Inductive TrainDateStatus : Type :=
| TrainDateStatusOnTime (f : TrainDateStatusFields)
| TrainDateStatusDelayed (f : TrainDateStatusFields)
| TrainDateStatusCancelled (f : TrainDateStatusFields).

Record Train : Type := {
  tr_origin : string;
  tr_destination : string;
  train_number : string;
  train_name : string;
  service_type : ServiceType;
  scheduled_departure_time_local : string;
  scheduled_arrival_time_local : string;
  dates : dict TrainDateStatus }.

Record TrainInfo : Type := { ti_train_number : string; ti_date : string }.

Record Railcard : Type := { rc_type : string; rc_number : string; rc_expiry : string }.

Record RailUser : Type := {
  user_id : string;
  name : Name;
  address : Address;
  email : string;
  dob : string;
  payment_methods : dict PaymentMethodRail;
  saved_passengers : list Passenger;
  membership : MembershipLevel;
  railcards : list Railcard;
  reservations_of : list string }.

Record ReservationTrainSegment : Type := {
  seg_origin : string;
  seg_destination : string;
  seg_train_number : string;
  seg_date : string;
  coach : string;
  seat_numbers : list string;
  seg_price : Z }.

Record TrainReservation : Type := {
  reservation_id : string;
  res_user_id : string;
  origin : string;
  destination : string;
  trip_type : TripType;
  trains_of : list ReservationTrainSegment;
  passengers : list Passenger;
  payment_history : list RailPayment;
  created_at : string;
  total_bags : Z;
  bikes : Z;
  meal_preference : MealPreference;
  insurance : Insurance;
  pnr : string;
  status : string                        (* ReservationStatus *) }.

Record TrainDB : Type := {
  trains : dict Train;
  users : dict RailUser;
  reservations : dict TrainReservation }.

Definition set_payment_history (f : list RailPayment -> list RailPayment)
  (r : TrainReservation) : TrainReservation :=
  {| reservation_id := reservation_id r; res_user_id := res_user_id r;
     origin := origin r; destination := destination r; trip_type := trip_type r;
     trains_of := trains_of r; passengers := passengers r;
     payment_history := f (payment_history r); created_at := created_at r;
     total_bags := total_bags r; bikes := bikes r;
     meal_preference := meal_preference r; insurance := insurance r;
     pnr := pnr r; status := status r |}.

Definition set_status (s : string) (r : TrainReservation) : TrainReservation :=
  {| reservation_id := reservation_id r; res_user_id := res_user_id r;
     origin := origin r; destination := destination r; trip_type := trip_type r;
     trains_of := trains_of r; passengers := passengers r;
     payment_history := payment_history r; created_at := created_at r;
     total_bags := total_bags r; bikes := bikes r;
     meal_preference := meal_preference r; insurance := insurance r;
     pnr := pnr r; status := s |}.

Definition set_reservations (f : dict TrainReservation -> dict TrainReservation)
  (db : TrainDB) : TrainDB :=
  {| trains := trains db; users := users db; reservations := f (reservations db) |}.

Definition set_users (f : dict RailUser -> dict RailUser) (db : TrainDB) : TrainDB :=
  {| trains := trains db; users := f (users db); reservations := reservations db |}.

Definition set_payment_methods (f : dict PaymentMethodRail -> dict PaymentMethodRail)
  (u : RailUser) : RailUser :=
  {| user_id := user_id u; name := name u; address := address u; email := email u;
     dob := dob u; payment_methods := f (payment_methods u);
     saved_passengers := saved_passengers u; membership := membership u;
     railcards := railcards u; reservations_of := reservations_of u |}.

Definition set_reservations_of (f : list string -> list string) (u : RailUser) : RailUser :=
  {| user_id := user_id u; name := name u; address := address u; email := email u;
     dob := dob u; payment_methods := payment_methods u;
     saved_passengers := saved_passengers u; membership := membership u;
     railcards := railcards u; reservations_of := f (reservations_of u) |}.

(** [method.extra_info.amount -= n] on a wallet. *)
Definition take_from_wallet (n : Z) (m : PaymentMethodRail) : PaymentMethodRail :=
  match m with
  | WalletPayment id extra => WalletPayment id {| wallet_amount := wallet_amount extra - n |}
  | other => other
  end.

(** *** tools.py *)

Definition _get_user (user_id : string) : M TrainDB RailUser :=
  fun db =>
    match dict_get user_id (users db) with
    | None => (Raise (ValueError ("User " ++ user_id ++ " not found")), db)
    | Some u => (Ok u, db)
    end.

Definition _get_reservation (reservation_id : string) : M TrainDB TrainReservation :=
  fun db =>
    match dict_get reservation_id (reservations db) with
    | None => (Raise (ValueError ("Reservation " ++ reservation_id ++ " not found")), db)
    | Some r => (Ok r, db)
    end.

Definition _get_train (train_number : string) : M TrainDB Train :=
  fun db =>
    match dict_get train_number (trains db) with
    | None => (Raise (ValueError ("Train " ++ train_number ++ " not found")), db)
    | Some t => (Ok t, db)
    end.

Definition _get_train_instance (train_number date : string) : M TrainDB TrainDateStatus :=
  train <- _get_train train_number ;;
  match dict_get date (dates train) with
  | None => raise (ValueError ("Train " ++ train_number ++ " not found on date " ++ date))
  | Some s => ret s
  end.

Fixpoint first_unused (candidates used : list string) : option string :=
  match candidates with
  | [] => None
  | c :: rest => if mem_str c used then first_unused rest used else Some c
  end.

Definition _get_new_reservation_id : M TrainDB string :=
  ids <- gets (fun db => dict_keys (reservations db)) ;;
  match first_unused ["TRN001"; "TRN002"; "TRN003"] ids with
  | Some reservation_id => ret reservation_id
  | None => raise (ValueError "Too many reservations")
  end.

Definition _get_new_pnr : M TrainDB string :=
  used <- gets (fun db => map pnr (dict_values (reservations db))) ;;
  match first_unused ["PNR1AA"; "PNR2BB"; "PNR3CC"] used with
  | Some p => ret p
  | None => raise (ValueError "Too many PNRs")
  end.

Definition _get_datetime : string := "2024-05-15T15:00:00".

(** [mapping[travel_class]]. *)
Definition _coach_for_class (travel_class : string) : M TrainDB string :=
  match TravelClass_of travel_class with
  | Some sleeper => ret "S1"
  | Some ac_2_tier => ret "A1"
  | Some first_class => ret "FC1"
  | None => raise (KeyError travel_class)
  end.

(** A base price per passenger per segment, in whole dollars:
    [base_by_service[train.service_type][travel_class]]. *)
Definition _compute_segment_price (train : Train) (travel_class : string) : M TrainDB Z :=
  match TravelClass_of travel_class with
  | Some c =>
      ret (match service_type train, c with
           | high_speed, sleeper => 120
           | high_speed, ac_2_tier => 90
           | high_speed, first_class => 150
           | express, sleeper => 80
           | express, ac_2_tier => 65
           | express, first_class => 110
           | regional, sleeper => 50
           | regional, ac_2_tier => 40
           | regional, first_class => 75
           end)%Z
  | None => raise (KeyError travel_class)
  end.

(** An [int] operand of a float operation. *)
Definition as_float (n : Z) : M TrainDB float :=
  match float_of_int n with
  | Some f => ret f
  | None => raise (OverflowError "int too large to convert to float")
  end.

(** [int(x)] on a float. *)
Definition as_int (x : float) : M TrainDB Z :=
  match int_of_float x with
  | Some n => ret n
  | None =>
      if PrimFloat.is_nan x
      then raise (ValueError "cannot convert float NaN to integer")
      else raise (OverflowError "cannot convert float infinity to integer")
  end.

(** gold: 10%, silver: 5%, regular: 0%, on the fare component. *)
Definition _apply_membership_discount (amount : Z) (user : RailUser) : M TrainDB float :=
  let rate := match membership user with
              | gold => 0.10%float
              | silver => 0.05%float
              | regular => 0.0%float
              end in
  a <- as_float amount ;;
  ret (round2 (a * (1 - rate))%float).

Definition get_user_details (user_id : string) : M TrainDB RailUser :=
  _get_user user_id.

Definition get_reservation_details (reservation_id : string) : M TrainDB TrainReservation :=
  _get_reservation reservation_id.

Definition refund_of (payment : RailPayment) : RailPayment :=
  {| payment_id := payment_id payment; amount := (- amount payment)%float |}.

(** Cancel the whole reservation: mark as cancelled and append refund
    payments (negative amounts).  The two [logger.debug] calls only print
    the reservation. *)
Definition cancel_reservation (reservation_id : string) : M TrainDB TrainReservation :=
  reservation <- _get_reservation reservation_id ;;
  let refunds := map refund_of (payment_history reservation) in
  modify (set_reservations
            (dict_update reservation_id
               (set_payment_history (fun h => (h ++ refunds)%list)))) ;;;
  modify (set_reservations (dict_update reservation_id (set_status "cancelled"))) ;;;
  ret (set_status "cancelled"
         (set_payment_history (fun h => (h ++ refunds)%list) reservation)).

Section Booking.

(** The builtin [sum] over the payment amounts (its rounding is the
    interpreter's), and the text of a float and of the payment list in an
    error message. *)
Variable py_sum : list float -> float.
Variable str_of_float : float -> string.
Variable str_of_payments : list RailPayment -> string.

(** [[str(21 + i) for i in range(num_pax)]]. *)
Definition seats (num_pax : nat) : list string :=
  map (fun i => str_of_nat (21 + i)) (seq 0 num_pax).

(** The loop over [trains]: the segments built and the fare total. *)
Fixpoint build_segments (travel_class : string) (num_pax : nat)
  (trains : list TrainInfo) (segments : list ReservationTrainSegment) (fare_total : Z)
  : M TrainDB (list ReservationTrainSegment * Z) :=
  match trains with
  | [] => ret (segments, fare_total)
  | tinfo :: rest =>
      train <- _get_train (ti_train_number tinfo) ;;
      date_status <- _get_train_instance (ti_train_number tinfo) (ti_date tinfo) ;;
      (* Cannot book cancelled trains *)
      match date_status with
      | TrainDateStatusCancelled _ =>
          raise (ValueError ("Train " ++ ti_train_number tinfo ++ " is cancelled on "
                               ++ ti_date tinfo))
      | _ =>
          price_each <- _compute_segment_price train travel_class ;;
          let fare_total := (fare_total + price_each * Z.of_nat num_pax)%Z in
          (* Simple seat assignment: consecutive seat numbers as strings *)
          let seat_numbers := seats num_pax in
          coach <- _coach_for_class travel_class ;;
          let segment :=
            {| seg_origin := tr_origin train;
               seg_destination := tr_destination train;
               seg_train_number := ti_train_number tinfo;
               seg_date := ti_date tinfo;
               Railway.coach := coach;
               Railway.seat_numbers := seat_numbers;
               seg_price := price_each |} in
          build_segments travel_class num_pax rest (segments ++ [segment])%list fare_total
      end
  end.

(** The loop validating payment methods and balances. *)
Fixpoint validate_payments (user : RailUser) (pays : list RailPayment) : M TrainDB unit :=
  match pays with
  | [] => ret tt
  | pay :: rest =>
      match dict_get (payment_id pay) (payment_methods user) with
      | None => raise (ValueError ("Payment method " ++ payment_id pay ++ " not found"))
      | Some method =>
          (match method with
           | WalletPayment _ extra =>
               (* wallet payments must be whole dollars *)
               n <- as_int (amount pay) ;;
               f <- as_float n ;;
               if (1e-9 <? abs (amount pay - f))%float
               then raise (ValueError "Wallet payments must be in whole dollars")
               else
                 n' <- as_int (amount pay) ;;
                 if (wallet_amount extra <? n')%Z
                 then raise (ValueError ("Not enough balance in wallet " ++ payment_id pay))
                 else ret tt
           | _ => ret tt
           end) ;;;
          validate_payments user rest
      end
  end.

(** [method.extra_info.amount -= n] for the method [payment_id] of a
    user. *)
Definition deduct (payment_id : string) (n : Z) : RailUser -> RailUser :=
  set_payment_methods (dict_update payment_id (take_from_wallet n)).

(** The loop deducting wallet balances.  [user] is the object
    [db.users[user_id]]: an assignment through it is one on the database,
    and the loop reads it as the assignments before left it. *)
Fixpoint deduct_wallets (user_id : string) (user : RailUser) (pays : list RailPayment)
  : M TrainDB unit :=
  match pays with
  | [] => ret tt
  | pay :: rest =>
      match dict_get (payment_id pay) (payment_methods user) with
      | None => raise (KeyError (payment_id pay))
      | Some (WalletPayment _ _) =>
          n <- as_int (amount pay) ;;
          modify (set_users (dict_update user_id (deduct (payment_id pay) n))) ;;;
          deduct_wallets user_id (deduct (payment_id pay) n user) rest
      | Some _ => deduct_wallets user_id user rest
      end
  end.

(** [TrainReservation(...)]: the model checks the literals it is given. *)
Definition new_TrainReservation
  (reservation_id user_id origin destination trip_type : string)
  (trains : list ReservationTrainSegment) (passengers : list Passenger)
  (payment_history : list RailPayment) (created_at : string) (total_bags bikes : Z)
  (meal_preference insurance pnr status : string) : M TrainDB TrainReservation :=
  validate_literal "status" ["confirmed"; "waitlisted"; "cancelled"] status ;;;
  match TripType_of trip_type, MealPreference_of meal_preference, Insurance_of insurance with
  | Some t, Some m, Some i =>
      ret {| Railway.reservation_id := reservation_id;
             res_user_id := user_id;
             Railway.origin := origin;
             Railway.destination := destination;
             Railway.trip_type := t;
             trains_of := trains;
             Railway.passengers := passengers;
             Railway.payment_history := payment_history;
             Railway.created_at := created_at;
             Railway.total_bags := total_bags;
             Railway.bikes := bikes;
             Railway.meal_preference := m;
             Railway.insurance := i;
             Railway.pnr := pnr;
             Railway.status := status |}
  | _, _, _ => raise (ValidationError "TrainReservation")
  end.

(** Book a train reservation.  The trains, passengers and payments are
    taken as model objects (given as dicts they are built into them before
    anything else is done). *)
Definition book_train_reservation
  (user_id origin destination trip_type travel_class : string)
  (trains : list TrainInfo) (passengers : list Passenger)
  (payment_methods : list RailPayment) (total_bags bikes : Z)
  (meal_preference insurance : string) : M TrainDB TrainReservation :=
  user <- _get_user user_id ;;
  reservation_id <- _get_new_reservation_id ;;
  pnr <- _get_new_pnr ;;
  (* Build segments and compute fare *)
  let num_pax := List.length passengers in
  built <- build_segments travel_class num_pax trains [] 0%Z ;;
  let (segments, fare_total) := (built : list ReservationTrainSegment * Z) in
  (* Membership discount on fares only *)
  fare_total_after_discount <- _apply_membership_discount fare_total user ;;
  (* Insurance fee *)
  let insurance_fee := if insurance =? "yes" then (20 * Z.of_nat num_pax)%Z else 0%Z in
  (* Bags and bikes fees *)
  let included_bags := Z.of_nat num_pax in
  let extra_bags := Z.max 0 (total_bags - included_bags) in
  let bags_fee := (15 * extra_bags)%Z in
  let bikes_fee := (10 * bikes)%Z in
  insurance_fee' <- as_float insurance_fee ;;
  bags_fee' <- as_float bags_fee ;;
  bikes_fee' <- as_float bikes_fee ;;
  let total_price :=
    round2 (fare_total_after_discount + insurance_fee' + bags_fee' + bikes_fee')%float in
  (* Validate payment methods and balances *)
  validate_payments user payment_methods ;;;
  (* Check sum of payments *)
  let total_payment := round2 (py_sum (map amount payment_methods)) in
  if (1e-9 <? abs (total_payment - total_price))%float
  then raise (ValueError ("Payment amount does not add up, total price is "
                            ++ str_of_float total_price ++ ", but paid "
                            ++ str_of_float total_payment ++ ", "
                            ++ str_of_payments payment_methods))
  else
  (* Deduct wallet balances *)
  deduct_wallets user_id user payment_methods ;;;
  reservation <- new_TrainReservation reservation_id user_id origin destination trip_type
                   segments passengers payment_methods _get_datetime total_bags bikes
                   meal_preference insurance pnr "confirmed" ;;
  (* Update DB *)
  modify (set_reservations (dict_set reservation_id reservation)) ;;;
  present <- gets (fun db => dict_mem user_id (users db)) ;;
  if present
  then
    modify (set_users
              (dict_update user_id
                 (set_reservations_of (fun l => (l ++ [reservation_id])%list)))) ;;;
    ret reservation
  else raise (KeyError user_id).

End Booking.

(** *** tools.py: search *)

(** The result model of a direct train search. *)
Record DirectTrain : Type := {
  dt_train_number : string;
  dt_train_name : string;
  dt_origin : string;
  dt_destination : string;
  dt_service_type : ServiceType;
  dt_date : string;
  dt_status : string;
  dt_scheduled_departure_time_local : string;
  dt_scheduled_arrival_time_local : string;
  dt_platform : option string }.

(** [date_status.status]. *)
Definition status_of (date_status : TrainDateStatus) : string :=
  match date_status with
  | TrainDateStatusOnTime _ => "on time"
  | TrainDateStatusDelayed _ => "delayed"
  | TrainDateStatusCancelled _ => "cancelled"
  end.

(** [DirectTrain(...)] for a train on a date; the platform is taken from
    an on-time or delayed status only. *)
Definition new_DirectTrain (train : Train) (date : string) (date_status : TrainDateStatus)
  : DirectTrain :=
  let status := status_of date_status in
  let platform :=
    match date_status with
    | TrainDateStatusOnTime f | TrainDateStatusDelayed f => platform f
    | TrainDateStatusCancelled _ => None
    end in
  {| dt_train_number := train_number train;
     dt_train_name := train_name train;
     dt_origin := tr_origin train;
     dt_destination := tr_destination train;
     dt_service_type := service_type train;
     dt_date := date;
     dt_status := status;
     dt_scheduled_departure_time_local := scheduled_departure_time_local train;
     dt_scheduled_arrival_time_local := scheduled_arrival_time_local train;
     dt_platform := platform |}.

(** The loop of [_search_direct_train] over [db.trains.values()]. *)
Fixpoint search_loop (date : string) (origin destination leave_after : option string)
  (trains : list Train) : list DirectTrain :=
  match trains with
  | [] => []
  | train :: rest =>
      let results := search_loop date origin destination leave_after rest in
      (* Must run on that date *)
      match dict_get date (dates train) with
      | None => results
      | Some date_status =>
          (* Filter by route *)
          if match origin with Some o => negb (tr_origin train =? o) | None => false end
          then results
          else if match destination with
                  | Some d => negb (tr_destination train =? d)
                  | None => false
                  end
          then results
          (* Optional time filter - use scheduled departure time *)
          else if match leave_after with
                  | Some t => str_lt (scheduled_departure_time_local train) t
                  | None => false
                  end
          then results
          else new_DirectTrain train date date_status :: results
      end
  end.

(** Search for direct trains on a given date with optional filters. *)
Definition _search_direct_train (date : string) (origin destination leave_after : option string)
  : M TrainDB (list DirectTrain) :=
  gets (fun db => search_loop date origin destination leave_after (dict_values (trains db))).

Definition search_direct_train (origin destination date : string)
  : M TrainDB (list DirectTrain) :=
  _search_direct_train date (Some origin) (Some destination) None.

(** The inner loop of [search_onestop_train]. *)
Fixpoint second_legs (first_leg : DirectTrain) (candidates : list DirectTrain)
  : list (DirectTrain * DirectTrain) :=
  match candidates with
  | [] => []
  | second_leg :: rest =>
      if dt_status second_leg =? "cancelled" then second_legs first_leg rest
      else (first_leg, second_leg) :: second_legs first_leg rest
  end.

(** The outer loop of [search_onestop_train]. *)
Fixpoint onestop_loop (destination date : string) (first_legs : list DirectTrain)
  : M TrainDB (list (DirectTrain * DirectTrain)) :=
  match first_legs with
  | [] => ret []
  | first_leg :: rest =>
      (* Only consider first legs that are not cancelled *)
      if dt_status first_leg =? "cancelled" then onestop_loop destination date rest
      else
        let leave_after := dt_scheduled_arrival_time_local first_leg in
        candidates <- _search_direct_train date (Some (dt_destination first_leg))
                        (Some destination) (Some leave_after) ;;
        results <- onestop_loop destination date rest ;;
        ret (second_legs first_leg candidates ++ results)%list
  end.

(** Search for one-stop train itineraries between two stations on a
    specific date: a list of (first_leg, second_leg). *)
Definition search_onestop_train (origin destination date : string)
  : M TrainDB (list (DirectTrain * DirectTrain)) :=
  first_legs <- _search_direct_train date (Some origin) None None ;;
  onestop_loop destination date first_legs.

(** [a < b] on tuples of two strings: the first components decide unless
    they are equal. *)
Definition route_lt (a b : string * string) : bool :=
  str_lt (fst a) (fst b) || ((fst a =? fst b) && str_lt (snd a) (snd b)).

Definition route_eqb (a b : string * string) : bool :=
  (fst a =? fst b) && (snd a =? snd b).

(** The elements of a set built from a list: each one once. *)
Fixpoint distinct_routes (l : list (string * string)) : list (string * string) :=
  match l with
  | [] => []
  | r :: rest =>
      if existsb (route_eqb r) rest then distinct_routes rest
      else r :: distinct_routes rest
  end.

(** [sorted] in ascending order, by insertion. *)
Fixpoint insert_route (r : string * string) (l : list (string * string))
  : list (string * string) :=
  match l with
  | [] => [r]
  | x :: rest => if route_lt x r then x :: insert_route r rest else r :: l
  end.

Definition sorted_routes (l : list (string * string)) : list (string * string) :=
  fold_right insert_route [] l.

(** List all unique (origin, destination) routes in the database:
    [sorted(list({(t.origin, t.destination) for t in db.trains.values()}))].
    The elements of the set are distinct, so the order in which the set
    hands them to [sorted] plays no part in the result. *)
Definition list_all_routes : M TrainDB (list (string * string)) :=
  gets (fun db =>
          sorted_routes
            (distinct_routes
               (map (fun t => (tr_origin t, tr_destination t)) (dict_values (trains db))))).

Definition get_train_status (train_number date : string) : M TrainDB string :=
  date_status <- _get_train_instance train_number date ;;
  ret (status_of date_status).

(** *** tools.py: updates and the wallet *)

Definition set_total_bags (n : Z) (r : TrainReservation) : TrainReservation :=
  {| reservation_id := reservation_id r; res_user_id := res_user_id r;
     origin := origin r; destination := destination r; trip_type := trip_type r;
     trains_of := trains_of r; passengers := passengers r;
     payment_history := payment_history r; created_at := created_at r;
     total_bags := n; bikes := bikes r;
     meal_preference := meal_preference r; insurance := insurance r;
     pnr := pnr r; status := status r |}.

Definition set_bikes (n : Z) (r : TrainReservation) : TrainReservation :=
  {| reservation_id := reservation_id r; res_user_id := res_user_id r;
     origin := origin r; destination := destination r; trip_type := trip_type r;
     trains_of := trains_of r; passengers := passengers r;
     payment_history := payment_history r; created_at := created_at r;
     total_bags := total_bags r; bikes := n;
     meal_preference := meal_preference r; insurance := insurance r;
     pnr := pnr r; status := status r |}.

Definition set_trains_of (l : list ReservationTrainSegment) (r : TrainReservation)
  : TrainReservation :=
  {| reservation_id := reservation_id r; res_user_id := res_user_id r;
     origin := origin r; destination := destination r; trip_type := trip_type r;
     trains_of := l; passengers := passengers r;
     payment_history := payment_history r; created_at := created_at r;
     total_bags := total_bags r; bikes := bikes r;
     meal_preference := meal_preference r; insurance := insurance r;
     pnr := pnr r; status := status r |}.

Definition set_passengers (l : list Passenger) (r : TrainReservation) : TrainReservation :=
  {| reservation_id := reservation_id r; res_user_id := res_user_id r;
     origin := origin r; destination := destination r; trip_type := trip_type r;
     trains_of := trains_of r; passengers := l;
     payment_history := payment_history r; created_at := created_at r;
     total_bags := total_bags r; bikes := bikes r;
     meal_preference := meal_preference r; insurance := insurance r;
     pnr := pnr r; status := status r |}.

(** [method.extra_info.amount += n] on a wallet. *)
Definition add_to_wallet (n : Z) (m : PaymentMethodRail) : PaymentMethodRail :=
  match m with
  | WalletPayment id extra => WalletPayment id {| wallet_amount := wallet_amount extra + n |}
  | other => other
  end.

(** The first payment method whose source is the wallet, in the order of
    [user.payment_methods.items()]. *)
Fixpoint first_wallet (items : dict PaymentMethodRail) : option string :=
  match items with
  | [] => None
  | (pid, method) :: rest =>
      if source method =? "wallet" then Some pid else first_wallet rest
  end.

(** [payment] appended to the history when there is one. *)
Definition record_payment (payment : option RailPayment) (r : TrainReservation)
  : TrainReservation :=
  match payment with
  | Some p => set_payment_history (fun h => (h ++ [p])%list) r
  | None => r
  end.

Section Updates.

(** The builtin [sum] and the texts in the error messages of the booking,
    and the text of the payment methods of a user in an error message. *)
Variable py_sum : list float -> float.
Variable str_of_float : float -> string.
Variable str_of_payments : list RailPayment -> string.
Variable str_of_methods : dict PaymentMethodRail -> string.

(** Process payment for update reservation.  [user] is the object
    [db.users[user_id]]; a wallet is debited for a charge, and nothing is
    credited for a refund (negative [total_price]).  Returns a payment if
    [total_price] is not zero. *)
Definition _payment_for_update (user_id : string) (user : RailUser) (payment_id : string)
  (total_price : float) : M TrainDB (option RailPayment) :=
  match dict_get payment_id (payment_methods user) with
  | None => raise (ValueError ("Payment method not found: " ++ payment_id ++ ", "
                                 ++ str_of_methods (payment_methods user)))
  | Some method =>
      (if (0 <? total_price)%float then
         (* Deduct from wallet if used *)
         match method with
         | WalletPayment _ extra =>
             n <- as_int total_price ;;
             f <- as_float n ;;
             if (1e-9 <? abs (total_price - f))%float
             then raise (ValueError "Wallet payments must be whole dollars")
             else
               n' <- as_int total_price ;;
               if (wallet_amount extra <? n')%Z
               then raise (ValueError "Wallet balance is not enough")
               else
                 n'' <- as_int total_price ;;
                 modify (set_users (dict_update user_id (deduct payment_id n'')))
         | _ => ret tt
         end
       else ret tt) ;;;
      (* Create payment record if any charge/refund applies *)
      if (1e-9 <? abs total_price)%float
      then ret (Some {| Railway.payment_id := payment_id; amount := round2 total_price |})
      else ret None
  end.

(** Update the total number of bags on a reservation. *)
Definition update_reservation_bags (reservation_id : string) (total_bags : Z)
  (payment_id : string) : M TrainDB TrainReservation :=
  reservation <- _get_reservation reservation_id ;;
  user <- _get_user (res_user_id reservation) ;;
  let num_pax := Z.of_nat (List.length (passengers reservation)) in
  let included_bags := num_pax in
  let previous_extra := Z.max 0 (Railway.total_bags reservation - included_bags) in
  let new_extra := Z.max 0 (total_bags - included_bags) in
  let delta_bags := (new_extra - previous_extra)%Z in
  let delta_price := (15 * delta_bags)%Z in
  delta_price' <- as_float delta_price ;;
  payment <- _payment_for_update (res_user_id reservation) user payment_id delta_price' ;;
  modify (set_reservations (dict_update reservation_id (record_payment payment))) ;;;
  modify (set_reservations (dict_update reservation_id (set_total_bags total_bags))) ;;;
  ret (set_total_bags total_bags (record_payment payment reservation)).

(** Update the number of bikes on a reservation. *)
Definition update_reservation_bikes (reservation_id : string) (bikes : Z)
  (payment_id : string) : M TrainDB TrainReservation :=
  reservation <- _get_reservation reservation_id ;;
  user <- _get_user (res_user_id reservation) ;;
  let delta_bikes := (bikes - Railway.bikes reservation)%Z in
  let delta_price := (10 * delta_bikes)%Z in
  delta_price' <- as_float delta_price ;;
  payment <- _payment_for_update (res_user_id reservation) user payment_id delta_price' ;;
  modify (set_reservations (dict_update reservation_id (record_payment payment))) ;;;
  modify (set_reservations (dict_update reservation_id (set_bikes bikes))) ;;;
  ret (set_bikes bikes (record_payment payment reservation)).

(** Update the train segments of a reservation: the itinerary is rebuilt
    from the whole list given, and the difference to the original fare
    component is charged or refunded. *)
Definition update_reservation_trains (reservation_id travel_class : string)
  (trains : list TrainInfo) (payment_id : string) : M TrainDB TrainReservation :=
  reservation <- _get_reservation reservation_id ;;
  user <- _get_user (res_user_id reservation) ;;
  let num_pax := List.length (passengers reservation) in
  (* Build new segments and compute new fare (before discounts/fees) *)
  built <- build_segments travel_class num_pax trains [] 0%Z ;;
  let (new_segments, new_fare_total) := (built : list ReservationTrainSegment * Z) in
  (* Old fare total (sum of per-segment per-passenger prices) *)
  let old_fare_total :=
    (fold_left Z.add (map seg_price (trains_of reservation)) 0 * Z.of_nat num_pax)%Z in
  (* Apply membership discount to the fare difference only *)
  let fare_diff := (new_fare_total - old_fare_total)%Z in
  fare_diff_after_discount <- _apply_membership_discount fare_diff user ;;
  (* Create payment or refund *)
  payment <- _payment_for_update (res_user_id reservation) user payment_id
               fare_diff_after_discount ;;
  modify (set_reservations (dict_update reservation_id (record_payment payment))) ;;;
  (* Update reservation itinerary *)
  modify (set_reservations (dict_update reservation_id (set_trains_of new_segments))) ;;;
  ret (set_trains_of new_segments (record_payment payment reservation)).

(** Update the passenger information of a reservation.  The passenger
    count must remain the same. *)
Definition update_reservation_passengers (reservation_id : string)
  (passengers : list Passenger) : M TrainDB TrainReservation :=
  reservation <- _get_reservation reservation_id ;;
  if negb (List.length passengers =? List.length (Railway.passengers reservation))%nat
  then raise (ValueError "Number of passengers does not match")
  else
    modify (set_reservations (dict_update reservation_id (set_passengers passengers))) ;;;
    ret (set_passengers passengers reservation).

(** Add funds to a user's wallet.  If the user does not have a wallet,
    create one.  [amount] is an [int]. *)
Definition add_wallet_funds (user_id : string) (amount : Z) : M TrainDB string :=
  if (amount <=? 0)%Z
  then raise (ValueError "Amount must be a positive integer (whole dollars)")
  else
    user <- _get_user user_id ;;
    (* Find existing wallet or create one *)
    wallet_id <-
      match first_wallet (payment_methods user) with
      | Some pid => ret (Some pid)
      | None =>
          (* Create a new wallet id (up to 3 per task) *)
          match first_unused ["wallet_1001"; "wallet_1002"; "wallet_1003"]
                  (dict_keys (payment_methods user)) with
          | Some wid =>
              modify (set_users
                        (dict_update user_id
                           (set_payment_methods
                              (dict_set wid (WalletPayment wid {| wallet_amount := 0 |}))))) ;;;
              ret (Some wid)
          | None => ret None
          end
      end ;;
    match wallet_id with
    | None => raise (ValueError "Too many wallets")
    | Some wallet_id =>
        modify (set_users
                  (dict_update user_id
                     (set_payment_methods (dict_update wallet_id (add_to_wallet amount))))) ;;;
        balance <- gets (fun db =>
                     match dict_get user_id (users db) with
                     | Some u =>
                         match dict_get wallet_id (payment_methods u) with
                         | Some (WalletPayment _ extra) => wallet_amount extra
                         | _ => 0%Z
                         end
                     | None => 0%Z
                     end) ;;
        ret ("Wallet " ++ wallet_id ++ " funded with $" ++ str_of_int amount
               ++ ". New balance: $" ++ str_of_int balance)
    end.

(** A call of a WRITE tool of the railway toolkit with its arguments. *)
Inductive WriteCall : Type :=
| BookTrainReservation
    (user_id origin destination trip_type travel_class : string)
    (trains : list TrainInfo) (passengers : list Passenger)
    (payment_methods : list RailPayment) (total_bags bikes : Z)
    (meal_preference insurance : string)
| CancelReservation (reservation_id : string)
| UpdateReservationBags (reservation_id : string) (total_bags : Z) (payment_id : string)
| UpdateReservationBikes (reservation_id : string) (bikes : Z) (payment_id : string)
| UpdateReservationTrains (reservation_id travel_class : string)
    (trains : list TrainInfo) (payment_id : string)
| UpdateReservationPassengers (reservation_id : string) (passengers : list Passenger)
| AddWalletFunds (user_id : string) (amount : Z).

(** What a WRITE tool returns. *)
Inductive Returned : Type :=
| AReservation (r : TrainReservation)
| AMessage (s : string).

Definition use_write_tool (c : WriteCall) : M TrainDB Returned :=
  match c with
  | BookTrainReservation u o d t c trains pax pays bags bikes meal ins =>
      r <- book_train_reservation py_sum str_of_float str_of_payments
             u o d t c trains pax pays bags bikes meal ins ;;
      ret (AReservation r)
  | CancelReservation id => r <- cancel_reservation id ;; ret (AReservation r)
  | UpdateReservationBags id n p => r <- update_reservation_bags id n p ;; ret (AReservation r)
  | UpdateReservationBikes id n p => r <- update_reservation_bikes id n p ;; ret (AReservation r)
  | UpdateReservationTrains id c trains p =>
      r <- update_reservation_trains id c trains p ;; ret (AReservation r)
  | UpdateReservationPassengers id pax =>
      r <- update_reservation_passengers id pax ;; ret (AReservation r)
  | AddWalletFunds u n => s <- add_wallet_funds u n ;; ret (AMessage s)
  end.

End Updates.

Section Reads.

(** [str(round(float(eval(expression, {"__builtins__": None}, {})), 2))]. *)
Variable py_calc : string -> result string.

(** [db.get_statistics()]. *)
Definition get_db_statistics : M TrainDB (dict Z) :=
  db <- gets (fun db => db) ;;
  let num_trains := Z.of_nat (List.length (trains db)) in
  let num_train_instances :=
    fold_left Z.add
      (map (fun train => Z.of_nat (List.length (dates train))) (dict_values (trains db))) 0%Z in
  let num_users := Z.of_nat (List.length (users db)) in
  let num_reservations := Z.of_nat (List.length (reservations db)) in
  ret [("num_trains", num_trains);
       ("num_train_instances", num_train_instances);
       ("num_users", num_users);
       ("num_reservations", num_reservations)].

Definition calculate_allowed : list ascii := chars "0123456789+-*/(). ".

Definition calculate (expression : string) : M TrainDB string :=
  if negb (forallb (fun c => existsb (Ascii.eqb c) calculate_allowed) (chars expression))
  then raise (ValueError "Invalid characters in expression")
  else lift (py_calc expression).

Definition transfer_to_human_agents (summary : string) : M TrainDB string :=
  ret "Transfer successful".

(** A call of a READ or GENERIC tool of the railway toolkit. *)
Inductive ReadCall : Type :=
| GetUserDetails (user_id : string)
| GetReservationDetails (reservation_id : string)
| SearchDirectTrain (origin destination date : string)
| SearchOnestopTrain (origin destination date : string)
| GetTrainStatus (train_number date : string)
| ListAllRoutes
| GetDbStatistics
| Calculate (expression : string)
| TransferToHumanAgents (summary : string).

Inductive ReadValue : Type :=
| VUser (u : RailUser)
| VReservation (r : TrainReservation)
| VTrains (l : list DirectTrain)
| VItineraries (l : list (DirectTrain * DirectTrain))
| VRoutes (l : list (string * string))
| VStatistics (d : dict Z)
| VStr (s : string).

Definition use_read_tool (c : ReadCall) : M TrainDB ReadValue :=
  match c with
  | GetUserDetails u => x <- get_user_details u ;; ret (VUser x)
  | GetReservationDetails r => x <- get_reservation_details r ;; ret (VReservation x)
  | SearchDirectTrain o d date => x <- search_direct_train o d date ;; ret (VTrains x)
  | SearchOnestopTrain o d date => x <- search_onestop_train o d date ;; ret (VItineraries x)
  | GetTrainStatus n date => x <- get_train_status n date ;; ret (VStr x)
  | ListAllRoutes => x <- list_all_routes ;; ret (VRoutes x)
  | GetDbStatistics => x <- get_db_statistics ;; ret (VStatistics x)
  | Calculate e => x <- calculate e ;; ret (VStr x)
  | TransferToHumanAgents summary => x <- transfer_to_human_agents summary ;; ret (VStr x)
  end.

End Reads.

End Railway.

(* ================================================================== *)
(** ** E-commerce domain: [tau2/domains/ecommerce] *)
(* ================================================================== *)

Module ECommerce.

(** *** data_model.py *)

Record OfferingAttributes : Type := {
  hue : string; dimension : string; fabrication : string; pattern : string }.

Record Offering : Type := {
  off_unit_sku : string;
  off_attributes : OfferingAttributes;
  in_stock : bool;
  off_unit_price : float }.

Record CatalogueGroup : Type := {
  title : string; group_ref : string; offerings : dict Offering }.

Record PersonName : Type := { given : string; family : string }.

Record Location : Type := {
  line1 : string; line2 : string; municipality : string;
  nation : string; region : string; postal_code : string }.

Record FundingSourceMeta : Type := { issuer : string; last_digits : string }.

Record FundingSource : Type := {
  fs_origin : string; fs_instrument_id : string; meta : FundingSourceMeta }.

Record Account : Type := {
  acc_account_key : string;
  person : PersonName;
  location : Location;
  contact_email : string;
  funding_sources : dict FundingSource;
  purchases : list string }.

Record SaleLineAttributes : Type := {
  volume : string; composition : string; tint : string }.

Record SaleLine : Type := {
  label : string;
  catalog_ref : string;
  unit_sku : string;
  unit_price : float;
  attributes : SaleLineAttributes }.

Record Shipment : Type := { parcel_codes : list string; sku_list : list string }.

Record LedgerEntry : Type := {
  entry_kind : string;                   (* SaleEntryKind *)
  value : float;
  instrument_id : string }.

Record Sale : Type := {
  sale_ref : string;
  account_key : string;
  delivery : Location;
  lines : list SaleLine;
  state : string;
  shipments : list Shipment;
  ledger : list LedgerEntry }.

Record ECommerceDB : Type := {
  catalogue : dict CatalogueGroup;
  accounts : dict Account;
  sales : dict Sale }.

Definition set_state (s : string) (x : Sale) : Sale :=
  {| sale_ref := sale_ref x; account_key := account_key x; delivery := delivery x;
     lines := lines x; state := s; shipments := shipments x; ledger := ledger x |}.

Definition set_ledger (f : list LedgerEntry -> list LedgerEntry) (x : Sale) : Sale :=
  {| sale_ref := sale_ref x; account_key := account_key x; delivery := delivery x;
     lines := lines x; state := state x; shipments := shipments x;
     ledger := f (ledger x) |}.

Definition set_sales (f : dict Sale -> dict Sale) (db : ECommerceDB) : ECommerceDB :=
  {| catalogue := catalogue db; accounts := accounts db; sales := f (sales db) |}.

Definition upd_sale (ref : string) (f : Sale -> Sale) : ECommerceDB -> ECommerceDB :=
  set_sales (dict_update ref f).

(** *** tools.py *)

(** Get a sale from the database. *)
Definition _get_sale (sale_ref : string) : M ECommerceDB Sale :=
  fun db =>
    match dict_get sale_ref (sales db) with
    | None => (Raise (ValueError "Sale not found"), db)
    | Some s => (Ok s, db)
    end.

Definition _get_account (account_key : string) : M ECommerceDB Account :=
  fun db =>
    match dict_get account_key (accounts db) with
    | None => (Raise (ValueError "Account not found"), db)
    | Some a => (Ok a, db)
    end.

Definition _get_catalogue_group (group_ref : string) : M ECommerceDB CatalogueGroup :=
  fun db =>
    match dict_get group_ref (catalogue db) with
    | None => (Raise (ValueError "Catalogue group not found"), db)
    | Some g => (Ok g, db)
    end.

Definition _get_offering (group_ref unit_sku : string) : M ECommerceDB Offering :=
  group <- _get_catalogue_group group_ref ;;
  match dict_get unit_sku (offerings group) with
  | None => raise (ValueError "Offering not found")
  | Some o => ret o
  end.

Definition _get_funding_source (account_key instrument_id : string)
  : M ECommerceDB FundingSource :=
  account <- _get_account account_key ;;
  match dict_get instrument_id (funding_sources account) with
  | None => raise (ValueError "Funding source not found")
  | Some f => ret f
  end.

Definition refund_of (entry : LedgerEntry) : LedgerEntry :=
  {| entry_kind := "refund"; value := value entry; instrument_id := instrument_id entry |}.

(** [for entry in sale.ledger: if entry.entry_kind == "payment":
    sale.ledger.append(refund)]: the iterator walks the list by position
    while the body appends to it, and stops once the position is past the
    end.  [fuel] bounds the number of iterations. *)
Fixpoint refund_loop (fuel i : nat) (ledger : list LedgerEntry) : list LedgerEntry :=
  match fuel with
  | O => ledger
  | S fuel' =>
      match nth_error ledger i with
      | None => ledger
      | Some entry =>
          refund_loop fuel' (S i)
            (if entry_kind entry =? "payment"
             then (ledger ++ [refund_of entry])%list
             else ledger)
      end
  end.

(** Every appended entry is a refund, so the walk visits at most twice
    the entries the ledger had. *)
Definition issue_refunds (ledger : list LedgerEntry) : list LedgerEntry :=
  refund_loop (2 * List.length ledger) 0 ledger.

(** Cancel a pending sale. *)
Definition cancel_pending_sale (sale_ref reason : string) : M ECommerceDB Sale :=
  sale <- _get_sale sale_ref ;;
  if negb (state sale =? "pending")
  then raise (ValueError "Non-pending sale cannot be cancelled") else
  if negb (mem_str reason ["no longer needed"; "ordered by mistake"])
  then raise (ValueError "Invalid reason") else
  (* Issue refunds for all payment entries *)
  modify (upd_sale sale_ref (set_ledger issue_refunds)) ;;;
  modify (upd_sale sale_ref (set_state "cancelled")) ;;;
  ret (set_state "cancelled" (set_ledger issue_refunds sale)).

Fixpoint first_short_sku (wanted all_wanted have : list string) : option string :=
  match wanted with
  | [] => None
  | sku :: rest =>
      if (count_str sku have <? count_str sku all_wanted)%nat then Some sku
      else first_short_sku rest all_wanted have
  end.

(** [zip(a, b)]. *)
Fixpoint zip (a b : list string) : list (string * string) :=
  match a, b with
  | x :: a', y :: b' => (x, y) :: zip a' b'
  | _, _ => []
  end.

(** The loop computing the price difference and validating the new SKUs. *)
Fixpoint price_difference (sale : Sale) (pairs : list (string * string)) (diff_price : float)
  : M ECommerceDB float :=
  match pairs with
  | [] => ret diff_price
  | (old_sku, new_sku) :: rest =>
      match find (fun ln => unit_sku ln =? old_sku) (lines sale) with
      | None => raise (ValueError ("Item " ++ old_sku ++ " not found"))
      | Some line =>
          let group_ref := catalog_ref line in
          new_offering <- _get_offering group_ref new_sku ;;
          if negb (in_stock new_offering)
          then raise (ValueError ("New item " ++ new_sku ++ " not found or not in stock"))
          else
            let old_price := unit_price line in
            let new_price := off_unit_price new_offering in
            price_difference sale rest (diff_price + (new_price - old_price))%float
      end
  end.

(** Request an exchange of items in a delivered sale. *)
Definition exchange_delivered_sale_lines
  (sale_ref : string) (unit_skus_old unit_skus_new : list string) (instrument_id : string)
  : M ECommerceDB Sale :=
  sale <- _get_sale sale_ref ;;
  if negb (state sale =? "delivered")
  then raise (ValueError "Non-delivered sale cannot be exchanged") else
  if negb (List.length unit_skus_old =? List.length unit_skus_new)%nat
  then raise (ValueError "The number of items to be exchanged should match") else
  (* Validate old SKUs exist with sufficient quantity *)
  let all_skus_in_sale := map unit_sku (lines sale) in
  match first_short_sku unit_skus_old unit_skus_old all_skus_in_sale with
  | Some sku => raise (ValueError ("Number of " ++ sku ++ " not found"))
  | None =>
  (* Validate funding instrument exists *)
  _get_funding_source (account_key sale) instrument_id ;;;
  (* Compute price difference and validate new SKUs *)
  diff_price <- price_difference sale (zip unit_skus_old unit_skus_new) 0%float ;;
  let diff_price := round2 diff_price in
  (* only the request is recorded *)
  modify (upd_sale sale_ref (set_state "exchange requested")) ;;;
  ret (set_state "exchange requested" sale)
  end.

Definition set_delivery (l : Location) (x : Sale) : Sale :=
  {| sale_ref := sale_ref x; account_key := account_key x; delivery := l;
     lines := lines x; state := state x; shipments := shipments x; ledger := ledger x |}.

Definition set_location (l : Location) (a : Account) : Account :=
  {| acc_account_key := acc_account_key a; person := person a; location := l;
     contact_email := contact_email a; funding_sources := funding_sources a;
     purchases := purchases a |}.

Definition set_accounts (f : dict Account -> dict Account) (db : ECommerceDB) : ECommerceDB :=
  {| catalogue := catalogue db; accounts := f (accounts db); sales := sales db |}.

(** Non-strict pending check for a sale: ["pending" in sale.state.lower()]. *)
Definition _is_pending_sale (sale : Sale) : bool :=
  contains "pending" (lower (state sale)).

Section Tools.

(** [str(round(float(eval(expression, {"__builtins__": None}, {})), 2))]
    and [json.dumps(value, sort_keys=True)]. *)
Variable py_calc : string -> result string.
Variable json_dumps_sorted : json -> string.

(** Generic tools *)

Definition calculate_allowed : list ascii := chars "0123456789+-*/(). ".

Definition calculate (expression : string) : M ECommerceDB string :=
  if negb (forallb (fun c => existsb (Ascii.eqb c) calculate_allowed) (chars expression))
  then raise (ValueError "Invalid characters in expression")
  else lift (py_calc expression).

Definition transfer_to_human_agents (summary : string) : M ECommerceDB string :=
  ret "Transfer successful".

(** Read tools *)

Fixpoint first_account_with_email (email : string) (items : dict Account) : option string :=
  match items with
  | [] => None
  | (account_key, account) :: rest =>
      if lower (contact_email account) =? lower email then Some account_key
      else first_account_with_email email rest
  end.

Definition find_account_key_by_email (email : string) : M ECommerceDB string :=
  found <- gets (fun db => first_account_with_email email (accounts db)) ;;
  match found with
  | Some account_key => ret account_key
  | None => raise (ValueError "Account not found")
  end.

Fixpoint first_account_with_name_zip (given family postal_code : string)
  (items : dict Account) : option string :=
  match items with
  | [] => None
  | (account_key, account) :: rest =>
      if (lower (ECommerce.given (person account)) =? lower given)
         && (lower (ECommerce.family (person account)) =? lower family)
         && (ECommerce.postal_code (location account) =? postal_code)
      then Some account_key
      else first_account_with_name_zip given family postal_code rest
  end.

Definition find_account_key_by_name_zip (given family postal_code : string)
  : M ECommerceDB string :=
  found <- gets (fun db => first_account_with_name_zip given family postal_code (accounts db)) ;;
  match found with
  | Some account_key => ret account_key
  | None => raise (ValueError "Account not found")
  end.

Definition get_sale_details (sale_ref : string) : M ECommerceDB Sale :=
  _get_sale sale_ref.

Definition get_catalogue_group_details (group_ref : string) : M ECommerceDB CatalogueGroup :=
  _get_catalogue_group group_ref.

Definition get_account_details (account_key : string) : M ECommerceDB Account :=
  _get_account account_key.

(** [{group.title: group.group_ref for group in db.catalogue.values()}],
    printed with sorted keys. *)
Definition list_all_catalogue_groups : M ECommerceDB string :=
  groups <- gets (fun db => dict_values (catalogue db)) ;;
  let group_map :=
    fold_left (fun (acc : dict string) group => dict_set (title group) (ECommerce.group_ref group) acc)
      groups [] in
  ret (json_dumps_sorted (JObj (map (fun kv => (fst kv, JStr (snd kv))) group_map))).

(** [json.dumps(db.get_statistics(), sort_keys=True)]. *)
Definition get_db_statistics : M ECommerceDB string :=
  db <- gets (fun db => db) ;;
  let num_groups := List.length (catalogue db) in
  let num_accounts := List.length (accounts db) in
  let num_sales := List.length (sales db) in
  let total_num_offerings :=
    fold_left Nat.add
      (map (fun group => List.length (offerings group)) (dict_values (catalogue db))) O in
  ret (json_dumps_sorted
         (JObj [("num_groups", JNumber (str_of_nat num_groups));
                ("num_accounts", JNumber (str_of_nat num_accounts));
                ("num_sales", JNumber (str_of_nat num_sales));
                ("total_num_offerings", JNumber (str_of_nat total_num_offerings))])).

(** Write tools *)

(** Modify the default address of an account: the six fields of
    [account.location] are assigned one after the other. *)
Definition modify_account_location
  (account_key line1 line2 municipality region nation postal_code : string)
  : M ECommerceDB Account :=
  account <- _get_account account_key ;;
  let location' :=
    {| ECommerce.line1 := line1; ECommerce.line2 := line2;
       ECommerce.municipality := municipality; ECommerce.nation := nation;
       ECommerce.region := region; ECommerce.postal_code := postal_code |} in
  modify (set_accounts (dict_update account_key (set_location location'))) ;;;
  ret (set_location location' account).

(** Modify the delivery address of a pending sale. *)
Definition modify_pending_sale_delivery
  (sale_ref line1 line2 municipality region nation postal_code : string)
  : M ECommerceDB Sale :=
  sale <- _get_sale sale_ref ;;
  if negb (_is_pending_sale sale)
  then raise (ValueError "Non-pending sale cannot be modified")
  else
    let delivery' :=
      {| ECommerce.line1 := line1; ECommerce.line2 := line2;
         ECommerce.municipality := municipality; ECommerce.nation := nation;
         ECommerce.region := region; ECommerce.postal_code := postal_code |} in
    modify (upd_sale sale_ref (set_delivery delivery')) ;;;
    ret (set_delivery delivery' sale).

(** Modify the funding instrument of a pending sale: a payment on the new
    instrument and a refund on the old one are appended to the ledger. *)
Definition modify_pending_sale_payment (sale_ref instrument_id : string)
  : M ECommerceDB Sale :=
  sale <- _get_sale sale_ref ;;
  if negb (_is_pending_sale sale)
  then raise (ValueError "Non-pending sale cannot be modified")
  else
    (* Validate funding source exists *)
    _get_funding_source (account_key sale) instrument_id ;;;
    (* Must have exactly one payment in the ledger *)
    let payments := filter (fun e => entry_kind e =? "payment") (ledger sale) in
    match payments with
    | [current_payment] =>
        if ECommerce.instrument_id current_payment =? instrument_id
        then raise (ValueError
                      "The new funding instrument should be different from the current one")
        else
          let amount := value current_payment in
          let entries :=
            [{| entry_kind := "payment"; value := amount;
                ECommerce.instrument_id := instrument_id |};
             {| entry_kind := "refund"; value := amount;
                ECommerce.instrument_id := ECommerce.instrument_id current_payment |}] in
          modify (upd_sale sale_ref (set_ledger (fun l => (l ++ entries)%list))) ;;;
          ret (set_ledger (fun l => (l ++ entries)%list) sale)
    | _ => raise (ValueError "There should be exactly one payment for a pending sale")
    end.

(** Request a return of specific items in a delivered sale. *)
Definition return_delivered_sale_lines (sale_ref : string) (unit_skus : list string)
  (instrument_id : string) : M ECommerceDB Sale :=
  sale <- _get_sale sale_ref ;;
  if negb (state sale =? "delivered")
  then raise (ValueError "Non-delivered sale cannot be returned")
  else
    (* Validate instrument: original payment instrument or a gift card *)
    _get_funding_source (account_key sale) instrument_id ;;;
    match find (fun e => entry_kind e =? "payment") (ledger sale) with
    | None => raise (ValueError "Original payment not found")
    | Some first_payment =>
        fs <- _get_funding_source (account_key sale) instrument_id ;;
        if negb (fs_origin fs =? "gift_card")
           && negb (instrument_id =? ECommerce.instrument_id first_payment)
        then raise (ValueError
                      "Funding instrument should be the original payment instrument or a gift card")
        else
          (* Validate items exist (respecting duplicates) *)
          let all_skus := map unit_sku (lines sale) in
          match first_short_sku unit_skus unit_skus all_skus with
          | Some _ => raise (ValueError "Some item not found")
          | None =>
              modify (upd_sale sale_ref (set_state "return requested")) ;;;
              ret (set_state "return requested" sale)
          end
    end.

(** The tools of the registry with their arguments. *)
Inductive Call : Type :=
| Calculate (expression : string)
| TransferToHumanAgents (summary : string)
| FindAccountKeyByEmail (email : string)
| FindAccountKeyByNameZip (given family postal_code : string)
| GetSaleDetails (sale_ref : string)
| GetCatalogueGroupDetails (group_ref : string)
| GetAccountDetails (account_key : string)
| ListAllCatalogueGroups
| GetDbStatistics
| ModifyAccountLocation (account_key line1 line2 municipality region nation postal_code : string)
| ModifyPendingSaleDelivery (sale_ref line1 line2 municipality region nation postal_code : string)
| ModifyPendingSalePayment (sale_ref instrument_id : string)
| CancelPendingSale (sale_ref reason : string)
| ReturnDeliveredSaleLines (sale_ref : string) (unit_skus : list string)
    (instrument_id : string)
| ExchangeDeliveredSaleLines (sale_ref : string) (unit_skus_old unit_skus_new : list string)
    (instrument_id : string).

Definition tool_type (c : Call) : ToolType :=
  match c with
  | Calculate _ | TransferToHumanAgents _ => GENERIC
  | FindAccountKeyByEmail _ | FindAccountKeyByNameZip _ _ _ | GetSaleDetails _
  | GetCatalogueGroupDetails _ | GetAccountDetails _ | ListAllCatalogueGroups
  | GetDbStatistics => READ
  | _ => WRITE
  end.

Inductive Value : Type :=
| VStr (s : string)
| VSale (s : Sale)
| VGroup (g : CatalogueGroup)
| VAccount (a : Account).

Definition returning {A} (wrap : A -> Value) (m : M ECommerceDB A) : M ECommerceDB Value :=
  x <- m ;; ret (wrap x).

Definition use_tool (c : Call) : M ECommerceDB Value :=
  match c with
  | Calculate e => returning VStr (calculate e)
  | TransferToHumanAgents s => returning VStr (transfer_to_human_agents s)
  | FindAccountKeyByEmail e => returning VStr (find_account_key_by_email e)
  | FindAccountKeyByNameZip g f z => returning VStr (find_account_key_by_name_zip g f z)
  | GetSaleDetails r => returning VSale (get_sale_details r)
  | GetCatalogueGroupDetails g => returning VGroup (get_catalogue_group_details g)
  | GetAccountDetails a => returning VAccount (get_account_details a)
  | ListAllCatalogueGroups => returning VStr list_all_catalogue_groups
  | GetDbStatistics => returning VStr get_db_statistics
  | ModifyAccountLocation a l1 l2 m r n z =>
      returning VAccount (modify_account_location a l1 l2 m r n z)
  | ModifyPendingSaleDelivery s l1 l2 m r n z =>
      returning VSale (modify_pending_sale_delivery s l1 l2 m r n z)
  | ModifyPendingSalePayment s i => returning VSale (modify_pending_sale_payment s i)
  | CancelPendingSale s r => returning VSale (cancel_pending_sale s r)
  | ReturnDeliveredSaleLines s skus i => returning VSale (return_delivered_sale_lines s skus i)
  | ExchangeDeliveredSaleLines s old new i =>
      returning VSale (exchange_delivered_sale_lines s old new i)
  end.

End Tools.

End ECommerce.

(* ================================================================== *)
(** ** The green agent: [agentify_tau_bench/green_agent/agent.py] *)
(* ================================================================== *)

Module GreenAgent.

Definition RESPOND_ACTION_NAME : string := "respond".

(** What [a2a_send_message] hands back, as far as the loop looks at it. *)
Inductive Part : Type :=
| TextPart (text : string)
| FilePart
| DataPart.

Record Message : Type := {
  context_id : option string;
  parts : list Part }.

Inductive SendResult : Type :=
| ResultMessage (m : Message)
| ResultTask.

Inductive ResponseRoot : Type :=
| SendMessageSuccessResponse (result : SendResult)
| JSONRPCErrorResponse.

(** [a2a.utils.get_text_parts]: the text of the text parts. *)
Fixpoint get_text_parts (ps : list Part) : list string :=
  match ps with
  | [] => []
  | TextPart t :: ps' => t :: get_text_parts ps'
  | _ :: ps' => get_text_parts ps'
  end.

Definition subscript (j : json) (k : string) : result json :=
  match j with
  | JObj fields =>
      match dict_get k fields with
      | Some v => Ok v
      | None => Raise (KeyError k)
      end
  | _ => Raise (TypeError "indices must be integers")
  end.

Definition is_str (j : json) (s : string) : bool :=
  match j with
  | JStr x => x =? s
  | _ => false
  end.

Section Loop.

(** The gym environment: [env.step(action)] gives the observation and the
    [terminated] flag the loop reads (reward, truncated and info are only
    logged or read after the loop). *)
Variable Env : Type.
Variable env_step : json -> Env -> (string * bool) * Env.

(** [agentify_tau_bench.utils.parse_tags], [json.loads], [json.dumps]. *)
Variable parse_tags : string -> dict string.
Variable json_loads : string -> result json.
Variable json_dumps : json -> string.

(** The local variables of [ask_agent_to_solve] that live across
    iterations, with the actions handed to [env.step] so far. *)
Record Locals : Type := {
  var_context_id : option string;
  var_env : Env;
  next_green_message : string;
  stepped : list json }.

(** From the white agent's text to the action given to [env.step]. *)
Definition parse_action (white_text : string) : result json :=
  let white_tags := parse_tags white_text in
  match dict_get "json" white_tags with
  | None => Raise (KeyError "json")
  | Some action_json =>
      match json_loads action_json with
      | Raise e => Raise e
      | Ok action_dict =>
          match subscript action_dict "name" with
          | Raise e => Raise e
          | Ok name =>
              let is_tool_call := negb (is_str name RESPOND_ACTION_NAME) in
              if negb is_tool_call then
                match subscript action_dict "arguments" with
                | Raise e => Raise e
                | Ok arguments => subscript arguments "content"
                end
              else Ok (JStr (json_dumps action_dict))
          end
      end
  end.

Definition same_context (a b : option string) : bool :=
  match a, b with
  | Some x, Some y => x =? y
  | None, None => true
  | _, _ => false
  end.

(** One turn of the [while not terminated] loop on the reply received;
    [Ok terminated] when the body ran to its end. *)
Definition iteration (white_agent_response : ResponseRoot) (l : Locals)
  : result bool * Locals :=
  match white_agent_response with
  | JSONRPCErrorResponse =>
      (Raise (AssertionError "Expected SendMessageSuccessResponse"), l)
  | SendMessageSuccessResponse ResultTask =>
      (Raise (AssertionError "Expected Message"), l)
  | SendMessageSuccessResponse (ResultMessage res_result) =>
      let checked : result (option string) :=
        match var_context_id l with
        | None => Ok (context_id res_result)
        | Some c =>
            if same_context (Some c) (context_id res_result) then Ok (Some c)
            else Raise (AssertionError "Context ID should remain the same in a conversation")
        end in
      match checked with
      | Raise e => (Raise e, l)
      | Ok ctx =>
          let l1 := {| var_context_id := ctx; var_env := var_env l;
                       next_green_message := next_green_message l;
                       stepped := stepped l |} in
          match get_text_parts (parts res_result) with
          | [white_text] =>
              match parse_action white_text with
              | Raise e => (Raise e, l1)
              | Ok action =>
                  let '(observation, terminated, env') := env_step action (var_env l1) in
                  (Ok terminated,
                   {| var_context_id := ctx; var_env := env';
                      next_green_message := observation;
                      stepped := (stepped l1 ++ [action])%list |})
              end
          | _ =>
              (Raise (AssertionError "Expecting exactly one text part from the white agent"), l1)
          end
      end
  end.

Inductive Outcome : Type :=
| LoopExited
| Crashed (e : exn)
| AwaitingReply.

(** The loop fed with the replies of the white agent, in order. *)
Fixpoint run (replies : list ResponseRoot) (l : Locals) : Outcome * Locals :=
  match replies with
  | [] => (AwaitingReply, l)
  | r :: rest =>
      match iteration r l with
      | (Raise e, l') => (Crashed e, l')
      | (Ok true, l') => (LoopExited, l')
      | (Ok false, l') => run rest l'
      end
  end.

(** [ask_agent_to_solve] up to the end of its loop: [env] is the
    environment after [env.reset()], [task_description] the first message. *)
Definition ask_agent_to_solve (env : Env) (task_description : string)
  (replies : list ResponseRoot) : Outcome * Locals :=
  run replies {| var_context_id := None; var_env := env;
                 next_green_message := task_description; stepped := [] |}.

End Loop.

End GreenAgent.

(* ================================================================== *)
(** ** Sample databases and runs *)
(* ================================================================== *)

Module Examples.

Definition clock : string := "2024-05-15T15:00:00Z".

(** *** Bank *)

Definition bank_address : Bank.BankAddress :=
  {| Bank.address1 := "1 Main St"; Bank.address2 := ""; Bank.city := "Springfield";
     Bank.state := "IL"; Bank.zip := "62701"; Bank.country := "US" |}.

Definition account (id type : string) (balance : float) : Bank.Account :=
  {| Bank.acc_account_id := id; Bank.acc_type := type; Bank.acc_currency := "USD";
     Bank.acc_status := "active"; Bank.acc_account_number_masked := "****0001";
     Bank.acc_routing_number := "021000021";
     Bank.acc_balance :=
       {| Bank.current := balance; Bank.available := balance; Bank.on_hold := 0%float |};
     Bank.acc_interest_rate_apr := None; Bank.acc_overdraft_limit := None;
     Bank.acc_opened_at := "2020-01-01T00:00:00Z";
     Bank.acc_features :=
       {| Bank.checks_enabled := true; Bank.atm_access := true;
          Bank.online_banking := true |} |}.

Definition client (accounts : dict Bank.Account) : Bank.Client :=
  {| Bank.client_id := "client_0001";
     Bank.name := {| Bank.cn_first_name := "Ada"; Bank.cn_last_name := "Byron";
                     Bank.cn_middle_name := None |};
     Bank.contact := {| Bank.email := "ada@example.com"; Bank.phone := "555-0100" |};
     Bank.address := bank_address;
     Bank.accounts := accounts;
     Bank.cards := [];
     Bank.loan_ids := [];
     Bank.beneficiary_ids := ["bnf_0001"];
     Bank.created_at := "2020-01-01T00:00:00Z";
     Bank.kyc := {| Bank.kyc_status := "verified";
                    Bank.last_reviewed_at := "2023-01-01T00:00:00Z";
                    Bank.tax_id_masked := "****6789" |} |}.

Definition beneficiary : Bank.Beneficiary :=
  {| Bank.beneficiary_id := "bnf_0001";
     Bank.bnf_client_id := "client_0001";
     Bank.bnf_name := {| Bank.display_name := Some "Grace"; Bank.bn_first_name := None;
                         Bank.bn_last_name := None; Bank.business_name := None |};
     Bank.bnf_type := "individual";
     Bank.bank_details :=
       {| Bank.bank_name := "First Bank"; Bank.bd_account_number_masked := "****4321";
          Bank.bd_routing_number := None; Bank.iban := None; Bank.swift_bic := None |};
     Bank.bnf_address := bank_address;
     Bank.allowed_from_account_ids := ["acc_0001"];
     Bank.transfer_limits :=
       {| Bank.per_transfer_limit := 1000%float; Bank.daily_limit := 5000%float |};
     Bank.verification :=
       {| Bank.ver_status := "verified"; Bank.ver_method := "document";
          Bank.verified_at := Some "2021-01-01T00:00:00Z" |};
     Bank.bnf_status := "active";
     Bank.bnf_created_at := "2021-01-01T00:00:00Z";
     Bank.bnf_notes := None |}.

Definition loan : Bank.Loan :=
  {| Bank.loan_id := "loan_0001";
     Bank.loan_client_id := "client_0001";
     Bank.linked_repayment_account_id := "acc_0001";
     Bank.loan_type := "personal";
     Bank.principal := 10000%float;
     Bank.loan_currency := "USD";
     Bank.loan_interest_rate_apr := 5%float;
     Bank.amortization := "fixed";
     Bank.term_months := 36;
     Bank.origination_date := "2023-01-01";
     Bank.first_payment_date := "2023-02-01";
     Bank.maturity_date := "2026-01-01";
     Bank.loan_status := "active";
     Bank.collateral := None;
     Bank.payment_schedule := [];
     Bank.repayment_history := [];
     Bank.escrow := None |}.

(** One client, a checking account holding 500.00 and a savings account
    holding 50.00, a verified beneficiary, a loan, no transaction yet. *)
Definition bank_db : Bank.BankDB :=
  {| Bank.clients :=
       [("client_0001",
         client [("acc_0001", account "acc_0001" "checking" 500%float);
                 ("acc_0002", account "acc_0002" "savings" 50%float)])];
     Bank.transactions := [];
     Bank.loans := [("loan_0001", loan)];
     Bank.beneficiaries := [("bnf_0001", beneficiary)] |}.

Definition balance_of (db : Bank.BankDB) (cid aid : string) : option Bank.AccountBalance :=
  match dict_get cid (Bank.clients db) with
  | Some c => option_map Bank.acc_balance (dict_get aid (Bank.accounts c))
  | None => None
  end.

Definition balance (x : float) : Bank.AccountBalance :=
  {| Bank.current := x; Bank.available := x; Bank.on_hold := 0%float |}.

(** The same client with a single account holding 0.50. *)
Definition small_bank_db : Bank.BankDB :=
  {| Bank.clients :=
       [("client_0001", client [("acc_0001", account "acc_0001" "checking" 0.5%float)])];
     Bank.transactions := [];
     Bank.loans := [];
     Bank.beneficiaries := [] |}.

Definition old_transaction : Bank.Transaction :=
  {| Bank.transaction_id := "tx_0000002";
     Bank.tx_client_id := "client_0001";
     Bank.tx_account_id := "acc_0001";
     Bank.timestamp := "2024-01-01T00:00:00Z";
     Bank.tx_type := "deposit";
     Bank.direction := "credit";
     Bank.amount := 500%float;
     Bank.tx_currency := "USD";
     Bank.description := None;
     Bank.method := "ACH";
     Bank.tx_status := "posted";
     Bank.merchant := None;
     Bank.related_transaction_id := None;
     Bank.exchange := None;
     Bank.fees := [];
     Bank.hold := None;
     Bank.balance_after := Some 500%float |}.

(** [bank_db] whose only recorded transaction is keyed [tx_0000002]. *)
Definition bank_db_with_history : Bank.BankDB :=
  Bank.set_transactions (fun _ => [("tx_0000002", old_transaction)]) bank_db.

(** *** Travel *)

Definition departure (slots : Z) : Travel.PackageDeparture :=
  {| Travel.dep_status := "available"; Travel.base_price := 250%float;
     Travel.currency := "USD"; Travel.available_slots := slots;
     Travel.early_bird_deadline := "24-03-01" |}.

Definition package : Travel.Package :=
  {| Travel.package_id := "PKG1";
     Travel.pkg_name := "Lisbon weekend";
     Travel.category := "city";
     Travel.pkg_description := "Two nights in Lisbon";
     Travel.destinations := [{| Travel.city := "Lisbon"; Travel.country := "Portugal" |}];
     Travel.duration_days := 3;
     Travel.departure_points := [{| Travel.city := "Paris"; Travel.country := "France" |}];
     Travel.departures := [("24-06-01", departure 5)];
     Travel.itinerary := [];
     Travel.inclusions := [];
     Travel.exclusions := [];
     Travel.accommodations := [];
     Travel.transportation :=
       {| Travel.international := "flight"; Travel.domestic := "none";
          Travel.ground := "metro" |};
     Travel.activities := [];
     Travel.policies :=
       {| Travel.cancellation_policy := "free"; Travel.change_policy := "free";
          Travel.refund_policy := "full" |};
     Travel.pkg_notes := None;
     Travel.managed_by_agents := [] |}.

Definition booking (status : string) (history : list Travel.BookingPayment)
  : Travel.Booking :=
  {| Travel.booking_id := "TAU001";
     Travel.bk_package_id := "PKG1";
     Travel.bk_agent_id := "AG1";
     Travel.booking_date := "24-05-01";
     Travel.departure_date := "24-06-01";
     Travel.status := status;
     Travel.bk_travelers :=
       [{| Travel.bt_first_name := "Ada"; Travel.bt_last_name := "Byron";
           Travel.bt_dob := "90-01-01" |}];
     Travel.rooming := {| Travel.room_type := "double"; Travel.occupancy := 1 |};
     Travel.add_ons := [];
     Travel.insurance := None;
     Travel.payment_history := history;
     Travel.total_price := 250%float;
     Travel.notes := None |}.

Definition traveler (bookings : list Travel.Booking) : Travel.Traveler :=
  {| Travel.traveler_id := "T1";
     Travel.tr_name := {| Travel.first_name := "Ada"; Travel.last_name := "Byron" |};
     Travel.tr_address :=
       {| Travel.street := "1 Main St"; Travel.pa_city := "Springfield";
          Travel.state := "IL"; Travel.pa_country := "US"; Travel.zip := "62701" |};
     Travel.tr_contact := {| Travel.email := "ada@example.com"; Travel.phone := "555-0100" |};
     Travel.tr_dob := "90-01-01";
     Travel.tr_passport := None;
     Travel.preferences := None;
     Travel.payment_methods := [];
     Travel.saved_companions := [];
     Travel.memberships := [];
     Travel.bookings := bookings |}.

Definition travel_db (status : string) (history : list Travel.BookingPayment)
  : Travel.TravelAgencyDB :=
  {| Travel.packages := [("PKG1", package)];
     Travel.travelers := [("T1", traveler [booking status history])];
     Travel.agents := [] |}.

Definition paid_250 : list Travel.BookingPayment :=
  [{| Travel.payment_id := "card_1"; Travel.amount := 250%float |}].

Definition paid_and_refunded_250 : list Travel.BookingPayment :=
  [{| Travel.payment_id := "card_1"; Travel.amount := 250%float |};
   {| Travel.payment_id := "card_1"; Travel.amount := (-250)%float |}].

(** *** Railway *)

Definition rail_paid_250 : list Railway.RailPayment :=
  [{| Railway.payment_id := "card_1"; Railway.amount := 250%float |}].

Definition rail_paid_and_refunded_250 : list Railway.RailPayment :=
  [{| Railway.payment_id := "card_1"; Railway.amount := 250%float |};
   {| Railway.payment_id := "card_1"; Railway.amount := (-250)%float |}].

Definition reservation (status : string) (history : list Railway.RailPayment)
  : Railway.TrainReservation :=
  {| Railway.reservation_id := "TRN001";
     Railway.res_user_id := "ada_byron_1";
     Railway.origin := "NYC";
     Railway.destination := "BOS";
     Railway.trip_type := Railway.one_way;
     Railway.trains_of := [];
     Railway.passengers :=
       [{| Railway.pax_first_name := "Ada"; Railway.pax_last_name := "Byron";
           Railway.pax_dob := "1990-01-01" |}];
     Railway.payment_history := history;
     Railway.created_at := "2024-05-01T10:00:00";
     Railway.total_bags := 1;
     Railway.bikes := 0;
     Railway.meal_preference := Railway.veg;
     Railway.insurance := Railway.no;
     Railway.pnr := "PNR1AA";
     Railway.status := status |}.

Definition train_db (status : string) (history : list Railway.RailPayment)
  : Railway.TrainDB :=
  {| Railway.trains := [];
     Railway.users := [];
     Railway.reservations := [("TRN001", reservation status history)] |}.

Definition regional_train : Railway.Train :=
  {| Railway.tr_origin := "NYC";
     Railway.tr_destination := "BOS";
     Railway.train_number := "RG100";
     Railway.train_name := "Shoreline";
     Railway.service_type := Railway.regional;
     Railway.scheduled_departure_time_local := "06:00:00";
     Railway.scheduled_arrival_time_local := "10:00:00";
     Railway.dates :=
       [("2024-06-01",
         Railway.TrainDateStatusOnTime
           {| Railway.platform := Some "4";
              Railway.actual_departure_time_local := None;
              Railway.actual_arrival_time_local := None |})] |}.

Definition wallet (balance : Z) : Railway.PaymentMethodRail :=
  Railway.WalletPayment "wallet_1" {| Railway.wallet_amount := balance |}.

Definition rail_user (balance : Z) : Railway.RailUser :=
  {| Railway.user_id := "ada_byron_1";
     Railway.name := {| Railway.first_name := "Ada"; Railway.last_name := "Byron" |};
     Railway.address :=
       {| Railway.address1 := "1 Main St"; Railway.address2 := None;
          Railway.city := "Boston"; Railway.country := "USA";
          Railway.state := "MA"; Railway.zip := "02101" |};
     Railway.email := "ada@example.com";
     Railway.dob := "1990-01-01";
     Railway.payment_methods := [("wallet_1", wallet balance)];
     Railway.saved_passengers := [];
     Railway.membership := Railway.regular;
     Railway.railcards := [];
     Railway.reservations_of := [] |}.

(** A user with a wallet, one regional train, no reservation yet. *)
Definition booking_db (balance : Z) : Railway.TrainDB :=
  {| Railway.trains := [("RG100", regional_train)];
     Railway.users := [("ada_byron_1", rail_user balance)];
     Railway.reservations := [] |}.

(** The same with a reservation of the user on file, three bags for one
    passenger. *)
Definition reserved_db : Railway.TrainDB :=
  {| Railway.trains := [("RG100", regional_train)];
     Railway.users := [("ada_byron_1", rail_user 500)];
     Railway.reservations :=
       [("TRN001", Railway.set_total_bags 3 (reservation "confirmed" rail_paid_250))] |}.

Definition ada : Railway.Passenger :=
  {| Railway.pax_first_name := "Ada"; Railway.pax_last_name := "Byron";
     Railway.pax_dob := "1990-01-01" |}.

(** One sleeper seat on the regional train, paid with 50 dollars from the
    wallet. *)
Definition book_one_seat (trip_type : string)
  : M Railway.TrainDB Railway.TrainReservation :=
  Railway.book_train_reservation
    (fun amounts => fold_left PrimFloat.add amounts 0%float)
    (fun _ => "") (fun _ => "")
    "ada_byron_1" "NYC" "BOS" trip_type "sleeper"
    [{| Railway.ti_train_number := "RG100"; Railway.ti_date := "2024-06-01" |}]
    [ada]
    [{| Railway.payment_id := "wallet_1"; Railway.amount := 50%float |}]
    1 0 "none" "no".

(** *** E-commerce *)

Definition place : ECommerce.Location :=
  {| ECommerce.line1 := "1 Main St"; ECommerce.line2 := "";
     ECommerce.municipality := "Springfield"; ECommerce.nation := "US";
     ECommerce.region := "IL"; ECommerce.postal_code := "62701" |}.

Definition offering (sku : string) (price : float) : ECommerce.Offering :=
  {| ECommerce.off_unit_sku := sku;
     ECommerce.off_attributes :=
       {| ECommerce.hue := "blue"; ECommerce.dimension := "M";
          ECommerce.fabrication := "cotton"; ECommerce.pattern := "plain" |};
     ECommerce.in_stock := true;
     ECommerce.off_unit_price := price |}.

Definition sale (state : string) : ECommerce.Sale :=
  {| ECommerce.sale_ref := "S0000001";
     ECommerce.account_key := "acct_1";
     ECommerce.delivery := place;
     ECommerce.lines :=
       [{| ECommerce.label := "T-shirt"; ECommerce.catalog_ref := "G00001";
           ECommerce.unit_sku := "sku_blue_m"; ECommerce.unit_price := 20%float;
           ECommerce.attributes :=
             {| ECommerce.volume := "M"; ECommerce.composition := "cotton";
                ECommerce.tint := "blue" |} |}];
     ECommerce.state := state;
     ECommerce.shipments := [];
     ECommerce.ledger :=
       [{| ECommerce.entry_kind := "payment"; ECommerce.value := 20%float;
           ECommerce.instrument_id := "credit_card_1" |}] |}.

Definition shop_db (state : string) : ECommerce.ECommerceDB :=
  {| ECommerce.catalogue :=
       [("G00001",
         {| ECommerce.title := "T-shirt"; ECommerce.group_ref := "G00001";
            ECommerce.offerings :=
              [("sku_blue_m", offering "sku_blue_m" 20%float);
               ("sku_blue_l", offering "sku_blue_l" 25%float)] |})];
     ECommerce.accounts :=
       [("acct_1",
         {| ECommerce.acc_account_key := "acct_1";
            ECommerce.person := {| ECommerce.given := "Ada"; ECommerce.family := "Byron" |};
            ECommerce.location := place;
            ECommerce.contact_email := "ada@example.com";
            ECommerce.funding_sources :=
              [("credit_card_1",
                {| ECommerce.fs_origin := "credit_card";
                   ECommerce.fs_instrument_id := "credit_card_1";
                   ECommerce.meta := {| ECommerce.issuer := "visa";
                                        ECommerce.last_digits := "4242" |} |})];
            ECommerce.purchases := ["S0000001"] |})];
     ECommerce.sales := [("S0000001", sale state)] |}.

(** The same shop, the account holding a gift card as well. *)
Definition gift_card : ECommerce.FundingSource :=
  {| ECommerce.fs_origin := "gift_card";
     ECommerce.fs_instrument_id := "gift_card_1";
     ECommerce.meta := {| ECommerce.issuer := "shop"; ECommerce.last_digits := "0001" |} |}.

Definition with_gift_card (a : ECommerce.Account) : ECommerce.Account :=
  {| ECommerce.acc_account_key := ECommerce.acc_account_key a;
     ECommerce.person := ECommerce.person a;
     ECommerce.location := ECommerce.location a;
     ECommerce.contact_email := ECommerce.contact_email a;
     ECommerce.funding_sources :=
       (ECommerce.funding_sources a ++ [("gift_card_1", gift_card)])%list;
     ECommerce.purchases := ECommerce.purchases a |}.

Definition gift_shop_db (state : string) : ECommerce.ECommerceDB :=
  ECommerce.set_accounts (dict_update "acct_1" with_gift_card) (shop_db state).

(** *** Green agent *)

(** An environment that never terminates and echoes a fixed observation;
    tags and JSON read off the text directly. *)
Definition echo_step (action : json) (env : unit) : (string * bool) * unit :=
  (("observation", false), tt).

Definition tags_of (text : string) : dict string := [("json", text)].

Definition loads (text : string) : result json :=
  Ok (JObj [("name", JStr "respond"); ("arguments", JObj [("content", JStr text)])]).

Definition dumps (j : json) : string := "{}".

Definition reply (ctx : option string) (text : string) : GreenAgent.ResponseRoot :=
  GreenAgent.SendMessageSuccessResponse
    (GreenAgent.ResultMessage
       {| GreenAgent.context_id := ctx; GreenAgent.parts := [GreenAgent.TextPart text] |}).

Definition calc_stub (expression : string) : result string := Ok "0.0".

Definition dumps_stub (j : json) : string := "{}".

(** *** Travel: an agency with an agent *)

Definition lisbon : Travel.Package :=
  {| Travel.package_id := "PKG1";
     Travel.pkg_name := "Lisbon weekend";
     Travel.category := "city";
     Travel.pkg_description := "Two nights in Lisbon";
     Travel.destinations := [{| Travel.city := "Lisbon"; Travel.country := "Portugal" |}];
     Travel.duration_days := 3;
     Travel.departure_points := [{| Travel.city := "Paris"; Travel.country := "France" |}];
     Travel.departures := [("24-06-01", departure 5); ("24-07-01", departure 2)];
     Travel.itinerary := [];
     Travel.inclusions := [];
     Travel.exclusions := [];
     Travel.accommodations := [];
     Travel.transportation :=
       {| Travel.international := "flight"; Travel.domestic := "none";
          Travel.ground := "metro" |};
     Travel.activities := [];
     Travel.policies :=
       {| Travel.cancellation_policy := "free"; Travel.change_policy := "free";
          Travel.refund_policy := "full" |};
     Travel.pkg_notes := None;
     Travel.managed_by_agents := ["AG1"] |}.

Definition card_holder : Travel.Traveler :=
  {| Travel.traveler_id := "T1";
     Travel.tr_name := {| Travel.first_name := "Ada"; Travel.last_name := "Byron" |};
     Travel.tr_address :=
       {| Travel.street := "1 Main St"; Travel.pa_city := "Springfield";
          Travel.state := "IL"; Travel.pa_country := "US"; Travel.zip := "62701" |};
     Travel.tr_contact := {| Travel.email := "ada@example.com"; Travel.phone := "555-0100" |};
     Travel.tr_dob := "90-01-01";
     Travel.tr_passport := None;
     Travel.preferences := None;
     Travel.payment_methods :=
       [("card_1", {| Travel.source := "credit_card"; Travel.payment_method_id := "card_1";
                      Travel.extra_info := None |})];
     Travel.saved_companions := [];
     Travel.memberships := [];
     Travel.bookings := [] |}.

Definition agent : Travel.Agent :=
  {| Travel.agent_id := "AG1";
     Travel.ag_name := {| Travel.first_name := "Grace"; Travel.last_name := "Hopper" |};
     Travel.ag_contact := {| Travel.email := "grace@example.com"; Travel.phone := "555-0101" |};
     Travel.agency :=
       {| Travel.agency_name := "Tau Travel";
          Travel.agency_address :=
            {| Travel.street := "2 Main St"; Travel.pa_city := "Springfield";
               Travel.state := "IL"; Travel.pa_country := "US"; Travel.zip := "62701" |} |};
     Travel.certifications := [];
     Travel.languages := ["en"];
     Travel.regions_of_expertise := ["Europe"];
     Travel.commission_rate := 0.1%float;
     Travel.employment_status := "active";
     Travel.assigned_travelers := [];
     Travel.managed_packages := ["PKG1"];
     Travel.bookings_handled := [];
     Travel.availability :=
       [("24-05-20", {| Travel.slots := ["09:00-10:00"; "10:00-11:00"];
                        Travel.timezone := "UTC" |})];
     Travel.ag_notes := None |}.

(** One package with two departures, a traveler holding a card and no
    booking yet, one agent. *)
Definition agency_db : Travel.TravelAgencyDB :=
  {| Travel.packages := [("PKG1", lisbon)];
     Travel.travelers := [("T1", card_holder)];
     Travel.agents := [("AG1", agent)] |}.

Definition two_travelers : list Travel.BookingTravelerInfo :=
  [{| Travel.bt_first_name := "Ada"; Travel.bt_last_name := "Byron";
      Travel.bt_dob := "90-01-01" |};
   {| Travel.bt_first_name := "Alan"; Travel.bt_last_name := "Byron";
      Travel.bt_dob := "92-02-02" |}].

(** A left-to-right sum, standing for the builtin [sum]. *)
Definition sum_floats (l : list float) : float := fold_left PrimFloat.add l 0%float.

Definition float_text (x : float) : string := "".

(** Two travelers on the June departure, paid 500 by card. *)
Definition book_lisbon : M Travel.TravelAgencyDB Travel.Booking :=
  Travel.book_package sum_floats lower float_text
    "T1" "PKG1" "24-06-01" two_travelers
    {| Travel.room_type := "double"; Travel.occupancy := 2 |} [] None
    [{| Travel.payment_id := "card_1"; Travel.amount := 500%float |}] None.

Definition spa : Travel.BookingAddOn :=
  {| Travel.addon_type := "spa"; Travel.addon_description := "Spa day";
     Travel.price := 40%float |}.

(** The booking [book_lisbon] makes on [agency_db], and the database it
    leaves. *)
Definition lisbon_booking : Travel.Booking :=
  {| Travel.booking_id := "TAU001";
     Travel.bk_package_id := "PKG1";
     Travel.bk_agent_id := "AG1";
     Travel.booking_date := "2024-05-15";
     Travel.departure_date := "24-06-01";
     Travel.status := "confirmed";
     Travel.bk_travelers := two_travelers;
     Travel.rooming := {| Travel.room_type := "double"; Travel.occupancy := 2 |};
     Travel.add_ons := [];
     Travel.insurance := None;
     Travel.payment_history :=
       [{| Travel.payment_id := "card_1"; Travel.amount := 500%float |}];
     Travel.total_price := 500%float;
     Travel.notes := None |}.

Definition booked_db : Travel.TravelAgencyDB := snd (book_lisbon agency_db).

(** *** Bank: a client with a card *)

Definition card (status : string) : Bank.Card :=
  {| Bank.card_id := "card_0001";
     Bank.card_type := "debit";
     Bank.card_linked_account_id := "acc_0001";
     Bank.card_status := status;
     Bank.card_issuer := "visa";
     Bank.card_extra_info :=
       {| Bank.brand := "visa"; Bank.last_four := "4242"; Bank.exp_month := "12";
          Bank.exp_year := "2027" |};
     Bank.card_limits :=
       {| Bank.daily_atm_limit := 500%float; Bank.daily_pos_limit := 2000%float |};
     Bank.card_pin_set := true |}.

(** [bank_db] whose client holds one card. *)
Definition bank_db_with_card (status : string) : Bank.BankDB :=
  Bank.set_clients
    (dict_update "client_0001" (Bank.set_cards (fun _ => [("card_0001", card status)])))
    bank_db.

(** A second beneficiary for the client of [bank_db], still to be
    verified. *)
Definition add_alan : M Bank.BankDB Bank.Beneficiary :=
  Bank.add_beneficiary clock "client_0001" "bnf_0002" "individual"
    (Some "Alan") None None None "First Bank" "****9876" None None None
    "2 Main St" "" "Springfield" "IL" "62701" "US" ["acc_0001"]
    1000%float 5000%float "document".

Definition alan : Bank.Beneficiary :=
  {| Bank.beneficiary_id := "bnf_0002";
     Bank.bnf_client_id := "client_0001";
     Bank.bnf_name := {| Bank.display_name := Some "Alan"; Bank.bn_first_name := None;
                         Bank.bn_last_name := None; Bank.business_name := None |};
     Bank.bnf_type := "individual";
     Bank.bank_details :=
       {| Bank.bank_name := "First Bank"; Bank.bd_account_number_masked := "****9876";
          Bank.bd_routing_number := None; Bank.iban := None; Bank.swift_bic := None |};
     Bank.bnf_address :=
       {| Bank.address1 := "2 Main St"; Bank.address2 := ""; Bank.city := "Springfield";
          Bank.state := "IL"; Bank.zip := "62701"; Bank.country := "US" |};
     Bank.allowed_from_account_ids := ["acc_0001"];
     Bank.transfer_limits :=
       {| Bank.per_transfer_limit := 1000%float; Bank.daily_limit := 5000%float |};
     Bank.verification :=
       {| Bank.ver_status := "pending"; Bank.ver_method := "document";
          Bank.verified_at := None |};
     Bank.bnf_status := "active";
     Bank.bnf_created_at := clock;
     Bank.bnf_notes := None |}.

Definition bank_db_with_alan : Bank.BankDB := snd (add_alan bank_db).

End Examples.

(* ================================================================== *)
(** ** Notions the properties are stated with *)
(* ================================================================== *)

Module Ledger.

(** The signed sum of a list of amounts, computed exactly (in units of
    [2^-1074]); [None] when an amount is NaN or infinite. *)
Fixpoint signed_sum (amounts : list float) : option Z :=
  match amounts with
  | [] => Some 0%Z
  | a :: rest =>
      match exact_units a, signed_sum rest with
      | Some x, Some s => Some (x + s)%Z
      | _, _ => None
      end
  end.

(** [refunds] mirrors [payments]: entry by entry the same payment id and
    the negated amount. *)
Definition mirrors {P : Type} (id : P -> string) (amount : P -> float)
  (payments refunds : list P) : Prop :=
  Forall2 (fun p r => id r = id p /\ amount r = (- amount p)%float) payments refunds.

End Ledger.

Module Frame.

(** [m] hands the database back as it got it, whether it returns or
    raises. *)
Definition preserves {S A : Type} (m : M S A) : Prop :=
  forall s, snd (m s) = s.

(** When [m] raises an exception of the kind [P], the database is the one
    it started from. *)
Definition atomic {S A : Type} (P : exn -> Prop) (m : M S A) : Prop :=
  forall s e s', m s = (Raise e, s') -> P e -> s' = s.

(** [m] raises no exception of the kind [P]. *)
Definition never_raises {S A : Type} (P : exn -> Prop) (m : M S A) : Prop :=
  forall s e s', m s = (Raise e, s') -> ~ P e.

(** The exceptions a [raise ValueError(...)] statement of a tool raises,
    and the wider class [except ValueError] catches. *)
Definition raised_ValueError (e : exn) : Prop := exists msg, e = ValueError msg.
Definition caught_as_ValueError (e : exn) : Prop := is_ValueError e = true.

End Frame.

Module Outcome.

(** The booking [b] as [Travel.cancel_booking] leaves it, and the
    database it leaves for the booking [b] found at [r] with package [p]. *)
Definition travel_cancelled (b : Travel.Booking) : Travel.Booking :=
  Travel.set_status "cancelled"
    (Travel.set_payment_history
       (fun h => (h ++ map Travel.refund_of (Travel.payment_history b))%list) b).

Definition travel_after_cancel (r : Travel.BookingRef) (b : Travel.Booking)
  (p : Travel.Package) (db : Travel.TravelAgencyDB) : Travel.TravelAgencyDB :=
  let db1 :=
    Travel.upd_booking r (Travel.set_status "cancelled")
      (Travel.upd_booking r
         (Travel.set_payment_history
            (fun h => (h ++ map Travel.refund_of (Travel.payment_history b))%list))
         db) in
  if dict_mem (Travel.departure_date b) (Travel.departures p)
  then Travel.set_packages
         (dict_update (Travel.bk_package_id b)
            (Travel.set_departures
               (dict_update (Travel.departure_date b)
                  (Travel.set_available_slots
                     (fun n => (n + Z.of_nat (List.length (Travel.bk_travelers b)))%Z)))))
         db1
  else db1.

(** The same for [Railway.cancel_reservation]. *)
Definition rail_cancelled (r : Railway.TrainReservation) : Railway.TrainReservation :=
  Railway.set_status "cancelled"
    (Railway.set_payment_history
       (fun h => (h ++ map Railway.refund_of (Railway.payment_history r))%list) r).

Definition rail_after_cancel (id : string) (r : Railway.TrainReservation)
  (db : Railway.TrainDB) : Railway.TrainDB :=
  Railway.set_reservations (dict_update id (Railway.set_status "cancelled"))
    (Railway.set_reservations
       (dict_update id
          (Railway.set_payment_history
             (fun h => (h ++ map Railway.refund_of (Railway.payment_history r))%list)))
       db).

(** The account object [db.clients[cid].accounts[aid]]. *)
Definition lookup_account (cid aid : string) (db : Bank.BankDB) : option Bank.Account :=
  match dict_get cid (Bank.clients db) with
  | Some c => dict_get aid (Bank.accounts c)
  | None => None
  end.

(** The four balance assignments of [Bank.initiate_internal_transfer], in
    the order of the source. *)
Definition moved (x : float) (cid from to : string) (db : Bank.BankDB) : Bank.BankDB :=
  Bank.upd_account cid to
    (Bank.set_acc_balance
       (fun b => Bank.set_current (round2 (Bank.current b + x)%float) b))
    (Bank.upd_account cid to
       (Bank.set_acc_balance
          (fun b => Bank.set_available (round2 (Bank.available b + x)%float) b))
       (Bank.upd_account cid from
          (Bank.set_acc_balance
             (fun b => Bank.set_current (round2 (Bank.current b - x)%float) b))
          (Bank.upd_account cid from
             (Bank.set_acc_balance
                (fun b => Bank.set_available (round2 (Bank.available b - x)%float) b))
             db))).

(** The identifier [Bank._generate_transaction_id] computes on [db]. *)
Definition next_transaction_id (db : Bank.BankDB) : string :=
  "tx_" ++ format_07d (List.length (Bank.transactions db) + 1).

(** The two transactions [Bank.initiate_internal_transfer] returns. *)
Definition transfer_debit (now cid from to : string) (x : float)
  (description : option string) (currency id_out id_in : string) (balance : float)
  : Bank.Transaction :=
  {| Bank.transaction_id := id_out;
     Bank.tx_client_id := cid;
     Bank.tx_account_id := from;
     Bank.timestamp := now;
     Bank.tx_type := "transfer";
     Bank.direction := "debit";
     Bank.amount := round2 x;
     Bank.tx_currency := currency;
     Bank.description := Some (or_else description ("Internal transfer to " ++ to));
     Bank.method := "Internal";
     Bank.tx_status := "posted";
     Bank.merchant := None;
     Bank.related_transaction_id := Some id_in;
     Bank.exchange := None;
     Bank.fees := [];
     Bank.hold := None;
     Bank.balance_after := Some balance |}.

Definition transfer_credit (now cid from to : string) (x : float)
  (description : option string) (currency id_out id_in : string) (balance : float)
  : Bank.Transaction :=
  {| Bank.transaction_id := id_in;
     Bank.tx_client_id := cid;
     Bank.tx_account_id := to;
     Bank.timestamp := now;
     Bank.tx_type := "transfer";
     Bank.direction := "credit";
     Bank.amount := round2 x;
     Bank.tx_currency := currency;
     Bank.description := Some (or_else description ("Internal transfer from " ++ from));
     Bank.method := "Internal";
     Bank.tx_status := "posted";
     Bank.merchant := None;
     Bank.related_transaction_id := Some id_out;
     Bank.exchange := None;
     Bank.fees := [];
     Bank.hold := None;
     Bank.balance_after := Some balance |}.

(** The ledger entries [ECommerce.cancel_pending_sale] refunds. *)
Definition is_payment (e : ECommerce.LedgerEntry) : bool :=
  ECommerce.entry_kind e =? "payment".

(** The conversation identifier a reply carries: [None] when the reply is
    not a message, [Some None] for a message without [context_id]. *)
Definition reply_context (r : GreenAgent.ResponseRoot) : option (option string) :=
  match r with
  | GreenAgent.SendMessageSuccessResponse (GreenAgent.ResultMessage m) =>
      Some (GreenAgent.context_id m)
  | _ => None
  end.

(** A payment the deduction loop can turn into whole dollars: drawn on a
    wallet of the user, its amount converts to an [int]. *)
Definition whole_dollars (user : Railway.RailUser) (pay : Railway.RailPayment) : Prop :=
  match dict_get (Railway.payment_id pay) (Railway.payment_methods user) with
  | Some (Railway.WalletPayment _ _) => int_of_float (Railway.amount pay) <> None
  | _ => True
  end.

(** The wallet balance of a user of the railway database. *)
Definition wallet_balance (db : Railway.TrainDB) (user_id payment_id : string) : option Z :=
  match dict_get user_id (Railway.users db) with
  | Some user =>
      match dict_get payment_id (Railway.payment_methods user) with
      | Some (Railway.WalletPayment _ extra) => Some (Railway.wallet_amount extra)
      | _ => None
      end
  | None => None
  end.

(** The slots left on a departure of a package. *)
Definition slots_left (db : Travel.TravelAgencyDB) (package_id date : string) : option Z :=
  match dict_get package_id (Travel.packages db) with
  | Some p => option_map Travel.available_slots (dict_get date (Travel.departures p))
  | None => None
  end.

(** The time slots an agent offers on a date. *)
Definition agent_slots (db : Travel.TravelAgencyDB) (agent_id date : string)
  : option (list string) :=
  match dict_get agent_id (Travel.agents db) with
  | Some a => option_map Travel.slots (dict_get date (Travel.availability a))
  | None => None
  end.

(** Newest first: no transaction is older than the one after it. *)
Definition newer_first (a b : Bank.Transaction) : Prop :=
  str_lt (Bank.timestamp a) (Bank.timestamp b) = false.

(** A payment the booking has validated: its method is on file for the
    user and, drawn on a wallet, its amount converts to an [int]. *)
Definition payable (user : Railway.RailUser) (pay : Railway.RailPayment) : Prop :=
  match dict_get (Railway.payment_id pay) (Railway.payment_methods user) with
  | Some (Railway.WalletPayment _ _) => int_of_float (Railway.amount pay) <> None
  | Some _ => True
  | None => False
  end.

(** The exceptions other than pydantic's [ValidationError]. *)
Definition not_ValidationError (e : exn) : Prop := forall msg, e <> ValidationError msg.

(** The segment [sg] of a reservation for [num_pax] passengers is the
    train [tinfo] asks for: on file, running that date and not cancelled,
    with one seat per passenger. *)
Definition segment_of (db : Railway.TrainDB) (num_pax : nat)
  (tinfo : Railway.TrainInfo) (sg : Railway.ReservationTrainSegment) : Prop :=
  exists train date_status,
    dict_get (Railway.ti_train_number tinfo) (Railway.trains db) = Some train /\
    dict_get (Railway.ti_date tinfo) (Railway.dates train) = Some date_status /\
    Railway.status_of date_status <> "cancelled" /\
    Railway.seg_train_number sg = Railway.ti_train_number tinfo /\
    Railway.seg_date sg = Railway.ti_date tinfo /\
    Railway.seg_origin sg = Railway.tr_origin train /\
    Railway.seg_destination sg = Railway.tr_destination train /\
    List.length (Railway.seat_numbers sg) = num_pax.

(** The calls of the railway WRITE tools that charge nothing: a
    cancellation, a change of passengers, and an update to no more bags
    or bikes than the reservation has. *)
Definition charges_nothing (db : Railway.TrainDB) (c : Railway.WriteCall) : bool :=
  match c with
  | Railway.CancelReservation _ => true
  | Railway.UpdateReservationPassengers _ _ => true
  | Railway.UpdateReservationBags reservation_id total_bags _ =>
      match dict_get reservation_id (Railway.reservations db) with
      | Some r => (total_bags <=? Railway.total_bags r)%Z
      | None => false
      end
  | Railway.UpdateReservationBikes reservation_id bikes _ =>
      match dict_get reservation_id (Railway.reservations db) with
      | Some r => (bikes <=? Railway.bikes r)%Z
      | None => false
      end
  | _ => false
  end.

(** The sale a WRITE tool of the e-commerce toolkit works on. *)
Definition sale_of (c : ECommerce.Call) : option string :=
  match c with
  | ECommerce.ModifyPendingSaleDelivery s _ _ _ _ _ _
  | ECommerce.ModifyPendingSalePayment s _
  | ECommerce.CancelPendingSale s _
  | ECommerce.ReturnDeliveredSaleLines s _ _
  | ECommerce.ExchangeDeliveredSaleLines s _ _ _ => Some s
  | _ => None
  end.

(** The calls that end the life of a sale, and the states they leave it
    in. *)
Definition closes (c : ECommerce.Call) : bool :=
  match c with
  | ECommerce.CancelPendingSale _ _
  | ECommerce.ReturnDeliveredSaleLines _ _ _
  | ECommerce.ExchangeDeliveredSaleLines _ _ _ _ => true
  | _ => false
  end.

Definition closed_states : list string :=
  ["cancelled"; "return requested"; "exchange requested"].

(** The action the green agent's loop reads off a reply: the reply is a
    message with exactly one text part, and the text parses to the
    action. *)
Definition action_of (parse_tags : string -> dict string)
  (json_loads : string -> result json) (json_dumps : json -> string)
  (r : GreenAgent.ResponseRoot) (action : json) : Prop :=
  exists m white_text,
    r = GreenAgent.SendMessageSuccessResponse (GreenAgent.ResultMessage m) /\
    GreenAgent.get_text_parts (GreenAgent.parts m) = [white_text] /\
    GreenAgent.parse_action parse_tags json_loads json_dumps white_text = Ok action.

End Outcome.

(* ================================================================== *)
(** ** Properties *)
(* ================================================================== *)

(** *** Dictionaries and lists *)

Section DictFacts.

Context {V : Type}.

Lemma dict_get_update_same (k : string) (f : V -> V) (d : dict V) :
  dict_get k (dict_update k f d) = option_map f (dict_get k d).
Proof.
  induction d as [|[k' v] d IH]; simpl; [reflexivity|].
  destruct (k =? k') eqn:E; simpl; rewrite E; [reflexivity|assumption].
Qed.

Lemma dict_get_update_other (k k' : string) (f : V -> V) (d : dict V) :
  k <> k' -> dict_get k (dict_update k' f d) = dict_get k d.
Proof.
  intros Hne. induction d as [|[k0 v] d IH]; simpl; [reflexivity|].
  destruct (k' =? k0) eqn:E; simpl.
  - apply String.eqb_eq in E. subst k0.
    destruct (k =? k') eqn:E'; [apply String.eqb_eq in E'; contradiction|reflexivity].
  - destruct (k =? k0); [reflexivity|assumption].
Qed.

Lemma dict_get_set_same (k : string) (v : V) (d : dict V) :
  dict_get k (dict_set k v d) = Some v.
Proof.
  induction d as [|[k' v'] d IH]; simpl.
  - rewrite String.eqb_refl. reflexivity.
  - destruct (k =? k') eqn:E; simpl; rewrite E; [reflexivity|assumption].
Qed.

Lemma dict_mem_get (k : string) (d : dict V) (v : V) :
  dict_get k d = Some v -> dict_mem k d = true.
Proof. unfold dict_mem. intros ->. reflexivity. Qed.

Lemma dict_get_in_keys (k : string) (d : dict V) (v : V) :
  dict_get k d = Some v -> In k (dict_keys d).
Proof.
  induction d as [|[k' v'] d IH]; simpl; [discriminate|].
  destruct (k =? k') eqn:E.
  - apply String.eqb_eq in E. auto.
  - auto.
Qed.

Lemma dict_update_length (k : string) (f : V -> V) (d : dict V) :
  List.length (dict_update k f d) = List.length d.
Proof.
  induction d as [|[k' v] d IH]; simpl; [reflexivity|].
  destruct (k =? k'); simpl; congruence.
Qed.

End DictFacts.

Lemma nth_error_list_update_same {A} (i : nat) (f : A -> A) (l : list A) :
  nth_error (list_update i f l) i = option_map f (nth_error l i).
Proof.
  revert i. induction l as [|x l IH]; intros [|i]; simpl; auto.
Qed.

(** *** Floats *)

Lemma SFcompare_antisym (a b : spec_float) :
  SFcompare b a = option_map CompOpp (SFcompare a b).
Proof.
  destruct a as [sa|sa| |sa ma ea], b as [sb|sb| |sb mb eb]; simpl;
    try reflexivity;
    try (destruct sa; reflexivity);
    try (destruct sb; reflexivity);
    try (destruct sa, sb; reflexivity).
  assert (H : Pos.compare_cont Eq mb ma = CompOpp (Pos.compare_cont Eq ma mb))
    by (rewrite Pos.compare_cont_antisym; reflexivity).
  destruct sa, sb; simpl; try reflexivity;
    rewrite (Z.compare_antisym ea eb);
    destruct (ea ?= eb)%Z; simpl; try reflexivity;
    rewrite H; reflexivity.
Qed.

(** [x <= y] excludes [y < x], as the interpreter evaluates them. *)
Lemma leb_true_ltb_false (x y : float) :
  (x <=? y)%float = true -> (y <? x)%float = false.
Proof.
  rewrite FloatAxioms.leb_spec, FloatAxioms.ltb_spec. unfold SFleb, SFltb.
  rewrite (SFcompare_antisym (Prim2SF x) (Prim2SF y)).
  destruct (SFcompare (Prim2SF x) (Prim2SF y)) as [[]|]; simpl; congruence.
Qed.

Lemma ltb_true_leb_false (x y : float) :
  (x <? y)%float = true -> (y <=? x)%float = false.
Proof.
  rewrite FloatAxioms.leb_spec, FloatAxioms.ltb_spec. unfold SFleb, SFltb.
  rewrite (SFcompare_antisym (Prim2SF x) (Prim2SF y)).
  destruct (SFcompare (Prim2SF x) (Prim2SF y)) as [[]|]; simpl; congruence.
Qed.

(** Unary minus is exact. *)
Lemma exact_units_opp (x : float) :
  exact_units (- x)%float = option_map Z.opp (exact_units x).
Proof.
  unfold exact_units. rewrite FloatAxioms.opp_spec.
  destruct (Prim2SF x) as [s|s| |s m e]; simpl; try reflexivity.
  destruct s; simpl; f_equal; lia.
Qed.

(** *** Cancelling a travel booking or a rail reservation *)

Lemma signed_sum_app (a b : list float) (x y : Z) :
  Ledger.signed_sum a = Some x -> Ledger.signed_sum b = Some y ->
  Ledger.signed_sum (a ++ b) = Some (x + y)%Z.
Proof.
  revert x. induction a as [|u a IH]; simpl; intros x Ha Hb.
  - injection Ha as <-. rewrite Hb. reflexivity.
  - destruct (exact_units u) as [xu|]; [|discriminate].
    destruct (Ledger.signed_sum a) as [s|]; [|discriminate].
    injection Ha as <-. rewrite (IH s eq_refl Hb). f_equal. lia.
Qed.

Lemma signed_sum_finite (a : list float) :
  Forall finite a -> exists x, Ledger.signed_sum a = Some x.
Proof.
  induction 1 as [|u a Hu _ [s Hs]]; simpl; [eauto|].
  unfold finite in Hu. destruct (exact_units u) as [xu|]; [|contradiction].
  rewrite Hs. eauto.
Qed.

Lemma signed_sum_negated (a : list float) (x : Z) :
  Ledger.signed_sum a = Some x ->
  Ledger.signed_sum (map PrimFloat.opp a) = Some (- x)%Z.
Proof.
  revert x. induction a as [|u a IH]; simpl; intros x Ha.
  - injection Ha as <-. reflexivity.
  - rewrite exact_units_opp.
    destruct (exact_units u) as [xu|]; [|discriminate].
    destruct (Ledger.signed_sum a) as [s|]; [|discriminate].
    injection Ha as <-. rewrite (IH s eq_refl). simpl. f_equal. lia.
Qed.

(** A history followed by its negation sums to zero. *)
Lemma signed_sum_mirrored (a : list float) :
  Forall finite a -> Ledger.signed_sum (a ++ map PrimFloat.opp a) = Some 0%Z.
Proof.
  intros H. destruct (signed_sum_finite a H) as [x Hx].
  rewrite (signed_sum_app _ _ _ _ Hx (signed_sum_negated _ _ Hx)). f_equal. lia.
Qed.

Lemma firstn_app_exact {A} (a b : list A) : firstn (List.length a) (a ++ b) = a.
Proof.
  rewrite firstn_app, Nat.sub_diag, firstn_all. simpl. apply app_nil_r.
Qed.

Lemma skipn_app_exact {A} (a b : list A) : skipn (List.length a) (a ++ b) = b.
Proof.
  rewrite skipn_app, Nat.sub_diag, skipn_all. reflexivity.
Qed.

Lemma list_update_compose {A} (i : nat) (f g : A -> A) (l : list A) :
  list_update i g (list_update i f l) = list_update i (fun x => g (f x)) l.
Proof.
  revert i. induction l as [|x l IH]; intros [|i]; simpl; try reflexivity.
  f_equal. apply IH.
Qed.

Lemma list_update_ext {A} (i : nat) (f g : A -> A) (l : list A) :
  (forall x, f x = g x) -> list_update i f l = list_update i g l.
Proof.
  intros H. revert i. induction l as [|x l IH]; intros [|i]; simpl; try reflexivity.
  - f_equal. apply H.
  - f_equal. apply IH.
Qed.

Module TravelFacts.
Import Travel.

Lemma booking_refunds_mirror (h : list BookingPayment) :
  Ledger.mirrors payment_id amount h (map refund_of h).
Proof. induction h; constructor; simpl; auto. Qed.

Lemma map_amount_booking_refunds (h : list BookingPayment) :
  map amount (map refund_of h) = map PrimFloat.opp (map amount h).
Proof. rewrite !map_map. reflexivity. Qed.

Lemma find_in_bookings_id (id : string) (bs : list Booking) (i : nat) (b : Booking) :
  find_in_bookings id bs = Some (i, b) -> booking_id b = id /\ nth_error bs i = Some b.
Proof.
  revert i. induction bs as [|x bs IH]; simpl; intros i H; [discriminate|].
  destruct (booking_id x =? id) eqn:E.
  - injection H as <- <-. apply String.eqb_eq in E. auto.
  - destruct (find_in_bookings id bs) as [[j b']|]; [|discriminate].
    injection H as <- <-. apply (IH j eq_refl).
Qed.

Lemma find_in_bookings_update (id : string) (f : Booking -> Booking)
  (bs : list Booking) (i : nat) (b : Booking) :
  (forall x, booking_id (f x) = booking_id x) ->
  find_in_bookings id bs = Some (i, b) ->
  find_in_bookings id (list_update i f bs) = Some (i, f b).
Proof.
  intros Hf. revert i. induction bs as [|x bs IH]; simpl; intros i H; [discriminate|].
  destruct (booking_id x =? id) eqn:E.
  - injection H as <- <-. simpl. rewrite Hf, E. reflexivity.
  - destruct (find_in_bookings id bs) as [[j b']|] eqn:F; [|discriminate].
    injection H as <- <-. simpl. rewrite E, (IH j eq_refl). reflexivity.
Qed.

Lemma find_booking_found (id : string) (ts : dict Traveler) r t b :
  find_booking id ts = Some (r, t, b) -> booking_id b = id.
Proof.
  revert r. induction ts as [|[k x] ts IH]; simpl; intros r H; [discriminate|].
  destruct (find_in_bookings id (bookings x)) as [[i b']|] eqn:F.
  - injection H as <- <- <-. apply (find_in_bookings_id _ _ _ _ F).
  - destruct (find_booking id ts) as [[[[t' i] tr] b']|]; [|discriminate].
    injection H as <- <- <-. apply (IH _ eq_refl).
Qed.

(** Mutating the booking found, without touching its id, leaves it the
    booking found. *)
Lemma find_booking_update (id : string) (f : Booking -> Booking)
  (ts : dict Traveler) (r : BookingRef) (t : Traveler) (b : Booking) :
  (forall x, booking_id (f x) = booking_id x) ->
  find_booking id ts = Some (r, t, b) ->
  find_booking id
    (list_update (fst r)
       (fun kv => (fst kv, set_bookings (list_update (snd r) f) (snd kv))) ts)
  = Some (r, set_bookings (list_update (snd r) f) t, f b).
Proof.
  intros Hf. revert r. induction ts as [|[k x] ts IH]; simpl; intros r H; [discriminate|].
  destruct (find_in_bookings id (bookings x)) as [[i b']|] eqn:F.
  - injection H as <- <- <-. simpl.
    rewrite (find_in_bookings_update _ _ _ _ _ Hf F). reflexivity.
  - destruct (find_booking id ts) as [[[[t' i] tr] b']|] eqn:G; [|discriminate].
    injection H as <- <- <-. simpl. rewrite F.
    specialize (IH _ eq_refl). simpl in IH. rewrite IH. reflexivity.
Qed.

Lemma cancel_booking_run (id : string) (db : TravelAgencyDB) r t b p :
  find_booking id (travelers db) = Some (r, t, b) ->
  dict_get (bk_package_id b) (packages db) = Some p ->
  cancel_booking id db = (Ok (Outcome.travel_cancelled b), Outcome.travel_after_cancel r b p db).
Proof.
  intros F P. unfold cancel_booking, bind, _get_booking, _get_package, modify, ret.
  rewrite F. simpl. rewrite P. simpl. unfold Outcome.travel_after_cancel.
  destruct (dict_mem (departure_date b) (departures p)); reflexivity.
Qed.

Lemma travelers_after_cancel r b p db :
  travelers (Outcome.travel_after_cancel r b p db)
  = list_update (fst r)
      (fun kv => (fst kv, set_bookings (list_update (snd r) (fun x =>
         set_status "cancelled"
           (set_payment_history
              (fun h => (h ++ map refund_of (payment_history b))%list) x))) (snd kv)))
      (travelers db).
Proof.
  assert (E : travelers (Outcome.travel_after_cancel r b p db)
              = travelers
                  (upd_booking r (set_status "cancelled")
                     (upd_booking r
                        (set_payment_history
                           (fun h => (h ++ map refund_of (payment_history b))%list)) db))).
  { unfold Outcome.travel_after_cancel.
    destruct (dict_mem (departure_date b) (departures p)); reflexivity. }
  rewrite E. unfold upd_booking. simpl. rewrite list_update_compose.
  apply list_update_ext. intros [k x]. simpl. f_equal.
  unfold set_bookings. simpl. f_equal. apply list_update_compose.
Qed.

(** After the call the booking stored under [id] is the cancelled one. *)
Lemma find_booking_after_cancel (id : string) (db : TravelAgencyDB) r t b p :
  find_booking id (travelers db) = Some (r, t, b) ->
  exists t', find_booking id (travelers (Outcome.travel_after_cancel r b p db)) = Some (r, t', Outcome.travel_cancelled b).
Proof.
  intros F. rewrite travelers_after_cancel.
  eexists.
  apply (find_booking_update id
           (fun x => set_status "cancelled"
                       (set_payment_history
                          (fun h => (h ++ map refund_of (payment_history b))%list) x))
           _ _ _ _ (fun x => eq_refl) F).
Qed.

End TravelFacts.

Module RailwayFacts.
Import Railway.

Lemma rail_refunds_mirror (h : list RailPayment) :
  Ledger.mirrors payment_id amount h (map refund_of h).
Proof. induction h; constructor; simpl; auto. Qed.

Lemma map_amount_rail_refunds (h : list RailPayment) :
  map amount (map refund_of h) = map PrimFloat.opp (map amount h).
Proof. rewrite !map_map. reflexivity. Qed.

Lemma cancel_reservation_run (id : string) (db : TrainDB) (r : TrainReservation) :
  dict_get id (reservations db) = Some r ->
  cancel_reservation id db = (Ok (Outcome.rail_cancelled r), Outcome.rail_after_cancel id r db).
Proof.
  intros G. unfold cancel_reservation, bind, _get_reservation, modify, ret.
  rewrite G. reflexivity.
Qed.

Lemma get_after_cancel (id : string) (db : TrainDB) (r : TrainReservation) :
  dict_get id (reservations db) = Some r ->
  dict_get id (reservations (Outcome.rail_after_cancel id r db)) = Some (Outcome.rail_cancelled r).
Proof.
  intros G. unfold Outcome.rail_after_cancel. simpl.
  rewrite !dict_get_update_same, G. reflexivity.
Qed.

End RailwayFacts.

(** *** The cancel operations: refunds, repetition, transitions *)



(** C2, as stated, fails: cancelling the already cancelled booking TAU001
    (paid 250.00, refunded 250.00) a second time returns normally with two
    more entries in its history and one more free slot on the departure, and
    so does cancelling the cancelled reservation TRN001 with its history. *)
Lemma C2_cancel_twice_counterexample :
  (exists b' db',
      Travel.cancel_booking "TAU001"
        (Examples.travel_db "cancelled" Examples.paid_and_refunded_250) = (Ok b', db') /\
      map Travel.amount (Travel.payment_history b')
        = [250%float; (-250)%float; (-250)%float; 250%float] /\
      Travel.find_booking "TAU001" (Travel.travelers db')
        = Some ((0, 0)%nat, Examples.traveler [b'], b') /\
      option_map Travel.departures (dict_get "PKG1" (Travel.packages db'))
        = Some [("24-06-01", Examples.departure 6)] /\
      db' <> Examples.travel_db "cancelled" Examples.paid_and_refunded_250)
  /\
  (exists res' db',
      Railway.cancel_reservation "TRN001"
        (Examples.train_db "cancelled" Examples.rail_paid_and_refunded_250)
        = (Ok res', db') /\
      map Railway.amount (Railway.payment_history res')
        = [250%float; (-250)%float; (-250)%float; 250%float] /\
      dict_get "TRN001" (Railway.reservations db') = Some res' /\
      db' <> Examples.train_db "cancelled" Examples.rail_paid_and_refunded_250).
Proof.
  split.
  - eexists. eexists. split; [vm_compute; reflexivity|].
    repeat split; try reflexivity.
    intros H.
    apply (f_equal (fun d => option_map Travel.departures
                               (dict_get "PKG1" (Travel.packages d)))) in H.
    vm_compute in H. discriminate.
  - eexists. eexists. split; [vm_compute; reflexivity|].
    repeat split; try reflexivity.
    intros H.
    apply (f_equal (fun d => option_map
                               (fun r => List.length (Railway.payment_history r))
                               (dict_get "TRN001" (Railway.reservations d)))) in H.
    vm_compute in H. discriminate.
Qed.

(** C2, amended.  Cancelling an already cancelled booking or reservation
    is not a no-op: the call returns normally, the status stays
    ["cancelled"], every entry of the history stays in place and one negated
    entry is appended for each of them, earlier refunds included, so the
    history doubles; the travel booking's departure, when the package lists
    its date, gets the booking's traveler count added to its free slots once
    more. *)
Theorem C2_cancel_again_appends_refunds :
  (forall (booking_id : string) (db : Travel.TravelAgencyDB) r t b p,
      Travel.find_booking booking_id (Travel.travelers db) = Some (r, t, b) ->
      dict_get (Travel.bk_package_id b) (Travel.packages db) = Some p ->
      Travel.status b = "cancelled" ->
      exists b' db' t',
        Travel.cancel_booking booking_id db = (Ok b', db') /\
        Travel.find_booking booking_id (Travel.travelers db') = Some (r, t', b') /\
        Travel.status b' = "cancelled" /\
        Travel.payment_history b'
          = (Travel.payment_history b
               ++ map Travel.refund_of (Travel.payment_history b))%list /\
        List.length (Travel.payment_history b')
          = (2 * List.length (Travel.payment_history b))%nat /\
        (forall d, dict_get (Travel.departure_date b) (Travel.departures p) = Some d ->
           exists p',
             dict_get (Travel.bk_package_id b) (Travel.packages db') = Some p' /\
             option_map Travel.available_slots
               (dict_get (Travel.departure_date b) (Travel.departures p'))
             = Some (Travel.available_slots d
                       + Z.of_nat (List.length (Travel.bk_travelers b)))%Z))
  /\
  (forall (reservation_id : string) (db : Railway.TrainDB) res,
      dict_get reservation_id (Railway.reservations db) = Some res ->
      Railway.status res = "cancelled" ->
      exists res' db',
        Railway.cancel_reservation reservation_id db = (Ok res', db') /\
        dict_get reservation_id (Railway.reservations db') = Some res' /\
        Railway.status res' = "cancelled" /\
        Railway.payment_history res'
          = (Railway.payment_history res
               ++ map Railway.refund_of (Railway.payment_history res))%list /\
        List.length (Railway.payment_history res')
          = (2 * List.length (Railway.payment_history res))%nat).
Proof.
  split.
  - intros id db r t b p F P _.
    destruct (TravelFacts.find_booking_after_cancel id db r t b p F) as [t' F'].
    exists (Outcome.travel_cancelled b), (Outcome.travel_after_cancel r b p db), t'.
    split; [apply (TravelFacts.cancel_booking_run _ _ _ _ _ _ F P)|].
    split; [exact F'|]. simpl.
    split; [reflexivity|]. split; [reflexivity|].
    split; [rewrite length_app, length_map; lia|].
    intros d D. unfold Outcome.travel_after_cancel.
    rewrite (dict_mem_get _ _ _ D). simpl.
    rewrite dict_get_update_same, P. simpl. eexists. split; [reflexivity|].
    simpl. rewrite dict_get_update_same, D. reflexivity.
  - intros id db res G _.
    exists (Outcome.rail_cancelled res), (Outcome.rail_after_cancel id res db).
    split; [apply (RailwayFacts.cancel_reservation_run _ _ _ G)|].
    split; [apply (RailwayFacts.get_after_cancel _ _ _ G)|]. simpl.
    split; [reflexivity|]. split; [reflexivity|].
    rewrite length_app, length_map. lia.
Qed.

Lemma C2_cancel_again_appends_refunds_witness :
  (exists b' db' t',
      Travel.cancel_booking "TAU001"
        (Examples.travel_db "cancelled" Examples.paid_and_refunded_250) = (Ok b', db') /\
      Travel.find_booking "TAU001" (Travel.travelers db') = Some ((0, 0)%nat, t', b') /\
      Travel.status b' = "cancelled" /\
      Travel.payment_history b'
        = (Examples.paid_and_refunded_250
             ++ map Travel.refund_of Examples.paid_and_refunded_250)%list /\
      List.length (Travel.payment_history b') = 4%nat /\
      (forall d, dict_get "24-06-01" (Travel.departures Examples.package) = Some d ->
         exists p',
           dict_get "PKG1" (Travel.packages db') = Some p' /\
           option_map Travel.available_slots (dict_get "24-06-01" (Travel.departures p'))
           = Some (Travel.available_slots d + 1)%Z))
  /\
  (exists res' db',
      Railway.cancel_reservation "TRN001"
        (Examples.train_db "cancelled" Examples.rail_paid_and_refunded_250)
        = (Ok res', db') /\
      dict_get "TRN001" (Railway.reservations db') = Some res' /\
      Railway.status res' = "cancelled" /\
      Railway.payment_history res'
        = (Examples.rail_paid_and_refunded_250
             ++ map Railway.refund_of Examples.rail_paid_and_refunded_250)%list /\
      List.length (Railway.payment_history res') = 4%nat).
Proof.
  split.
  - apply (proj1 C2_cancel_again_appends_refunds "TAU001"
             (Examples.travel_db "cancelled" Examples.paid_and_refunded_250) (0, 0)%nat
             (Examples.traveler [Examples.booking "cancelled" Examples.paid_and_refunded_250])
             (Examples.booking "cancelled" Examples.paid_and_refunded_250)
             Examples.package); reflexivity.
  - apply (proj2 C2_cancel_again_appends_refunds "TRN001"
             (Examples.train_db "cancelled" Examples.rail_paid_and_refunded_250)
             (Examples.reservation "cancelled" Examples.rail_paid_and_refunded_250));
      reflexivity.
Defined.

(** *** E-commerce: cancelling a pending sale, requesting an exchange *)

Module ECommerceFacts.
Import ECommerce.

(** Past the entries that are payments the walk appends nothing. *)
Lemma refund_loop_no_payment (fuel : nat) (pre rest : list LedgerEntry) :
  forallb (fun e => negb (Outcome.is_payment e)) rest = true ->
  refund_loop fuel (List.length pre) (pre ++ rest) = (pre ++ rest)%list.
Proof.
  revert pre rest. induction fuel as [|fuel IH]; intros pre rest H; simpl; [reflexivity|].
  destruct rest as [|e rest].
  - rewrite app_nil_r.
    replace (nth_error pre (List.length pre)) with (@None LedgerEntry);
      [reflexivity|].
    symmetry. apply nth_error_None. lia.
  - rewrite nth_error_app2 by lia. rewrite Nat.sub_diag. simpl.
    simpl in H. apply andb_true_iff in H as [He Hrest].
    unfold Outcome.is_payment in He. apply negb_true_iff in He. rewrite He.
    specialize (IH (pre ++ [e])%list rest Hrest).
    rewrite length_app in IH. simpl in IH. rewrite Nat.add_1_r in IH.
    rewrite <- app_assoc in IH. simpl in IH. exact IH.
Qed.

Lemma refund_loop_spec (fuel : nat) (pre post acc : list LedgerEntry) :
  (List.length post <= fuel)%nat ->
  forallb (fun e => negb (Outcome.is_payment e)) acc = true ->
  refund_loop fuel (List.length pre) (pre ++ post ++ acc)
  = (pre ++ post ++ acc ++ map refund_of (filter Outcome.is_payment post))%list.
Proof.
  revert fuel pre acc. induction post as [|e post IH]; intros fuel pre acc Hfuel Hacc.
  - simpl. rewrite app_nil_r. apply refund_loop_no_payment, Hacc.
  - destruct fuel as [|fuel]; [simpl in Hfuel; lia|]. simpl.
    rewrite nth_error_app2 by lia. rewrite Nat.sub_diag. simpl.
    fold (Outcome.is_payment e).
    assert (L : S (List.length pre) = List.length (pre ++ [e])%list)
      by (rewrite length_app; simpl; lia).
    destruct (Outcome.is_payment e) eqn:E.
    + replace ((pre ++ e :: post ++ acc) ++ [refund_of e])%list
        with ((pre ++ [e]) ++ post ++ (acc ++ [refund_of e]))%list
        by (repeat (rewrite <- app_assoc; simpl); reflexivity).
      rewrite L, IH.
      * repeat (rewrite <- app_assoc; simpl). reflexivity.
      * simpl in Hfuel. lia.
      * rewrite forallb_app, Hacc. reflexivity.
    + replace (pre ++ e :: post ++ acc)%list
        with ((pre ++ [e]) ++ post ++ acc)%list
        by (repeat (rewrite <- app_assoc; simpl); reflexivity).
      rewrite L, IH.
      * repeat (rewrite <- app_assoc; simpl). reflexivity.
      * simpl in Hfuel. lia.
      * exact Hacc.
Qed.

(** The loop of [cancel_pending_sale] ends, having appended one refund
    per payment entry of the ledger it started from. *)
Lemma issue_refunds_spec (ledger : list LedgerEntry) :
  issue_refunds ledger = (ledger ++ map refund_of (filter Outcome.is_payment ledger))%list.
Proof.
  unfold issue_refunds.
  pose proof (refund_loop_spec (2 * List.length ledger) [] ledger []) as H.
  simpl in H. rewrite app_nil_r in H. apply H; [lia|reflexivity].
Qed.

Lemma cancel_pending_sale_not_pending (sale_ref reason : string) (db : ECommerceDB) s :
  dict_get sale_ref (sales db) = Some s ->
  state s <> "pending" ->
  cancel_pending_sale sale_ref reason db
  = (Raise (ValueError "Non-pending sale cannot be cancelled"), db).
Proof.
  intros G N. unfold cancel_pending_sale, bind, _get_sale. rewrite G.
  apply String.eqb_neq in N. rewrite N. reflexivity.
Qed.

Lemma price_difference_frame (sale : Sale) (pairs : list (string * string))
  (d : float) (db : ECommerceDB) :
  snd (price_difference sale pairs d db) = db.
Proof.
  revert d. induction pairs as [|[o n] pairs IH]; intros d; simpl; [reflexivity|].
  destruct (find (fun ln => unit_sku ln =? o) (lines sale)) as [line|]; [|reflexivity].
  unfold bind, _get_offering, _get_catalogue_group, bind.
  destruct (dict_get (catalog_ref line) (catalogue db)) as [g|]; [|reflexivity].
  destruct (dict_get n (offerings g)) as [off|]; [|reflexivity]. simpl.
  destruct (in_stock off); [apply IH|reflexivity].
Qed.

Lemma exchange_run (sale_ref : string) (olds news : list string) (instrument_id : string)
  (db db' : ECommerceDB) (s' : Sale) :
  exchange_delivered_sale_lines sale_ref olds news instrument_id db = (Ok s', db') ->
  exists s,
    dict_get sale_ref (sales db) = Some s /\
    state s = "delivered" /\
    s' = set_state "exchange requested" s /\
    db' = upd_sale sale_ref (set_state "exchange requested") db.
Proof.
  unfold exchange_delivered_sale_lines, bind, _get_sale.
  destruct (dict_get sale_ref (sales db)) as [s|] eqn:G; [|discriminate].
  destruct (state s =? "delivered") eqn:D; simpl; [|discriminate].
  destruct (List.length olds =? List.length news)%nat; simpl; [|discriminate].
  destruct (first_short_sku olds olds (map unit_sku (lines s))); [discriminate|].
  unfold _get_funding_source, _get_account, bind.
  destruct (dict_get (account_key s) (accounts db)) as [a|]; [|discriminate].
  destruct (dict_get instrument_id (funding_sources a)); [|discriminate]. simpl.
  pose proof (price_difference_frame s (zip olds news) 0%float db) as Fr.
  destruct (price_difference s (zip olds news) 0%float db) as [[d|e] db1];
    simpl in Fr; subst db1; [|discriminate].
  unfold modify, ret. intros H. injection H as <- <-.
  exists s. apply String.eqb_eq in D. auto.
Qed.

End ECommerceFacts.

(** C7, as stated, fails: the booking TAU001 in state ["completed"] is
    cancelled without any error, its status overwritten with
    ["cancelled"]. *)
Lemma C7_transition_counterexample :
  exists b' db',
    Travel.status (Examples.booking "completed" Examples.paid_250) = "completed" /\
    Travel.cancel_booking "TAU001" (Examples.travel_db "completed" Examples.paid_250)
      = (Ok b', db') /\
    Travel.status b' = "cancelled" /\
    Travel.find_booking "TAU001" (Travel.travelers db')
      = Some ((0, 0)%nat, Examples.traveler [b'], b').
Proof.
  eexists. eexists. split; [reflexivity|].
  split; [vm_compute; reflexivity|]. split; reflexivity.
Qed.

(** C7, amended.  [ECommerceTools.cancel_pending_sale] guards the
    transition: on a sale on file whose state is anything but ["pending"]
    it raises a [ValueError], whatever the reason given, and the database
    is untouched.  [TravelAgencyTools.cancel_booking] has no such guard: on
    every booking on file whose package is on file it returns normally,
    whatever the booking's status was, and the status stored is
    ["cancelled"]. *)
Theorem C7_cancel_transition_guards :
  (forall (sale_ref reason : string) (db : ECommerce.ECommerceDB) s,
      dict_get sale_ref (ECommerce.sales db) = Some s ->
      ECommerce.state s <> "pending" ->
      ECommerce.cancel_pending_sale sale_ref reason db
      = (Raise (ValueError "Non-pending sale cannot be cancelled"), db))
  /\
  (forall (booking_id : string) (db : Travel.TravelAgencyDB) r t b p,
      Travel.find_booking booking_id (Travel.travelers db) = Some (r, t, b) ->
      dict_get (Travel.bk_package_id b) (Travel.packages db) = Some p ->
      exists b' db' t',
        Travel.cancel_booking booking_id db = (Ok b', db') /\
        Travel.find_booking booking_id (Travel.travelers db') = Some (r, t', b') /\
        Travel.status b' = "cancelled").
Proof.
  split.
  - intros. eapply ECommerceFacts.cancel_pending_sale_not_pending; eassumption.
  - intros id db r t b p F P.
    destruct (TravelFacts.find_booking_after_cancel id db r t b p F) as [t' F'].
    exists (Outcome.travel_cancelled b), (Outcome.travel_after_cancel r b p db), t'.
    split; [apply (TravelFacts.cancel_booking_run _ _ _ _ _ _ F P)|].
    split; [exact F'|reflexivity].
Qed.

Lemma C7_cancel_transition_guards_witness :
  ECommerce.cancel_pending_sale "S0000001" "no longer needed" (Examples.shop_db "delivered")
  = (Raise (ValueError "Non-pending sale cannot be cancelled"), Examples.shop_db "delivered")
  /\
  (exists b' db' t',
      Travel.cancel_booking "TAU001" (Examples.travel_db "completed" Examples.paid_250)
        = (Ok b', db') /\
      Travel.find_booking "TAU001" (Travel.travelers db') = Some ((0, 0)%nat, t', b') /\
      Travel.status b' = "cancelled").
Proof.
  split.
  - apply (proj1 C7_cancel_transition_guards "S0000001" "no longer needed"
             (Examples.shop_db "delivered") (Examples.sale "delivered")).
    + reflexivity.
    + simpl. discriminate.
  - apply (proj2 C7_cancel_transition_guards "TAU001"
             (Examples.travel_db "completed" Examples.paid_250) (0, 0)%nat
             (Examples.traveler [Examples.booking "completed" Examples.paid_250])
             (Examples.booking "completed" Examples.paid_250) Examples.package);
      reflexivity.
Defined.

(** C10.  A call to [exchange_delivered_sale_lines] that returns changed
    one thing: the state of the sale [sale_ref], now ["exchange requested"].
    The sale returned and stored has the lines, ledger, delivery address,
    shipments and account of the delivered sale it was; its ledger got no
    entry for the price difference; catalogue and accounts are the ones
    before the call, and so is every other sale. *)
Theorem C10_exchange_only_sets_state :
  forall (sale_ref : string) (unit_skus_old unit_skus_new : list string)
         (instrument_id : string) (db db' : ECommerce.ECommerceDB) (s' : ECommerce.Sale),
    ECommerce.exchange_delivered_sale_lines
      sale_ref unit_skus_old unit_skus_new instrument_id db = (Ok s', db') ->
    exists s,
      dict_get sale_ref (ECommerce.sales db) = Some s /\
      ECommerce.state s = "delivered" /\
      dict_get sale_ref (ECommerce.sales db') = Some s' /\
      ECommerce.state s' = "exchange requested" /\
      ECommerce.lines s' = ECommerce.lines s /\
      ECommerce.ledger s' = ECommerce.ledger s /\
      ECommerce.delivery s' = ECommerce.delivery s /\
      ECommerce.shipments s' = ECommerce.shipments s /\
      ECommerce.account_key s' = ECommerce.account_key s /\
      ECommerce.sale_ref s' = ECommerce.sale_ref s /\
      ECommerce.catalogue db' = ECommerce.catalogue db /\
      ECommerce.accounts db' = ECommerce.accounts db /\
      dict_keys (ECommerce.sales db') = dict_keys (ECommerce.sales db) /\
      (forall other, other <> sale_ref ->
         dict_get other (ECommerce.sales db') = dict_get other (ECommerce.sales db)).
Proof.
  intros sale_ref olds news instr db db' s' H.
  destruct (ECommerceFacts.exchange_run _ _ _ _ _ _ _ H) as (s & G & D & -> & ->).
  exists s. unfold ECommerce.upd_sale. simpl.
  rewrite dict_get_update_same, G. simpl.
  repeat (split; [first [assumption | reflexivity]|]).
  split.
  - unfold dict_keys. generalize (ECommerce.sales db).
    induction d as [|[k v] d IH]; simpl; [reflexivity|].
    destruct (sale_ref =? k); simpl; congruence.
  - intros other N. apply dict_get_update_other, N.
Qed.

Lemma C10_exchange_only_sets_state_witness :
  exists s' db',
    ECommerce.exchange_delivered_sale_lines
      "S0000001" ["sku_blue_m"] ["sku_blue_l"] "credit_card_1" (Examples.shop_db "delivered")
    = (Ok s', db') /\
    exists s,
      dict_get "S0000001" (ECommerce.sales (Examples.shop_db "delivered")) = Some s /\
      ECommerce.state s = "delivered" /\
      dict_get "S0000001" (ECommerce.sales db') = Some s' /\
      ECommerce.state s' = "exchange requested" /\
      ECommerce.lines s' = ECommerce.lines s /\
      ECommerce.ledger s' = ECommerce.ledger s /\
      ECommerce.delivery s' = ECommerce.delivery s /\
      ECommerce.shipments s' = ECommerce.shipments s /\
      ECommerce.account_key s' = ECommerce.account_key s /\
      ECommerce.sale_ref s' = ECommerce.sale_ref s /\
      ECommerce.catalogue db' = ECommerce.catalogue (Examples.shop_db "delivered") /\
      ECommerce.accounts db' = ECommerce.accounts (Examples.shop_db "delivered") /\
      dict_keys (ECommerce.sales db')
        = dict_keys (ECommerce.sales (Examples.shop_db "delivered")) /\
      (forall other, other <> "S0000001" ->
         dict_get other (ECommerce.sales db')
         = dict_get other (ECommerce.sales (Examples.shop_db "delivered"))).
Proof.
  eexists. eexists. split.
  - vm_compute. reflexivity.
  - apply (C10_exchange_only_sets_state
             "S0000001" ["sku_blue_m"] ["sku_blue_l"] "credit_card_1"
             (Examples.shop_db "delivered")).
    vm_compute. reflexivity.
Defined.

(** *** The green agent's loop: one conversation identifier *)

Section GreenAgentFacts.

Import GreenAgent.

Variable Env : Type.
Variable env_step : json -> Env -> (string * bool) * Env.
Variable parse_tags : string -> dict string.
Variable json_loads : string -> result json.
Variable json_dumps : json -> string.

Local Abbreviation iteration :=
  (GreenAgent.iteration Env env_step parse_tags json_loads json_dumps).
Local Abbreviation run :=
  (GreenAgent.run Env env_step parse_tags json_loads json_dumps).

Lemma same_context_true (a b : option string) : same_context a b = true -> a = b.
Proof.
  destruct a, b; simpl; try discriminate; try reflexivity.
  intros H. apply String.eqb_eq in H. congruence.
Qed.

(** A reply whose identifier differs from the one on file is refused
    before anything else is looked at: locals and environment stay put. *)
Lemma iteration_rejects (r : ResponseRoot) (l : Locals Env) (c : string) :
  var_context_id Env l = Some c ->
  Outcome.reply_context r <> Some (Some c) ->
  exists msg, iteration r l = (Raise (AssertionError msg), l).
Proof.
  intros Hc Hne. destruct r as [[m|]|]; simpl; eauto.
  rewrite Hc. destruct (context_id m) as [x|] eqn:Ex; simpl.
  - destruct (c =? x) eqn:E; eauto.
    apply String.eqb_eq in E. subst x. simpl in Hne. rewrite Ex in Hne. contradiction.
  - eauto.
Qed.

(** The identifier on file is never replaced. *)
Lemma iteration_keeps_context (r : ResponseRoot) (l l' : Locals Env) (c : string) res :
  var_context_id Env l = Some c ->
  iteration r l = (res, l') ->
  var_context_id Env l' = Some c.
Proof.
  intros Hc. destruct r as [[m|]|]; unfold GreenAgent.iteration;
    try (intros H; injection H as <- <-; exact Hc).
  rewrite Hc.
  destruct (same_context (Some c) (context_id m));
    [|intros H; injection H as <- <-; exact Hc].
  destruct (get_text_parts (parts m)) as [|t [|? ?]];
    try (intros H; injection H as <- <-; reflexivity).
  destruct (parse_action parse_tags json_loads json_dumps t);
    try (intros H; injection H as <- <-; reflexivity).
  cbn [var_env stepped].
  destruct (env_step a (var_env Env l)) as [[o tm] e']; cbv beta iota.
  intros H; injection H as <- <-; reflexivity.
Qed.

(** With no identifier on file yet, a reply that goes through files its
    own. *)
Lemma iteration_sets_context (r : ResponseRoot) (l l' : Locals Env) t :
  var_context_id Env l = None ->
  iteration r l = (Ok t, l') ->
  Outcome.reply_context r = Some (var_context_id Env l').
Proof.
  intros Hc. destruct r as [[m|]|]; unfold GreenAgent.iteration;
    try discriminate.
  rewrite Hc.
  destruct (get_text_parts (parts m)) as [|x [|? ?]]; try discriminate.
  destruct (parse_action parse_tags json_loads json_dumps x); try discriminate.
  cbn [var_env stepped].
  destruct (env_step a (var_env Env l)) as [[o tm] e']; cbv beta iota.
  intros H; injection H as <- <-; reflexivity.
Qed.

Lemma run_app (a b : list ResponseRoot) (l : Locals Env) :
  run (a ++ b) l
  = match run a l with
    | (AwaitingReply, l1) => run b l1
    | other => other
    end.
Proof.
  revert l. induction a as [|r a IH]; intros l; simpl; [reflexivity|].
  destruct (iteration r l) as [[[|]|e] l']; auto.
Qed.

Lemma run_keeps_context (rs : list ResponseRoot) (l l' : Locals Env) (c : string) o :
  var_context_id Env l = Some c ->
  run rs l = (o, l') ->
  var_context_id Env l' = Some c.
Proof.
  revert l. induction rs as [|r rs IH]; intros l Hc; simpl.
  - intros H; injection H as <- <-; exact Hc.
  - destruct (iteration r l) as [[[|]|e] l1] eqn:It;
      pose proof (iteration_keeps_context _ _ _ _ _ Hc It) as Hc1.
    + intros H; injection H as <- <-; exact Hc1.
    + apply IH, Hc1.
    + intros H; injection H as <- <-; exact Hc1.
Qed.

(** Every action handed to [env.step] comes from a reply consumed. *)
Lemma run_steps_bounded (rs : list ResponseRoot) (l l' : Locals Env) o :
  run rs l = (o, l') ->
  (List.length (stepped Env l') <= List.length (stepped Env l) + List.length rs)%nat.
Proof.
  revert l. induction rs as [|r rs IH]; intros l; simpl.
  - intros H; injection H as <- <-; lia.
  - assert (St : forall res l1, iteration r l = (res, l1) ->
                 (List.length (stepped Env l1) <= S (List.length (stepped Env l)))%nat).
    { intros res l1. destruct r as [[m|]|]; unfold GreenAgent.iteration;
        try (intros H; injection H as <- <-; lia).
      destruct (match var_context_id Env l with
                | Some c => _ | None => _ end) as [ctx|e];
        try (intros H; injection H as <- <-; lia).
      destruct (get_text_parts (parts m)) as [|t [|? ?]];
        try (intros H; injection H as <- <-; simpl; lia).
      destruct (parse_action parse_tags json_loads json_dumps t);
        try (intros H; injection H as <- <-; simpl; lia).
      cbn [var_env stepped].
      destruct (env_step a (var_env Env l)) as [[ob tm] e']; cbv beta iota.
      intros H; injection H as <- <-. simpl. rewrite length_app. simpl. lia. }
    destruct (iteration r l) as [[[|]|e] l1] eqn:It; specialize (St _ _ eq_refl).
    + intros H; injection H as <- <-; lia.
    + intros H. apply IH in H. lia.
    + intros H; injection H as <- <-; lia.
Qed.

End GreenAgentFacts.

(** C8, as stated, fails: the first reply carries no [context_id], the
    second carries ["ctx-A"], which differs from the first reply's, and yet
    the second reply is accepted and its action handed to [env.step]. *)
Lemma C8_first_reply_without_context_counterexample :
  Outcome.reply_context (Examples.reply None "first")
    <> Outcome.reply_context (Examples.reply (Some "ctx-A") "second")
  /\
  GreenAgent.ask_agent_to_solve unit Examples.echo_step Examples.tags_of
    Examples.loads Examples.dumps tt "task"
    [Examples.reply None "first"; Examples.reply (Some "ctx-A") "second"]
  = (GreenAgent.AwaitingReply,
     {| GreenAgent.var_context_id := Some "ctx-A";
        GreenAgent.var_env := tt;
        GreenAgent.next_green_message := "observation";
        GreenAgent.stepped := [JStr "first"; JStr "second"] |}).
Proof. split; [discriminate|reflexivity]. Qed.

(** C8, amended.  The conversation identifier is fixed by the first reply
    that goes through carrying a [context_id] other than [None]: a reply
    accepted while no identifier is on file files its own, and the one on
    file is never replaced.  From then on every reply whose [context_id]
    differs from it (a reply without one included) makes the loop fail
    with an assertion error, with the environment and the list of actions
    stepped so far as they were before that reply: its action never reaches
    [env.step], whatever the replies before and after it. *)
Theorem C8_session_correlation :
  forall (Env : Type) (env_step : json -> Env -> (string * bool) * Env)
         (parse_tags : string -> dict string) (json_loads : string -> result json)
         (json_dumps : json -> string) (env : Env) (task_description : string)
         (before : list GreenAgent.ResponseRoot) (l : GreenAgent.Locals Env),
    GreenAgent.ask_agent_to_solve Env env_step parse_tags json_loads json_dumps
      env task_description before = (GreenAgent.AwaitingReply, l) ->
    (* filing *)
    (GreenAgent.var_context_id Env l = None ->
     forall r l',
       GreenAgent.ask_agent_to_solve Env env_step parse_tags json_loads json_dumps
         env task_description (before ++ [r]) = (GreenAgent.AwaitingReply, l') ->
       Outcome.reply_context r = Some (GreenAgent.var_context_id Env l'))
    /\
    (* enforcement *)
    (forall c, GreenAgent.var_context_id Env l = Some c ->
       (forall r after, Outcome.reply_context r <> Some (Some c) ->
          exists msg,
            GreenAgent.ask_agent_to_solve Env env_step parse_tags json_loads json_dumps
              env task_description (before ++ r :: after)
            = (GreenAgent.Crashed (AssertionError msg), l))
       /\
       (forall more o l',
          GreenAgent.ask_agent_to_solve Env env_step parse_tags json_loads json_dumps
            env task_description (before ++ more) = (o, l') ->
          GreenAgent.var_context_id Env l' = Some c)).
Proof.
  intros Env env_step parse_tags json_loads json_dumps env task before l Hrun.
  unfold GreenAgent.ask_agent_to_solve in *. split.
  - intros Hnone r l'. rewrite run_app, Hrun. simpl.
    destruct (GreenAgent.iteration Env env_step parse_tags json_loads json_dumps r l)
      as [[[|]|e] l1] eqn:It; try discriminate.
    intros H. injection H as <-.
    apply (iteration_sets_context _ _ _ _ _ _ _ _ _ Hnone It).
  - intros c Hc. split.
    + intros r after Hne. rewrite run_app, Hrun. simpl.
      destruct (iteration_rejects Env env_step parse_tags json_loads json_dumps
                  r l c Hc Hne) as [msg It].
      rewrite It. eauto.
    + intros more o l'. rewrite run_app, Hrun.
      apply (run_keeps_context _ _ _ _ _ _ _ _ _ _ Hc).
Qed.

Lemma C8_session_correlation_witness :
  (GreenAgent.var_context_id unit
     {| GreenAgent.var_context_id := Some "ctx-A"; GreenAgent.var_env := tt;
        GreenAgent.next_green_message := "observation";
        GreenAgent.stepped := [JStr "first"] |} = None ->
   forall r l',
     GreenAgent.ask_agent_to_solve unit Examples.echo_step Examples.tags_of
       Examples.loads Examples.dumps tt "task"
       ([Examples.reply (Some "ctx-A") "first"] ++ [r]) = (GreenAgent.AwaitingReply, l') ->
     Outcome.reply_context r = Some (GreenAgent.var_context_id unit l'))
  /\
  (forall c,
     GreenAgent.var_context_id unit
       {| GreenAgent.var_context_id := Some "ctx-A"; GreenAgent.var_env := tt;
          GreenAgent.next_green_message := "observation";
          GreenAgent.stepped := [JStr "first"] |} = Some c ->
     (forall r after, Outcome.reply_context r <> Some (Some c) ->
        exists msg,
          GreenAgent.ask_agent_to_solve unit Examples.echo_step Examples.tags_of
            Examples.loads Examples.dumps tt "task"
            ([Examples.reply (Some "ctx-A") "first"] ++ r :: after)
          = (GreenAgent.Crashed (AssertionError msg),
             {| GreenAgent.var_context_id := Some "ctx-A"; GreenAgent.var_env := tt;
                GreenAgent.next_green_message := "observation";
                GreenAgent.stepped := [JStr "first"] |}))
     /\
     (forall more o l',
        GreenAgent.ask_agent_to_solve unit Examples.echo_step Examples.tags_of
          Examples.loads Examples.dumps tt "task"
          ([Examples.reply (Some "ctx-A") "first"] ++ more) = (o, l') ->
        GreenAgent.var_context_id unit l' = Some c)).
Proof.
  apply (C8_session_correlation unit Examples.echo_step Examples.tags_of
           Examples.loads Examples.dumps tt "task"
           [Examples.reply (Some "ctx-A") "first"]).
  reflexivity.
Defined.

(** *** Which computations touch the database *)

Section FrameFacts.

Import Frame.

Context {S : Type}.

Lemma preserves_ret {A} (a : A) : preserves (ret a : M S A).
Proof. intros s. reflexivity. Qed.

Lemma preserves_raise {A} (e : exn) : preserves (raise e : M S A).
Proof. intros s. reflexivity. Qed.

Lemma preserves_gets {A} (f : S -> A) : preserves (gets f).
Proof. intros s. reflexivity. Qed.

Lemma preserves_lift {A} (r : result A) : preserves (lift r : M S A).
Proof. intros s. reflexivity. Qed.

Lemma preserves_bind {A B} (m : M S A) (k : A -> M S B) :
  preserves m -> (forall a, preserves (k a)) -> preserves (bind m k).
Proof.
  intros Hm Hk s. unfold bind. specialize (Hm s).
  destruct (m s) as [[a|e] s1]; simpl in Hm; subst s1; [apply Hk|reflexivity].
Qed.

Lemma preserves_try {A} (body handler : M S A) :
  preserves body -> preserves handler -> preserves (try_ValueError body handler).
Proof.
  intros Hb Hh s. unfold try_ValueError. specialize (Hb s).
  destruct (body s) as [[a|e] s1]; simpl in Hb; subst s1; [reflexivity|].
  destruct (is_ValueError e); [apply Hh|reflexivity].
Qed.

Lemma preserves_validate_literal (field : string) (allowed : list string) (v : string) :
  preserves (validate_literal field allowed v : M S unit).
Proof. unfold validate_literal. destruct (mem_str v allowed); intros s; reflexivity. Qed.

Lemma atomic_of_preserves {A} (P : exn -> Prop) (m : M S A) :
  preserves m -> atomic P m.
Proof. intros H s e s' E _. specialize (H s). rewrite E in H. exact H. Qed.

Lemma atomic_of_never_raises {A} (P : exn -> Prop) (m : M S A) :
  never_raises P m -> atomic P m.
Proof. intros H s e s' E Pe. destruct (H s e s' E Pe). Qed.

(** The precondition phase: a step that leaves the database alone,
    followed by a body that is all-or-nothing. *)
Lemma atomic_bind {A B} (P : exn -> Prop) (m : M S A) (k : A -> M S B) :
  preserves m -> (forall a, atomic P (k a)) -> atomic P (bind m k).
Proof.
  intros Hm Hk s e s'. unfold bind. specialize (Hm s).
  destruct (m s) as [[a|e1] s1]; simpl in Hm; subst s1.
  - apply Hk.
  - intros H _. injection H as _ <-. reflexivity.
Qed.

(** An all-or-nothing body followed by steps that raise nothing of the
    kind. *)
Lemma atomic_then {A B} (P : exn -> Prop) (m : M S A) (k : A -> M S B) :
  atomic P m -> (forall a, never_raises P (k a)) -> atomic P (bind m k).
Proof.
  intros Hm Hk s e s'. unfold bind.
  destruct (m s) as [[a|e1] s1] eqn:E.
  - intros H Pe. destruct (Hk a s1 e s' H Pe).
  - intros H Pe. injection H as <- <-. apply (Hm _ _ _ E Pe).
Qed.

Lemma never_raises_ret {A} (P : exn -> Prop) (a : A) : never_raises P (ret a : M S A).
Proof. intros s e s' H. discriminate. Qed.

Lemma never_raises_gets {A} (P : exn -> Prop) (f : S -> A) : never_raises P (gets f).
Proof. intros s e s' H. discriminate. Qed.

Lemma never_raises_modify (P : exn -> Prop) (f : S -> S) : never_raises P (modify f).
Proof. intros s e s' H. discriminate. Qed.

Lemma never_raises_raise {A} (P : exn -> Prop) (e : exn) :
  ~ P e -> never_raises P (raise e : M S A).
Proof. intros N s e' s' H. injection H as <- _. exact N. Qed.

Lemma never_raises_bind {A B} (P : exn -> Prop) (m : M S A) (k : A -> M S B) :
  never_raises P m -> (forall a, never_raises P (k a)) -> never_raises P (bind m k).
Proof.
  intros Hm Hk s e s'. unfold bind.
  destruct (m s) as [[a|e1] s1] eqn:E.
  - apply Hk.
  - intros H. injection H as <- _. apply (Hm _ _ _ E).
Qed.

(** A refused literal is a [ValidationError], never a [ValueError] raised
    by the tool itself. *)
Lemma never_raises_validate_literal (field : string) (allowed : list string) (v : string) :
  never_raises raised_ValueError (validate_literal field allowed v : M S unit).
Proof.
  unfold validate_literal. destruct (mem_str v allowed).
  - apply never_raises_ret.
  - apply never_raises_raise. intros [msg H]. discriminate.
Qed.

End FrameFacts.

Ltac split_head :=
  match goal with
  | |- _ (if ?b then _ else _) => destruct b eqn:?
  | |- _ (match ?x with Some _ => _ | None => _ end) => destruct x eqn:?
  | |- _ (let (_, _) := ?x in _) => destruct x
  | |- _ _ (if ?b then _ else _) => destruct b eqn:?
  | |- _ _ (match ?x with Some _ => _ | None => _ end) => destruct x eqn:?
  | |- _ _ (let (_, _) := ?x in _) => destruct x
  end.

Create HintDb frame discriminated.
#[export] Hint Resolve preserves_ret preserves_raise preserves_gets preserves_lift
  preserves_validate_literal never_raises_ret never_raises_gets never_raises_modify
  never_raises_validate_literal : frame.

Ltac preserves_tac :=
  repeat first
    [ solve [auto with frame]
    | apply preserves_bind; [|intros ?]
    | apply preserves_try
    | split_head ].

Ltac never_raises_tac :=
  repeat first
    [ solve [auto with frame]
    | apply never_raises_bind; [|intros ?]
    | apply never_raises_raise; solve [intros [? ?]; discriminate | intros ?; discriminate]
    | split_head ].

Ltac atomic_tac :=
  repeat first
    [ apply atomic_of_preserves; solve [preserves_tac]
    | apply atomic_bind; [solve [preserves_tac]|intros ?]
    | split_head
    | apply atomic_of_never_raises; solve [never_raises_tac] ].

Module BankFacts.
Import Bank Frame.

Section Tools.

Variable now : string.
Variable py_calc : string -> result string.
Variable json_dumps_sorted : json -> string.

Lemma preserves__get_client k : preserves (_get_client k).
Proof. intros db. unfold _get_client. destruct (dict_get k (clients db)); reflexivity. Qed.

Lemma preserves__get_account_by_id k : preserves (_get_account_by_id k).
Proof.
  intros db. unfold _get_account_by_id. destruct (find_account k (clients db)); reflexivity.
Qed.

Lemma preserves__get_card_by_id k : preserves (_get_card_by_id k).
Proof.
  intros db. unfold _get_card_by_id. destruct (find_card k (clients db)); reflexivity.
Qed.

Lemma preserves__get_loan k : preserves (_get_loan k).
Proof. intros db. unfold _get_loan. destruct (dict_get k (loans db)); reflexivity. Qed.

Lemma preserves__get_beneficiary k : preserves (_get_beneficiary k).
Proof.
  intros db. unfold _get_beneficiary. destruct (dict_get k (beneficiaries db)); reflexivity.
Qed.

Lemma preserves_find_client_id_by_email e : preserves (find_client_id_by_email e).
Proof.
  intros db. unfold find_client_id_by_email.
  destruct (first_with_email e (clients db)); reflexivity.
Qed.

Lemma preserves_account_at c a : preserves (account_at c a).
Proof.
  intros db. unfold account_at. destruct (dict_get c (clients db)) as [cl|]; [|reflexivity].
  destruct (dict_get a (accounts cl)); reflexivity.
Qed.

Lemma preserves_getitem {V} (d : dict V) k : preserves (getitem d k).
Proof. unfold getitem. destruct (dict_get k d); auto with frame. Qed.

Lemma preserves__now : preserves (_now now).
Proof. unfold _now. auto with frame. Qed.

Lemma preserves__generate_transaction_id : preserves _generate_transaction_id.
Proof. unfold _generate_transaction_id. auto with frame. Qed.

Hint Resolve preserves__get_client preserves__get_account_by_id
  preserves__get_card_by_id preserves__get_loan preserves__get_beneficiary
  preserves_find_client_id_by_email preserves_account_at preserves_getitem
  preserves__now preserves__generate_transaction_id : frame.

Lemma preserves__get_account c a : preserves (_get_account c a).
Proof. unfold _get_account. preserves_tac. Qed.

Lemma preserves__assert_account_active a : preserves (_assert_account_active a).
Proof. unfold _assert_account_active. preserves_tac. Qed.

Lemma preserves__assert_card_active_or_blocked c :
  preserves (_assert_card_active_or_blocked c).
Proof. unfold _assert_card_active_or_blocked. preserves_tac. Qed.

Lemma preserves__assert_beneficiary_owned_by_client c b :
  preserves (_assert_beneficiary_owned_by_client c b).
Proof. unfold _assert_beneficiary_owned_by_client. preserves_tac. Qed.

Lemma preserves_new_Transaction t : preserves (new_Transaction t).
Proof. unfold new_Transaction. preserves_tac. Qed.

Lemma preserves_new_BeneficiaryVerification v : preserves (new_BeneficiaryVerification v).
Proof. unfold new_BeneficiaryVerification. preserves_tac. Qed.

Lemma preserves_new_Beneficiary b : preserves (new_Beneficiary b).
Proof. unfold new_Beneficiary. preserves_tac. Qed.

Hint Resolve preserves__get_account preserves__assert_account_active
  preserves__assert_card_active_or_blocked
  preserves__assert_beneficiary_owned_by_client preserves_new_Transaction
  preserves_new_BeneficiaryVerification preserves_new_Beneficiary : frame.

(** A READ or GENERIC call hands the database back as it got it, whether
    it returns or raises. *)
Lemma read_generic_preserves (c : Call) :
  tool_type c <> WRITE -> preserves (use_tool now py_calc json_dumps_sorted c).
Proof.
  destruct c; cbn [tool_type]; intros H; try contradiction; clear H;
    unfold use_tool, returning, calculate, transfer_to_human_agents,
      get_client_details, get_account_details, get_card_details, get_loan_details,
      get_beneficiary_details, list_client_accounts, list_client_beneficiaries,
      get_recent_transactions, search_transactions;
    preserves_tac.
Qed.

(** After the first assignment: what the rest of a WRITE method can
    still raise. *)

Lemma never_raises_account_at P c a :
  ~ P (KeyError c) -> ~ P (KeyError a) -> never_raises P (account_at c a).
Proof.
  intros Nc Na db e db'. unfold account_at.
  destruct (dict_get c (clients db)) as [cl|].
  - destruct (dict_get a (accounts cl)); intros H; [discriminate|].
    injection H as <- _. exact Na.
  - intros H. injection H as <- _. exact Nc.
Qed.

Lemma never_raises_debit P x c a : never_raises P (debit x c a).
Proof. unfold debit. never_raises_tac. Qed.

Lemma never_raises_credit P x c a : never_raises P (credit x c a).
Proof. unfold credit. never_raises_tac. Qed.

Lemma never_raises__now P : never_raises P (_now now).
Proof. unfold _now. never_raises_tac. Qed.

Lemma never_raises__generate_transaction_id P : never_raises P _generate_transaction_id.
Proof. unfold _generate_transaction_id. never_raises_tac. Qed.

Lemma never_raised_new_Transaction t : never_raises raised_ValueError (new_Transaction t).
Proof. unfold new_Transaction. never_raises_tac. Qed.

Lemma never_raised_new_LoanRepaymentHistoryEntry e :
  never_raises raised_ValueError (new_LoanRepaymentHistoryEntry e).
Proof. unfold new_LoanRepaymentHistoryEntry. never_raises_tac. Qed.

Lemma KeyError_not_raised k : ~ raised_ValueError (KeyError k).
Proof. intros [msg H]. discriminate. Qed.

Lemma KeyError_not_caught k : ~ caught_as_ValueError (KeyError k).
Proof. intros H. discriminate. Qed.

Hint Resolve never_raises_account_at never_raises_debit never_raises_credit
  never_raises__now never_raises__generate_transaction_id
  never_raised_new_Transaction never_raised_new_LoanRepaymentHistoryEntry
  KeyError_not_raised KeyError_not_caught : frame.

(** A [Transaction] whose four literals are in range is accepted. *)
Lemma new_Transaction_accepts t :
  mem_str (tx_type t) TransactionType_literals = true ->
  mem_str (direction t) TransactionDirection_literals = true ->
  mem_str (method t) TransactionMethod_literals = true ->
  mem_str (tx_status t) TransactionStatus_literals = true ->
  new_Transaction t = ret t.
Proof.
  intros H1 H2 H3 H4. unfold new_Transaction, validate_literal.
  rewrite H1, H2, H3, H4. reflexivity.
Qed.

Lemma never_caught_new_Transaction t :
  mem_str (tx_type t) TransactionType_literals = true ->
  mem_str (direction t) TransactionDirection_literals = true ->
  mem_str (method t) TransactionMethod_literals = true ->
  mem_str (tx_status t) TransactionStatus_literals = true ->
  never_raises caught_as_ValueError (new_Transaction t).
Proof.
  intros H1 H2 H3 H4. rewrite (new_Transaction_accepts t H1 H2 H3 H4).
  apply never_raises_ret.
Qed.

(** Every [raise ValueError(...)] statement of every tool of the bank
    toolkit comes before the first assignment. *)
Lemma tools_atomic_on_raised_ValueError (c : Call) :
  atomic raised_ValueError (use_tool now py_calc json_dumps_sorted c).
Proof.
  destruct c;
    unfold use_tool, returning, calculate, transfer_to_human_agents,
      get_client_details, get_account_details, get_card_details, get_loan_details,
      get_beneficiary_details, list_client_accounts, list_client_beneficiaries,
      get_recent_transactions, search_transactions, initiate_internal_transfer,
      add_beneficiary, verify_beneficiary, initiate_transfer_to_beneficiary,
      freeze_card, unfreeze_card, freeze_account, unfreeze_account, make_loan_payment;
    (apply atomic_then; [|intros ?; solve [never_raises_tac]]);
    atomic_tac.
Qed.

(** [initiate_internal_transfer] is all-or-nothing for everything an
    [except ValueError] catches: the transactions it builds carry literals
    of its own. *)
Lemma initiate_internal_transfer_atomic c f t x d :
  atomic caught_as_ValueError (initiate_internal_transfer now c f t x d).
Proof.
  unfold initiate_internal_transfer.
  repeat first
    [ apply atomic_bind; [solve [preserves_tac]|intros ?]
    | split_head ];
    try (apply atomic_of_preserves; solve [preserves_tac]).
  apply atomic_of_never_raises.
  repeat first
    [ solve [auto with frame]
    | apply never_caught_new_Transaction; reflexivity
    | apply never_raises_bind; [|intros ?] ].
Qed.

End Tools.

End BankFacts.

(** *** Bank: the internal transfer *)

Module TransferFacts.
Import Bank.

Lemma lookup_upd_same cid aid f db :
  Outcome.lookup_account cid aid (upd_account cid aid f db)
  = option_map f (Outcome.lookup_account cid aid db).
Proof.
  unfold Outcome.lookup_account, upd_account. simpl.
  rewrite dict_get_update_same.
  destruct (dict_get cid (clients db)) as [c|]; simpl; [|reflexivity].
  apply dict_get_update_same.
Qed.

Lemma lookup_upd_other cid aid aid' f db :
  aid <> aid' ->
  Outcome.lookup_account cid aid (upd_account cid aid' f db)
  = Outcome.lookup_account cid aid db.
Proof.
  intros N. unfold Outcome.lookup_account, upd_account. simpl.
  rewrite dict_get_update_same.
  destruct (dict_get cid (clients db)) as [c|]; simpl; [|reflexivity].
  apply dict_get_update_other, N.
Qed.

Lemma account_at_lookup cid aid db a :
  Outcome.lookup_account cid aid db = Some a -> account_at cid aid db = (Ok a, db).
Proof.
  unfold Outcome.lookup_account, account_at.
  destruct (dict_get cid (clients db)); [|discriminate].
  intros ->. reflexivity.
Qed.

Lemma transactions_moved x cid from to db :
  transactions (Outcome.moved x cid from to db) = transactions db.
Proof. reflexivity. Qed.

(** The balances after the four assignments, the two accounts being
    different objects. *)
Lemma moved_distinct x cid from to db fa ta :
  from <> to ->
  Outcome.lookup_account cid from db = Some fa ->
  Outcome.lookup_account cid to db = Some ta ->
  Outcome.lookup_account cid from (Outcome.moved x cid from to db)
  = Some (set_acc_balance
            (fun b => {| current := round2 (current b - x)%float;
                         available := round2 (available b - x)%float;
                         on_hold := on_hold b |}) fa)
  /\
  Outcome.lookup_account cid to (Outcome.moved x cid from to db)
  = Some (set_acc_balance
            (fun b => {| current := round2 (current b + x)%float;
                         available := round2 (available b + x)%float;
                         on_hold := on_hold b |}) ta).
Proof.
  intros N Hf Ht. unfold Outcome.moved. split.
  - rewrite !(lookup_upd_other cid from to) by exact N.
    rewrite !lookup_upd_same, Hf. reflexivity.
  - rewrite !lookup_upd_same.
    rewrite !(lookup_upd_other cid to from) by congruence.
    rewrite Ht. reflexivity.
Qed.

(** The same when both names denote one account object: the credit reads
    the balances the debit has just written. *)
Lemma moved_same x cid aid db a :
  Outcome.lookup_account cid aid db = Some a ->
  Outcome.lookup_account cid aid (Outcome.moved x cid aid aid db)
  = Some (set_acc_balance
            (fun b => {| current := round2 (round2 (current b - x) + x)%float;
                         available := round2 (round2 (available b - x) + x)%float;
                         on_hold := on_hold b |}) a).
Proof.
  intros H. unfold Outcome.moved. rewrite !lookup_upd_same, H. reflexivity.
Qed.

Section Run.

Variable now : string.

(** The run of a transfer whose preconditions hold. *)
Lemma transfer_run cid from to x desc db client fa ta fa' ta' :
  (x <=? 0)%float = false ->
  dict_get cid (clients db) = Some client ->
  dict_get from (accounts client) = Some fa ->
  dict_get to (accounts client) = Some ta ->
  acc_status fa = "active" ->
  acc_status ta = "active" ->
  acc_type fa <> "credit" ->
  acc_currency fa = acc_currency ta ->
  (available (acc_balance fa) <? x)%float = false ->
  Outcome.lookup_account cid from (Outcome.moved x cid from to db) = Some fa' ->
  Outcome.lookup_account cid to (Outcome.moved x cid from to db) = Some ta' ->
  let id := Outcome.next_transaction_id db in
  let tx_out := Outcome.transfer_debit now cid from to x desc (acc_currency fa) id id
                  (current (acc_balance fa')) in
  let tx_in := Outcome.transfer_credit now cid from to x desc (acc_currency fa) id id
                 (current (acc_balance ta')) in
  initiate_internal_transfer now cid from to x desc db
  = (Ok [tx_out; tx_in],
     set_transactions (dict_set id tx_in)
       (set_transactions (dict_set id tx_out) (Outcome.moved x cid from to db))).
Proof.
  intros Hx Hc Hf Ht Haf Hat Hty Hcur Hbal Hfa' Hta' id tx_out tx_in.
  unfold initiate_internal_transfer. rewrite Hx.
  unfold bind at 1. unfold _get_client at 1. rewrite Hc.
  rewrite (dict_mem_get _ _ _ Hf), (dict_mem_get _ _ _ Ht). cbn [negb orb].
  unfold bind at 1. unfold getitem at 1. rewrite Hf. cbn [ret].
  unfold bind at 1. unfold getitem at 1. rewrite Ht. cbn [ret].
  unfold _assert_account_active. rewrite Haf, Hat, !String.eqb_refl. cbn [negb].
  unfold bind at 1. cbn [ret]. unfold bind at 1. cbn [ret].
  apply String.eqb_neq in Hty. rewrite Hty.
  rewrite Hcur, String.eqb_refl. cbn [negb]. rewrite Hbal.
  unfold bind at 1. unfold _now at 1. cbn [ret].
  unfold bind at 1. unfold debit at 1. unfold bind at 1. cbn [modify].
  unfold bind at 1. unfold credit at 1. unfold bind at 1. cbn [modify].
  fold (Outcome.moved x cid from to db).
  unfold bind at 1. unfold _generate_transaction_id at 1. cbn [gets].
  rewrite transactions_moved. fold (Outcome.next_transaction_id db). fold id.
  unfold bind at 1. rewrite (account_at_lookup _ _ _ _ Hfa').
  unfold bind at 1. rewrite BankFacts.new_Transaction_accepts by reflexivity. cbn [ret].
  unfold bind at 1. unfold _generate_transaction_id at 1. cbn [gets].
  rewrite transactions_moved. fold (Outcome.next_transaction_id db). fold id.
  unfold bind at 1. rewrite (account_at_lookup _ _ _ _ Hta').
  unfold bind at 1. rewrite BankFacts.new_Transaction_accepts by reflexivity. cbn [ret].
  unfold bind, modify, ret. rewrite <- Hcur. reflexivity.
Qed.

End Run.

End TransferFacts.

(** *** Bank: atomicity, identifiers and transfers *)

(** C1, where the code departs from it.  [initiate_transfer_to_beneficiary]
    called with a [method] that is not one of the [TransactionMethod]
    literals debits the source account and only then fails, when the
    [Transaction] is built: the exception is a [ValueError] for any handler
    and the database has changed (450.00 where there were 500.00, no
    transaction recorded).  [make_loan_payment] does the same. *)
Lemma C1_write_after_validation_failure :
  (exists msg db',
      Bank.initiate_transfer_to_beneficiary Examples.clock
        "client_0001" "acc_0001" "bnf_0001" 50%float "Zelle" None Examples.bank_db
      = (Raise (ValidationError msg), db') /\
      is_ValueError (ValidationError msg) = true /\
      Examples.balance_of Examples.bank_db "client_0001" "acc_0001"
        = Some (Examples.balance 500%float) /\
      Examples.balance_of db' "client_0001" "acc_0001"
        = Some (Examples.balance 450%float) /\
      Bank.transactions db' = [])
  /\
  (exists msg db',
      Bank.make_loan_payment Examples.clock
        "client_0001" "loan_0001" "acc_0001" 50%float "Cash" None Examples.bank_db
      = (Raise (ValidationError msg), db') /\
      is_ValueError (ValidationError msg) = true /\
      Examples.balance_of db' "client_0001" "acc_0001"
        = Some (Examples.balance 450%float) /\
      Bank.transactions db' = [] /\
      option_map Bank.repayment_history (dict_get "loan_0001" (Bank.loans db')) = Some []).
Proof.
  split; eexists; eexists; (split; [vm_compute; reflexivity|]); repeat split; reflexivity.
Qed.

(** X14.  What does hold of the bank's WRITE tools (and of every other tool of
    the toolkit): a [ValueError] raised by one of their own [raise]
    statements leaves the database as it was. *)
Lemma bank_tools_atomic_on_own_errors :
  forall (now : string) (py_calc : string -> result string)
         (json_dumps_sorted : json -> string) (c : Bank.Call)
         (db db' : Bank.BankDB) (msg : string),
    Bank.use_tool now py_calc json_dumps_sorted c db = (Raise (ValueError msg), db') ->
    db' = db.
Proof.
  intros now py_calc dumps c db db' msg H.
  apply (BankFacts.tools_atomic_on_raised_ValueError now py_calc dumps c db _ _ H).
  exists msg. reflexivity.
Qed.

(** X15.  And [initiate_internal_transfer] is all-or-nothing for every
    [ValueError], pydantic's included. *)
Lemma initiate_internal_transfer_all_or_nothing :
  forall (now client_id from_account_id to_account_id : string) (amount : float)
         (description : option string) (db db' : Bank.BankDB) (e : exn),
    Bank.initiate_internal_transfer now client_id from_account_id to_account_id
      amount description db = (Raise e, db') ->
    is_ValueError e = true ->
    db' = db.
Proof.
  intros now c f t x d db db' e H He.
  apply (BankFacts.initiate_internal_transfer_atomic now c f t x d db e db' H He).
Qed.

(** C4, where the code departs from it.  [_generate_transaction_id]
    numbers from the size of [db.transactions]: the two identifiers one
    internal transfer draws are the same, so the credit overwrites the debit
    under ["tx_0000001"]; and on a database whose one transaction is
    ["tx_0000002"] the identifier returned is ["tx_0000002"] again. *)
Lemma C4_transaction_id_collisions :
  (exists tx_out tx_in db',
      Bank.initiate_internal_transfer Examples.clock
        "client_0001" "acc_0001" "acc_0002" 100%float None Examples.bank_db
      = (Ok [tx_out; tx_in], db') /\
      Bank.transaction_id tx_out = "tx_0000001" /\
      Bank.transaction_id tx_in = "tx_0000001" /\
      Bank.direction tx_out = "debit" /\
      Bank.direction tx_in = "credit" /\
      Bank.transactions db' = [("tx_0000001", tx_in)])
  /\
  Bank._generate_transaction_id Examples.bank_db_with_history
    = (Ok "tx_0000002", Examples.bank_db_with_history)
  /\
  dict_get "tx_0000002" (Bank.transactions Examples.bank_db_with_history)
    = Some Examples.old_transaction.
Proof.
  split; [|split; reflexivity].
  eexists. eexists. eexists. split; [vm_compute; reflexivity|].
  repeat split; reflexivity.
Qed.

(** X7.  The travel side of C4 holds: an identifier [_get_new_booking_id]
    returns is one of the three candidates, borne by no booking of any
    traveler, and the database is untouched. *)
Lemma travel_new_booking_id_is_free :
  forall (db db' : Travel.TravelAgencyDB) (id : string),
    Travel._get_new_booking_id db = (Ok id, db') ->
    db' = db /\
    In id ["TAU001"; "TAU002"; "TAU003"] /\
    Travel.find_booking id (Travel.travelers db) = None.
Proof.
  intros db db' id.
  unfold Travel._get_new_booking_id, Travel.first_free_id, try_ValueError, bind,
    Travel._get_booking, raise, ret.
  destruct (Travel.find_booking "TAU001" (Travel.travelers db)) eqn:E1;
    cbn [is_ValueError];
    [|intros H; injection H as <- <-; simpl; auto 6].
  destruct (Travel.find_booking "TAU002" (Travel.travelers db)) eqn:E2;
    cbn [is_ValueError];
    [|intros H; injection H as <- <-; simpl; auto 6].
  destruct (Travel.find_booking "TAU003" (Travel.travelers db)) eqn:E3;
    cbn [is_ValueError];
    [|intros H; injection H as <- <-; simpl; auto 6].
  discriminate.
Qed.

(** C5, as stated, fails: 100.00 moved from the checking account (500.00
    available) to the savings account of the same client, both active and in
    USD; the two transactions returned both carry the amount +100.00, none
    carries -100.00. *)
Lemma C5_amounts_counterexample :
  exists tx_out tx_in db',
    Bank.initiate_internal_transfer Examples.clock
      "client_0001" "acc_0001" "acc_0002" 100%float None Examples.bank_db
    = (Ok [tx_out; tx_in], db') /\
    Bank.amount tx_out = 100%float /\
    Bank.amount tx_in = 100%float /\
    (100 =? -100)%float = false.
Proof.
  eexists. eexists. eexists. split; [vm_compute; reflexivity|].
  repeat split; reflexivity.
Qed.

(** C5, amended.  For a client owning two distinct active accounts of one
    currency, the source not of type credit and with at least 100.00
    available, [initiate_internal_transfer] of 100.00 succeeds and returns
    exactly two posted transactions: a debit on the source and a credit on
    the destination, both of amount +100.00 (the direction carries the
    sign), each one's [related_transaction_id] being the other's
    [transaction_id]. *)
Theorem C5_internal_transfer_of_100 :
  forall (now client_id from_account_id to_account_id : string)
         (description : option string) (db : Bank.BankDB)
         (client : Bank.Client) (from_acc to_acc : Bank.Account),
    dict_get client_id (Bank.clients db) = Some client ->
    dict_get from_account_id (Bank.accounts client) = Some from_acc ->
    dict_get to_account_id (Bank.accounts client) = Some to_acc ->
    from_account_id <> to_account_id ->
    Bank.acc_status from_acc = "active" ->
    Bank.acc_status to_acc = "active" ->
    Bank.acc_type from_acc <> "credit" ->
    Bank.acc_currency from_acc = Bank.acc_currency to_acc ->
    (100 <=? Bank.available (Bank.acc_balance from_acc))%float = true ->
    exists tx_out tx_in db',
      Bank.initiate_internal_transfer now client_id from_account_id to_account_id
        100%float description db = (Ok [tx_out; tx_in], db') /\
      Bank.tx_status tx_out = "posted" /\
      Bank.tx_status tx_in = "posted" /\
      Bank.direction tx_out = "debit" /\
      Bank.tx_account_id tx_out = from_account_id /\
      Bank.direction tx_in = "credit" /\
      Bank.tx_account_id tx_in = to_account_id /\
      Bank.amount tx_out = 100%float /\
      Bank.amount tx_in = 100%float /\
      Bank.related_transaction_id tx_out = Some (Bank.transaction_id tx_in) /\
      Bank.related_transaction_id tx_in = Some (Bank.transaction_id tx_out).
Proof.
  intros now cid from to desc db client fa ta Hc Hf Ht Hne Haf Hat Hty Hcur Hbal.
  assert (Lf : Outcome.lookup_account cid from db = Some fa)
    by (unfold Outcome.lookup_account; rewrite Hc; exact Hf).
  assert (Lt : Outcome.lookup_account cid to db = Some ta)
    by (unfold Outcome.lookup_account; rewrite Hc; exact Ht).
  destruct (TransferFacts.moved_distinct 100%float cid from to db fa ta Hne Lf Lt)
    as [Lf' Lt'].
  eexists. eexists. eexists. split.
  - apply (TransferFacts.transfer_run now cid from to 100%float desc db client fa ta
             _ _ eq_refl Hc Hf Ht Haf Hat Hty Hcur
             (leb_true_ltb_false _ _ Hbal) Lf' Lt').
  - repeat split; reflexivity.
Qed.

Lemma C5_internal_transfer_of_100_witness :
  exists tx_out tx_in db',
    Bank.initiate_internal_transfer Examples.clock
      "client_0001" "acc_0001" "acc_0002" 100%float None Examples.bank_db
    = (Ok [tx_out; tx_in], db') /\
    Bank.tx_status tx_out = "posted" /\
    Bank.tx_status tx_in = "posted" /\
    Bank.direction tx_out = "debit" /\
    Bank.tx_account_id tx_out = "acc_0001" /\
    Bank.direction tx_in = "credit" /\
    Bank.tx_account_id tx_in = "acc_0002" /\
    Bank.amount tx_out = 100%float /\
    Bank.amount tx_in = 100%float /\
    Bank.related_transaction_id tx_out = Some (Bank.transaction_id tx_in) /\
    Bank.related_transaction_id tx_in = Some (Bank.transaction_id tx_out).
Proof.
  apply (C5_internal_transfer_of_100 Examples.clock
           "client_0001" "acc_0001" "acc_0002" None Examples.bank_db
           (Examples.client [("acc_0001", Examples.account "acc_0001" "checking" 500%float);
                             ("acc_0002", Examples.account "acc_0002" "savings" 50%float)])
           (Examples.account "acc_0001" "checking" 500%float)
           (Examples.account "acc_0002" "savings" 50%float));
    try reflexivity; discriminate.
Defined.

(** C9, as stated, fails: a transfer of 0.125 from the account holding
    0.50 to itself returns normally, and the account then holds 0.51 (the
    double nearest to 51/100), on both balances. *)
Lemma C9_self_transfer_counterexample :
  exists tx_out tx_in db',
    Bank.initiate_internal_transfer Examples.clock
      "client_0001" "acc_0001" "acc_0001" 0.125%float None Examples.small_bank_db
    = (Ok [tx_out; tx_in], db') /\
    Examples.balance_of Examples.small_bank_db "client_0001" "acc_0001"
      = Some (Examples.balance 0.5%float) /\
    Examples.balance_of db' "client_0001" "acc_0001"
      = Some (Examples.balance (51 / 100)%float) /\
    (51 / 100 =? 0.5)%float = false.
Proof.
  eexists. eexists. eexists. split; [vm_compute; reflexivity|].
  repeat split; reflexivity.
Qed.

(** C9, amended.  For a client with an active account that is not of type
    credit and whose available balance is at least [amount], [amount]
    positive, [initiate_internal_transfer] from the account to itself
    succeeds; the credit reads what the debit wrote, so each balance [b]
    becomes [round(round(b - amount, 2) + amount, 2)]; the call returns two
    posted transactions on the account, a debit and a credit, both with
    [balance_after] equal to the current balance after the call. *)
Theorem C9_self_transfer :
  forall (now client_id account_id : string) (amount : float)
         (description : option string) (db : Bank.BankDB)
         (client : Bank.Client) (acc : Bank.Account),
    dict_get client_id (Bank.clients db) = Some client ->
    dict_get account_id (Bank.accounts client) = Some acc ->
    Bank.acc_status acc = "active" ->
    Bank.acc_type acc <> "credit" ->
    (amount <=? Bank.available (Bank.acc_balance acc))%float = true ->
    (0 <? amount)%float = true ->
    exists tx_out tx_in db' acc',
      Bank.initiate_internal_transfer now client_id account_id account_id
        amount description db = (Ok [tx_out; tx_in], db') /\
      Outcome.lookup_account client_id account_id db' = Some acc' /\
      Bank.available (Bank.acc_balance acc')
        = round2 (round2 (Bank.available (Bank.acc_balance acc) - amount) + amount)%float /\
      Bank.current (Bank.acc_balance acc')
        = round2 (round2 (Bank.current (Bank.acc_balance acc) - amount) + amount)%float /\
      Bank.tx_status tx_out = "posted" /\
      Bank.tx_status tx_in = "posted" /\
      Bank.direction tx_out = "debit" /\
      Bank.direction tx_in = "credit" /\
      Bank.tx_account_id tx_out = account_id /\
      Bank.tx_account_id tx_in = account_id /\
      Bank.balance_after tx_out = Some (Bank.current (Bank.acc_balance acc')) /\
      Bank.balance_after tx_in = Some (Bank.current (Bank.acc_balance acc')).
Proof.
  intros now cid aid x desc db client a Hc Ha Hact Hty Hbal Hpos.
  assert (L : Outcome.lookup_account cid aid db = Some a)
    by (unfold Outcome.lookup_account; rewrite Hc; exact Ha).
  pose proof (TransferFacts.moved_same x cid aid db a L) as L'.
  eexists. eexists. eexists. eexists. split.
  - apply (TransferFacts.transfer_run now cid aid aid x desc db client a a
             _ _ (ltb_true_leb_false _ _ Hpos) Hc Ha Ha Hact Hact Hty eq_refl
             (leb_true_ltb_false _ _ Hbal) L' L').
  - split; [exact L'|]. repeat split; reflexivity.
Qed.

Lemma C9_self_transfer_witness :
  exists tx_out tx_in db' acc',
    Bank.initiate_internal_transfer Examples.clock
      "client_0001" "acc_0001" "acc_0001" 100%float None Examples.bank_db
    = (Ok [tx_out; tx_in], db') /\
    Outcome.lookup_account "client_0001" "acc_0001" db' = Some acc' /\
    Bank.available (Bank.acc_balance acc')
      = round2 (round2 (500 - 100) + 100)%float /\
    Bank.current (Bank.acc_balance acc')
      = round2 (round2 (500 - 100) + 100)%float /\
    Bank.tx_status tx_out = "posted" /\
    Bank.tx_status tx_in = "posted" /\
    Bank.direction tx_out = "debit" /\
    Bank.direction tx_in = "credit" /\
    Bank.tx_account_id tx_out = "acc_0001" /\
    Bank.tx_account_id tx_in = "acc_0001" /\
    Bank.balance_after tx_out = Some (Bank.current (Bank.acc_balance acc')) /\
    Bank.balance_after tx_in = Some (Bank.current (Bank.acc_balance acc')).
Proof.
  apply (C9_self_transfer Examples.clock "client_0001" "acc_0001" 100%float None
           Examples.bank_db
           (Examples.client [("acc_0001", Examples.account "acc_0001" "checking" 500%float);
                             ("acc_0002", Examples.account "acc_0002" "savings" 50%float)])
           (Examples.account "acc_0001" "checking" 500%float));
    try reflexivity; discriminate.
Defined.

(** *** READ and GENERIC tools *)

Module TravelFrame.
Import Travel Frame.

Lemma preserves__get_traveler k : preserves (_get_traveler k).
Proof. intros db. unfold _get_traveler. destruct (dict_get k (travelers db)); reflexivity. Qed.

Lemma preserves__get_agent k : preserves (_get_agent k).
Proof. intros db. unfold _get_agent. destruct (dict_get k (agents db)); reflexivity. Qed.

Lemma preserves__get_package k : preserves (_get_package k).
Proof. intros db. unfold _get_package. destruct (dict_get k (packages db)); reflexivity. Qed.

Lemma preserves__get_booking k : preserves (_get_booking k).
Proof.
  intros db. unfold _get_booking. destruct (find_booking k (travelers db)); reflexivity.
Qed.

#[local] Hint Resolve preserves__get_traveler preserves__get_agent
  preserves__get_package preserves__get_booking : frame.

(** Looking for a free booking id only reads. *)
Lemma preserves_first_free_id (candidates : list string) :
  preserves (first_free_id candidates).
Proof. induction candidates as [|c cs IH]; simpl; preserves_tac. Qed.

Lemma travel_read_generic_preserves (py_calc : string -> result string) (c : Call) :
  tool_type c <> WRITE -> preserves (use_tool py_calc c).
Proof.
  destruct c; cbn [tool_type]; intros H; try contradiction; clear H;
    unfold use_tool, returning, get_traveler_details, get_agent_details,
      get_package_details, get_booking_details, search_packages,
      list_all_destinations, transfer_to_human_agents, calculate;
    preserves_tac.
Qed.

End TravelFrame.


(** *** Railway: booking *)

Module RailwayBooking.

Import Railway Frame.

Section Booking.

Variable py_sum : list float -> float.
Variable str_of_float : float -> string.
Variable str_of_payments : list RailPayment -> string.

Lemma preserves__get_user (user_id : string) : preserves (_get_user user_id).
Proof. intros db. unfold _get_user. destruct (dict_get _ _); reflexivity. Qed.

Lemma preserves__get_train (train_number : string) : preserves (_get_train train_number).
Proof. intros db. unfold _get_train. destruct (dict_get _ _); reflexivity. Qed.

Lemma preserves_as_float (n : Z) : preserves (as_float n).
Proof. unfold as_float. preserves_tac. Qed.

Lemma preserves_as_int (x : float) : preserves (as_int x).
Proof. unfold as_int. preserves_tac. Qed.

Lemma preserves__compute_segment_price (train : Train) (travel_class : string) :
  preserves (_compute_segment_price train travel_class).
Proof. unfold _compute_segment_price. preserves_tac. Qed.

Lemma preserves__coach_for_class (travel_class : string) :
  preserves (_coach_for_class travel_class).
Proof.
  unfold _coach_for_class.
  destruct (TravelClass_of travel_class) as [[]|]; auto with frame.
Qed.

#[local] Hint Resolve preserves__get_user preserves__get_train preserves_as_float
  preserves_as_int preserves__compute_segment_price preserves__coach_for_class : frame.

Lemma preserves__get_train_instance (train_number date : string) :
  preserves (_get_train_instance train_number date).
Proof. unfold _get_train_instance. preserves_tac. Qed.

Lemma preserves__get_new_reservation_id : preserves _get_new_reservation_id.
Proof. unfold _get_new_reservation_id. preserves_tac. Qed.

Lemma preserves__get_new_pnr : preserves _get_new_pnr.
Proof. unfold _get_new_pnr. preserves_tac. Qed.

Lemma preserves__apply_membership_discount (amount : Z) (user : RailUser) :
  preserves (_apply_membership_discount amount user).
Proof. unfold _apply_membership_discount. preserves_tac. Qed.

#[local] Hint Resolve preserves__get_train_instance preserves__get_new_reservation_id
  preserves__get_new_pnr preserves__apply_membership_discount : frame.

Lemma preserves_build_segments (travel_class : string) (num_pax : nat)
  (trains : list TrainInfo) :
  forall segments fare_total,
    preserves (build_segments travel_class num_pax trains segments fare_total).
Proof.
  induction trains as [|tinfo rest IH]; intros segments fare_total; simpl.
  - auto with frame.
  - apply preserves_bind; [auto with frame|intros train].
    apply preserves_bind; [auto with frame|intros date_status].
    destruct date_status; [| |auto with frame];
      (apply preserves_bind; [auto with frame|intros price_each];
       apply preserves_bind; [auto with frame|intros coach]; apply IH).
Qed.

Lemma preserves_validate_payments (user : RailUser) (pays : list RailPayment) :
  preserves (validate_payments user pays).
Proof.
  induction pays as [|pay rest IH]; simpl; [auto with frame|].
  destruct (dict_get _ _) as [method|]; [|auto with frame].
  apply preserves_bind; [|intros _; exact IH].
  destruct method; preserves_tac.
Qed.

Lemma preserves_new_TrainReservation
  reservation_id user_id origin destination trip_type trains passengers
  payment_history created_at total_bags bikes meal_preference insurance pnr status :
  preserves (new_TrainReservation reservation_id user_id origin destination trip_type
               trains passengers payment_history created_at total_bags bikes
               meal_preference insurance pnr status).
Proof. unfold new_TrainReservation. preserves_tac. Qed.

(** A refused literal is pydantic's error, not one of the tool's own
    [raise ValueError]. *)
Lemma never_raises_new_TrainReservation
  reservation_id user_id origin destination trip_type trains passengers
  payment_history created_at total_bags bikes meal_preference insurance pnr status :
  never_raises raised_ValueError
    (new_TrainReservation reservation_id user_id origin destination trip_type
       trains passengers payment_history created_at total_bags bikes
       meal_preference insurance pnr status).
Proof. unfold new_TrainReservation. never_raises_tac. Qed.

(** What the validation loop has checked when it returns: every payment
    drawn on a wallet converts to whole dollars. *)
Lemma validate_payments_whole_dollars (user : RailUser) (pays : list RailPayment) :
  forall db db',
    validate_payments user pays db = (Ok tt, db') ->
    Forall (Outcome.whole_dollars user) pays.
Proof.
  induction pays as [|pay rest IH]; intros db db' H; [constructor|].
  simpl in H. unfold Outcome.whole_dollars.
  destruct (dict_get (payment_id pay) (payment_methods user)) as [method|] eqn:Em;
    [|discriminate].
  unfold bind at 1 in H.
  destruct method as [id extra|id extra|id extra].
  - simpl in H. constructor; [unfold Outcome.whole_dollars; rewrite Em; exact I|].
    exact (IH _ _ H).
  - match type of H with (let (_, _) := ?body db in _) = _ =>
      destruct (body db) as [[[]|e] db1] eqn:E; [|discriminate]
    end.
    constructor; [|exact (IH _ _ H)].
    unfold Outcome.whole_dollars. rewrite Em.
    unfold bind at 1, as_int in E.
    destruct (int_of_float (amount pay)); [discriminate|].
    destruct (PrimFloat.is_nan (amount pay)); discriminate.
  - simpl in H. constructor; [unfold Outcome.whole_dollars; rewrite Em; exact I|].
    exact (IH _ _ H).
Qed.

(** A deduction changes balances only: the payments that converted
    before still do. *)
Lemma whole_dollars_deduct (user : RailUser) (payment_id : string) (n : Z)
  (pay : RailPayment) :
  Outcome.whole_dollars user pay -> Outcome.whole_dollars (deduct payment_id n user) pay.
Proof.
  unfold Outcome.whole_dollars, deduct. simpl.
  destruct (String.eqb_spec (Railway.payment_id pay) payment_id) as [->|Hne].
  - rewrite dict_get_update_same.
    destruct (dict_get payment_id (payment_methods user)) as [[]|]; simpl; auto.
  - rewrite dict_get_update_other by assumption. auto.
Qed.

(** After the validation loop the deduction loop raises no [ValueError]. *)
Lemma deduct_wallets_no_ValueError (user_id : string) (pays : list RailPayment) :
  forall user,
    Forall (Outcome.whole_dollars user) pays ->
    never_raises raised_ValueError (deduct_wallets user_id user pays).
Proof.
  induction pays as [|pay rest IH]; intros user Hall; simpl.
  - apply never_raises_ret.
  - inversion Hall as [|? ? Hpay Hrest]; subst.
    unfold Outcome.whole_dollars in Hpay.
    destruct (dict_get (payment_id pay) (payment_methods user)) as [[id x|id x|id x]|].
    + apply IH; assumption.
    + unfold as_int. destruct (int_of_float (amount pay)) as [n|]; [|contradiction].
      apply never_raises_bind; [apply never_raises_ret|intros n'].
      apply never_raises_bind; [apply never_raises_modify|intros _].
      apply IH. eapply Forall_impl; [|exact Hrest].
      intros p. apply whole_dollars_deduct.
    + apply IH; assumption.
    + apply never_raises_raise. intros [msg H]. discriminate.
Qed.

(** A step that leaves the database alone, followed by a body that is
    all-or-nothing from any database the step returned on. *)
Lemma atomic_bind_returned {S A B} (P : exn -> Prop) (m : M S A) (k : A -> M S B) :
  preserves m ->
  (forall a s, m s = (Ok a, s) -> forall e s', k a s = (Raise e, s') -> P e -> s' = s) ->
  atomic P (bind m k).
Proof.
  intros Hm Hk s e s'. unfold bind. specialize (Hm s).
  destruct (m s) as [[a|e1] s1] eqn:E; simpl in Hm; subst s1.
  - apply Hk. exact E.
  - intros H _. injection H as _ <-. reflexivity.
Qed.

(** [book_train_reservation]: every [raise ValueError] of the tool, and the
    [ValueError] of [int()] on a NaN amount, comes before the first wallet
    is touched. *)
Lemma book_train_reservation_atomic
  (user_id origin destination trip_type travel_class : string)
  (trains : list TrainInfo) (passengers : list Passenger)
  (payment_methods : list RailPayment) (total_bags bikes : Z)
  (meal_preference insurance : string) :
  atomic raised_ValueError
    (book_train_reservation py_sum str_of_float str_of_payments
       user_id origin destination trip_type travel_class trains passengers
       payment_methods total_bags bikes meal_preference insurance).
Proof.
  unfold book_train_reservation.
  apply atomic_bind; [auto with frame|intros user].
  apply atomic_bind; [auto with frame|intros reservation_id].
  apply atomic_bind; [auto with frame|intros pnr].
  apply atomic_bind; [apply preserves_build_segments|intros [segments fare_total]].
  apply atomic_bind; [auto with frame|intros fare].
  apply atomic_bind; [auto with frame|intros f1].
  apply atomic_bind; [auto with frame|intros f2].
  apply atomic_bind; [auto with frame|intros f3].
  apply atomic_bind_returned; [apply preserves_validate_payments|].
  intros [] s Hvalid.
  apply validate_payments_whole_dollars in Hvalid.
  destruct (_ <? _)%float; [apply atomic_of_preserves; auto with frame|].
  apply atomic_of_never_raises.
  apply never_raises_bind; [apply deduct_wallets_no_ValueError; assumption|intros _].
  apply never_raises_bind; [apply never_raises_new_TrainReservation|intros reservation].
  never_raises_tac.
Qed.

End Booking.

End RailwayBooking.

(** The railway side of C1.  A [ValueError] raised by
    [book_train_reservation] itself (user, train or date not on file, train
    cancelled, payment method unknown, wallet payment not in whole dollars
    or above the balance, payments not adding up, no identifier left)
    leaves the database as it was. *)
Lemma book_train_reservation_atomic_on_own_errors :
  forall (py_sum : list float -> float) (str_of_float : float -> string)
         (str_of_payments : list Railway.RailPayment -> string)
         (user_id origin destination trip_type travel_class : string)
         (trains : list Railway.TrainInfo) (passengers : list Railway.Passenger)
         (payment_methods : list Railway.RailPayment) (total_bags bikes : Z)
         (meal_preference insurance : string)
         (db db' : Railway.TrainDB) (msg : string),
    Railway.book_train_reservation py_sum str_of_float str_of_payments
      user_id origin destination trip_type travel_class trains passengers
      payment_methods total_bags bikes meal_preference insurance db
    = (Raise (ValueError msg), db') ->
    db' = db.
Proof.
  intros until msg. intros H.
  eapply RailwayBooking.book_train_reservation_atomic; [exact H|].
  exists msg. reflexivity.
Qed.

(** The call does book when the literals are right: one sleeper seat on
    the regional train costs 50 dollars, taken from the wallet. *)
Lemma book_train_reservation_books :
  exists r db',
    Examples.book_one_seat "one_way" (Examples.booking_db 500) = (Ok r, db') /\
    Outcome.wallet_balance db' "ada_byron_1" "wallet_1" = Some 450%Z /\
    dict_get "TRN001" (Railway.reservations db') = Some r /\
    Railway.payment_history r
      = [{| Railway.payment_id := "wallet_1"; Railway.amount := 50%float |}].
Proof.
  eexists. eexists. split; [vm_compute; reflexivity|]. repeat split; reflexivity.
Qed.

(** As in the bank, the reservation model is built after the wallets are
    debited: a [trip_type] outside the literals is refused by pydantic once
    the 50 dollars have left the wallet, and no reservation is stored. *)
Lemma book_train_reservation_validates_after_deduction :
  exists msg db',
    Examples.book_one_seat "weekend" (Examples.booking_db 500)
      = (Raise (ValidationError msg), db') /\
    is_ValueError (ValidationError msg) = true /\
    Outcome.wallet_balance (Examples.booking_db 500) "ada_byron_1" "wallet_1"
      = Some 500%Z /\
    Outcome.wallet_balance db' "ada_byron_1" "wallet_1" = Some 450%Z /\
    Railway.reservations db' = [].
Proof.
  eexists. eexists. split; [vm_compute; reflexivity|]. repeat split; reflexivity.
Qed.
(** *** More on dictionaries and lists *)

Section DictMore.

Context {V : Type}.

Lemma dict_update_compose (k : string) (f g : V -> V) (d : dict V) :
  dict_update k g (dict_update k f d) = dict_update k (fun v => g (f v)) d.
Proof.
  induction d as [|[k' v] d IH]; simpl; [reflexivity|].
  destruct (k =? k') eqn:E; simpl; rewrite E; [reflexivity|].
  f_equal. exact IH.
Qed.

Lemma dict_update_ext (k : string) (f g : V -> V) (d : dict V) :
  (forall v, f v = g v) -> dict_update k f d = dict_update k g d.
Proof.
  intros H. induction d as [|[k' v] d IH]; simpl; [reflexivity|].
  destruct (k =? k'); [rewrite H; reflexivity|f_equal; exact IH].
Qed.

Lemma dict_update_id (k : string) (f : V -> V) (d : dict V) :
  (forall v, f v = v) -> dict_update k f d = d.
Proof.
  intros H. induction d as [|[k' v] d IH]; simpl; [reflexivity|].
  destruct (k =? k'); [rewrite H; reflexivity|f_equal; exact IH].
Qed.

(** An update that leaves the object bound to [k] as it is changes
    nothing. *)
Lemma dict_update_fix (k : string) (f : V -> V) (d : dict V) (v : V) :
  dict_get k d = Some v -> f v = v -> dict_update k f d = d.
Proof.
  induction d as [|[k' v'] d IH]; simpl; [discriminate|].
  destruct (k =? k').
  - intros H E. injection H as ->. rewrite E. reflexivity.
  - intros H E. f_equal. exact (IH H E).
Qed.

Lemma dict_update_unbound (k : string) (f : V -> V) (d : dict V) :
  dict_get k d = None -> dict_update k f d = d.
Proof.
  induction d as [|[k' v'] d IH]; simpl; [reflexivity|].
  destruct (k =? k'); [discriminate|]. intros H. f_equal. exact (IH H).
Qed.

Lemma dict_keys_update (k : string) (f : V -> V) (d : dict V) :
  dict_keys (dict_update k f d) = dict_keys d.
Proof.
  induction d as [|[k' v] d IH]; simpl; [reflexivity|].
  destruct (k =? k'); simpl; [reflexivity|]. f_equal. exact IH.
Qed.

Lemma dict_get_update (k k' : string) (f : V -> V) (d : dict V) :
  dict_get k (dict_update k' f d)
  = if k =? k' then option_map f (dict_get k d) else dict_get k d.
Proof.
  destruct (String.eqb_spec k k') as [->|N].
  - apply dict_get_update_same.
  - apply dict_get_update_other, N.
Qed.

Lemma dict_mem_update (k k' : string) (f : V -> V) (d : dict V) :
  dict_mem k (dict_update k' f d) = dict_mem k d.
Proof.
  unfold dict_mem. rewrite dict_get_update.
  destruct (k =? k'); [|reflexivity]. destruct (dict_get k d); reflexivity.
Qed.

Lemma dict_get_set_other (k k' : string) (v : V) (d : dict V) :
  k <> k' -> dict_get k (dict_set k' v d) = dict_get k d.
Proof.
  intros N. induction d as [|[k0 v0] d IH]; simpl.
  - destruct (String.eqb_spec k k'); [contradiction|reflexivity].
  - destruct (String.eqb_spec k' k0) as [->|N0]; simpl.
    + destruct (String.eqb_spec k k0); [contradiction|reflexivity].
    + destruct (k =? k0); [reflexivity|exact IH].
Qed.

Lemma dict_get_some_mem (k : string) (d : dict V) :
  dict_mem k d = true -> exists v, dict_get k d = Some v.
Proof. unfold dict_mem. destruct (dict_get k d); [eauto|discriminate]. Qed.

Lemma dict_get_in_values (k : string) (d : dict V) (v : V) :
  dict_get k d = Some v -> In v (dict_values d).
Proof.
  induction d as [|[k' v'] d IH]; simpl; [discriminate|].
  destruct (k =? k'); [intros H; injection H as ->; auto|auto].
Qed.

End DictMore.

Lemma list_update_fix {A} (i : nat) (f : A -> A) (l : list A) (x : A) :
  nth_error l i = Some x -> f x = x -> list_update i f l = l.
Proof.
  revert i. induction l as [|y l IH]; intros [|i]; simpl; try discriminate.
  - intros H E. injection H as ->. rewrite E. reflexivity.
  - intros H E. f_equal. exact (IH i H E).
Qed.

Lemma mem_str_In (x : string) (l : list string) : mem_str x l = true <-> In x l.
Proof.
  unfold mem_str. rewrite existsb_exists. split.
  - intros (y & Hy & E). apply String.eqb_eq in E. subst. exact Hy.
  - intros H. exists x. split; [exact H|apply String.eqb_refl].
Qed.

Lemma remove_first_length (x : string) (l : list string) :
  In x l -> S (List.length (remove_first x l)) = List.length l.
Proof.
  induction l as [|y l IH]; simpl; [contradiction|].
  destruct (String.eqb_spec y x) as [->|N]; [reflexivity|].
  intros [E|H]; [contradiction|]. simpl. f_equal. exact (IH H).
Qed.

Lemma remove_first_count (x : string) (l : list string) :
  In x l -> S (count_str x (remove_first x l)) = count_str x l.
Proof.
  unfold count_str. induction l as [|y l IH]; simpl; [contradiction|].
  destruct (String.eqb_spec y x) as [->|N].
  - intros _. rewrite String.eqb_refl. reflexivity.
  - intros [E|H]; [contradiction|]. simpl.
    destruct (String.eqb_spec x y) as [E|_]; [symmetry in E; contradiction|].
    exact (IH H).
Qed.

Lemma remove_first_count_other (x y : string) (l : list string) :
  x <> y -> count_str y (remove_first x l) = count_str y l.
Proof.
  intros N. unfold count_str. induction l as [|z l IH]; simpl; [reflexivity|].
  destruct (String.eqb_spec z x) as [->|Nz].
  - destruct (String.eqb_spec y x) as [E|_]; [symmetry in E; contradiction|reflexivity].
  - simpl. destruct (y =? z); simpl; [f_equal|]; exact IH.
Qed.

Lemma count_str_zero_mem (x : string) (l : list string) :
  count_str x l = 0%nat -> mem_str x l = false.
Proof.
  unfold count_str, mem_str. induction l as [|y l IH]; simpl; [reflexivity|].
  destruct (x =? y); simpl; [discriminate|exact IH].
Qed.

(** *** A finite float less itself *)

Lemma sub_self_zero (x : float) : finite x -> Prim2SF (x - x) = S754_zero false.
Proof.
  unfold finite, exact_units. rewrite FloatAxioms.sub_spec.
  destruct (Prim2SF x) as [s|s| |s m e]; intros F; try (exfalso; apply F; reflexivity).
  - destruct s; reflexivity.
  - unfold SF64sub, SFsub. cbv zeta. rewrite Z.min_id. unfold shl_align.
    rewrite (Z.sub_diag e). cbv beta iota. cbn [fst].
    rewrite (Z.sub_diag (cond_Zopp s (Z.pos m))). reflexivity.
Qed.

(** [round(x - x, 2) != 0] is false for a finite [x]. *)
Lemma round2_sub_self (x : float) : finite x -> (round2 (x - x) =? 0)%float = true.
Proof.
  intros F. pose proof (sub_self_zero x F) as Z.
  unfold round2. rewrite Z. rewrite FloatAxioms.eqb_spec, Z. reflexivity.
Qed.

(** *** Running a computation that returned *)

Lemma bind_ok_preserves {S A B} (m : M S A) (k : A -> M S B) s b s' :
  Frame.preserves m -> bind m k s = (Ok b, s') ->
  exists a, m s = (Ok a, s) /\ k a s = (Ok b, s').
Proof.
  intros Hm. unfold bind. specialize (Hm s).
  destruct (m s) as [[a|e] s1]; simpl in Hm; subst s1; [eauto|discriminate].
Qed.

(** Case analysis on everything a run that returned has tested. *)
Ltac run_ok H :=
  repeat match type of H with
         | context [match ?x with _ => _ end] =>
             destruct x eqn:?; try discriminate H
         | context [if ?x then _ else _] =>
             destruct x eqn:?; try discriminate H
         end.
(** *** Travel: the WRITE tools *)

Module TravelWrites.

Import Travel Frame.

Section Bookings.

Variable py_sum : list float -> float.
Variable strip_lower : string -> string.
Variable str_of_float : float -> string.

#[local] Hint Resolve TravelFrame.preserves__get_traveler TravelFrame.preserves__get_agent
  TravelFrame.preserves__get_package TravelFrame.preserves__get_booking
  TravelFrame.preserves_first_free_id : frame.

Lemma preserves__get_new_booking_id : preserves _get_new_booking_id.
Proof. apply TravelFrame.preserves_first_free_id. Qed.

Lemma preserves__validate_departure package departure_date required_slots :
  preserves (_validate_departure package departure_date required_slots).
Proof. unfold _validate_departure. preserves_tac. Qed.

Lemma preserves_travel_as_float (n : Z) : preserves (as_float n).
Proof. unfold as_float. preserves_tac. Qed.

#[local] Hint Resolve preserves__get_new_booking_id preserves__validate_departure
  preserves_travel_as_float : frame.

Lemma preserves__calc_total_price base num_travelers add_ons insurance :
  preserves (_calc_total_price py_sum strip_lower base num_travelers add_ons insurance).
Proof. unfold _calc_total_price. preserves_tac. Qed.

Lemma preserves__validate_payments traveler payments expected_total :
  preserves (_validate_payments py_sum str_of_float traveler payments expected_total).
Proof. unfold _validate_payments. preserves_tac. Qed.

#[local] Hint Resolve preserves__calc_total_price preserves__validate_payments : frame.

(** What a price computation returns does not depend on the database. *)
Lemma _calc_total_price_pure base num_travelers add_ons insurance :
  exists r, forall db,
    _calc_total_price py_sum strip_lower base num_travelers add_ons insurance db = (r, db).
Proof.
  unfold _calc_total_price, as_float, bind, ret, raise.
  destruct (float_of_int num_travelers) as [n|]; [|eexists; intros; reflexivity].
  destruct (truthy insurance); [|eexists; intros; reflexivity].
  destruct (_ =? "standard"); [eexists; intros; reflexivity|].
  destruct (_ =? "premium"); eexists; intros; reflexivity.
Qed.

Lemma book_package_atomic traveler_id package_id departure_date travelers rooming
  add_ons insurance payment_methods agent_id :
  atomic (fun _ => True)
    (book_package py_sum strip_lower str_of_float traveler_id package_id departure_date
       travelers rooming add_ons insurance payment_methods agent_id).
Proof.
  unfold book_package.
  apply atomic_bind; [auto with frame|intros traveler].
  apply atomic_bind; [auto with frame|intros package].
  apply atomic_bind;
    [destruct agent_id; [|destruct (managed_by_agents package)]; auto with frame
    |intros agent_id'].
  apply atomic_bind; [auto with frame|intros agent].
  apply atomic_bind; [auto with frame|intros departure].
  apply atomic_bind; [auto with frame|intros total].
  apply atomic_bind; [auto with frame|intros _].
  apply atomic_bind; [auto with frame|intros booking_id].
  apply atomic_of_never_raises. never_raises_tac.
Qed.

Lemma update_booking_add_ons_atomic booking_id add_ons payment_method_id :
  atomic (fun _ => True)
    (update_booking_add_ons py_sum strip_lower booking_id add_ons payment_method_id).
Proof.
  unfold update_booking_add_ons.
  apply atomic_bind; [auto with frame|intros [[ref traveler] booking]].
  apply atomic_bind; [auto with frame|intros package].
  destruct (negb _); [apply atomic_of_preserves; auto with frame|].
  apply atomic_bind; [auto with frame|intros departure].
  apply atomic_bind; [auto with frame|intros new_total].
  apply atomic_of_never_raises. never_raises_tac.
Qed.

Lemma update_booking_departure_date_atomic booking_id new_departure_date
  payment_method_id :
  atomic (fun _ => True)
    (update_booking_departure_date py_sum strip_lower booking_id new_departure_date
       payment_method_id).
Proof.
  unfold update_booking_departure_date.
  apply atomic_bind; [auto with frame|intros [[ref traveler] booking]].
  apply atomic_bind; [auto with frame|intros package].
  destruct (negb _); [apply atomic_of_preserves; auto with frame|].
  apply atomic_bind; [auto with frame|intros new_dep].
  apply atomic_bind; [auto with frame|intros new_total].
  apply atomic_of_never_raises. never_raises_tac.
Qed.

Lemma cancel_booking_atomic booking_id : atomic (fun _ => True) (cancel_booking booking_id).
Proof.
  unfold cancel_booking.
  apply atomic_bind; [auto with frame|intros [[ref traveler] booking]].
  apply atomic_bind; [auto with frame|intros package].
  apply atomic_of_never_raises. never_raises_tac.
Qed.

Lemma update_booking_travelers_atomic booking_id travelers :
  atomic (fun _ => True) (update_booking_travelers booking_id travelers).
Proof.
  unfold update_booking_travelers.
  apply atomic_bind; [auto with frame|intros [[ref traveler] booking]].
  destruct (negb _); [apply atomic_of_preserves; auto with frame|].
  apply atomic_of_never_raises. never_raises_tac.
Qed.

Lemma update_booking_rooming_atomic booking_id rooming :
  atomic (fun _ => True) (update_booking_rooming booking_id rooming).
Proof.
  unfold update_booking_rooming.
  apply atomic_bind; [auto with frame|intros [[ref traveler] booking]].
  apply atomic_of_never_raises. never_raises_tac.
Qed.

Lemma schedule_agent_meeting_atomic agent_id date time_range traveler_id :
  atomic (fun _ => True) (schedule_agent_meeting agent_id date time_range traveler_id).
Proof.
  unfold schedule_agent_meeting.
  apply atomic_bind; [auto with frame|intros agent].
  apply atomic_bind; [auto with frame|intros _].
  destruct (dict_get date (availability agent)) as [day|];
    [|apply atomic_of_preserves; auto with frame].
  destruct (negb _); [apply atomic_of_preserves; auto with frame|].
  apply atomic_of_never_raises. never_raises_tac.
Qed.

Lemma write_tools_atomic (c : WriteCall) :
  atomic (fun _ => True) (use_write_tool py_sum strip_lower str_of_float c).
Proof.
  destruct c; unfold use_write_tool, returning;
    (apply atomic_then; [|intros ?; never_raises_tac]).
  - apply book_package_atomic.
  - apply cancel_booking_atomic.
  - apply update_booking_add_ons_atomic.
  - apply update_booking_departure_date_atomic.
  - apply update_booking_travelers_atomic.
  - apply update_booking_rooming_atomic.
  - apply schedule_agent_meeting_atomic.
Qed.

(** **** Running a booking *)

Lemma _get_traveler_ok k db t db' :
  _get_traveler k db = (Ok t, db') -> dict_get k (travelers db) = Some t.
Proof.
  unfold _get_traveler. destruct (dict_get k (travelers db)); [|discriminate].
  intros H; injection H as <- _. reflexivity.
Qed.

Lemma _get_package_ok k db p db' :
  _get_package k db = (Ok p, db') -> dict_get k (packages db) = Some p.
Proof.
  unfold _get_package. destruct (dict_get k (packages db)); [|discriminate].
  intros H; injection H as <- _. reflexivity.
Qed.

Lemma _get_agent_ok k db a db' :
  _get_agent k db = (Ok a, db') -> dict_get k (agents db) = Some a.
Proof.
  unfold _get_agent. destruct (dict_get k (agents db)); [|discriminate].
  intros H; injection H as <- _. reflexivity.
Qed.

Lemma _validate_departure_ok package date n db dep db' :
  _validate_departure package date n db = (Ok dep, db') ->
  dict_get date (departures package) = Some dep /\
  dep_status dep = "available" /\ (n <= available_slots dep)%Z.
Proof.
  unfold _validate_departure.
  destruct (dict_get date (departures package)) as [d|]; [|discriminate].
  destruct (String.eqb_spec (dep_status d) "available") as [E|]; [|discriminate].
  simpl. destruct (Z.ltb_spec (available_slots d) n) as [L|L]; [discriminate|].
  intros R; injection R as <- _. auto.
Qed.

(** An identifier the generator returns is one of its candidates and
    belongs to no booking. *)
Lemma first_free_id_free (candidates : list string) db id db' :
  first_free_id candidates db = (Ok id, db') ->
  In id candidates /\ find_booking id (travelers db) = None.
Proof.
  induction candidates as [|c cs IH]; simpl; [discriminate|].
  unfold bind, try_ValueError, _get_booking, ret, raise.
  destruct (find_booking c (travelers db)) eqn:F; cbn [is_ValueError].
  - intros H. destruct (IH H). auto.
  - intros H; injection H as <- _. auto.
Qed.

Lemma find_in_bookings_append (id : string) (l : list Booking) (b : Booking) :
  find_in_bookings id l = None -> booking_id b = id ->
  find_in_bookings id (l ++ [b]) = Some (List.length l, b).
Proof.
  intros N E. induction l as [|x l IH]; simpl in *.
  - rewrite E, String.eqb_refl. reflexivity.
  - destruct (booking_id x =? id); [discriminate|].
    destruct (find_in_bookings id l) as [[i b']|]; [discriminate|].
    rewrite (IH eq_refl). reflexivity.
Qed.

(** A booking appended under a fresh identifier is the booking found
    under it. *)
Lemma find_booking_append (id tid : string) (ts : dict Traveler) (t : Traveler)
  (b : Booking) :
  dict_get tid ts = Some t -> find_booking id ts = None -> booking_id b = id ->
  exists i,
    find_booking id (dict_update tid (set_bookings (fun l => (l ++ [b])%list)) ts)
    = Some ((i, List.length (bookings t)), set_bookings (fun l => (l ++ [b])%list) t, b).
Proof.
  intros G N E. induction ts as [|[k x] ts IH]; simpl in *; [discriminate|].
  destruct (find_in_bookings id (bookings x)) as [[j b']|] eqn:F; [discriminate|].
  destruct (find_booking id ts) as [[[[t' j] tr] b']|] eqn:Ft; [discriminate|].
  destruct (tid =? k).
  - injection G as ->. exists O. simpl.
    rewrite (find_in_bookings_append _ _ _ F E). reflexivity.
  - destruct (IH G eq_refl) as [i Hi]. exists (S i). simpl. rewrite F, Hi. reflexivity.
Qed.

(** What a call to [book_package] that returns has checked and done. *)
Lemma book_package_run traveler_id package_id departure_date travelers rooming
  add_ons insurance payment_methods agent_id db b db1 :
  book_package py_sum strip_lower str_of_float traveler_id package_id departure_date
    travelers rooming add_ons insurance payment_methods agent_id db = (Ok b, db1) ->
  exists traveler package departure,
    dict_get traveler_id (Travel.travelers db) = Some traveler /\
    dict_get package_id (packages db) = Some package /\
    dict_get departure_date (departures package) = Some departure /\
    dep_status departure = "available" /\
    (Z.of_nat (List.length travelers) <= available_slots departure)%Z /\
    In (booking_id b) ["TAU001"; "TAU002"; "TAU003"] /\
    find_booking (booking_id b) (Travel.travelers db) = None /\
    bk_package_id b = package_id /\
    Travel.departure_date b = departure_date /\
    status b = "confirmed" /\
    bk_travelers b = travelers /\
    payment_history b = payment_methods /\
    Travel.travelers db1
    = dict_update traveler_id (set_bookings (fun l => (l ++ [b])%list))
        (Travel.travelers db) /\
    packages db1
    = dict_update package_id
        (set_departures
           (dict_update departure_date
              (set_available_slots
                 (fun n => (n - Z.of_nat (List.length travelers))%Z))))
        (packages db).
Proof.
  unfold book_package. intros H.
  apply bind_ok_preserves in H; [|auto with frame]. destruct H as (traveler & Ht & H).
  apply bind_ok_preserves in H; [|auto with frame]. destruct H as (package & Hp & H).
  apply bind_ok_preserves in H;
    [|destruct agent_id; [|destruct (managed_by_agents package)]; auto with frame].
  destruct H as (agent_id' & _ & H).
  apply bind_ok_preserves in H; [|auto with frame]. destruct H as (agent & _ & H).
  apply bind_ok_preserves in H; [|auto with frame]. destruct H as (departure & Hd & H).
  apply bind_ok_preserves in H; [|auto with frame]. destruct H as (total & _ & H).
  apply bind_ok_preserves in H; [|auto with frame]. destruct H as ([] & _ & H).
  apply bind_ok_preserves in H; [|auto with frame]. destruct H as (id & Hid & H).
  apply _get_traveler_ok in Ht. apply _get_package_ok in Hp.
  apply _validate_departure_ok in Hd. destruct Hd as (Hd & Hs & Hn).
  apply first_free_id_free in Hid. destruct Hid as (Hin & Hfree).
  exists traveler, package, departure.
  unfold bind, modify, ret in H.
  destruct (negb (mem_str traveler_id (assigned_travelers agent)));
    destruct (negb (mem_str id (bookings_handled agent)));
    injection H as <- <-; simpl; repeat (split; [assumption || reflexivity|]);
    reflexivity.
Qed.

End Bookings.

End TravelWrites.

(** X1.  No WRITE tool of the travel toolkit leaves a half-done change behind:
    whenever one of the seven raises, whatever the exception, the database
    is the one it was called on. *)
Theorem travel_write_tools_all_or_nothing :
  forall (py_sum : list float -> float) (strip_lower : string -> string)
         (str_of_float : float -> string) (c : Travel.WriteCall)
         (db db' : Travel.TravelAgencyDB) (e : exn),
    Travel.use_write_tool py_sum strip_lower str_of_float c db = (Raise e, db') ->
    db' = db.
Proof.
  intros py_sum strip_lower str_of_float c db db' e H.
  exact (TravelWrites.write_tools_atomic py_sum strip_lower str_of_float c db e db' H I).
Qed.

Lemma travel_write_tools_all_or_nothing_witness :
  exists e db',
    Travel.use_write_tool Examples.sum_floats lower Examples.float_text
      (Travel.UpdateBookingDepartureDate "TAU001" "24-08-01" "card_1")
      (snd (Examples.book_lisbon Examples.agency_db)) = (Raise e, db') /\
    db' = snd (Examples.book_lisbon Examples.agency_db).
Proof.
  eexists. eexists. split; [vm_compute; reflexivity|].
  apply (travel_write_tools_all_or_nothing Examples.sum_floats lower Examples.float_text
           (Travel.UpdateBookingDepartureDate "TAU001" "24-08-01" "card_1")
           (snd (Examples.book_lisbon Examples.agency_db)) _
           (ValueError "Package PKG1 not offered on 24-08-01")).
  vm_compute. reflexivity.
Defined.

(** X2.  A booking that [book_package] returns is on file and was possible:
    [get_booking_details] finds it under its identifier, which no booking
    bore before; the departure was available with at least as many slots
    as travelers, and it has that many slots fewer afterwards, never below
    zero. *)
Theorem book_package_books :
  forall (py_sum : list float -> float) (strip_lower : string -> string)
         (str_of_float : float -> string)
         (traveler_id package_id departure_date : string)
         (travelers : list Travel.BookingTravelerInfo) (rooming : Travel.RoomingInfo)
         (add_ons : list Travel.BookingAddOn) (insurance : option string)
         (payment_methods : list Travel.BookingPayment) (agent_id : option string)
         (db db1 : Travel.TravelAgencyDB) (b : Travel.Booking),
    Travel.book_package py_sum strip_lower str_of_float traveler_id package_id
      departure_date travelers rooming add_ons insurance payment_methods agent_id db
    = (Ok b, db1) ->
    Travel.get_booking_details (Travel.booking_id b) db1 = (Ok b, db1) /\
    Travel.get_booking_details (Travel.booking_id b) db
    = (Raise (ValueError ("Booking " ++ Travel.booking_id b ++ " not found")), db) /\
    Travel.status b = "confirmed" /\
    Travel.bk_travelers b = travelers /\
    Travel.payment_history b = payment_methods /\
    exists slots : Z,
      Outcome.slots_left db package_id departure_date = Some slots /\
      (Z.of_nat (List.length travelers) <= slots)%Z /\
      Outcome.slots_left db1 package_id departure_date
      = Some (slots - Z.of_nat (List.length travelers))%Z /\
      (0 <= slots - Z.of_nat (List.length travelers))%Z.
Proof.
  intros py_sum strip_lower str_of_float tid pid date ts rooming add_ons ins pm ag
    db db1 b H.
  destruct (TravelWrites.book_package_run _ _ _ _ _ _ _ _ _ _ _ _ _ _ _ H)
    as (t & p & d & Ht & Hp & Hd & Hs & Hn & Hin & Hfree & _ & _ & St & Tr & Ph & Et & Ep).
  destruct (TravelWrites.find_booking_append _ _ _ _ b Ht Hfree eq_refl) as [i Hi].
  unfold Travel.get_booking_details, bind, Travel._get_booking, ret.
  rewrite Et, Hi, Hfree. cbn [fst snd].
  repeat (split; [assumption || reflexivity|]).
  exists (Travel.available_slots d).
  unfold Outcome.slots_left. rewrite Ep, Hp, dict_get_update_same, Hp. simpl.
  rewrite Hd, dict_get_update_same, Hd. simpl.
  repeat split; [exact Hn|lia].
Qed.

Lemma book_package_books_witness :
  exists b db1,
    Examples.book_lisbon Examples.agency_db = (Ok b, db1) /\
    Travel.get_booking_details (Travel.booking_id b) db1 = (Ok b, db1) /\
    Outcome.slots_left Examples.agency_db "PKG1" "24-06-01" = Some 5%Z /\
    Outcome.slots_left db1 "PKG1" "24-06-01" = Some 3%Z.
Proof.
  eexists. eexists. split; [vm_compute; reflexivity|].
  split; [|split; reflexivity].
  apply (book_package_books Examples.sum_floats lower Examples.float_text
           "T1" "PKG1" "24-06-01" Examples.two_travelers
           {| Travel.room_type := "double"; Travel.occupancy := 2 |} [] None
           [{| Travel.payment_id := "card_1"; Travel.amount := 500%float |}] None
           Examples.agency_db).
  vm_compute. reflexivity.
Defined.

(** X3.  Booking and then cancelling gives the seats back: after
    [book_package] returned a booking, [cancel_booking] on its identifier
    returns it cancelled, each payment mirrored by a refund, and the
    packages (every departure's slots included) are exactly those before
    the booking.  The agent keeps the traveler and the booking on record. *)
Theorem book_then_cancel_restores_slots :
  forall (py_sum : list float -> float) (strip_lower : string -> string)
         (str_of_float : float -> string)
         (traveler_id package_id departure_date : string)
         (travelers : list Travel.BookingTravelerInfo) (rooming : Travel.RoomingInfo)
         (add_ons : list Travel.BookingAddOn) (insurance : option string)
         (payment_methods : list Travel.BookingPayment) (agent_id : option string)
         (db db1 : Travel.TravelAgencyDB) (b : Travel.Booking),
    Travel.book_package py_sum strip_lower str_of_float traveler_id package_id
      departure_date travelers rooming add_ons insurance payment_methods agent_id db
    = (Ok b, db1) ->
    exists (b' : Travel.Booking) (db2 : Travel.TravelAgencyDB),
      Travel.cancel_booking (Travel.booking_id b) db1 = (Ok b', db2) /\
      Travel.status b' = "cancelled" /\
      Travel.payment_history b'
      = (payment_methods ++ map Travel.refund_of payment_methods)%list /\
      Travel.packages db2 = Travel.packages db /\
      Travel.agents db2 = Travel.agents db1.
Proof.
  intros py_sum strip_lower str_of_float tid pid date ts rooming add_ons ins pm ag
    db db1 b H.
  destruct (TravelWrites.book_package_run _ _ _ _ _ _ _ _ _ _ _ _ _ _ _ H)
    as (t & p & d & Ht & Hp & Hd & Hs & Hn & Hin & Hfree & Bp & Bd & St & Tr & Ph & Et & Ep).
  destruct (TravelWrites.find_booking_append _ _ _ _ b Ht Hfree eq_refl) as [i Hi].
  rewrite <- Et in Hi.
  assert (P1 : dict_get (Travel.bk_package_id b) (Travel.packages db1)
               = Some (Travel.set_departures
                         (dict_update date
                            (Travel.set_available_slots
                               (fun n => (n - Z.of_nat (List.length ts))%Z))) p)).
  { rewrite Bp, Ep, dict_get_update_same, Hp. reflexivity. }
  eexists. eexists. split; [apply (TravelFacts.cancel_booking_run _ _ _ _ _ _ Hi P1)|].
  split; [reflexivity|]. split; [simpl; rewrite Ph; reflexivity|].
  assert (M : dict_mem date (dict_update date
                 (Travel.set_available_slots
                    (fun n => (n - Z.of_nat (List.length ts))%Z)) (Travel.departures p))
              = true).
  { rewrite dict_mem_update. unfold dict_mem. rewrite Hd. reflexivity. }
  unfold Outcome.travel_after_cancel. rewrite Bd, Bp. simpl. rewrite M.
  simpl. split; [|reflexivity].
  rewrite Ep, dict_update_compose. apply (dict_update_fix _ _ _ p Hp).
  destruct p; unfold Travel.set_departures; simpl in *. f_equal.
  rewrite dict_update_compose. apply (dict_update_fix _ _ _ d Hd).
  destruct d; unfold Travel.set_available_slots; simpl. f_equal. rewrite Tr. lia.
Qed.

Lemma book_then_cancel_restores_slots_witness :
  Examples.book_lisbon Examples.agency_db = (Ok Examples.lisbon_booking, Examples.booked_db)
  /\
  exists b' db2,
    Travel.cancel_booking "TAU001" Examples.booked_db = (Ok b', db2) /\
    Travel.status b' = "cancelled" /\
    Travel.payment_history b'
    = [{| Travel.payment_id := "card_1"; Travel.amount := 500%float |};
       {| Travel.payment_id := "card_1"; Travel.amount := (-500)%float |}] /\
    Travel.packages db2 = Travel.packages Examples.agency_db /\
    Travel.agents db2 = Travel.agents Examples.booked_db.
Proof.
  split; [vm_compute; reflexivity|].
  apply (book_then_cancel_restores_slots Examples.sum_floats lower Examples.float_text
           "T1" "PKG1" "24-06-01" Examples.two_travelers
           {| Travel.room_type := "double"; Travel.occupancy := 2 |} [] None
           [{| Travel.payment_id := "card_1"; Travel.amount := 500%float |}] None
           Examples.agency_db Examples.booked_db Examples.lisbon_booking).
  vm_compute. reflexivity.
Defined.

(** X4.  A meeting takes its slot off the agent's calendar: after
    [schedule_agent_meeting] returned, the slot was on offer, the day has
    one slot fewer and one occurrence fewer of that slot, the other slots
    are as many as before, packages and travelers are untouched; and when
    the slot was offered once, asking for it again raises, for whichever
    traveler, and changes nothing. *)
Theorem schedule_agent_meeting_reserves_slot :
  forall (agent_id date time_range traveler_id : string)
         (db db1 : Travel.TravelAgencyDB) (msg : string),
    Travel.schedule_agent_meeting agent_id date time_range traveler_id db = (Ok msg, db1) ->
    exists slots : list string,
      Outcome.agent_slots db agent_id date = Some slots /\
      In time_range slots /\
      Outcome.agent_slots db1 agent_id date = Some (remove_first time_range slots) /\
      S (List.length (remove_first time_range slots)) = List.length slots /\
      S (count_str time_range (remove_first time_range slots))
      = count_str time_range slots /\
      (forall other, other <> time_range ->
         count_str other (remove_first time_range slots) = count_str other slots) /\
      Travel.packages db1 = Travel.packages db /\
      Travel.travelers db1 = Travel.travelers db /\
      (count_str time_range slots = 1%nat ->
       forall traveler_id',
       exists m,
         Travel.schedule_agent_meeting agent_id date time_range traveler_id' db1
         = (Raise (ValueError m), db1)).
Proof.
  intros agent_id date time_range traveler_id db db1 msg.
  unfold Travel.schedule_agent_meeting, bind, Travel._get_agent, Travel._get_traveler.
  destruct (dict_get agent_id (Travel.agents db)) as [agent|] eqn:Ha; [|discriminate].
  destruct (dict_get traveler_id (Travel.travelers db)) as [t|] eqn:Ht; [|discriminate].
  destruct (dict_get date (Travel.availability agent)) as [day|] eqn:Hd; [|discriminate].
  destruct (mem_str time_range (Travel.slots day)) eqn:Hm; [|discriminate].
  simpl. intros H. injection H as _ <-.
  apply mem_str_In in Hm.
  exists (Travel.slots day). unfold Outcome.agent_slots. simpl.
  rewrite Ha, dict_get_update_same, Ha. simpl.
  rewrite Hd, dict_get_update_same, Hd. simpl.
  split; [reflexivity|]. split; [exact Hm|]. split; [reflexivity|].
  split; [apply remove_first_length, Hm|].
  split; [apply remove_first_count, Hm|].
  split; [intros other N; apply remove_first_count_other; congruence|].
  split; [reflexivity|]. split; [reflexivity|].
  - intros C traveler_id'.
    destruct (dict_get traveler_id' (Travel.travelers db));
      [|eexists; reflexivity].
    assert (Z : mem_str time_range (remove_first time_range (Travel.slots day)) = false).
    { apply count_str_zero_mem. pose proof (remove_first_count _ _ Hm). lia. }
    rewrite Z. simpl. eexists. reflexivity.
Qed.

Lemma schedule_agent_meeting_reserves_slot_witness :
  exists msg db1,
    Travel.schedule_agent_meeting "AG1" "24-05-20" "09:00-10:00" "T1" Examples.agency_db
    = (Ok msg, db1) /\
    Outcome.agent_slots Examples.agency_db "AG1" "24-05-20"
    = Some ["09:00-10:00"; "10:00-11:00"] /\
    Outcome.agent_slots db1 "AG1" "24-05-20" = Some ["10:00-11:00"] /\
    exists m,
      Travel.schedule_agent_meeting "AG1" "24-05-20" "09:00-10:00" "T1" db1
      = (Raise (ValueError m), db1).
Proof.
  destruct (schedule_agent_meeting_reserves_slot "AG1" "24-05-20" "09:00-10:00" "T1"
              Examples.agency_db
              (snd (Travel.schedule_agent_meeting "AG1" "24-05-20" "09:00-10:00" "T1"
                      Examples.agency_db))
              "Meeting scheduled with agent AG1 on 24-05-20 at 09:00-10:00")
    as (slots & H0 & _ & H1 & _ & _ & _ & _ & _ & Again).
  - vm_compute. reflexivity.
  - eexists. eexists. split; [vm_compute; reflexivity|].
    split; [reflexivity|]. split; [reflexivity|].
    apply Again. vm_compute in H0. injection H0 as <-. reflexivity.
Defined.
(** *** Travel: changing a booking *)

Module TravelUpdates.

Import Travel.

Lemma find_in_bookings_pos (id : string) (bs : list Booking) (i : nat) (b : Booking) :
  find_in_bookings id bs = Some (i, b) -> nth_error bs i = Some b.
Proof. intros H. apply (TravelFacts.find_in_bookings_id _ _ _ _ H). Qed.

(** Where [_get_booking] found the booking. *)
Lemma find_booking_pos (id : string) (ts : dict Traveler) r t b :
  find_booking id ts = Some (r, t, b) ->
  exists k, nth_error ts (fst r) = Some (k, t) /\ nth_error (bookings t) (snd r) = Some b.
Proof.
  revert r. induction ts as [|[k x] ts IH]; simpl; intros r H; [discriminate|].
  destruct (find_in_bookings id (bookings x)) as [[i b']|] eqn:F.
  - injection H as <- <- <-. exists k. split; [reflexivity|].
    apply (find_in_bookings_pos _ _ _ _ F).
  - destruct (find_booking id ts) as [[[[t' i] tr] b']|] eqn:G; [|discriminate].
    injection H as <- <- <-. apply (IH _ eq_refl).
Qed.

(** An assignment that leaves the booking as it is leaves the database as
    it is. *)
Lemma upd_booking_fix (id : string) (db : TravelAgencyDB) r t b (f : Booking -> Booking) :
  find_booking id (travelers db) = Some (r, t, b) -> f b = b -> upd_booking r f db = db.
Proof.
  intros F E. destruct (find_booking_pos _ _ _ _ _ F) as (k & Ht & Hb).
  unfold upd_booking, set_travelers. destruct db as [ps ts ags]. simpl in *. f_equal.
  apply (list_update_fix _ _ _ (k, t) Ht). simpl. f_equal.
  destruct t; unfold set_bookings; simpl in *. f_equal.
  apply (list_update_fix _ _ _ b Hb E).
Qed.

Lemma find_booking_upd (id : string) (db : TravelAgencyDB) r t b (f : Booking -> Booking) :
  (forall x, booking_id (f x) = booking_id x) ->
  find_booking id (travelers db) = Some (r, t, b) ->
  find_booking id (travelers (upd_booking r f db))
  = Some (r, set_bookings (list_update (snd r) f) t, f b).
Proof. intros Hf F. apply (TravelFacts.find_booking_update _ _ _ _ _ _ Hf F). Qed.

Section Bookings.

Variable py_sum : list float -> float.
Variable strip_lower : string -> string.

(** The price a computation that returned gives on any database. *)
Lemma _calc_total_price_again base n add_ons insurance db x db' :
  _calc_total_price py_sum strip_lower base n add_ons insurance db = (Ok x, db') ->
  db' = db /\
  forall db2, _calc_total_price py_sum strip_lower base n add_ons insurance db2 = (Ok x, db2).
Proof.
  destruct (TravelWrites._calc_total_price_pure py_sum strip_lower base n add_ons insurance)
    as [r Hr].
  rewrite Hr. intros H. injection H as -> <-. split; [reflexivity|exact Hr].
Qed.

Lemma _validate_departure_again package date n db dep db' :
  _validate_departure package date n db = (Ok dep, db') ->
  db' = db /\ forall db2, _validate_departure package date n db2 = (Ok dep, db2).
Proof.
  unfold _validate_departure.
  destruct (dict_get date (departures package)) as [d|]; [|discriminate].
  destruct (negb (dep_status d =? "available")); [discriminate|].
  destruct (available_slots d <? n)%Z; [discriminate|].
  intros H. injection H as <- <-. split; reflexivity.
Qed.

(** What a call to [update_booking_add_ons] that returns has read and
    written. *)
Lemma update_booking_add_ons_run booking_id add_ons payment_method_id db b1 db1 :
  update_booking_add_ons py_sum strip_lower booking_id add_ons payment_method_id db
  = (Ok b1, db1) ->
  exists ref traveler booking package departure new_total,
    find_booking booking_id (travelers db) = Some (ref, traveler, booking) /\
    dict_get (bk_package_id booking) (packages db) = Some package /\
    dict_mem payment_method_id (payment_methods traveler) = true /\
    (forall db2, _validate_departure package (departure_date booking) 0 db2
                 = (Ok departure, db2)) /\
    (forall db2, _calc_total_price py_sum strip_lower (base_price departure)
                   (Z.of_nat (List.length (bk_travelers booking))) add_ons
                   (insurance booking) db2 = (Ok new_total, db2)) /\
    let delta := round2 (new_total - total_price booking)%float in
    let record (h : list BookingPayment) :=
      (h ++ [{| payment_id := payment_method_id; amount := delta |}])%list in
    let paid := if negb (delta =? 0)%float then set_payment_history record else (fun x => x) in
    b1 = set_total_price new_total (set_add_ons add_ons (paid booking)) /\
    db1 = upd_booking ref (set_total_price new_total)
            (upd_booking ref (set_add_ons add_ons)
               (if negb (delta =? 0)%float
                then upd_booking ref (set_payment_history record) db else db)).
Proof.
  unfold update_booking_add_ons. unfold bind at 1. unfold _get_booking at 1.
  destruct (find_booking booking_id (travelers db)) as [[[ref traveler] booking]|] eqn:F;
    [|discriminate].
  unfold bind at 1. unfold _get_package at 1.
  destruct (dict_get (bk_package_id booking) (packages db)) as [package|] eqn:P;
    [|discriminate].
  destruct (dict_mem payment_method_id (payment_methods traveler)) eqn:Pm;
    [|discriminate].
  cbn [negb]. unfold bind at 1.
  destruct (_validate_departure package (departure_date booking) 0 db)
    as [[departure|e] s1] eqn:V; [|discriminate].
  destruct (_validate_departure_again _ _ _ _ _ _ V) as [-> Va].
  unfold bind at 1.
  destruct (_calc_total_price py_sum strip_lower (base_price departure)
              (Z.of_nat (List.length (bk_travelers booking))) add_ons (insurance booking) db)
    as [[new_total|e] s2] eqn:C; [|discriminate].
  destruct (_calc_total_price_again _ _ _ _ _ _ _ C) as [-> Ca].
  intros H. exists ref, traveler, booking, package, departure, new_total.
  repeat (split; [assumption || reflexivity|]).
  cbv zeta. unfold bind, modify, ret in H.
  destruct (negb (round2 (new_total - total_price booking) =? 0)%float);
    injection H as <- <-; split; reflexivity.
Qed.

(** What a call to [update_booking_departure_date] that returns has read
    and written. *)
Lemma update_booking_departure_date_run booking_id new_date payment_method_id db b1 db1 :
  update_booking_departure_date py_sum strip_lower booking_id new_date payment_method_id db
  = (Ok b1, db1) ->
  exists ref traveler booking package new_dep,
    find_booking booking_id (travelers db) = Some (ref, traveler, booking) /\
    dict_get (bk_package_id booking) (packages db) = Some package /\
    dict_get new_date (departures package) = Some new_dep /\
    (Z.of_nat (List.length (bk_travelers booking)) <= available_slots new_dep)%Z /\
    departure_date b1 = new_date /\
    bk_travelers b1 = bk_travelers booking /\
    status b1 = status booking /\
    packages db1
    = packages
        (upd_slots (bk_package_id booking) new_date
           (fun n => (n - Z.of_nat (List.length (bk_travelers booking)))%Z)
           (if dict_mem (departure_date booking) (departures package)
            then upd_slots (bk_package_id booking) (departure_date booking)
                   (fun n => (n + Z.of_nat (List.length (bk_travelers booking)))%Z) db
            else db)).
Proof.
  unfold update_booking_departure_date. unfold bind at 1. unfold _get_booking at 1.
  destruct (find_booking booking_id (travelers db)) as [[[ref traveler] booking]|] eqn:F;
    [|discriminate].
  unfold bind at 1. unfold _get_package at 1.
  destruct (dict_get (bk_package_id booking) (packages db)) as [package|] eqn:P;
    [|discriminate].
  destruct (dict_mem payment_method_id (payment_methods traveler)); [|discriminate].
  cbn [negb]. unfold bind at 1.
  destruct (_validate_departure package new_date
              (Z.of_nat (List.length (bk_travelers booking))) db)
    as [[new_dep|e] s1] eqn:V; [|discriminate].
  destruct (_validate_departure_again _ _ _ _ _ _ V) as [-> _].
  apply TravelWrites._validate_departure_ok in V. destruct V as (Vd & _ & Vn).
  unfold bind at 1.
  destruct (_calc_total_price py_sum strip_lower (base_price new_dep)
              (Z.of_nat (List.length (bk_travelers booking))) (add_ons booking)
              (insurance booking) db)
    as [[new_total|e] s2] eqn:C; [|discriminate].
  destruct (_calc_total_price_again _ _ _ _ _ _ _ C) as [-> _].
  intros H. exists ref, traveler, booking, package, new_dep.
  repeat (split; [assumption || reflexivity|]).
  unfold bind, modify, ret in H.
  destruct (dict_mem (departure_date booking) (departures package));
    destruct (negb (round2 (new_total - total_price booking) =? 0)%float);
    injection H as <- <-; repeat split; reflexivity.
Qed.

End Bookings.

Lemma slots_left_upd_slots db pid date f d :
  Outcome.slots_left (upd_slots pid d f db) pid date
  = option_map (fun s => if date =? d then f s else s) (Outcome.slots_left db pid date).
Proof.
  unfold Outcome.slots_left, upd_slots. simpl. rewrite dict_get_update_same.
  destruct (dict_get pid (packages db)) as [p|]; simpl; [|reflexivity].
  rewrite dict_get_update.
  destruct (date =? d); destruct (dict_get date (departures p)); reflexivity.
Qed.

End TravelUpdates.

(** X5.  Asking again for the add-ons a booking already has charges nothing:
    when [update_booking_add_ons] has returned a booking whose total price
    is a number, the same call on the database it left returns the same
    booking and leaves that database as it is. *)
Theorem update_booking_add_ons_twice :
  forall (py_sum : list float -> float) (strip_lower : string -> string)
         (booking_id : string) (add_ons : list Travel.BookingAddOn)
         (payment_method_id : string) (db db1 : Travel.TravelAgencyDB)
         (b1 : Travel.Booking),
    Travel.update_booking_add_ons py_sum strip_lower booking_id add_ons payment_method_id db
    = (Ok b1, db1) ->
    finite (Travel.total_price b1) ->
    Travel.update_booking_add_ons py_sum strip_lower booking_id add_ons payment_method_id db1
    = (Ok b1, db1).
Proof.
  intros py_sum strip_lower id add_ons pm db db1 b1 H Fin.
  destruct (TravelUpdates.update_booking_add_ons_run _ _ _ _ _ _ _ _ H)
    as (ref & t & b & p & d & x & F & P & Pm & V & C & Eb & Edb).
  cbv zeta in Eb, Edb.
  set (delta := round2 (x - Travel.total_price b)%float) in *.
  set (record := fun h : list Travel.BookingPayment =>
                   (h ++ [{| Travel.payment_id := pm; Travel.amount := delta |}])%list) in *.
  assert (Tot : Travel.total_price b1 = x) by (rewrite Eb; reflexivity).
  (* the booking found on the database the first call left *)
  assert (F1 : exists t1,
             Travel.find_booking id (Travel.travelers db1) = Some (ref, t1, b1) /\
             Travel.payment_methods t1 = Travel.payment_methods t).
  { rewrite Edb, Eb.
    destruct (negb (delta =? 0)%float).
    - eexists. split.
      + apply TravelUpdates.find_booking_upd; [reflexivity|].
        apply TravelUpdates.find_booking_upd; [reflexivity|].
        apply TravelUpdates.find_booking_upd; [reflexivity|exact F].
      + reflexivity.
    - eexists. split.
      + apply TravelUpdates.find_booking_upd; [reflexivity|].
        apply TravelUpdates.find_booking_upd; [reflexivity|exact F].
      + reflexivity. }
  destruct F1 as (t1 & F1 & Pm1).
  assert (P1 : Travel.packages db1 = Travel.packages db).
  { rewrite Edb. destruct (negb (delta =? 0)%float); reflexivity. }
  assert (B1 : Travel.bk_package_id b1 = Travel.bk_package_id b /\
               Travel.departure_date b1 = Travel.departure_date b /\
               Travel.bk_travelers b1 = Travel.bk_travelers b /\
               Travel.insurance b1 = Travel.insurance b /\
               Travel.add_ons b1 = add_ons).
  { rewrite Eb. destruct (negb (delta =? 0)%float); repeat split; reflexivity. }
  destruct B1 as (Bp & Bd & Bt & Bi & Ba).
  unfold Travel.update_booking_add_ons.
  unfold bind at 1. unfold Travel._get_booking at 1. rewrite F1.
  unfold bind at 1. unfold Travel._get_package at 1. rewrite Bp, P1, P.
  rewrite Pm1, Pm. cbn [negb].
  unfold bind at 1. rewrite Bd, V.
  unfold bind at 1. rewrite Bt, Bi, C.
  rewrite Tot. rewrite Tot in Fin. rewrite (round2_sub_self x Fin). cbn [negb].
  unfold bind, modify, ret.
  rewrite (TravelUpdates.upd_booking_fix id db1 ref t1 b1 (Travel.set_add_ons add_ons) F1).
  2:{ destruct b1; unfold Travel.set_add_ons; simpl in *. rewrite Ba. reflexivity. }
  rewrite (TravelUpdates.upd_booking_fix id db1 ref t1 b1 (Travel.set_total_price x) F1).
  2:{ destruct b1; unfold Travel.set_total_price; simpl in *. rewrite Tot. reflexivity. }
  f_equal. destruct b1; unfold Travel.set_total_price, Travel.set_add_ons; simpl in *.
  rewrite Ba, Tot. reflexivity.
Qed.

Lemma update_booking_add_ons_twice_witness :
  exists b1 db1,
    Travel.update_booking_add_ons Examples.sum_floats lower "TAU001" [Examples.spa] "card_1"
      Examples.booked_db = (Ok b1, db1) /\
    Travel.payment_history b1
    = [{| Travel.payment_id := "card_1"; Travel.amount := 500%float |};
       {| Travel.payment_id := "card_1"; Travel.amount := 40%float |}] /\
    Travel.update_booking_add_ons Examples.sum_floats lower "TAU001" [Examples.spa] "card_1"
      db1 = (Ok b1, db1).
Proof.
  eexists. eexists. split; [vm_compute; reflexivity|]. split; [reflexivity|].
  apply (update_booking_add_ons_twice Examples.sum_floats lower "TAU001" [Examples.spa]
           "card_1" Examples.booked_db).
  - vm_compute. reflexivity.
  - vm_compute. discriminate.
Defined.

(** X6.  Changing the departure date moves the seats: when
    [update_booking_departure_date] returns, the new date had at least as
    many slots left as the booking has travelers, and every date of the
    package has the slots it had, plus the travelers if it is the old
    date, less the travelers if it is the new one (so nothing changes when
    both are the same date).  The booking keeps its travelers and its
    status, whatever that status is. *)
Theorem update_booking_departure_date_moves_slots :
  forall (py_sum : list float -> float) (strip_lower : string -> string)
         (booking_id new_departure_date payment_method_id : string)
         (db db1 : Travel.TravelAgencyDB) (b0 b1 : Travel.Booking),
    Travel.get_booking_details booking_id db = (Ok b0, db) ->
    Travel.update_booking_departure_date py_sum strip_lower booking_id new_departure_date
      payment_method_id db = (Ok b1, db1) ->
    Travel.departure_date b1 = new_departure_date /\
    Travel.bk_travelers b1 = Travel.bk_travelers b0 /\
    Travel.status b1 = Travel.status b0 /\
    (exists s,
       Outcome.slots_left db (Travel.bk_package_id b0) new_departure_date = Some s /\
       (Z.of_nat (List.length (Travel.bk_travelers b0)) <= s)%Z) /\
    forall date,
      Outcome.slots_left db1 (Travel.bk_package_id b0) date
      = option_map
          (fun s =>
             (s + (if String.eqb date (Travel.departure_date b0)
                   then Z.of_nat (List.length (Travel.bk_travelers b0)) else 0)
                - (if String.eqb date new_departure_date
                   then Z.of_nat (List.length (Travel.bk_travelers b0)) else 0))%Z)
          (Outcome.slots_left db (Travel.bk_package_id b0) date).
Proof.
  intros py_sum strip_lower id new pm db db1 b0 b1 G H.
  destruct (TravelUpdates.update_booking_departure_date_run _ _ _ _ _ _ _ _ H)
    as (ref & t & b & p & nd & F & P & Nd & Nn & Bd & Bt & Bs & Ep).
  unfold Travel.get_booking_details, bind, Travel._get_booking, ret in G.
  rewrite F in G. injection G as <-.
  repeat (split; [assumption|]).
  split.
  - exists (Travel.available_slots nd). unfold Outcome.slots_left.
    rewrite P, Nd. split; [reflexivity|exact Nn].
  - intros date.
    assert (E : forall d1 d2 : Travel.TravelAgencyDB,
               Travel.packages d1 = Travel.packages d2 ->
               Outcome.slots_left d1 (Travel.bk_package_id b) date
               = Outcome.slots_left d2 (Travel.bk_package_id b) date).
    { intros d1 d2 E. unfold Outcome.slots_left. rewrite E. reflexivity. }
    rewrite (E _ _ Ep), TravelUpdates.slots_left_upd_slots.
    destruct (dict_mem (Travel.departure_date b) (Travel.departures p)) eqn:M.
    + rewrite TravelUpdates.slots_left_upd_slots.
      destruct (Outcome.slots_left db (Travel.bk_package_id b) date); simpl; [|reflexivity].
      f_equal. destruct (date =? new); destruct (date =? Travel.departure_date b); lia.
    + unfold Outcome.slots_left. rewrite P.
      destruct (String.eqb_spec date (Travel.departure_date b)) as [->|N].
      * unfold dict_mem in M.
        destruct (dict_get (Travel.departure_date b) (Travel.departures p));
          [discriminate|reflexivity].
      * destruct (dict_get date (Travel.departures p)); simpl; [|reflexivity].
        f_equal. destruct (date =? new); lia.
Qed.

Lemma update_booking_departure_date_moves_slots_witness :
  exists b1 db1,
    Travel.update_booking_departure_date Examples.sum_floats lower "TAU001" "24-07-01"
      "card_1" Examples.booked_db = (Ok b1, db1) /\
    Travel.departure_date b1 = "24-07-01" /\
    Outcome.slots_left Examples.booked_db "PKG1" "24-06-01" = Some 3%Z /\
    Outcome.slots_left Examples.booked_db "PKG1" "24-07-01" = Some 2%Z /\
    Outcome.slots_left db1 "PKG1" "24-06-01" = Some 5%Z /\
    Outcome.slots_left db1 "PKG1" "24-07-01" = Some 0%Z.
Proof.
  eexists. eexists. split; [vm_compute; reflexivity|].
  split; [|repeat split; reflexivity].
  eapply (update_booking_departure_date_moves_slots Examples.sum_floats lower
            "TAU001" "24-07-01" "card_1" Examples.booked_db _ Examples.lisbon_booking).
  - vm_compute. reflexivity.
  - vm_compute. reflexivity.
Defined.
(** *** Bank: cards and account status *)

Module BankStatus.

Import Bank.

Lemma find_card_owner (k : string) (cs : dict Client) cid c :
  find_card k cs = Some (cid, c) -> In cid (dict_keys cs).
Proof.
  induction cs as [|[cid0 cl0] cs IH]; simpl; [discriminate|].
  destruct (dict_get k (cards cl0)).
  - intros H; injection H as <- _. auto.
  - auto.
Qed.

(** The card found is the card of the client found, the client
    identifiers being distinct. *)
Lemma find_card_spec (k : string) (cs : dict Client) cid c :
  NoDup (dict_keys cs) -> find_card k cs = Some (cid, c) ->
  exists client, dict_get cid cs = Some client /\ dict_get k (cards client) = Some c.
Proof.
  induction cs as [|[cid0 cl0] cs IH]; simpl; [discriminate|].
  intros ND. inversion ND as [|? ? Hnot ND']; subst.
  destruct (dict_get k (cards cl0)) as [c0|] eqn:G.
  - intros H; injection H as <- <-. rewrite String.eqb_refl. eauto.
  - intros H. pose proof (find_card_owner _ _ _ _ H) as Hin.
    destruct (String.eqb_spec cid cid0) as [->|_]; [contradiction|]. auto.
Qed.

Lemma find_card_upd (k : string) (f : Card -> Card) (cs : dict Client) cid c :
  NoDup (dict_keys cs) -> find_card k cs = Some (cid, c) ->
  find_card k (dict_update cid (set_cards (dict_update k f)) cs) = Some (cid, f c).
Proof.
  induction cs as [|[cid0 cl0] cs IH]; simpl; [discriminate|].
  intros ND. inversion ND as [|? ? Hnot ND']; subst.
  destruct (dict_get k (cards cl0)) as [c0|] eqn:G.
  - intros H; injection H as <- <-. rewrite String.eqb_refl. simpl.
    rewrite dict_get_update_same, G. reflexivity.
  - intros H. pose proof (find_card_owner _ _ _ _ H) as Hin.
    destruct (String.eqb_spec cid cid0) as [->|_]; [contradiction|].
    simpl. rewrite G. auto.
Qed.

Lemma find_account_owner (k : string) (cs : dict Client) cid a :
  find_account k cs = Some (cid, a) -> In cid (dict_keys cs).
Proof.
  induction cs as [|[cid0 cl0] cs IH]; simpl; [discriminate|].
  destruct (dict_get k (accounts cl0)).
  - intros H; injection H as <- _. auto.
  - auto.
Qed.

Lemma find_account_spec (k : string) (cs : dict Client) cid a :
  NoDup (dict_keys cs) -> find_account k cs = Some (cid, a) ->
  exists client, dict_get cid cs = Some client /\ dict_get k (accounts client) = Some a.
Proof.
  induction cs as [|[cid0 cl0] cs IH]; simpl; [discriminate|].
  intros ND. inversion ND as [|? ? Hnot ND']; subst.
  destruct (dict_get k (accounts cl0)) as [a0|] eqn:G.
  - intros H; injection H as <- <-. rewrite String.eqb_refl. eauto.
  - intros H. pose proof (find_account_owner _ _ _ _ H) as Hin.
    destruct (String.eqb_spec cid cid0) as [->|_]; [contradiction|]. auto.
Qed.

(** Two assignments of the card status, the second giving back the
    status the card had, leave the clients as they were. *)
Lemma upd_card_back (cid k : string) (s : string) (db : BankDB) client c :
  dict_get cid (clients db) = Some client ->
  dict_get k (cards client) = Some c ->
  upd_card cid k (set_card_status (card_status c)) (upd_card cid k (set_card_status s) db)
  = db.
Proof.
  intros Hc Hk. unfold upd_card, set_clients. destruct db as [cs txs ls bs]. simpl in *.
  f_equal. rewrite dict_update_compose. apply (dict_update_fix _ _ _ client Hc).
  destruct client; unfold set_cards; simpl in *. f_equal.
  rewrite dict_update_compose. apply (dict_update_fix _ _ _ c Hk).
  destruct c; reflexivity.
Qed.

End BankStatus.

(** X8.  Freezing a card and unfreezing it is a round trip.  For an active card
    (client identifiers being distinct, as the keys of a dict are):
    [freeze_card] returns it blocked, [get_card_details] then shows it
    blocked, freezing again returns the same card and changes nothing, and
    [unfreeze_card] returns the card as it was and leaves the database
    exactly as it was before the first call; the reason plays no part. *)
Theorem freeze_then_unfreeze_card_restores :
  forall (card_id reason reason' : string) (db : Bank.BankDB) (card : Bank.Card),
    NoDup (dict_keys (Bank.clients db)) ->
    Bank.get_card_details card_id db = (Ok card, db) ->
    Bank.card_status card = "active" ->
    exists db1 : Bank.BankDB,
      let blocked := Bank.set_card_status "blocked" card in
      Bank.freeze_card card_id reason db = (Ok blocked, db1) /\
      Bank.get_card_details card_id db1 = (Ok blocked, db1) /\
      Bank.freeze_card card_id reason' db1 = (Ok blocked, db1) /\
      Bank.unfreeze_card card_id db1 = (Ok card, db).
Proof.
  intros k reason reason' db card ND G St.
  unfold Bank.get_card_details, bind, Bank._get_card_by_id, ret in G.
  destruct (Bank.find_card k (Bank.clients db)) as [[cid c]|] eqn:F; [|discriminate].
  injection G as ->.
  destruct (BankStatus.find_card_spec _ _ _ _ ND F) as (client & Hc & Hk).
  pose proof (BankStatus.find_card_upd k (Bank.set_card_status "blocked") _ _ _ ND F) as F1.
  exists (Bank.upd_card cid k (Bank.set_card_status "blocked") db). cbv zeta.
  unfold Bank.freeze_card, Bank.unfreeze_card, Bank.get_card_details, bind,
    Bank._get_card_by_id, Bank._assert_card_active_or_blocked, modify, ret.
  rewrite F. cbn [Bank.clients Bank.upd_card Bank.set_clients]. rewrite F1.
  cbn [Bank.card_status Bank.set_card_status]. rewrite St. cbn.
  repeat split.
  f_equal.
  - destruct card; simpl in *. rewrite St. reflexivity.
  - rewrite <- St. apply (BankStatus.upd_card_back _ _ _ _ _ _ Hc Hk).
Qed.

Lemma freeze_then_unfreeze_card_restores_witness :
  exists db1 : Bank.BankDB,
    Bank.freeze_card "card_0001" "lost" (Examples.bank_db_with_card "active")
    = (Ok (Examples.card "blocked"), db1) /\
    Bank.get_card_details "card_0001" db1 = (Ok (Examples.card "blocked"), db1) /\
    Bank.freeze_card "card_0001" "stolen" db1 = (Ok (Examples.card "blocked"), db1) /\
    Bank.unfreeze_card "card_0001" db1
    = (Ok (Examples.card "active"), Examples.bank_db_with_card "active").
Proof.
  apply (freeze_then_unfreeze_card_restores "card_0001" "lost" "stolen"
           (Examples.bank_db_with_card "active") (Examples.card "active")).
  - repeat constructor; simpl; intuition discriminate.
  - reflexivity.
  - reflexivity.
Defined.

(** X9.  A frozen account moves no money.  Once [freeze_account] has returned
    (the account was not closed), every internal transfer from or to the
    account, every transfer to a beneficiary and every loan payment from
    it, asked for its owner, raises a [ValueError] and leaves the database
    as the freeze left it. *)
Theorem frozen_account_moves_no_money :
  forall (now account_id reason : string) (db db1 : Bank.BankDB) (frozen : Bank.Account)
         (owner : string) (acc : Bank.Account),
    NoDup (dict_keys (Bank.clients db)) ->
    Bank._get_account_by_id account_id db = (Ok (owner, acc), db) ->
    Bank.freeze_account account_id reason db = (Ok frozen, db1) ->
    Bank.acc_status frozen = "frozen" /\
    Bank.get_account_details account_id db1 = (Ok frozen, db1) /\
    (forall to amount description, exists msg,
        Bank.initiate_internal_transfer now owner account_id to amount description db1
        = (Raise (ValueError msg), db1)) /\
    (forall from amount description, exists msg,
        Bank.initiate_internal_transfer now owner from account_id amount description db1
        = (Raise (ValueError msg), db1)) /\
    (forall beneficiary_id amount method description, exists msg,
        Bank.initiate_transfer_to_beneficiary now owner account_id beneficiary_id amount
          method description db1
        = (Raise (ValueError msg), db1)) /\
    (forall loan_id amount method description, exists msg,
        Bank.make_loan_payment now owner loan_id account_id amount method description db1
        = (Raise (ValueError msg), db1)).
Proof.
  intros now k reason db db1 frozen owner acc ND G H.
  unfold Bank._get_account_by_id in G.
  destruct (Bank.find_account k (Bank.clients db)) as [[cid a]|] eqn:F; [|discriminate].
  injection G as -> ->.
  destruct (BankStatus.find_account_spec _ _ _ _ ND F) as (client & Hc & Hk).
  unfold Bank.freeze_account, bind, Bank._get_account_by_id, modify, ret in H.
  rewrite F in H. destruct (Bank.acc_status acc =? "closed"); [discriminate|].
  injection H as <- <-.
  set (db1 := Bank.upd_account owner k (Bank.set_acc_status "frozen") db).
  assert (C1 : dict_get owner (Bank.clients db1)
               = Some (Bank.set_accounts
                         (dict_update k (Bank.set_acc_status "frozen")) client)).
  { unfold db1, Bank.upd_account. simpl. rewrite dict_get_update_same, Hc. reflexivity. }
  assert (A1 : dict_get k (Bank.accounts
                             (Bank.set_accounts
                                (dict_update k (Bank.set_acc_status "frozen")) client))
               = Some (Bank.set_acc_status "frozen" acc)).
  { simpl. rewrite dict_get_update_same, Hk. reflexivity. }
  split; [reflexivity|]. split.
  { unfold Bank.get_account_details, bind, Bank._get_account_by_id, ret.
    assert (F1 : Bank.find_account k (Bank.clients db1)
                 = Some (owner, Bank.set_acc_status "frozen" acc)).
    { unfold db1, Bank.upd_account. simpl. clear C1 A1 db1 Hc Hk client.
      revert ND F. generalize (Bank.clients db) as cs.
      induction cs as [|[cid0 cl0] cs IH]; simpl; [discriminate|].
      intros ND. inversion ND as [|? ? Hnot ND']; subst.
      destruct (dict_get k (Bank.accounts cl0)) as [a0|] eqn:G.
      - intros E; injection E as <- <-. rewrite String.eqb_refl. simpl.
        rewrite dict_get_update_same, G. reflexivity.
      - intros E. pose proof (BankStatus.find_account_owner _ _ _ _ E) as Hin.
        destruct (String.eqb_spec owner cid0) as [->|_]; [contradiction|].
        simpl. rewrite G. auto. }
    rewrite F1. reflexivity. }
  split; [|split; [|split]].
  - intros to amount description. unfold Bank.initiate_internal_transfer.
    destruct (amount <=? 0)%float; [eexists; reflexivity|].
    unfold bind at 1. unfold Bank._get_client at 1. rewrite C1.
    unfold dict_mem at 1. rewrite A1. cbn [negb orb].
    destruct (dict_mem to _) eqn:Mt; cbn [negb]; [|eexists; reflexivity].
    unfold bind at 1. unfold Bank.getitem at 1. rewrite A1. cbn [ret].
    unfold dict_mem in Mt.
    destruct (dict_get to _) as [ta|] eqn:Gt; [|discriminate].
    unfold bind at 1. unfold Bank.getitem at 1. rewrite Gt. cbn [ret].
    unfold bind at 1. eexists. reflexivity.
  - intros from amount description. unfold Bank.initiate_internal_transfer.
    destruct (amount <=? 0)%float; [eexists; reflexivity|].
    unfold bind at 1. unfold Bank._get_client at 1. rewrite C1.
    destruct (dict_mem from _) eqn:Mf; cbn [negb orb]; [|eexists; reflexivity].
    unfold dict_mem at 1. rewrite A1. cbn [negb].
    unfold dict_mem in Mf.
    destruct (dict_get from _) as [fa|] eqn:Gf; [|discriminate].
    unfold bind at 1. unfold Bank.getitem at 1. rewrite Gf. cbn [ret].
    unfold bind at 1. unfold Bank.getitem at 1. rewrite A1. cbn [ret].
    unfold bind at 1. unfold Bank._assert_account_active at 1.
    destruct (negb (Bank.acc_status fa =? "active")); [eexists; reflexivity|].
    cbn [ret]. unfold bind at 1. eexists. reflexivity.
  - intros b amount method description. unfold Bank.initiate_transfer_to_beneficiary.
    destruct (amount <=? 0)%float; [eexists; reflexivity|].
    unfold bind at 1. unfold Bank._get_client at 1. rewrite C1.
    unfold dict_mem at 1. rewrite A1. cbn [negb].
    unfold bind at 1. unfold Bank.getitem at 1. rewrite A1. cbn [ret].
    unfold bind at 1. eexists. reflexivity.
  - intros loan_id amount method description. unfold Bank.make_loan_payment.
    destruct (amount <=? 0)%float; [eexists; reflexivity|].
    unfold bind at 1. unfold Bank._get_client at 1. rewrite C1.
    unfold dict_mem at 1. rewrite A1. cbn [negb].
    unfold bind at 1. unfold Bank._get_loan at 1.
    destruct (dict_get loan_id (Bank.loans db1)) as [loan|]; [|eexists; reflexivity].
    destruct (negb (Bank.loan_client_id loan =? owner)); [eexists; reflexivity|].
    unfold bind at 1. unfold Bank.getitem at 1. rewrite A1. cbn [ret].
    unfold bind at 1. eexists. reflexivity.
Qed.

Lemma frozen_account_moves_no_money_witness :
  exists frozen db1,
    Bank.freeze_account "acc_0001" "suspicious activity" Examples.bank_db = (Ok frozen, db1) /\
    Bank.acc_status frozen = "frozen" /\
    Bank.get_account_details "acc_0001" db1 = (Ok frozen, db1) /\
    exists msg,
      Bank.initiate_internal_transfer Examples.clock "client_0001" "acc_0001" "acc_0002"
        100%float None db1
      = (Raise (ValueError msg), db1).
Proof.
  eexists. eexists. split; [vm_compute; reflexivity|].
  destruct (frozen_account_moves_no_money Examples.clock "acc_0001" "suspicious activity"
              Examples.bank_db
              (snd (Bank.freeze_account "acc_0001" "suspicious activity" Examples.bank_db))
              (Bank.set_acc_status "frozen" (Examples.account "acc_0001" "checking" 500%float))
              "client_0001" (Examples.account "acc_0001" "checking" 500%float))
    as (S & G & Out & _).
  - repeat constructor; simpl; intuition discriminate.
  - reflexivity.
  - vm_compute. reflexivity.
  - split; [exact S|]. split; [exact G|]. apply Out.
Defined.
(** *** Bank: reading transactions *)

Module BankReads.

Import Bank.

Local Abbreviation newer_first := Outcome.newer_first.

Lemma str_lt_antisym (a b : string) : str_lt a b = true -> str_lt b a = false.
Proof.
  unfold str_lt. rewrite (String.compare_antisym a b).
  destruct (String.compare b a); simpl; congruence.
Qed.

Lemma insert_desc_head (t : Transaction) (l : list Transaction) (u : Transaction) :
  newer_first u t -> HdRel newer_first u l -> HdRel newer_first u (insert_desc t l).
Proof.
  intros Ht Hl. destruct l as [|v l]; simpl; [constructor; exact Ht|].
  destruct (str_lt (timestamp t) (timestamp v)); constructor; [|exact Ht].
  inversion Hl; assumption.
Qed.

Lemma insert_desc_sorted (t : Transaction) (l : list Transaction) :
  Sorted newer_first l -> Sorted newer_first (insert_desc t l).
Proof.
  induction 1 as [|u l Hs IH Hh]; simpl; [repeat constructor|].
  destruct (str_lt (timestamp t) (timestamp u)) eqn:E.
  - constructor; [exact IH|].
    apply insert_desc_head; [apply str_lt_antisym, E|exact Hh].
  - constructor; [constructor; assumption|]. constructor. exact E.
Qed.

Lemma sort_desc_sorted (l : list Transaction) : Sorted newer_first (sort_desc l).
Proof.
  unfold sort_desc. induction l as [|t l IH]; simpl; [constructor|].
  apply insert_desc_sorted, IH.
Qed.

Lemma insert_desc_In (x t : Transaction) (l : list Transaction) :
  In x (insert_desc t l) <-> x = t \/ In x l.
Proof.
  induction l as [|u l IH]; simpl; [intuition|].
  destruct (str_lt (timestamp t) (timestamp u)); simpl; rewrite ?IH; intuition.
Qed.

Lemma sort_desc_In (x : Transaction) (l : list Transaction) :
  In x (sort_desc l) <-> In x l.
Proof.
  unfold sort_desc. induction l as [|t l IH]; simpl; [reflexivity|].
  rewrite insert_desc_In, IH. intuition.
Qed.

Lemma insert_desc_length (t : Transaction) (l : list Transaction) :
  List.length (insert_desc t l) = S (List.length l).
Proof.
  induction l as [|u l IH]; simpl; [reflexivity|].
  destruct (str_lt (timestamp t) (timestamp u)); simpl; [rewrite IH|]; reflexivity.
Qed.

Lemma sort_desc_length (l : list Transaction) :
  List.length (sort_desc l) = List.length l.
Proof.
  unfold sort_desc. induction l as [|t l IH]; simpl; [reflexivity|].
  rewrite insert_desc_length, IH. reflexivity.
Qed.

Lemma Sorted_firstn {A} (R : A -> A -> Prop) (n : nat) (l : list A) :
  Sorted R l -> Sorted R (firstn n l).
Proof.
  revert n. induction l as [|x l IH]; intros [|n] H; simpl; try constructor.
  - apply IH. inversion H; assumption.
  - inversion H as [|? ? Hs Hh]; subst.
    destruct l as [|y l]; destruct n; simpl; constructor.
    inversion Hh; assumption.
Qed.

Lemma In_firstn {A} (x : A) (n : nat) (l : list A) : In x (firstn n l) -> In x l.
Proof.
  revert n. induction l as [|y l IH]; intros [|n]; simpl; try contradiction.
  intros [E|H]; [auto|right; exact (IH n H)].
Qed.

(** The lowered filter is given exactly when the filter is. *)
Lemma truthy_lowered (ms : option string) :
  truthy (if truthy ms then Some (lower (or_else ms "")) else None) = truthy ms.
Proof. destruct ms as [[|c m]|]; reflexivity. Qed.

Lemma or_else_lowered (ms : option string) :
  truthy ms = true ->
  or_else (if truthy ms then Some (lower (or_else ms "")) else None) ""
  = lower (or_else ms "").
Proof. destruct ms as [[|c m]|]; try discriminate. reflexivity. Qed.

Lemma filter_chain (a b c t1 d t2 e t3 f : bool) :
  (if negb a then false
   else if negb b then false
   else if negb c then false
   else if t1 && negb d then false
   else if t2 && negb e then false
   else if t3 && negb f then false
   else true) = true
  <-> a = true /\ b = true /\ c = true /\
      (t1 = true -> d = true) /\ (t2 = true -> e = true) /\ (t3 = true -> f = true).
Proof.
  destruct a, b, c, t1, d, t2, e, t3, f; simpl; intuition discriminate.
Qed.

End BankReads.




(** *** Bank: beneficiaries and loan payments *)

Module BankRuns.

Import Bank.

Lemma _get_client_ok k db c db' :
  _get_client k db = (Ok c, db') -> dict_get k (clients db) = Some c.
Proof.
  unfold _get_client. destruct (dict_get k (clients db)); [|discriminate].
  intros H; injection H as <- _. reflexivity.
Qed.

Lemma _get_loan_ok k db l db' :
  _get_loan k db = (Ok l, db') -> dict_get k (loans db) = Some l.
Proof.
  unfold _get_loan. destruct (dict_get k (loans db)); [|discriminate].
  intros H; injection H as <- _. reflexivity.
Qed.

Lemma getitem_ok {V} (d : dict V) k db v db' :
  getitem d k db = (Ok v, db') -> dict_get k d = Some v.
Proof.
  unfold getitem. destruct (dict_get k d); [|discriminate].
  intros H; injection H as <- _. reflexivity.
Qed.

Lemma validate_literal_ok field allowed v (s s' : BankDB) u :
  validate_literal field allowed v s = (Ok u, s') -> mem_str v allowed = true.
Proof. unfold validate_literal. destruct (mem_str v allowed); [reflexivity|discriminate]. Qed.

(** A model that is built is the record it was built from. *)
Lemma new_BeneficiaryVerification_ok v s v' s' :
  new_BeneficiaryVerification v s = (Ok v', s') -> v' = v.
Proof.
  unfold new_BeneficiaryVerification, validate_literal, bind, ret, raise.
  destruct (mem_str (ver_status v) _); [|discriminate].
  destruct (mem_str (ver_method v) _); [|discriminate].
  intros H; injection H as <- _. reflexivity.
Qed.

Lemma new_Beneficiary_ok b s b' s' :
  new_Beneficiary b s = (Ok b', s') -> b' = b.
Proof.
  unfold new_Beneficiary, validate_literal, bind, ret, raise.
  destruct (mem_str (bnf_type b) _); [|discriminate].
  destruct (mem_str (bnf_status b) _); [|discriminate].
  intros H; injection H as <- _. reflexivity.
Qed.

Lemma new_Transaction_ok t s t' s' :
  new_Transaction t s = (Ok t', s') -> t' = t.
Proof.
  unfold new_Transaction, validate_literal, bind, ret, raise.
  destruct (mem_str (tx_type t) _); [|discriminate].
  destruct (mem_str (direction t) _); [|discriminate].
  destruct (mem_str (method t) _); [|discriminate].
  destruct (mem_str (tx_status t) _); [|discriminate].
  intros H; injection H as <- _. reflexivity.
Qed.

Lemma new_Transaction_method t s t' s' :
  new_Transaction t s = (Ok t', s') -> mem_str (method t) TransactionMethod_literals = true.
Proof.
  unfold new_Transaction, validate_literal, bind, ret, raise.
  destruct (mem_str (tx_type t) _); [|discriminate].
  destruct (mem_str (direction t) _); [|discriminate].
  destruct (mem_str (method t) _); [reflexivity|discriminate].
Qed.

Lemma new_LoanRepaymentHistoryEntry_ok e s e' s' :
  new_LoanRepaymentHistoryEntry e s = (Ok e', s') -> e' = e.
Proof.
  unfold new_LoanRepaymentHistoryEntry, validate_literal, bind, ret, raise.
  destruct (mem_str (rh_method e) _); [|discriminate].
  intros H; injection H as <- _. reflexivity.
Qed.

Lemma first_missing_account_none (ids : list string) (accs : dict Account) :
  first_missing_account ids accs = None ->
  Forall (fun a => dict_mem a accs = true) ids.
Proof.
  induction ids as [|a ids IH]; simpl; [constructor|].
  destruct (dict_mem a accs) eqn:M; simpl; [|discriminate].
  intros H. constructor; auto.
Qed.

Section Tools.

Variable now : string.

#[local] Hint Resolve BankFacts.preserves__get_client BankFacts.preserves__get_loan
  BankFacts.preserves__get_beneficiary BankFacts.preserves_getitem
  BankFacts.preserves__assert_account_active
  BankFacts.preserves__assert_beneficiary_owned_by_client
  BankFacts.preserves_new_Transaction BankFacts.preserves_new_BeneficiaryVerification
  BankFacts.preserves_new_Beneficiary BankFacts.preserves_account_at
  BankFacts.preserves__generate_transaction_id : frame.

(** What a call to [add_beneficiary] that returns has checked and
    written. *)
Lemma add_beneficiary_run client_id beneficiary_id beneficiary_type display_name
  first_name last_name business_name bank_name account_number_masked routing_number
  iban swift_bic address1 address2 city state zip country allowed per_transfer_limit
  daily_limit verification_method db b db1 :
  add_beneficiary now client_id beneficiary_id beneficiary_type display_name
    first_name last_name business_name bank_name account_number_masked routing_number
    iban swift_bic address1 address2 city state zip country allowed per_transfer_limit
    daily_limit verification_method db = (Ok b, db1) ->
  exists client,
    dict_get client_id (clients db) = Some client /\
    Forall (fun a => dict_mem a (accounts client) = true) allowed /\
    Bank.beneficiary_id b = beneficiary_id /\
    bnf_client_id b = client_id /\
    bnf_status b = "active" /\
    verification b
    = {| ver_status := "pending"; ver_method := verification_method;
         verified_at := None |} /\
    allowed_from_account_ids b = allowed /\
    Bank.per_transfer_limit (transfer_limits b) = per_transfer_limit /\
    beneficiaries db1 = dict_set beneficiary_id b (beneficiaries db) /\
    clients db1
    = (if mem_str beneficiary_id (beneficiary_ids client) then clients db
       else dict_update client_id
              (set_beneficiary_ids (fun l => (l ++ [beneficiary_id])%list)) (clients db)) /\
    transactions db1 = transactions db /\
    loans db1 = loans db.
Proof.
  unfold add_beneficiary. intros H.
  apply bind_ok_preserves in H; [|auto with frame]. destruct H as (client & Hc & H).
  apply _get_client_ok in Hc.
  destruct (first_missing_account allowed (accounts client)) eqn:Hm; [discriminate|].
  apply first_missing_account_none in Hm.
  apply bind_ok_preserves in H; [|auto with frame]. destruct H as (v & Hv & H).
  apply new_BeneficiaryVerification_ok in Hv. subst v.
  apply bind_ok_preserves in H; [|unfold _now; auto with frame].
  destruct H as (created & Hn & H). unfold _now, ret in Hn. injection Hn as <-.
  apply bind_ok_preserves in H; [|auto with frame]. destruct H as (b' & Hb & H).
  apply new_Beneficiary_ok in Hb. subst b'.
  exists client. unfold bind, modify, ret in H.
  destruct (mem_str beneficiary_id (beneficiary_ids client)); cbn [negb] in H;
    injection H as <- <-; repeat (split; [assumption || reflexivity|]); reflexivity.
Qed.

Lemma debit_run (x : float) (cid aid : string) {A} (k : unit -> M BankDB A) db :
  bind (debit x cid aid) k db
  = k tt (upd_account cid aid
            (set_acc_balance (fun b => set_current (round2 (current b - x)%float) b))
            (upd_account cid aid
               (set_acc_balance
                  (fun b => set_available (round2 (available b - x)%float) b)) db)).
Proof. reflexivity. Qed.

(** What a call to [make_loan_payment] that returns has checked and
    written. *)
Lemma make_loan_payment_run client_id loan_id from amount method description db tx db1 :
  make_loan_payment now client_id loan_id from amount method description db = (Ok tx, db1) ->
  exists client loan acc,
    (amount <=? 0)%float = false /\
    dict_get client_id (clients db) = Some client /\
    dict_get from (accounts client) = Some acc /\
    dict_get loan_id (loans db) = Some loan /\
    loan_client_id loan = client_id /\
    acc_status acc = "active" /\
    (available (acc_balance acc) <? amount)%float = false /\
    mem_str method TransactionMethod_literals = true /\
    transaction_id tx = "tx_" ++ format_07d (List.length (transactions db) + 1) /\
    tx_type tx = "payment" /\ direction tx = "debit" /\ tx_status tx = "posted" /\
    Bank.amount tx = round2 amount /\ timestamp tx = now /\ Bank.method tx = method /\
    tx_account_id tx = from /\ tx_currency tx = acc_currency acc /\
    clients db1
    = clients
        (upd_account client_id from
           (set_acc_balance (fun b => set_current (round2 (current b - amount)%float) b))
           (upd_account client_id from
              (set_acc_balance
                 (fun b => set_available (round2 (available b - amount)%float) b)) db)) /\
    transactions db1 = dict_set (transaction_id tx) tx (transactions db) /\
    loans db1
    = dict_update loan_id
        (set_repayment_history
           (fun h => (h ++ [{| rh_transaction_id := transaction_id tx;
                               posted_at := now;
                               rh_amount := round2 amount;
                               rh_currency := acc_currency acc;
                               rh_method := method;
                               principal_component := round2 amount;
                               interest_component := 0%float;
                               fees_component := 0%float |}])%list))
        (loans db) /\
    beneficiaries db1 = beneficiaries db.
Proof.
  unfold make_loan_payment. intros H.
  destruct (amount <=? 0)%float eqn:Hpos; [discriminate|].
  apply bind_ok_preserves in H; [|auto with frame]. destruct H as (client & Hc & H).
  apply _get_client_ok in Hc.
  destruct (dict_mem from (accounts client)) eqn:Hm; cbn [negb] in H; [|discriminate].
  apply bind_ok_preserves in H; [|auto with frame]. destruct H as (loan & Hl & H).
  apply _get_loan_ok in Hl.
  destruct (String.eqb_spec (loan_client_id loan) client_id) as [Hlc|]; cbn [negb] in H;
    [|discriminate].
  apply bind_ok_preserves in H; [|auto with frame]. destruct H as (acc & Ha & H).
  apply getitem_ok in Ha.
  apply bind_ok_preserves in H; [|auto with frame]. destruct H as ([] & Hact & H).
  unfold _assert_account_active in Hact.
  destruct (String.eqb_spec (acc_status acc) "active") as [Hst|]; cbn [negb] in Hact;
    [|discriminate].
  destruct (available (acc_balance acc) <? amount)%float eqn:Hbal; [discriminate|].
  rewrite debit_run in H.
  apply bind_ok_preserves in H; [|auto with frame]. destruct H as (tx_id & Hid & H).
  unfold _generate_transaction_id, gets in Hid. injection Hid as <-.
  apply bind_ok_preserves in H; [|unfold _now; auto with frame].
  destruct H as (ts & Hts & H). unfold _now, ret in Hts. injection Hts as <-.
  apply bind_ok_preserves in H; [|auto with frame]. destruct H as (acc' & _ & H).
  apply bind_ok_preserves in H; [|auto with frame]. destruct H as (t & Ht & H).
  pose proof (new_Transaction_method _ _ _ _ Ht) as Hmeth. cbn [Bank.method] in Hmeth.
  apply new_Transaction_ok in Ht. subst t.
  unfold bind at 1 in H. cbn [modify] in H.
  apply bind_ok_preserves in H;
    [|unfold new_LoanRepaymentHistoryEntry; preserves_tac].
  destruct H as (e & He & H). apply new_LoanRepaymentHistoryEntry_ok in He. subst e.
  unfold bind, modify, ret in H. injection H as <- <-.
  exists client, loan, acc. cbn.
  repeat (split; [assumption || reflexivity|]). reflexivity.
Qed.

End Tools.

End BankRuns.

(** X12.  A beneficiary just added is on file and cannot be paid yet.  When
    [add_beneficiary] returns, [get_beneficiary_details] gives the same
    beneficiary back; it is active, its verification is pending, every
    account it allows belongs to the client, who now lists it; and every
    [initiate_transfer_to_beneficiary] to it, for any client, account,
    amount and method, raises a [ValueError] and changes nothing. *)
Theorem add_beneficiary_then_details :
  forall (now client_id beneficiary_id beneficiary_type : string)
         (display_name first_name last_name business_name : option string)
         (bank_name account_number_masked : string)
         (routing_number iban swift_bic : option string)
         (address1 address2 city state zip country : string)
         (allowed : list string) (per_transfer_limit daily_limit : float)
         (verification_method : string) (db db1 : Bank.BankDB) (b : Bank.Beneficiary),
    Bank.add_beneficiary now client_id beneficiary_id beneficiary_type display_name
      first_name last_name business_name bank_name account_number_masked routing_number
      iban swift_bic address1 address2 city state zip country allowed per_transfer_limit
      daily_limit verification_method db = (Ok b, db1) ->
    Bank.get_beneficiary_details beneficiary_id db1 = (Ok b, db1) /\
    Bank.bnf_status b = "active" /\
    Bank.ver_status (Bank.verification b) = "pending" /\
    Bank.verified_at (Bank.verification b) = None /\
    (exists client1,
       dict_get client_id (Bank.clients db1) = Some client1 /\
       In beneficiary_id (Bank.beneficiary_ids client1) /\
       Forall (fun a => dict_mem a (Bank.accounts client1) = true)
         (Bank.allowed_from_account_ids b)) /\
    (forall payer from_account_id amount method description,
     exists msg,
       Bank.initiate_transfer_to_beneficiary now payer from_account_id beneficiary_id
         amount method description db1
       = (Raise (ValueError msg), db1)).
Proof.
  intros until b. intros H.
  destruct (BankRuns.add_beneficiary_run _ _ _ _ _ _ _ _ _ _ _ _ _ _ _ _ _ _ _ _ _ _ _ _ _ _ H)
    as (client & Hc & Hall & Bid & Bc & Bs & Bv & Ba & Bl & Eb & Ec & _ & _).
  assert (G : dict_get beneficiary_id (Bank.beneficiaries db1) = Some b).
  { rewrite Eb. apply dict_get_set_same. }
  split.
  { unfold Bank.get_beneficiary_details, Bank._get_beneficiary. rewrite G. reflexivity. }
  split; [exact Bs|]. rewrite Bv. split; [reflexivity|]. split; [reflexivity|].
  split.
  - rewrite Ec, Ba.
    destruct (mem_str beneficiary_id (Bank.beneficiary_ids client)) eqn:M.
    + exists client. split; [exact Hc|]. split; [apply mem_str_In, M|exact Hall].
    + eexists. rewrite dict_get_update_same, Hc. split; [reflexivity|].
      split; [simpl; apply in_or_app; right; left; reflexivity|exact Hall].
  - intros payer from amount method description.
    unfold Bank.initiate_transfer_to_beneficiary.
    destruct (amount <=? 0)%float; [eexists; reflexivity|].
    unfold bind at 1. unfold Bank._get_client at 1.
    destruct (dict_get payer (Bank.clients db1)) as [p|]; [|eexists; reflexivity].
    destruct (dict_mem from (Bank.accounts p)) eqn:Mf; cbn [negb];
      [|eexists; reflexivity].
    unfold dict_mem in Mf. destruct (dict_get from (Bank.accounts p)) as [acc|] eqn:Gf;
      [|discriminate].
    unfold bind at 1. unfold Bank.getitem at 1. rewrite Gf. cbn [ret].
    unfold bind at 1. unfold Bank._assert_account_active at 1.
    destruct (negb (Bank.acc_status acc =? "active")); [eexists; reflexivity|].
    cbn [ret]. unfold bind at 1.
    unfold Bank._assert_beneficiary_owned_by_client at 1.
    unfold bind at 1. unfold Bank._get_client at 1.
    destruct (dict_get payer (Bank.clients db1)) as [p'|]; [|eexists; reflexivity].
    destruct (negb (mem_str beneficiary_id (Bank.beneficiary_ids p')));
      [eexists; reflexivity|].
    cbn [ret]. unfold bind at 1. unfold Bank._get_beneficiary at 1. rewrite G.
    rewrite Bs, Bv. cbn. eexists. reflexivity.
Qed.

Lemma add_beneficiary_then_details_witness :
  Examples.add_alan Examples.bank_db = (Ok Examples.alan, Examples.bank_db_with_alan) /\
  Bank.get_beneficiary_details "bnf_0002" Examples.bank_db_with_alan
  = (Ok Examples.alan, Examples.bank_db_with_alan) /\
  exists msg,
    Bank.initiate_transfer_to_beneficiary Examples.clock "client_0001" "acc_0001"
      "bnf_0002" 50%float "ACH" None Examples.bank_db_with_alan
    = (Raise (ValueError msg), Examples.bank_db_with_alan).
Proof.
  split; [vm_compute; reflexivity|].
  destruct (add_beneficiary_then_details Examples.clock "client_0001" "bnf_0002"
              "individual" (Some "Alan") None None None "First Bank" "****9876" None None
              None "2 Main St" "" "Springfield" "IL" "62701" "US" ["acc_0001"]
              1000%float 5000%float "document" Examples.bank_db
              Examples.bank_db_with_alan Examples.alan)
    as (G & _ & _ & _ & _ & Out).
  - vm_compute. reflexivity.
  - split; [exact G|]. apply Out.
Defined.

(** X13.  What a loan payment writes.  When [make_loan_payment] returns, the
    loan belongs to the client and the paying account was active with
    enough available funds; the account's available and current balances
    are each [round(balance - amount, 2)]; the returned transaction is a
    posted debit of [round(amount, 2)] filed under its identifier; and the
    loan is the loan it was but for one entry more in its repayment
    history, carrying the whole amount as principal with no interest and no
    fees: principal, schedule and status of the loan are not touched. *)
Theorem make_loan_payment_records :
  forall (now client_id loan_id from_account_id : string) (amount : float)
         (method : string) (description : option string)
         (db db1 : Bank.BankDB) (tx : Bank.Transaction),
    Bank.make_loan_payment now client_id loan_id from_account_id amount method
      description db = (Ok tx, db1) ->
    exists (loan : Bank.Loan) (acc : Bank.Account),
      Bank.get_loan_details loan_id db = (Ok loan, db) /\
      Bank.loan_client_id loan = client_id /\
      Outcome.lookup_account client_id from_account_id db = Some acc /\
      Bank.acc_status acc = "active" /\
      (Bank.available (Bank.acc_balance acc) <? amount)%float = false /\
      option_map Bank.acc_balance (Outcome.lookup_account client_id from_account_id db1)
      = Some {| Bank.current := round2 (Bank.current (Bank.acc_balance acc) - amount);
                Bank.available := round2 (Bank.available (Bank.acc_balance acc) - amount);
                Bank.on_hold := Bank.on_hold (Bank.acc_balance acc) |} /\
      Bank.tx_type tx = "payment" /\
      Bank.direction tx = "debit" /\
      Bank.tx_status tx = "posted" /\
      Bank.amount tx = round2 amount /\
      dict_get (Bank.transaction_id tx) (Bank.transactions db1) = Some tx /\
      Bank.get_loan_details loan_id db1
      = (Ok (Bank.set_repayment_history
               (fun h =>
                  (h ++ [{| Bank.rh_transaction_id := Bank.transaction_id tx;
                            Bank.posted_at := now;
                            Bank.rh_amount := round2 amount;
                            Bank.rh_currency := Bank.acc_currency acc;
                            Bank.rh_method := method;
                            Bank.principal_component := round2 amount;
                            Bank.interest_component := 0%float;
                            Bank.fees_component := 0%float |}])%list) loan), db1).
Proof.
  intros now cid loan_id from amount method description db db1 tx H.
  destruct (BankRuns.make_loan_payment_run _ _ _ _ _ _ _ _ _ _ H)
    as (client & loan & acc & _ & Hc & Ha & Hl & Hlc & Hst & Hbal & _ & _ & Ty & Di & St
        & Am & _ & _ & _ & _ & Ec & Et & El & _).
  exists loan, acc.
  assert (L0 : Outcome.lookup_account cid from db = Some acc).
  { unfold Outcome.lookup_account. rewrite Hc. exact Ha. }
  split; [unfold Bank.get_loan_details, Bank._get_loan; rewrite Hl; reflexivity|].
  repeat (split; [assumption|]).
  split.
  { unfold Outcome.lookup_account. rewrite Ec.
    fold (Outcome.lookup_account cid from
            (Bank.upd_account cid from
               (Bank.set_acc_balance
                  (fun b => Bank.set_current
                              (round2 (Bank.current b - amount)%float) b))
               (Bank.upd_account cid from
                  (Bank.set_acc_balance
                     (fun b => Bank.set_available
                                 (round2 (Bank.available b - amount)%float) b)) db))).
    rewrite !TransferFacts.lookup_upd_same, L0. reflexivity. }
  repeat (split; [assumption|]).
  split; [rewrite Et; apply dict_get_set_same|].
  unfold Bank.get_loan_details, Bank._get_loan.
  rewrite El, dict_get_update_same, Hl. reflexivity.
Qed.

Lemma make_loan_payment_records_witness :
  exists tx db1,
    Bank.make_loan_payment Examples.clock "client_0001" "loan_0001" "acc_0001" 50%float
      "Internal" None Examples.bank_db = (Ok tx, db1) /\
    Bank.amount tx = 50%float /\
    Examples.balance_of db1 "client_0001" "acc_0001" = Some (Examples.balance 450%float) /\
    option_map (fun l => (Bank.principal l, List.length (Bank.repayment_history l)))
      (dict_get "loan_0001" (Bank.loans db1))
    = Some (10000%float, 1%nat) /\
    exists loan acc,
      Bank.get_loan_details "loan_0001" Examples.bank_db = (Ok loan, Examples.bank_db) /\
      Outcome.lookup_account "client_0001" "acc_0001" Examples.bank_db = Some acc.
Proof.
  eexists. eexists. split; [vm_compute; reflexivity|].
  split; [reflexivity|]. split; [reflexivity|]. split; [reflexivity|].
  destruct (make_loan_payment_records Examples.clock "client_0001" "loan_0001" "acc_0001"
              50%float "Internal" None Examples.bank_db
              (snd (Bank.make_loan_payment Examples.clock "client_0001" "loan_0001"
                      "acc_0001" 50%float "Internal" None Examples.bank_db))
              match fst (Bank.make_loan_payment Examples.clock "client_0001" "loan_0001"
                           "acc_0001" 50%float "Internal" None Examples.bank_db) with
              | Ok tx => tx
              | Raise _ => Examples.old_transaction
              end)
    as (loan & acc & G & _ & L & _).
  - vm_compute. reflexivity.
  - exists loan, acc. split; [exact G|exact L].
Defined.
(** *** Refused calls, run *)

Lemma bank_tools_atomic_on_own_errors_witness :
  exists db',
    Bank.use_tool Examples.clock Examples.calc_stub Examples.dumps_stub
      (Bank.InitiateInternalTransfer "client_0001" "acc_0002" "acc_0001" 100%float None)
      Examples.bank_db
    = (Raise (ValueError "Insufficient available balance"), db') /\
    db' = Examples.bank_db.
Proof.
  eexists. split; [vm_compute; reflexivity|].
  apply (bank_tools_atomic_on_own_errors Examples.clock Examples.calc_stub
           Examples.dumps_stub
           (Bank.InitiateInternalTransfer "client_0001" "acc_0002" "acc_0001" 100%float None)
           Examples.bank_db _ "Insufficient available balance").
  vm_compute. reflexivity.
Defined.

Lemma initiate_internal_transfer_all_or_nothing_witness :
  exists db',
    Bank.initiate_internal_transfer Examples.clock "client_0001" "acc_0001" "acc_0009"
      100%float None Examples.bank_db
    = (Raise (ValueError "Both accounts must belong to the same client"), db') /\
    db' = Examples.bank_db.
Proof.
  eexists. split; [vm_compute; reflexivity|].
  apply (initiate_internal_transfer_all_or_nothing Examples.clock "client_0001" "acc_0001"
           "acc_0009" 100%float None Examples.bank_db _
           (ValueError "Both accounts must belong to the same client")).
  - vm_compute. reflexivity.
  - reflexivity.
Defined.

Lemma travel_new_booking_id_is_free_witness :
  Travel._get_new_booking_id (Examples.travel_db "confirmed" Examples.paid_250)
  = (Ok "TAU002", Examples.travel_db "confirmed" Examples.paid_250) /\
  Travel.find_booking "TAU002"
    (Travel.travelers (Examples.travel_db "confirmed" Examples.paid_250)) = None.
Proof.
  split; [vm_compute; reflexivity|].
  apply (travel_new_booking_id_is_free
           (Examples.travel_db "confirmed" Examples.paid_250)
           (Examples.travel_db "confirmed" Examples.paid_250) "TAU002").
  vm_compute. reflexivity.
Defined.
(** *** Railway: the other WRITE tools *)

Module RailwayUpdates.

Import Railway Frame RailwayBooking.

Lemma bind_raise_preserves {S A B} (m : M S A) (k : A -> M S B) s e s' :
  preserves m -> bind m k s = (Raise e, s') ->
  s' = s \/ exists a, m s = (Ok a, s) /\ k a s = (Raise e, s').
Proof.
  intros Hm. unfold bind. specialize (Hm s).
  destruct (m s) as [[a|e1] s1]; simpl in Hm; subst s1; [eauto|].
  intros H. injection H as _ <-. left. reflexivity.
Qed.

Lemma preserves_rail__get_reservation (reservation_id : string) :
  preserves (_get_reservation reservation_id).
Proof. intros db. unfold _get_reservation. destruct (dict_get _ _); reflexivity. Qed.

#[local] Hint Resolve preserves_rail__get_reservation preserves__get_user
  preserves__get_train preserves_as_float preserves_as_int
  preserves__compute_segment_price preserves__coach_for_class
  preserves__get_train_instance preserves__get_new_reservation_id
  preserves__get_new_pnr preserves__apply_membership_discount
  preserves_build_segments preserves_validate_payments : frame.

Section Updates.

Variable py_sum : list float -> float.
Variable str_of_float : float -> string.
Variable str_of_payments : list RailPayment -> string.
Variable str_of_methods : dict PaymentMethodRail -> string.

Variable P : exn -> Prop.

(** Every raise of [_payment_for_update] comes before the wallet is
    debited. *)
Lemma _payment_for_update_atomic user_id user payment_id total_price :
  atomic P (_payment_for_update str_of_methods user_id user payment_id total_price).
Proof.
  unfold _payment_for_update.
  destruct (dict_get payment_id (payment_methods user)) as [method|];
    [|apply atomic_of_preserves; auto with frame].
  apply atomic_then.
  - destruct (0 <? total_price)%float; [|apply atomic_of_preserves; auto with frame].
    destruct method; [apply atomic_of_preserves; auto with frame| |
                      apply atomic_of_preserves; auto with frame].
    apply atomic_bind; [auto with frame|intros n].
    apply atomic_bind; [auto with frame|intros f].
    destruct (_ <? _)%float; [apply atomic_of_preserves; auto with frame|].
    apply atomic_bind; [auto with frame|intros n'].
    destruct (_ <? _)%Z; [apply atomic_of_preserves; auto with frame|].
    apply atomic_bind; [auto with frame|intros n''].
    apply atomic_of_never_raises. apply never_raises_modify.
  - intros _. destruct (_ <? _)%float; apply never_raises_ret.
Qed.

Lemma update_reservation_bags_atomic reservation_id total_bags payment_id :
  atomic P (update_reservation_bags str_of_methods reservation_id total_bags payment_id).
Proof.
  unfold update_reservation_bags.
  apply atomic_bind; [auto with frame|intros reservation].
  apply atomic_bind; [auto with frame|intros user].
  apply atomic_bind; [auto with frame|intros delta].
  apply atomic_then; [apply _payment_for_update_atomic|intros payment].
  never_raises_tac.
Qed.

Lemma update_reservation_bikes_atomic reservation_id bikes payment_id :
  atomic P (update_reservation_bikes str_of_methods reservation_id bikes payment_id).
Proof.
  unfold update_reservation_bikes.
  apply atomic_bind; [auto with frame|intros reservation].
  apply atomic_bind; [auto with frame|intros user].
  apply atomic_bind; [auto with frame|intros delta].
  apply atomic_then; [apply _payment_for_update_atomic|intros payment].
  never_raises_tac.
Qed.

Lemma update_reservation_trains_atomic reservation_id travel_class trains payment_id :
  atomic P (update_reservation_trains str_of_methods reservation_id travel_class trains
              payment_id).
Proof.
  unfold update_reservation_trains.
  apply atomic_bind; [auto with frame|intros reservation].
  apply atomic_bind; [auto with frame|intros user].
  apply atomic_bind; [auto with frame|intros [new_segments new_fare_total]].
  apply atomic_bind; [auto with frame|intros fare].
  apply atomic_then; [apply _payment_for_update_atomic|intros payment].
  never_raises_tac.
Qed.

Lemma update_reservation_passengers_atomic reservation_id passengers :
  atomic P (update_reservation_passengers reservation_id passengers).
Proof.
  unfold update_reservation_passengers.
  apply atomic_bind; [auto with frame|intros reservation].
  destruct (negb _); [apply atomic_of_preserves; auto with frame|].
  apply atomic_of_never_raises. never_raises_tac.
Qed.

Lemma cancel_reservation_atomic reservation_id :
  atomic P (cancel_reservation reservation_id).
Proof.
  unfold cancel_reservation.
  apply atomic_bind; [auto with frame|intros reservation].
  apply atomic_of_never_raises. never_raises_tac.
Qed.

(** [add_wallet_funds]: "Too many wallets" is raised only when no wallet
    was created. *)
Lemma add_wallet_funds_atomic user_id amount :
  atomic P (add_wallet_funds user_id amount).
Proof.
  unfold add_wallet_funds.
  destruct (amount <=? 0)%Z; [apply atomic_of_preserves; auto with frame|].
  apply atomic_bind; [auto with frame|intros user].
  intros s e s' H _.
  destruct (first_wallet (payment_methods user)) as [pid|];
    [|destruct (first_unused _ _) as [wid|]];
    cbv [bind ret raise modify gets] in H; try discriminate H.
  injection H as _ <-. reflexivity.
Qed.

End Updates.

End RailwayUpdates.
(** *** Railway: what a booking leaves *)

Module RailwayRuns.

Import Railway Frame RailwayBooking RailwayUpdates.

#[local] Hint Resolve preserves_rail__get_reservation preserves__get_user
  preserves__get_train preserves_as_float preserves_as_int
  preserves__compute_segment_price preserves__coach_for_class
  preserves__get_train_instance preserves__get_new_reservation_id
  preserves__get_new_pnr preserves__apply_membership_discount
  preserves_build_segments preserves_validate_payments : frame.

(** A step that leaves the database alone either raises, and the whole
    computation with it, or hands its value on. *)
Lemma bind_preserves_cases {S A B} (m : M S A) (k : A -> M S B) s res s' :
  preserves m -> bind m k s = (res, s') ->
  (exists e, res = Raise e /\ s' = s) \/ exists a, m s = (Ok a, s) /\ k a s = (res, s').
Proof.
  intros Hm. unfold bind. specialize (Hm s).
  destruct (m s) as [[a|e] s1]; simpl in Hm; subst s1; [eauto|].
  intros H. injection H as <- <-. left. eauto.
Qed.

Lemma _get_user_ok user_id db user db' :
  _get_user user_id db = (Ok user, db') ->
  db' = db /\ dict_get user_id (users db) = Some user.
Proof.
  unfold _get_user. destruct (dict_get user_id (users db)); [|discriminate].
  intros H. injection H as <- <-. auto.
Qed.

Lemma _get_reservation_ok reservation_id db r db' :
  _get_reservation reservation_id db = (Ok r, db') ->
  db' = db /\ dict_get reservation_id (reservations db) = Some r.
Proof.
  unfold _get_reservation. destruct (dict_get reservation_id (reservations db)); [|discriminate].
  intros H. injection H as <- <-. auto.
Qed.

Lemma first_unused_spec (candidates used : list string) (c : string) :
  first_unused candidates used = Some c -> In c candidates /\ ~ In c used.
Proof.
  induction candidates as [|c' rest IH]; simpl; [discriminate|].
  destruct (mem_str c' used) eqn:E.
  - intros H. destruct (IH H). auto.
  - intros H. injection H as ->. split; [auto|].
    intros Hin. apply mem_str_In in Hin. congruence.
Qed.

Lemma set_payment_methods_id (u : RailUser) : set_payment_methods (fun d => d) u = u.
Proof. destruct u; reflexivity. Qed.

Lemma set_users_id (f : dict RailUser -> dict RailUser) (db : TrainDB) :
  f (users db) = users db -> set_users f db = db.
Proof. destruct db; unfold set_users; simpl. intros ->. reflexivity. Qed.

(** Once validated, a payment stays valid while wallets are debited. *)
Lemma payable_deduct (user : RailUser) (payment_id : string) (n : Z) (pay : RailPayment) :
  Outcome.payable user pay -> Outcome.payable (deduct payment_id n user) pay.
Proof.
  unfold Outcome.payable, deduct. simpl.
  destruct (String.eqb_spec (Railway.payment_id pay) payment_id) as [->|Hne].
  - rewrite dict_get_update_same.
    destruct (dict_get payment_id (payment_methods user)) as [[]|]; simpl; auto.
  - rewrite dict_get_update_other by assumption. auto.
Qed.

(** What the validation loop has checked when it returns. *)
Lemma validate_payments_payable (user : RailUser) (pays : list RailPayment) :
  forall db db',
    validate_payments user pays db = (Ok tt, db') ->
    Forall (Outcome.payable user) pays.
Proof.
  induction pays as [|pay rest IH]; intros db db' H; [constructor|].
  simpl in H.
  destruct (dict_get (payment_id pay) (payment_methods user)) as [method|] eqn:Em;
    [|discriminate].
  unfold bind at 1 in H.
  destruct method as [id extra|id extra|id extra].
  - simpl in H. constructor; [unfold Outcome.payable; rewrite Em; exact I|].
    exact (IH _ _ H).
  - match type of H with (let (_, _) := ?body db in _) = _ =>
      destruct (body db) as [[[]|e] db1] eqn:E; [|discriminate]
    end.
    constructor; [|exact (IH _ _ H)].
    unfold Outcome.payable. rewrite Em.
    unfold bind at 1, as_int in E.
    destruct (int_of_float (amount pay)); [discriminate|].
    destruct (PrimFloat.is_nan (amount pay)); discriminate.
  - simpl in H. constructor; [unfold Outcome.payable; rewrite Em; exact I|].
    exact (IH _ _ H).
Qed.

(** The deduction loop after the validation loop: it returns, and what it
    has done is a change of the payment methods of the user that keeps
    their ids. *)
Lemma deduct_wallets_run (user_id : string) (pays : list RailPayment) :
  forall user s,
    Forall (Outcome.payable user) pays ->
    exists g,
      deduct_wallets user_id user pays s
      = (Ok tt, set_users (dict_update user_id (set_payment_methods g)) s) /\
      forall d, dict_keys (g d) = dict_keys d.
Proof.
  induction pays as [|pay rest IH]; intros user s Hall; simpl.
  - exists (fun d => d). split; [|reflexivity].
    unfold ret. f_equal. symmetry. apply set_users_id.
    apply dict_update_id, set_payment_methods_id.
  - inversion Hall as [|? ? Hpay Hrest]; subst.
    unfold Outcome.payable in Hpay.
    destruct (dict_get (payment_id pay) (payment_methods user)) as [[id x|id x|id x]|];
      [apply IH; assumption| |apply IH; assumption|contradiction].
    unfold as_int. destruct (int_of_float (amount pay)) as [n|]; [|contradiction].
    cbv [bind ret modify].
    destruct (IH (deduct (payment_id pay) n user)
                 (set_users (dict_update user_id (deduct (payment_id pay) n)) s))
      as [g [E K]].
    { eapply Forall_impl; [|exact Hrest]. intros p. apply payable_deduct. }
    exists (fun d => g (dict_update (payment_id pay) (take_from_wallet n) d)).
    split.
    + rewrite E. f_equal. destruct s; unfold set_users; simpl. f_equal.
      rewrite dict_update_compose. apply dict_update_ext. intros u. reflexivity.
    + intros d. rewrite K. apply dict_keys_update.
Qed.

Lemma new_TrainReservation_ok
  reservation_id user_id origin destination trip_type trains passengers
  payment_history created_at total_bags bikes meal_preference insurance pnr status
  (s : TrainDB) res s' :
  new_TrainReservation reservation_id user_id origin destination trip_type
    trains passengers payment_history created_at total_bags bikes
    meal_preference insurance pnr status s = (res, s') ->
  s' = s /\
  ((exists msg, res = Raise (ValidationError msg)) \/
   exists t m i,
     TripType_of trip_type = Some t /\ MealPreference_of meal_preference = Some m /\
     Insurance_of insurance = Some i /\
     res = Ok {| Railway.reservation_id := reservation_id;
                 res_user_id := user_id;
                 Railway.origin := origin;
                 Railway.destination := destination;
                 Railway.trip_type := t;
                 trains_of := trains;
                 Railway.passengers := passengers;
                 Railway.payment_history := payment_history;
                 Railway.created_at := created_at;
                 Railway.total_bags := total_bags;
                 Railway.bikes := bikes;
                 Railway.meal_preference := m;
                 Railway.insurance := i;
                 Railway.pnr := pnr;
                 Railway.status := status |}).
Proof.
  unfold new_TrainReservation, validate_literal.
  destruct (mem_str status _); cbv [bind ret raise].
  - destruct (TripType_of trip_type) as [t|];
      [destruct (MealPreference_of meal_preference) as [m|];
       [destruct (Insurance_of insurance) as [i|]|]|];
      intros H; injection H as <- <-; split; try reflexivity; eauto 10.
  - intros H; injection H as <- <-; split; eauto.
Qed.

Section Booking.

Variable py_sum : list float -> float.
Variable str_of_float : float -> string.
Variable str_of_payments : list RailPayment -> string.

(** The two ways [book_train_reservation] ends: a raise before anything
    is written; or, the wallets debited, pydantic's refusal of the
    reservation or the reservation stored. *)
Lemma book_train_reservation_run
  (user_id origin destination trip_type travel_class : string)
  (trains : list TrainInfo) (passengers : list Passenger)
  (payment_methods : list RailPayment) (total_bags bikes : Z)
  (meal_preference insurance : string) db res db' :
  book_train_reservation py_sum str_of_float str_of_payments
    user_id origin destination trip_type travel_class trains passengers
    payment_methods total_bags bikes meal_preference insurance db = (res, db') ->
  (exists e, res = Raise e /\ db' = db) \/
  exists user reservation_id pnr segments fare g,
    dict_get user_id (users db) = Some user /\
    first_unused ["TRN001"; "TRN002"; "TRN003"] (dict_keys (reservations db))
      = Some reservation_id /\
    first_unused ["PNR1AA"; "PNR2BB"; "PNR3CC"] (map Railway.pnr (dict_values (reservations db)))
      = Some pnr /\
    build_segments travel_class (List.length passengers) trains [] 0%Z db
      = (Ok (segments, fare), db) /\
    (forall d, dict_keys (g d) = dict_keys d) /\
    let s1 := set_users (dict_update user_id (set_payment_methods g)) db in
    (exists msg, res = Raise (ValidationError msg) /\ db' = s1) \/
    exists t m i,
      TripType_of trip_type = Some t /\ MealPreference_of meal_preference = Some m /\
      Insurance_of insurance = Some i /\
      let r := {| Railway.reservation_id := reservation_id;
                  res_user_id := user_id;
                  Railway.origin := origin;
                  Railway.destination := destination;
                  Railway.trip_type := t;
                  trains_of := segments;
                  Railway.passengers := passengers;
                  Railway.payment_history := payment_methods;
                  Railway.created_at := _get_datetime;
                  Railway.total_bags := total_bags;
                  Railway.bikes := bikes;
                  Railway.meal_preference := m;
                  Railway.insurance := i;
                  Railway.pnr := pnr;
                  Railway.status := "confirmed" |} in
      res = Ok r /\
      db' = set_users
              (dict_update user_id (set_reservations_of (fun l => (l ++ [reservation_id])%list)))
              (set_reservations (dict_set reservation_id r) s1).
Proof.
  unfold book_train_reservation. intros H.
  apply bind_preserves_cases in H; [|auto with frame].
  destruct H as [H|[user [Eu H]]]; [left; exact H|].
  apply _get_user_ok in Eu. destruct Eu as [_ Eu].
  apply bind_preserves_cases in H; [|auto with frame].
  destruct H as [H|[rid [Eid H]]]; [left; exact H|].
  apply bind_preserves_cases in H; [|auto with frame].
  destruct H as [H|[pnr [Epnr H]]]; [left; exact H|].
  apply bind_preserves_cases in H; [|auto with frame].
  destruct H as [H|[[segments fare] [Eb H]]]; [left; exact H|].
  apply bind_preserves_cases in H; [|auto with frame].
  destruct H as [H|[fare' [_ H]]]; [left; exact H|].
  apply bind_preserves_cases in H; [|auto with frame].
  destruct H as [H|[f1 [_ H]]]; [left; exact H|].
  apply bind_preserves_cases in H; [|auto with frame].
  destruct H as [H|[f2 [_ H]]]; [left; exact H|].
  apply bind_preserves_cases in H; [|auto with frame].
  destruct H as [H|[f3 [_ H]]]; [left; exact H|].
  apply bind_preserves_cases in H; [|auto with frame].
  destruct H as [H|[[] [Ev H]]]; [left; exact H|].
  apply validate_payments_payable in Ev.
  destruct (_ <? _)%float.
  { left. unfold raise in H. injection H as <- <-. eauto. }
  destruct (deduct_wallets_run user_id payment_methods user db Ev) as [g [Ed K]].
  unfold bind at 1 in H. rewrite Ed in H.
  right. exists user, rid, pnr, segments, fare, g.
  unfold _get_new_reservation_id, _get_new_pnr in Eid, Epnr.
  cbv [bind gets] in Eid, Epnr.
  destruct (first_unused _ (dict_keys _)) as [rid'|] eqn:Erid; [|discriminate].
  destruct (first_unused _ (map _ _)) as [pnr'|] eqn:Ep; [|discriminate].
  injection Eid as ->. injection Epnr as ->.
  repeat (split; [assumption || reflexivity|]).
  cbv zeta.
  unfold bind at 1 in H.
  match type of H with
  | (let (_, _) := ?call ?s in _) = _ =>
      destruct (call s) as [res1 s1] eqn:En
  end.
  apply new_TrainReservation_ok in En. destruct En as [-> [[msg ->]|[t [m [i [Et [Em [Ei ->]]]]]]]].
  - left. injection H as <- <-. eauto.
  - right. exists t, m, i. repeat (split; [assumption|]).
    cbv [bind modify gets] in H.
    assert (M : dict_mem user_id (users db) = true) by (eapply dict_mem_get; exact Eu).
    match type of H with
    | (if ?b then _ else _) _ = _ => replace b with true in H
    end.
    + cbv [ret] in H. injection H as <- <-. split; reflexivity.
    + symmetry. simpl. rewrite dict_mem_update. exact M.
Qed.

End Booking.

End RailwayRuns.
(** *** Railway: all-or-nothing WRITE tools; what a booking stores *)

Module RailwayStores.

Import Railway Frame RailwayBooking RailwayUpdates RailwayRuns.

Lemma dict_get_not_in_keys {V} (k : string) (d : dict V) :
  ~ In k (dict_keys d) -> dict_get k d = None.
Proof.
  intros N. destruct (dict_get k d) as [v|] eqn:E; [|reflexivity].
  destruct N. eapply dict_get_in_keys. exact E.
Qed.

Lemma _get_train_ok train_number db train db' :
  _get_train train_number db = (Ok train, db') ->
  db' = db /\ dict_get train_number (trains db) = Some train.
Proof.
  unfold _get_train. destruct (dict_get train_number (trains db)); [|discriminate].
  intros H. injection H as <- <-. auto.
Qed.

Lemma seats_length (num_pax : nat) : List.length (seats num_pax) = num_pax.
Proof. unfold seats. rewrite length_map, length_seq. reflexivity. Qed.

(** The segments the loop builds, one per train asked for. *)
Lemma build_segments_spec (travel_class : string) (num_pax : nat) (trains : list TrainInfo) :
  forall segments fare_total db res fare db',
    build_segments travel_class num_pax trains segments fare_total db
    = (Ok (res, fare), db') ->
    exists built,
      res = (segments ++ built)%list /\
      Forall2 (Outcome.segment_of db num_pax) trains built.
Proof.
  induction trains as [|tinfo rest IH]; intros segments fare_total db res fare db' H.
  - simpl in H. injection H as <- _ _. exists []. rewrite app_nil_r. split; constructor.
  - simpl in H.
    apply bind_ok_preserves in H; [|apply preserves__get_train].
    destruct H as [train [Et H]]. apply _get_train_ok in Et. destruct Et as [_ Et].
    apply bind_ok_preserves in H; [|apply preserves__get_train_instance].
    destruct H as [date_status [Ei H]].
    unfold _get_train_instance, bind, _get_train in Ei. rewrite Et in Ei.
    destruct (dict_get (ti_date tinfo) (dates train)) as [st|] eqn:Ed; [|discriminate].
    injection Ei as Ei. subst date_status.
    assert (N : status_of st <> "cancelled" /\
                exists price coach,
                  build_segments travel_class num_pax rest
                    (segments ++ [{| seg_origin := tr_origin train;
                                     seg_destination := tr_destination train;
                                     seg_train_number := ti_train_number tinfo;
                                     seg_date := ti_date tinfo;
                                     Railway.coach := coach;
                                     seat_numbers := seats num_pax;
                                     seg_price := price |}])%list
                    (fare_total + price * Z.of_nat num_pax)%Z db = (Ok (res, fare), db')).
    { destruct st; [| |discriminate H]; (split; [discriminate|]);
        (apply bind_ok_preserves in H; [|apply preserves__compute_segment_price]);
        destruct H as [price [_ H]];
        (apply bind_ok_preserves in H; [|apply preserves__coach_for_class]);
        destruct H as [coach [_ H]]; eauto. }
    destruct N as [N [price [coach H']]].
    destruct (IH _ _ _ _ _ _ H') as [built [-> F]].
    eexists (_ :: built). split; [rewrite <- app_assoc; reflexivity|].
    constructor; [|exact F].
    exists train, st. simpl. rewrite seats_length. repeat split; assumption.
Qed.

End RailwayStores.

(** X16.  Every WRITE tool of the railway toolkit is all-or-nothing for every
    exception but pydantic's [ValidationError]: when it raises, the
    database is the one it was called on.  (A [ValidationError] is what
    [book_train_reservation] raises on a literal out of range, once the
    wallets are debited.) *)
Theorem railway_write_tools_all_or_nothing :
  forall (py_sum : list float -> float) (str_of_float : float -> string)
         (str_of_payments : list Railway.RailPayment -> string)
         (str_of_methods : dict Railway.PaymentMethodRail -> string)
         (c : Railway.WriteCall) (db db' : Railway.TrainDB) (e : exn),
    Railway.use_write_tool py_sum str_of_float str_of_payments str_of_methods c db
    = (Raise e, db') ->
    Outcome.not_ValidationError e ->
    db' = db.
Proof.
  intros py_sum str_of_float str_of_payments str_of_methods c db db' e H Pe.
  assert (A : forall (m : M Railway.TrainDB Railway.TrainReservation),
             Frame.atomic Outcome.not_ValidationError m ->
             bind m (fun r => ret (Railway.AReservation r)) db = (Raise e, db') -> db' = db).
  { intros m Hm E. unfold bind in E. destruct (m db) as [[r|e1] s1] eqn:Em; [discriminate|].
    injection E as -> ->. exact (Hm _ _ _ Em Pe). }
  destruct c; simpl in H.
  - unfold bind in H.
    match type of H with
    | (let (_, _) := ?call db in _) = _ => destruct (call db) as [res s1] eqn:E
    end.
    apply RailwayRuns.book_train_reservation_run in E.
    destruct E as [[e1 [-> ->]]|E].
    + injection H as _ <-. reflexivity.
    + destruct E as [user [rid [pnr [segments [fare [g [_ [_ [_ [_ [_ E]]]]]]]]]]].
      cbv zeta in E. destruct E as [[msg [-> ->]]|[t [m [i [_ [_ [_ [-> _]]]]]]]].
      * injection H as <- _. destruct (Pe msg). reflexivity.
      * discriminate.
  - apply (A _ (RailwayUpdates.cancel_reservation_atomic _ _) H).
  - apply (A _ (RailwayUpdates.update_reservation_bags_atomic _ _ _ _ _) H).
  - apply (A _ (RailwayUpdates.update_reservation_bikes_atomic _ _ _ _ _) H).
  - apply (A _ (RailwayUpdates.update_reservation_trains_atomic _ _ _ _ _ _) H).
  - apply (A _ (RailwayUpdates.update_reservation_passengers_atomic _ _ _) H).
  - unfold bind in H.
    destruct (Railway.add_wallet_funds user_id amount db) as [[r|e1] s1] eqn:Em; [discriminate|].
    injection H as -> ->.
    exact (RailwayUpdates.add_wallet_funds_atomic _ _ _ _ _ _ Em Pe).
Qed.

Lemma railway_write_tools_all_or_nothing_witness :
  exists db',
    Railway.use_write_tool (fun amounts => fold_left PrimFloat.add amounts 0%float)
      (fun _ => "") (fun _ => "") (fun _ => "")
      (Railway.UpdateReservationPassengers "TRN009" [Examples.ada])
      (Examples.booking_db 40)
    = (Raise (ValueError "Reservation TRN009 not found"), db') /\
    db' = Examples.booking_db 40.
Proof.
  eexists. split; [vm_compute; reflexivity|].
  eapply (railway_write_tools_all_or_nothing
            (fun amounts => fold_left PrimFloat.add amounts 0%float)
            (fun _ => "") (fun _ => "") (fun _ => "")
            (Railway.UpdateReservationPassengers "TRN009" [Examples.ada])).
  - vm_compute. reflexivity.
  - intros msg. discriminate.
Defined.

(** X17.  When [book_train_reservation] returns, the reservation it returns is
    stored under an identifier that was free, with a PNR no reservation
    on file bears; it is confirmed, belongs to the user, carries the
    passengers and payments given and one segment per train asked for,
    each on file, running that date, not cancelled and with one seat per
    passenger.  The user lists the new identifier last and keeps the same
    payment method ids; the trains, the other reservations and the other
    users are untouched. *)
Theorem book_train_reservation_stores :
  forall (py_sum : list float -> float) (str_of_float : float -> string)
         (str_of_payments : list Railway.RailPayment -> string)
         (user_id origin destination trip_type travel_class : string)
         (trains : list Railway.TrainInfo) (passengers : list Railway.Passenger)
         (payment_methods : list Railway.RailPayment) (total_bags bikes : Z)
         (meal_preference insurance : string)
         (db db' : Railway.TrainDB) (r : Railway.TrainReservation),
    Railway.book_train_reservation py_sum str_of_float str_of_payments
      user_id origin destination trip_type travel_class trains passengers
      payment_methods total_bags bikes meal_preference insurance db
    = (Ok r, db') ->
    dict_get (Railway.reservation_id r) (Railway.reservations db) = None /\
    (forall k r0, dict_get k (Railway.reservations db) = Some r0 ->
                  Railway.pnr r0 <> Railway.pnr r) /\
    Railway.reservations db'
    = dict_set (Railway.reservation_id r) r (Railway.reservations db) /\
    Railway.trains db' = Railway.trains db /\
    Railway.res_user_id r = user_id /\
    Railway.status r = "confirmed" /\
    Railway.passengers r = passengers /\
    Railway.payment_history r = payment_methods /\
    Forall2 (Outcome.segment_of db (List.length passengers)) trains (Railway.trains_of r) /\
    (exists user user',
       dict_get user_id (Railway.users db) = Some user /\
       dict_get user_id (Railway.users db') = Some user' /\
       Railway.reservations_of user'
       = (Railway.reservations_of user ++ [Railway.reservation_id r])%list /\
       dict_keys (Railway.payment_methods user') = dict_keys (Railway.payment_methods user)) /\
    (forall k, k <> user_id ->
               dict_get k (Railway.users db') = dict_get k (Railway.users db)).
Proof.
  intros until r. intros H.
  apply RailwayRuns.book_train_reservation_run in H.
  destruct H as [[e [E _]]|H]; [discriminate|].
  destruct H as [user [rid [pnr [segments [fare [g [Eu [Eid [Epnr [Eb [K H]]]]]]]]]]].
  cbv zeta in H. destruct H as [[msg [E _]]|[t [m [i [_ [_ [_ [E ->]]]]]]]]; [discriminate|].
  injection E as ->. simpl.
  apply RailwayRuns.first_unused_spec in Eid, Epnr.
  destruct Eid as [_ Nid]. destruct Epnr as [_ Npnr].
  split; [apply RailwayStores.dict_get_not_in_keys; exact Nid|].
  split.
  { intros k r0 E0 Heq. apply Npnr. rewrite <- Heq. apply in_map.
    eapply dict_get_in_values. exact E0. }
  split; [reflexivity|]. split; [reflexivity|].
  split; [reflexivity|]. split; [reflexivity|].
  split; [reflexivity|]. split; [reflexivity|].
  split.
  { apply RailwayStores.build_segments_spec in Eb. destruct Eb as [built [-> F]]. exact F. }
  split.
  - exists user. eexists. split; [exact Eu|].
    rewrite dict_get_update_same, dict_get_update_same, Eu. simpl.
    split; [reflexivity|]. split; [reflexivity|apply K].
  - intros k N. rewrite !dict_get_update_other by exact N. reflexivity.
Qed.

Lemma book_train_reservation_stores_witness :
  exists r db',
    Examples.book_one_seat "one_way" (Examples.booking_db 500) = (Ok r, db') /\
    dict_get (Railway.reservation_id r) (Railway.reservations (Examples.booking_db 500)) = None /\
    Railway.status r = "confirmed" /\
    Railway.reservations db'
    = dict_set (Railway.reservation_id r) r (Railway.reservations (Examples.booking_db 500)).
Proof.
  eexists. eexists. split; [vm_compute; reflexivity|].
  pose proof (book_train_reservation_stores
                (fun amounts => fold_left PrimFloat.add amounts 0%float)
                (fun _ => "") (fun _ => "")
                "ada_byron_1" "NYC" "BOS" "one_way" "sleeper"
                [{| Railway.ti_train_number := "RG100"; Railway.ti_date := "2024-06-01" |}]
                [Examples.ada]
                [{| Railway.payment_id := "wallet_1"; Railway.amount := 50%float |}]
                1 0 "none" "no" (Examples.booking_db 500) _ _ ltac:(vm_compute; reflexivity))
    as [A [_ [B [_ [_ [C _]]]]]].
  split; [exact A|]. split; [exact C|exact B].
Defined.
(** *** Railway: refunds are records *)

Module FloatSign.

(** A float that is not above zero: a zero, a negative number, or NaN. *)
Local Abbreviation not_positive x :=
  (match x with
   | S754_zero _ | S754_nan => True
   | S754_infinity s | S754_finite s _ _ => s = true
   end).

Local Abbreviation not_negative x :=
  (match x with
   | S754_zero _ | S754_nan => True
   | S754_infinity s | S754_finite s _ _ => s = false
   end).

Lemma binary_round_sign (s : bool) (m : positive) (e : Z) :
  match binary_round prec emax s m e with
  | S754_zero s' | S754_infinity s' | S754_finite s' _ _ => s' = s
  | S754_nan => True
  end.
Proof.
  unfold binary_round. destruct (shl_align _ _ _) as [mz ez].
  unfold binary_round_aux.
  destruct (shr_fexp prec emax (Z.pos mz) ez loc_Exact) as [mrs' e'].
  destruct (shr_fexp _ _ _ _ _) as [mrs'' e''].
  destruct (shr_m mrs''); [reflexivity| |exact I].
  destruct (_ <=? _)%Z; reflexivity.
Qed.

Lemma of_uint63_not_negative (n : PrimInt63.int) : not_negative (Prim2SF (of_uint63 n)).
Proof.
  rewrite FloatAxioms.of_uint63_spec. unfold binary_normalize.
  pose proof (Uint63.to_Z_bounded n) as B.
  destruct (Uint63Axioms.to_Z n) as [|p|p]; [exact I| |lia].
  pose proof (binary_round_sign false p 0) as R.
  destruct (binary_round _ _ _ _ _); auto.
Qed.

Lemma ldexp_not_negative (f : float) (e : Z) :
  not_negative (Prim2SF f) -> not_negative (Prim2SF (Z.ldexp f e)).
Proof.
  rewrite FloatLemmas.Z_ldexp_spec. unfold SFldexp.
  destruct (Prim2SF f) as [s|s| |s m e0]; auto.
  intros ->. pose proof (binary_round_sign false m (e0 + e)) as R.
  destruct (binary_round _ _ _ _ _); auto.
Qed.

Lemma SF2Prim_not_positive (x : spec_float) :
  not_positive x -> not_positive (Prim2SF (SF2Prim x)).
Proof.
  destruct x as [[]|[]| |s m e]; simpl; try exact (fun _ => I); try discriminate;
    try (intros _; vm_compute; reflexivity).
  intros ->. rewrite FloatAxioms.opp_spec.
  pose proof (ldexp_not_negative (of_uint63 (Uint63Axioms.of_Z (Z.pos m))) e
                (of_uint63_not_negative _)) as N.
  destruct (Prim2SF (Z.ldexp _ _)); simpl; auto; rewrite N; reflexivity.
Qed.

(** [float(n)] of an [int] that is not positive is not above zero. *)
Lemma float_of_int_not_positive (n : Z) (f : float) :
  (n <= 0)%Z -> float_of_int n = Some f -> (0 <? f)%float = false.
Proof.
  intros Hn. unfold float_of_int.
  destruct (PrimFloat.is_infinity _); [discriminate|].
  intros H. injection H as <-.
  rewrite FloatAxioms.ltb_spec.
  assert (N : not_positive (binary_normalize prec emax n 0 false)).
  { unfold binary_normalize. destruct n as [|p|p]; [exact I|lia|].
    pose proof (binary_round_sign true p 0) as R.
    destruct (binary_round _ _ _ _ _); auto. }
  apply SF2Prim_not_positive in N.
  replace (Prim2SF 0) with (S754_zero false) by reflexivity.
  destruct (Prim2SF (SF2Prim _)) as [s|s| |s m e]; try reflexivity;
    rewrite N; reflexivity.
Qed.

End FloatSign.

Module RailwayRefunds.

Import Railway Frame RailwayBooking RailwayUpdates RailwayRuns.

#[local] Hint Resolve preserves_rail__get_reservation preserves__get_user
  preserves_as_float : frame.

(** A refund, or a price of zero, touches no wallet. *)
Lemma _payment_for_update_refund str_of_methods user_id user payment_id total_price db res db' :
  (0 <? total_price)%float = false ->
  _payment_for_update str_of_methods user_id user payment_id total_price db = (res, db') ->
  db' = db.
Proof.
  intros Hx. unfold _payment_for_update.
  destruct (dict_get payment_id (payment_methods user)) as [method|].
  - rewrite Hx. cbv [bind ret]. destruct (_ <? abs _)%float; intros H; injection H as _ <-;
      reflexivity.
  - intros H. injection H as _ <-. reflexivity.
Qed.

Lemma as_float_ok (n : Z) db f db' :
  as_float n db = (Ok f, db') -> db' = db /\ float_of_int n = Some f.
Proof.
  unfold as_float. destruct (float_of_int n); [|discriminate].
  intros H. injection H as <- <-. auto.
Qed.

End RailwayRefunds.

(** X18.  Refunds are records only.  A call of a railway WRITE tool that
    charges nothing (a cancellation, a change of passengers, an update to
    no more bags or bikes than the reservation has) and returns leaves
    every user, and so every wallet balance, and every train as they
    were: what it refunds is written to the payment history of the
    reservation and credited nowhere. *)
Theorem railway_refunds_reach_no_wallet :
  forall (py_sum : list float -> float) (str_of_float : float -> string)
         (str_of_payments : list Railway.RailPayment -> string)
         (str_of_methods : dict Railway.PaymentMethodRail -> string)
         (c : Railway.WriteCall) (db db' : Railway.TrainDB) (ret : Railway.Returned),
    Outcome.charges_nothing db c = true ->
    Railway.use_write_tool py_sum str_of_float str_of_payments str_of_methods c db
    = (Ok ret, db') ->
    Railway.users db' = Railway.users db /\ Railway.trains db' = Railway.trains db.
Proof.
  intros py_sum str_of_float str_of_payments str_of_methods c db db' ret0 Hc H.
  destruct c; simpl in Hc; try discriminate Hc; simpl in H.
  - (* cancel_reservation *)
    unfold bind at 1 in H.
    destruct (Railway.cancel_reservation reservation_id db) as [[r|e] s1] eqn:E;
      [|discriminate].
    injection H as _ <-.
    unfold Railway.cancel_reservation in E.
    apply bind_ok_preserves in E; [|apply RailwayUpdates.preserves_rail__get_reservation].
    destruct E as [r0 [_ E]].
    cbv [bind modify Py.ret] in E. injection E as _ <-. split; reflexivity.
  - (* update_reservation_bags *)
    destruct (dict_get reservation_id (Railway.reservations db)) as [r0|] eqn:Er;
      [|discriminate].
    apply Z.leb_le in Hc.
    unfold bind at 1 in H.
    destruct (Railway.update_reservation_bags _ _ _ _ db) as [[r|e] s1] eqn:E;
      [|discriminate].
    injection H as _ <-.
    unfold Railway.update_reservation_bags in E.
    apply bind_ok_preserves in E; [|apply RailwayUpdates.preserves_rail__get_reservation].
    destruct E as [r1 [E1 E]].
    apply RailwayRuns._get_reservation_ok in E1. destruct E1 as [_ E1].
    rewrite Er in E1. injection E1 as <-.
    apply bind_ok_preserves in E; [|apply RailwayBooking.preserves__get_user].
    destruct E as [user [_ E]].
    apply bind_ok_preserves in E; [|apply RailwayBooking.preserves_as_float].
    destruct E as [f [Ef E]].
    apply RailwayRefunds.as_float_ok in Ef. destruct Ef as [_ Ef].
    apply FloatSign.float_of_int_not_positive in Ef; [|lia].
    unfold bind at 1 in E.
    destruct (Railway._payment_for_update _ _ _ _ _ db) as [[payment|e] s2] eqn:Ep;
      [|discriminate].
    apply (RailwayRefunds._payment_for_update_refund _ _ _ _ _ _ _ _ Ef) in Ep. subst s2.
    cbv [bind modify Py.ret] in E. injection E as _ <-. split; reflexivity.
  - (* update_reservation_bikes *)
    destruct (dict_get reservation_id (Railway.reservations db)) as [r0|] eqn:Er;
      [|discriminate].
    apply Z.leb_le in Hc.
    unfold bind at 1 in H.
    destruct (Railway.update_reservation_bikes _ _ _ _ db) as [[r|e] s1] eqn:E;
      [|discriminate].
    injection H as _ <-.
    unfold Railway.update_reservation_bikes in E.
    apply bind_ok_preserves in E; [|apply RailwayUpdates.preserves_rail__get_reservation].
    destruct E as [r1 [E1 E]].
    apply RailwayRuns._get_reservation_ok in E1. destruct E1 as [_ E1].
    rewrite Er in E1. injection E1 as <-.
    apply bind_ok_preserves in E; [|apply RailwayBooking.preserves__get_user].
    destruct E as [user [_ E]].
    apply bind_ok_preserves in E; [|apply RailwayBooking.preserves_as_float].
    destruct E as [f [Ef E]].
    apply RailwayRefunds.as_float_ok in Ef. destruct Ef as [_ Ef].
    apply FloatSign.float_of_int_not_positive in Ef; [|lia].
    unfold bind at 1 in E.
    destruct (Railway._payment_for_update _ _ _ _ _ db) as [[payment|e] s2] eqn:Ep;
      [|discriminate].
    apply (RailwayRefunds._payment_for_update_refund _ _ _ _ _ _ _ _ Ef) in Ep. subst s2.
    cbv [bind modify Py.ret] in E. injection E as _ <-. split; reflexivity.
  - (* update_reservation_passengers *)
    unfold bind at 1 in H.
    destruct (Railway.update_reservation_passengers _ _ db) as [[r|e] s1] eqn:E;
      [|discriminate].
    injection H as _ <-.
    unfold Railway.update_reservation_passengers in E.
    apply bind_ok_preserves in E; [|apply RailwayUpdates.preserves_rail__get_reservation].
    destruct E as [r1 [_ E]].
    destruct (negb _); [discriminate|].
    cbv [bind modify Py.ret] in E. injection E as _ <-. split; reflexivity.
Qed.

Lemma railway_refunds_reach_no_wallet_witness :
  exists r db',
    Railway.use_write_tool (fun amounts => fold_left PrimFloat.add amounts 0%float)
      (fun _ => "") (fun _ => "") (fun _ => "")
      (Railway.UpdateReservationBags "TRN001" 1 "wallet_1") Examples.reserved_db
    = (Ok (Railway.AReservation r), db') /\
    Railway.payment_history r
    = [{| Railway.payment_id := "card_1"; Railway.amount := 250%float |};
       {| Railway.payment_id := "wallet_1"; Railway.amount := (-30)%float |}] /\
    Outcome.wallet_balance db' "ada_byron_1" "wallet_1" = Some 500%Z /\
    Railway.users db' = Railway.users Examples.reserved_db.
Proof.
  eexists. eexists. split; [vm_compute; reflexivity|].
  split; [reflexivity|]. split; [reflexivity|].
  eapply (railway_refunds_reach_no_wallet
            (fun amounts => fold_left PrimFloat.add amounts 0%float)
            (fun _ => "") (fun _ => "") (fun _ => "")
            (Railway.UpdateReservationBags "TRN001" 1 "wallet_1") Examples.reserved_db).
  - reflexivity.
  - vm_compute. reflexivity.
Defined.
(** *** Railway: the wallet and the search *)

Module RailwayWallet.

Import Railway Frame RailwayBooking RailwayUpdates RailwayRuns.

(** In a dictionary (whose keys are distinct) the first wallet found by
    walking the items is the method bound to its id. *)
Lemma first_wallet_spec (d : dict PaymentMethodRail) (pid : string) :
  NoDup (dict_keys d) ->
  first_wallet d = Some pid ->
  exists id extra, dict_get pid d = Some (WalletPayment id extra).
Proof.
  induction d as [|[k m] d IH]; simpl; [discriminate|].
  intros ND. inversion ND as [|? ? Hk Hd]; subst.
  destruct (source m =? "wallet") eqn:Es.
  - intros H. injection H as <-. rewrite String.eqb_refl.
    destruct m; try discriminate Es. eauto.
  - intros H. destruct (IH Hd H) as [id [extra E]].
    destruct (String.eqb_spec pid k) as [->|N]; [|eauto].
    destruct Hk. eapply dict_get_in_keys. exact E.
Qed.

End RailwayWallet.

(** X19.  [add_wallet_funds] tops up one wallet and nothing else.  When it
    returns, the amount is positive and the user is on file; the wallet
    funded is the first wallet among the payment methods of the user or,
    the user having none, a new one under the first of 'wallet_1001',
    'wallet_1002', 'wallet_1003' that is not taken; its balance is the
    old one (zero for a new wallet) plus the amount, and the message
    names the wallet, the amount and that balance.  The other payment
    methods of the user, the other users, the trains and the
    reservations are as they were. *)
Theorem add_wallet_funds_tops_up_one_wallet :
  forall (user_id : string) (amount : Z) (db db' : Railway.TrainDB) (user : Railway.RailUser)
         (message : string),
    dict_get user_id (Railway.users db) = Some user ->
    NoDup (dict_keys (Railway.payment_methods user)) ->
    Railway.add_wallet_funds user_id amount db = (Ok message, db') ->
    (0 < amount)%Z /\
    exists wallet_id,
      (Railway.first_wallet (Railway.payment_methods user) = Some wallet_id \/
       Railway.first_wallet (Railway.payment_methods user) = None /\
       Railway.first_unused ["wallet_1001"; "wallet_1002"; "wallet_1003"]
         (dict_keys (Railway.payment_methods user)) = Some wallet_id) /\
      let old := match Outcome.wallet_balance db user_id wallet_id with
                 | Some balance => balance
                 | None => 0%Z
                 end in
      Outcome.wallet_balance db' user_id wallet_id = Some (old + amount)%Z /\
      message = "Wallet " ++ wallet_id ++ " funded with $" ++ str_of_int amount
                  ++ ". New balance: $" ++ str_of_int (old + amount) /\
      (exists user',
         dict_get user_id (Railway.users db') = Some user' /\
         Railway.reservations_of user' = Railway.reservations_of user /\
         forall k, k <> wallet_id ->
                   dict_get k (Railway.payment_methods user')
                   = dict_get k (Railway.payment_methods user)) /\
      (forall k, k <> user_id ->
                 dict_get k (Railway.users db') = dict_get k (Railway.users db)) /\
      Railway.trains db' = Railway.trains db /\
      Railway.reservations db' = Railway.reservations db.
Proof.
  intros user_id amount db db' user message Eu ND H.
  unfold Railway.add_wallet_funds in H.
  destruct (amount <=? 0)%Z eqn:Ea; [discriminate|].
  apply Z.leb_gt in Ea. split; [exact Ea|].
  unfold bind at 1, Railway._get_user in H. rewrite Eu in H.
  destruct (Railway.first_wallet (Railway.payment_methods user)) as [pid|] eqn:Ew.
  - destruct (RailwayWallet.first_wallet_spec _ _ ND Ew) as [id [extra Ep]].
    cbv [bind ret modify gets] in H. simpl in H.
    rewrite dict_get_update_same, Eu in H. simpl in H.
    rewrite dict_get_update_same, Ep in H. simpl in H.
    injection H as <- <-.
    exists pid. split; [left; reflexivity|].
    unfold Outcome.wallet_balance. rewrite Eu, Ep. simpl.
    rewrite dict_get_update_same, Eu. simpl. rewrite dict_get_update_same, Ep. simpl.
    split; [reflexivity|]. split; [reflexivity|].
    split.
    { eexists. split; [reflexivity|]. simpl. split; [reflexivity|].
      intros k N. apply dict_get_update_other. exact N. }
    split; [|split; reflexivity].
    intros k N. apply dict_get_update_other. exact N.
  - destruct (Railway.first_unused _ _) as [wid|] eqn:Ef; [|discriminate].
    pose proof (RailwayRuns.first_unused_spec _ _ _ Ef) as [_ Nk].
    apply RailwayStores.dict_get_not_in_keys in Nk.
    cbv [bind ret modify gets] in H. simpl in H.
    rewrite dict_update_compose in H.
    rewrite dict_get_update_same, Eu in H. simpl in H.
    rewrite dict_get_update_same, dict_get_set_same in H. simpl in H.
    injection H as <- <-.
    exists wid. split; [right; split; reflexivity|].
    unfold Outcome.wallet_balance. rewrite Eu, Nk. simpl.
    rewrite dict_update_compose, dict_get_update_same, Eu. simpl.
    rewrite dict_get_update_same, dict_get_set_same. simpl.
    split; [reflexivity|]. split; [reflexivity|].
    split.
    { eexists. split; [reflexivity|]. simpl. split; [reflexivity|].
      intros k N. rewrite dict_get_update_other by exact N.
      apply dict_get_set_other. exact N. }
    split; [|split; reflexivity].
    intros k N. apply dict_get_update_other. exact N.
Qed.

Lemma add_wallet_funds_tops_up_one_wallet_witness :
  exists message db',
    Railway.add_wallet_funds "ada_byron_1" 25 (Examples.booking_db 500) = (Ok message, db') /\
    message = "Wallet wallet_1 funded with $25. New balance: $525" /\
    Outcome.wallet_balance db' "ada_byron_1" "wallet_1" = Some 525%Z /\
    Railway.reservations db' = Railway.reservations (Examples.booking_db 500).
Proof.
  eexists. eexists. split; [vm_compute; reflexivity|].
  split; [reflexivity|]. split; [reflexivity|].
  assert (ND : NoDup (dict_keys (Railway.payment_methods (Examples.rail_user 500)))).
  { repeat constructor. simpl. tauto. }
  pose proof (add_wallet_funds_tops_up_one_wallet "ada_byron_1" 25 (Examples.booking_db 500)
                _ (Examples.rail_user 500) _ eq_refl ND ltac:(vm_compute; reflexivity))
    as [_ [wallet_id [_ [_ [_ [_ [_ [_ R]]]]]]]].
  exact R.
Defined.

Module RailwaySearch.

Import Railway Frame.

(** What [_search_direct_train] keeps of the trains it walks. *)
Lemma search_loop_In (date : string) (origin destination leave_after : option string)
  (trains : list Train) (d : DirectTrain) :
  In d (search_loop date origin destination leave_after trains) <->
  exists train date_status,
    In train trains /\
    dict_get date (dates train) = Some date_status /\
    d = new_DirectTrain train date date_status /\
    (forall o, origin = Some o -> tr_origin train = o) /\
    (forall x, destination = Some x -> tr_destination train = x) /\
    (forall t, leave_after = Some t ->
               str_lt (scheduled_departure_time_local train) t = false).
Proof.
  induction trains as [|train rest IH]; simpl.
  - split; [contradiction|]. intros [t [s [[] _]]].
  - assert (More : In d (search_loop date origin destination leave_after rest) ->
                   exists train0 date_status,
                     (train = train0 \/ In train0 rest) /\
                     dict_get date (dates train0) = Some date_status /\
                     d = new_DirectTrain train0 date date_status /\
                     (forall o, origin = Some o -> tr_origin train0 = o) /\
                     (forall x, destination = Some x -> tr_destination train0 = x) /\
                     (forall t, leave_after = Some t ->
                                str_lt (scheduled_departure_time_local train0) t = false)).
    { intros Hin. apply IH in Hin. destruct Hin as [t [s [Ht R]]]. exists t, s. auto. }
    split.
    + destruct (dict_get date (dates train)) as [st|] eqn:Ed; [|exact More].
      destruct origin as [o|].
      * destruct (String.eqb_spec (tr_origin train) o) as [Eo|No]; simpl; [|exact More].
        destruct destination as [x|].
        -- destruct (String.eqb_spec (tr_destination train) x) as [Ex|Nx]; simpl;
             [|exact More].
           destruct leave_after as [t|].
           ++ destruct (str_lt _ t) eqn:El; [exact More|].
              intros [<-|Hin]; [|exact (More Hin)].
              exists train, st. repeat split; auto; intros ? [= <-]; assumption.
           ++ intros [<-|Hin]; [|exact (More Hin)].
              exists train, st. repeat split; auto; try discriminate;
                intros ? [= <-]; assumption.
        -- destruct leave_after as [t|].
           ++ destruct (str_lt _ t) eqn:El; [exact More|].
              intros [<-|Hin]; [|exact (More Hin)].
              exists train, st. repeat split; auto; try discriminate;
                intros ? [= <-]; assumption.
           ++ intros [<-|Hin]; [|exact (More Hin)].
              exists train, st. repeat split; auto; try discriminate;
                intros ? [= <-]; assumption.
      * destruct destination as [x|].
        -- destruct (String.eqb_spec (tr_destination train) x) as [Ex|Nx]; simpl;
             [|exact More].
           destruct leave_after as [t|].
           ++ destruct (str_lt _ t) eqn:El; [exact More|].
              intros [<-|Hin]; [|exact (More Hin)].
              exists train, st. repeat split; auto; try discriminate;
                intros ? [= <-]; assumption.
           ++ intros [<-|Hin]; [|exact (More Hin)].
              exists train, st. repeat split; auto; try discriminate;
                intros ? [= <-]; assumption.
        -- destruct leave_after as [t|].
           ++ destruct (str_lt _ t) eqn:El; [exact More|].
              intros [<-|Hin]; [|exact (More Hin)].
              exists train, st. repeat split; auto; try discriminate;
                intros ? [= <-]; assumption.
           ++ intros [<-|Hin]; [|exact (More Hin)].
              exists train, st. repeat split; auto; try discriminate;
                intros ? [= <-]; assumption.
    + intros [t [s [[<-|Hin] [Ed [-> [Ho [Hd Hl]]]]]]].
      * rewrite Ed.
        assert (O : match origin with
                    | Some o => negb (tr_origin train =? o)
                    | None => false
                    end = false).
        { destruct origin as [o|]; [|reflexivity].
          rewrite (Ho o eq_refl), String.eqb_refl. reflexivity. }
        assert (D : match destination with
                    | Some x => negb (tr_destination train =? x)
                    | None => false
                    end = false).
        { destruct destination as [x|]; [|reflexivity].
          rewrite (Hd x eq_refl), String.eqb_refl. reflexivity. }
        assert (L : match leave_after with
                    | Some t => str_lt (scheduled_departure_time_local train) t
                    | None => false
                    end = false).
        { destruct leave_after as [t|]; [|reflexivity]. exact (Hl t eq_refl). }
        rewrite O, D, L. left. reflexivity.
      * assert (R : In (new_DirectTrain t date s)
                      (search_loop date origin destination leave_after rest)).
        { apply IH. exists t, s. auto 10. }
        destruct (dict_get date (dates train)); [|exact R].
        repeat match goal with
               | |- In _ (if ?b then _ else _) => destruct b
               end; auto. right. exact R.
Qed.

Lemma second_legs_In (first_leg : DirectTrain) (candidates : list DirectTrain)
  (a b : DirectTrain) :
  In (a, b) (second_legs first_leg candidates) <->
  a = first_leg /\ In b candidates /\ dt_status b <> "cancelled".
Proof.
  induction candidates as [|c rest IH]; simpl.
  - split; [contradiction|]. intros [_ [[] _]].
  - destruct (String.eqb_spec (dt_status c) "cancelled") as [Ec|Nc].
    + rewrite IH. split.
      * intros [-> [Hin N]]. auto.
      * intros [-> [[<-|Hin] N]]; [contradiction|auto].
    + simpl. rewrite IH. split.
      * intros [E|[-> [Hin N]]]; [injection E as <- <-; auto|auto].
      * intros [-> [[<-|Hin] N]]; auto.
Qed.

Lemma onestop_loop_spec (destination date : string) (first_legs : list DirectTrain)
  (db : TrainDB) :
  exists results,
    onestop_loop destination date first_legs db = (Ok results, db) /\
    forall a b,
      In (a, b) results <->
      In a first_legs /\ dt_status a <> "cancelled" /\
      In b (search_loop date (Some (dt_destination a)) (Some destination)
              (Some (dt_scheduled_arrival_time_local a)) (dict_values (trains db))) /\
      dt_status b <> "cancelled".
Proof.
  induction first_legs as [|f rest IH]; simpl.
  - exists []. split; [reflexivity|]. intros a b. split; [contradiction|]. intros [[] _].
  - destruct IH as [more [E IH]].
    destruct (String.eqb_spec (dt_status f) "cancelled") as [Ec|Nc].
    + exists more. split; [exact E|]. intros a b. rewrite IH. split.
      * intros [Hin R]. auto.
      * intros [[<-|Hin] [N R]]; [contradiction|auto].
    + eexists. split.
      * cbv [bind _search_direct_train gets]. rewrite E. reflexivity.
      * intros a b. rewrite in_app_iff, second_legs_In, IH. split.
        -- intros [[-> [Hin N]]|[Hin [Na [Hb Nb]]]]; auto.
        -- intros [[<-|Hin] [Na [Hb Nb]]]; auto.
Qed.

Lemma status_of_new_DirectTrain (train : Train) (date : string) (st : TrainDateStatus) :
  dt_status (new_DirectTrain train date st) = status_of st.
Proof. reflexivity. Qed.

End RailwaySearch.

(** The search returns on every database and hands it back. *)
Lemma search_onestop_train_itineraries_run (origin destination date : string)
  (db : Railway.TrainDB) :
  exists results, Railway.search_onestop_train origin destination date db = (Ok results, db).
Proof.
  unfold Railway.search_onestop_train, bind, Railway._search_direct_train at 1, gets.
  destruct (RailwaySearch.onestop_loop_spec destination date
              (Railway.search_loop date (Some origin) None None
                 (dict_values (Railway.trains db))) db) as [results [E _]].
  eauto.
Qed.

(** X20.  [search_onestop_train] returns, touches nothing, and lists exactly
    the connections on file: the pairs of a train from the origin and a
    train to the destination that both run on the date and are not
    cancelled that day, the second leaving from the station where the
    first arrives and scheduled to depart no earlier than the first is
    scheduled to arrive. *)
Theorem search_onestop_train_itineraries :
  forall (origin destination date : string) (db : Railway.TrainDB),
  exists results,
    Railway.search_onestop_train origin destination date db = (Ok results, db) /\
    forall a b,
      In (a, b) results <->
      exists first first_status second second_status,
        In first (dict_values (Railway.trains db)) /\
        In second (dict_values (Railway.trains db)) /\
        dict_get date (Railway.dates first) = Some first_status /\
        dict_get date (Railway.dates second) = Some second_status /\
        a = Railway.new_DirectTrain first date first_status /\
        b = Railway.new_DirectTrain second date second_status /\
        Railway.tr_origin first = origin /\
        Railway.tr_destination second = destination /\
        Railway.tr_origin second = Railway.tr_destination first /\
        Railway.status_of first_status <> "cancelled" /\
        Railway.status_of second_status <> "cancelled" /\
        str_lt (Railway.scheduled_departure_time_local second)
               (Railway.scheduled_arrival_time_local first) = false.
Proof.
  intros origin destination date db.
  unfold Railway.search_onestop_train, bind, Railway._search_direct_train at 1, gets.
  destruct (RailwaySearch.onestop_loop_spec destination date
              (Railway.search_loop date (Some origin) None None
                 (dict_values (Railway.trains db))) db) as [results [E Spec]].
  exists results. split; [exact E|].
  intros a b. rewrite Spec. split.
  - intros [Ha [Na [Hb Nb]]].
    apply RailwaySearch.search_loop_In in Ha, Hb.
    destruct Ha as [t1 [s1 [I1 [D1 [-> [O1 _]]]]]].
    destruct Hb as [t2 [s2 [I2 [D2 [-> [O2 [X2 L2]]]]]]].
    exists t1, s1, t2, s2. simpl in *.
    repeat split; auto.
  - intros [t1 [s1 [t2 [s2 [I1 [I2 [D1 [D2 [-> [-> [O [X [C [N1 [N2 L]]]]]]]]]]]]]]].
    split.
    { apply RailwaySearch.search_loop_In. exists t1, s1.
      repeat split; auto; try discriminate. intros o [= <-]. exact O. }
    split; [exact N1|]. split; [|exact N2].
    apply RailwaySearch.search_loop_In. exists t2, s2. simpl.
    repeat split; auto.
    + intros o [= <-]. exact C.
    + intros x [= <-]. exact X.
    + intros t [= <-]. exact L.
Qed.
(** *** Railway: a change of trains; the routes *)

Module RailwayItinerary.

Import Railway Frame RailwayBooking RailwayUpdates RailwayRuns.

(** [_payment_for_update] writes to the users only, and the payment it
    hands back, if any, bears the payment id it was given. *)
Lemma _payment_for_update_ok str_of_methods user_id user payment_id total_price db payment db' :
  _payment_for_update str_of_methods user_id user payment_id total_price db
  = (Ok payment, db') ->
  reservations db' = reservations db /\ trains db' = trains db /\
  (forall k, k <> user_id -> dict_get k (users db') = dict_get k (users db)) /\
  (payment = None \/
   exists x, payment = Some {| Railway.payment_id := payment_id; amount := x |}).
Proof.
  unfold _payment_for_update.
  destruct (dict_get payment_id (payment_methods user)) as [method|]; [|discriminate].
  unfold bind at 1.
  match goal with
  | |- (let (_, _) := ?m db in _) = _ -> _ =>
      assert (F : forall r s, m db = (r, s) ->
                              reservations s = reservations db /\ trains s = trains db /\
                              forall k, k <> user_id ->
                                        dict_get k (users s) = dict_get k (users db));
        [|destruct (m db) as [[[]|e] s] eqn:E; [|discriminate]]
  end.
  { intros r s. destruct (0 <? total_price)%float.
    - destruct method as [id extra|id extra|id extra];
        try (intros H; injection H as _ <-; auto).
      unfold as_int, as_float.
      destruct (int_of_float total_price) as [n|];
        [|destruct (PrimFloat.is_nan total_price); intros H; injection H as _ <-; auto].
      cbv [bind ret]. destruct (float_of_int n) as [f|];
        [|intros H; injection H as _ <-; auto].
      destruct (_ <? abs _)%float; [intros H; injection H as _ <-; auto|].
      destruct (_ <? _)%Z; [intros H; injection H as _ <-; auto|].
      intros H. injection H as _ <-. simpl. repeat split.
      intros k N. apply dict_get_update_other. exact N.
    - intros H. injection H as _ <-. auto. }
  destruct (F _ _ eq_refl) as [R [T U]].
  destruct (_ <? abs _)%float; intros H; injection H as <- <-; eauto 10.
Qed.

End RailwayItinerary.

(** X21.  [update_reservation_trains] rebuilds the itinerary.  When it returns,
    the reservation it was called on has, in place of its segments, one
    segment per train asked for, each on file, running that date, not
    cancelled and with one seat per passenger of the reservation; its
    payment history is the old one, followed by at most one payment on
    the payment id given; nothing else of the reservation has changed.
    It is stored under its identifier; the other reservations and the
    trains are as they were. *)
Theorem update_reservation_trains_rebuilds :
  forall (str_of_methods : dict Railway.PaymentMethodRail -> string)
         (reservation_id travel_class : string) (trains : list Railway.TrainInfo)
         (payment_id : string) (db db' : Railway.TrainDB) (r : Railway.TrainReservation),
    Railway.update_reservation_trains str_of_methods reservation_id travel_class trains
      payment_id db = (Ok r, db') ->
    exists old,
      dict_get reservation_id (Railway.reservations db) = Some old /\
      Forall2 (Outcome.segment_of db (List.length (Railway.passengers old)))
        trains (Railway.trains_of r) /\
      (Railway.payment_history r = Railway.payment_history old \/
       exists x,
         Railway.payment_history r
         = (Railway.payment_history old
              ++ [{| Railway.payment_id := payment_id; Railway.amount := x |}])%list) /\
      r = Railway.set_trains_of (Railway.trains_of r)
            (Railway.set_payment_history (fun _ => Railway.payment_history r) old) /\
      dict_get reservation_id (Railway.reservations db') = Some r /\
      (forall k, k <> reservation_id ->
                 dict_get k (Railway.reservations db')
                 = dict_get k (Railway.reservations db)) /\
      Railway.trains db' = Railway.trains db.
Proof.
  intros str_of_methods reservation_id travel_class trains payment_id db db' r H.
  unfold Railway.update_reservation_trains in H.
  apply bind_ok_preserves in H; [|apply RailwayUpdates.preserves_rail__get_reservation].
  destruct H as [old [Eo H]].
  apply RailwayRuns._get_reservation_ok in Eo. destruct Eo as [_ Eo].
  apply bind_ok_preserves in H; [|apply RailwayBooking.preserves__get_user].
  destruct H as [user [_ H]].
  apply bind_ok_preserves in H; [|apply RailwayBooking.preserves_build_segments].
  destruct H as [[segments fare] [Eb H]].
  apply RailwayStores.build_segments_spec in Eb. destruct Eb as [built [-> F]].
  apply bind_ok_preserves in H; [|apply RailwayBooking.preserves__apply_membership_discount].
  destruct H as [fare' [_ H]].
  unfold bind at 1 in H.
  destruct (Railway._payment_for_update _ _ _ _ _ db) as [[payment|e] s] eqn:Ep;
    [|discriminate].
  apply RailwayItinerary._payment_for_update_ok in Ep. destruct Ep as [R [T [_ P]]].
  cbv [bind modify ret] in H. injection H as <- <-.
  exists old. simpl.
  split; [exact Eo|]. split; [exact F|].
  split.
  { destruct P as [->|[x ->]]; simpl; eauto. }
  split.
  { destruct P as [->|[x ->]]; destruct old; reflexivity. }
  split.
  { rewrite !dict_get_update_same, R, Eo. reflexivity. }
  split; [|exact T].
  intros k N. rewrite !dict_get_update_other by exact N. rewrite R. reflexivity.
Qed.

Lemma update_reservation_trains_rebuilds_witness :
  exists r db',
    Railway.update_reservation_trains (fun _ => "") "TRN001" "sleeper"
      [{| Railway.ti_train_number := "RG100"; Railway.ti_date := "2024-06-01" |}]
      "wallet_1" Examples.reserved_db = (Ok r, db') /\
    Outcome.wallet_balance db' "ada_byron_1" "wallet_1" = Some 450%Z /\
    dict_get "TRN001" (Railway.reservations db') = Some r.
Proof.
  eexists. eexists. split; [vm_compute; reflexivity|].
  split; [reflexivity|].
  pose proof (update_reservation_trains_rebuilds (fun _ => "") "TRN001" "sleeper"
                [{| Railway.ti_train_number := "RG100"; Railway.ti_date := "2024-06-01" |}]
                "wallet_1" Examples.reserved_db _ _ ltac:(vm_compute; reflexivity))
    as [old [_ [_ [_ [_ [S _]]]]]].
  exact S.
Defined.

Module RailwayRoutes.

Import Railway.

Local Abbreviation before := (fun a b : string * string => route_lt a b = true).

Lemma route_eqb_eq (a b : string * string) : route_eqb a b = true <-> a = b.
Proof.
  destruct a as [a1 a2], b as [b1 b2]. unfold route_eqb. simpl.
  rewrite andb_true_iff, !String.eqb_eq. split; [intros [-> ->]; reflexivity|].
  intros H. injection H as -> ->. auto.
Qed.

Lemma str_lt_total (a b : string) : str_lt a b = false -> a <> b -> str_lt b a = true.
Proof.
  unfold str_lt. rewrite (String.compare_antisym b a).
  destruct (String.compare a b) eqn:E; intros H N; [|discriminate|reflexivity].
  destruct N. apply String.compare_eq_iff. exact E.
Qed.

(** Of two distinct routes one comes before the other. *)
Lemma route_lt_total (a b : string * string) :
  route_lt a b = false -> a <> b -> route_lt b a = true.
Proof.
  destruct a as [a1 a2], b as [b1 b2]. unfold route_lt. simpl.
  intros H N. apply orb_false_iff in H. destruct H as [H1 H2].
  destruct (String.eqb_spec a1 b1) as [->|N1].
  - simpl in H2. rewrite String.eqb_refl. simpl.
    rewrite (str_lt_total a2 b2 H2); [apply orb_true_r|].
    intros ->. destruct N. reflexivity.
  - rewrite (str_lt_total a1 b1 H1 N1). reflexivity.
Qed.

Lemma existsb_route_eqb (r : string * string) (l : list (string * string)) :
  existsb (route_eqb r) l = true <-> In r l.
Proof.
  rewrite existsb_exists. split.
  - intros [x [Hin E]]. apply route_eqb_eq in E. subst x. exact Hin.
  - intros Hin. exists r. split; [exact Hin|]. apply route_eqb_eq. reflexivity.
Qed.

Lemma distinct_routes_In (r : string * string) (l : list (string * string)) :
  In r (distinct_routes l) <-> In r l.
Proof.
  induction l as [|x l IH]; simpl; [tauto|].
  destruct (existsb (route_eqb x) l) eqn:E; simpl; rewrite IH; [|tauto].
  apply existsb_route_eqb in E. split; [auto|]. intros [<-|H]; auto.
Qed.

Lemma distinct_routes_NoDup (l : list (string * string)) : NoDup (distinct_routes l).
Proof.
  induction l as [|x l IH]; simpl; [constructor|].
  destruct (existsb (route_eqb x) l) eqn:E; [exact IH|].
  constructor; [|exact IH]. rewrite distinct_routes_In. intros Hin.
  apply existsb_route_eqb in Hin. congruence.
Qed.

Lemma insert_route_In (x r : string * string) (l : list (string * string)) :
  In x (insert_route r l) <-> x = r \/ In x l.
Proof.
  induction l as [|y l IH]; simpl; [intuition congruence|].
  destruct (route_lt y r); simpl; [rewrite IH|]; intuition congruence.
Qed.

Lemma insert_route_head (r : string * string) (l : list (string * string))
  (x : string * string) :
  before x r -> HdRel before x l -> HdRel before x (insert_route r l).
Proof.
  intros Hr Hl. destruct l as [|y l]; simpl; [constructor; exact Hr|].
  destruct (route_lt y r); constructor; [|exact Hr].
  inversion Hl; assumption.
Qed.

Lemma insert_route_sorted (r : string * string) (l : list (string * string)) :
  ~ In r l -> Sorted before l -> Sorted before (insert_route r l).
Proof.
  induction l as [|x l IH]; intros N S; simpl; [repeat constructor|].
  inversion S as [|? ? Sl Hh]; subst.
  destruct (route_lt x r) eqn:E.
  - constructor; [apply IH; [intros H; apply N; right; exact H|exact Sl]|].
    apply insert_route_head; [exact E|exact Hh].
  - constructor; [exact S|]. constructor.
    apply route_lt_total; [exact E|]. intros ->. apply N. left. reflexivity.
Qed.

Lemma sorted_routes_In (x : string * string) (l : list (string * string)) :
  In x (sorted_routes l) <-> In x l.
Proof.
  unfold sorted_routes. induction l as [|r l IH]; simpl; [tauto|].
  rewrite insert_route_In, IH. intuition congruence.
Qed.

Lemma sorted_routes_sorted (l : list (string * string)) :
  NoDup l -> Sorted before (sorted_routes l).
Proof.
  unfold sorted_routes. induction l as [|r l IH]; intros ND; simpl; [constructor|].
  inversion ND as [|? ? N ND']; subst.
  apply insert_route_sorted; [|exact (IH ND')].
  intros H. apply N. apply (sorted_routes_In r l). exact H.
Qed.

Lemma insert_route_NoDup (r : string * string) (l : list (string * string)) :
  ~ In r l -> NoDup l -> NoDup (insert_route r l).
Proof.
  induction l as [|x l IH]; intros N ND; simpl; [repeat constructor; auto|].
  inversion ND as [|? ? Nx ND']; subst.
  destruct (route_lt x r); [|constructor; assumption].
  constructor.
  - rewrite insert_route_In. intros [->|H]; [apply N; left; reflexivity|contradiction].
  - apply IH; [intros H; apply N; right; exact H|exact ND'].
Qed.

Lemma sorted_routes_NoDup (l : list (string * string)) :
  NoDup l -> NoDup (sorted_routes l).
Proof.
  unfold sorted_routes. induction l as [|r l IH]; intros ND; simpl; [constructor|].
  inversion ND as [|? ? N ND']; subst.
  apply insert_route_NoDup; [|exact (IH ND')].
  intros H. apply N. apply (sorted_routes_In r l). exact H.
Qed.

End RailwayRoutes.

(** X22.  [list_all_routes] returns, touches nothing, and lists exactly the
    (origin, destination) pairs of the trains on file in strictly
    ascending order: each route once, ordered by origin and, for the same
    origin, by destination. *)
Theorem list_all_routes_sorted_and_complete :
  forall db : Railway.TrainDB,
  exists routes,
    Railway.list_all_routes db = (Ok routes, db) /\
    (forall o d,
       In (o, d) routes <->
       exists train,
         In train (dict_values (Railway.trains db)) /\
         Railway.tr_origin train = o /\ Railway.tr_destination train = d) /\
    NoDup routes /\
    Sorted (fun a b => Railway.route_lt a b = true) routes.
Proof.
  intros db. eexists. split; [reflexivity|]. split; [|split].
  - intros o d. rewrite RailwayRoutes.sorted_routes_In, RailwayRoutes.distinct_routes_In.
    rewrite in_map_iff. split.
    + intros [t [E Hin]]. injection E as <- <-. eauto.
    + intros [t [Hin [<- <-]]]. eauto.
  - apply RailwayRoutes.sorted_routes_NoDup, RailwayRoutes.distinct_routes_NoDup.
  - apply RailwayRoutes.sorted_routes_sorted, RailwayRoutes.distinct_routes_NoDup.
Qed.
(** *** E-commerce: the whole toolkit *)

Module ECommerceTools.

Import ECommerce Frame.

Lemma preserves__get_sale (sale_ref : string) : preserves (_get_sale sale_ref).
Proof. intros db. unfold _get_sale. destruct (dict_get _ _); reflexivity. Qed.

Lemma preserves_shop__get_account (account_key : string) :
  preserves (_get_account account_key).
Proof. intros db. unfold _get_account. destruct (dict_get _ _); reflexivity. Qed.

Lemma preserves__get_catalogue_group (group_ref : string) :
  preserves (_get_catalogue_group group_ref).
Proof. intros db. unfold _get_catalogue_group. destruct (dict_get _ _); reflexivity. Qed.

#[local] Hint Resolve preserves__get_sale preserves_shop__get_account
  preserves__get_catalogue_group : frame.

Lemma preserves__get_offering (group_ref unit_sku : string) :
  preserves (_get_offering group_ref unit_sku).
Proof. unfold _get_offering. preserves_tac. Qed.

Lemma preserves__get_funding_source (account_key instrument_id : string) :
  preserves (_get_funding_source account_key instrument_id).
Proof. unfold _get_funding_source. preserves_tac. Qed.

Lemma preserves_price_difference (sale : Sale) (pairs : list (string * string)) (d : float) :
  preserves (price_difference sale pairs d).
Proof. intros db. apply ECommerceFacts.price_difference_frame. Qed.

#[local] Hint Resolve preserves__get_offering preserves__get_funding_source
  preserves_price_difference : frame.

Lemma _get_sale_ok sale_ref db sale db' :
  _get_sale sale_ref db = (Ok sale, db') ->
  db' = db /\ dict_get sale_ref (sales db) = Some sale.
Proof.
  unfold _get_sale. destruct (dict_get sale_ref (sales db)); [|discriminate].
  intros H. injection H as <- <-. auto.
Qed.

Section Tools.

Variable py_calc : string -> result string.
Variable json_dumps_sorted : json -> string.

(** The READ and GENERIC tools only look. *)
Lemma shop_read_generic_preserves (c : Call) :
  tool_type c <> WRITE -> preserves (use_tool py_calc json_dumps_sorted c).
Proof.
  intros H. destruct c; simpl in H; try congruence; simpl; unfold returning;
    (apply preserves_bind; [|intros; apply preserves_ret]);
    unfold calculate, transfer_to_human_agents, find_account_key_by_email,
      find_account_key_by_name_zip, get_sale_details, get_catalogue_group_details,
      get_account_details, list_all_catalogue_groups, get_db_statistics;
    preserves_tac.
Qed.

Variable P : exn -> Prop.

Lemma modify_account_location_atomic a l1 l2 m r n z :
  atomic P (modify_account_location a l1 l2 m r n z).
Proof.
  unfold modify_account_location.
  apply atomic_bind; [auto with frame|intros account].
  apply atomic_of_never_raises. never_raises_tac.
Qed.

Lemma modify_pending_sale_delivery_atomic s l1 l2 m r n z :
  atomic P (modify_pending_sale_delivery s l1 l2 m r n z).
Proof.
  unfold modify_pending_sale_delivery.
  apply atomic_bind; [auto with frame|intros sale].
  destruct (negb _); [apply atomic_of_preserves; auto with frame|].
  apply atomic_of_never_raises. never_raises_tac.
Qed.

Lemma modify_pending_sale_payment_atomic s i :
  atomic P (modify_pending_sale_payment s i).
Proof.
  unfold modify_pending_sale_payment.
  apply atomic_bind; [auto with frame|intros sale].
  destruct (negb _); [apply atomic_of_preserves; auto with frame|].
  apply atomic_bind; [auto with frame|intros _].
  destruct (filter _ _) as [|p [|q rest]];
    try solve [apply atomic_of_preserves; auto with frame].
  destruct (_ =? _); [apply atomic_of_preserves; auto with frame|].
  apply atomic_of_never_raises. never_raises_tac.
Qed.

Lemma cancel_pending_sale_atomic s reason :
  atomic P (cancel_pending_sale s reason).
Proof.
  unfold cancel_pending_sale.
  apply atomic_bind; [auto with frame|intros sale].
  destruct (negb _); [apply atomic_of_preserves; auto with frame|].
  destruct (negb _); [apply atomic_of_preserves; auto with frame|].
  apply atomic_of_never_raises. never_raises_tac.
Qed.

Lemma return_delivered_sale_lines_atomic s skus i :
  atomic P (return_delivered_sale_lines s skus i).
Proof.
  unfold return_delivered_sale_lines.
  apply atomic_bind; [auto with frame|intros sale].
  destruct (negb _); [apply atomic_of_preserves; auto with frame|].
  apply atomic_bind; [auto with frame|intros _].
  destruct (find _ _) as [first_payment|]; [|apply atomic_of_preserves; auto with frame].
  apply atomic_bind; [auto with frame|intros fs].
  destruct (_ && _); [apply atomic_of_preserves; auto with frame|].
  destruct (first_short_sku _ _ _); [apply atomic_of_preserves; auto with frame|].
  apply atomic_of_never_raises. never_raises_tac.
Qed.

Lemma exchange_delivered_sale_lines_atomic s olds news i :
  atomic P (exchange_delivered_sale_lines s olds news i).
Proof.
  unfold exchange_delivered_sale_lines.
  apply atomic_bind; [auto with frame|intros sale].
  destruct (negb _); [apply atomic_of_preserves; auto with frame|].
  destruct (negb _); [apply atomic_of_preserves; auto with frame|].
  destruct (first_short_sku _ _ _); [apply atomic_of_preserves; auto with frame|].
  apply atomic_bind; [auto with frame|intros _].
  apply atomic_bind; [auto with frame|intros d].
  apply atomic_of_never_raises. never_raises_tac.
Qed.

Lemma atomic_returning {A} (wrap : A -> Value) (m : M ECommerceDB A) :
  atomic P m -> atomic P (returning wrap m).
Proof.
  intros Hm. unfold returning. apply atomic_then; [exact Hm|].
  intros a. apply never_raises_ret.
Qed.

Lemma use_tool_atomic (c : Call) : atomic P (use_tool py_calc json_dumps_sorted c).
Proof.
  destruct (tool_type c) eqn:T;
    try (apply atomic_of_preserves, shop_read_generic_preserves; congruence).
  destruct c; try discriminate T; simpl; apply atomic_returning.
  - apply modify_account_location_atomic.
  - apply modify_pending_sale_delivery_atomic.
  - apply modify_pending_sale_payment_atomic.
  - apply cancel_pending_sale_atomic.
  - apply return_delivered_sale_lines_atomic.
  - apply exchange_delivered_sale_lines_atomic.
Qed.

End Tools.

End ECommerceTools.

(** X23.  Every tool of the e-commerce toolkit is all-or-nothing, whatever the
    exception: when a call raises, the database is the one it was called
    on.  Each WRITE tool does all its checks before its first
    assignment. *)
Theorem ecommerce_tools_all_or_nothing :
  forall (py_calc : string -> result string) (json_dumps_sorted : json -> string)
         (c : ECommerce.Call) (db db' : ECommerce.ECommerceDB) (e : exn),
    ECommerce.use_tool py_calc json_dumps_sorted c db = (Raise e, db') ->
    db' = db.
Proof.
  intros py_calc dumps c db db' e H.
  exact (ECommerceTools.use_tool_atomic py_calc dumps (fun _ => True) c db e db' H I).
Qed.

Lemma ecommerce_tools_all_or_nothing_witness :
  exists db',
    ECommerce.use_tool Examples.calc_stub Examples.dumps_stub
      (ECommerce.ModifyPendingSalePayment "S0000001" "credit_card_1")
      (Examples.shop_db "delivered")
    = (Raise (ValueError "Non-pending sale cannot be modified"), db') /\
    db' = Examples.shop_db "delivered".
Proof.
  eexists. split; [vm_compute; reflexivity|].
  eapply (ecommerce_tools_all_or_nothing Examples.calc_stub Examples.dumps_stub
            (ECommerce.ModifyPendingSalePayment "S0000001" "credit_card_1")).
  vm_compute. reflexivity.
Defined.
(** *** E-commerce: the life of a sale *)

Module ECommerceRuns.

Import ECommerce Frame ECommerceTools.

Lemma cancel_pending_sale_run sale_ref reason db s' db' :
  cancel_pending_sale sale_ref reason db = (Ok s', db') ->
  exists s,
    dict_get sale_ref (sales db) = Some s /\
    s' = set_state "cancelled" (set_ledger issue_refunds s) /\
    db' = upd_sale sale_ref (set_state "cancelled")
            (upd_sale sale_ref (set_ledger issue_refunds) db).
Proof.
  unfold cancel_pending_sale, bind, _get_sale.
  destruct (dict_get sale_ref (sales db)) as [s|] eqn:G; [|discriminate].
  destruct (negb (state s =? "pending")); [discriminate|].
  destruct (negb (mem_str reason _)); [discriminate|].
  unfold modify, ret. intros H. injection H as <- <-. eauto.
Qed.

Lemma return_delivered_sale_lines_run sale_ref unit_skus instrument_id db s' db' :
  return_delivered_sale_lines sale_ref unit_skus instrument_id db = (Ok s', db') ->
  exists s,
    dict_get sale_ref (sales db) = Some s /\
    state s = "delivered" /\
    s' = set_state "return requested" s /\
    db' = upd_sale sale_ref (set_state "return requested") db.
Proof.
  intros H. unfold return_delivered_sale_lines in H.
  apply bind_ok_preserves in H; [|apply preserves__get_sale].
  destruct H as [s [Es H]]. apply _get_sale_ok in Es. destruct Es as [_ Es].
  destruct (state s =? "delivered") eqn:D; simpl in H; [|discriminate].
  apply String.eqb_eq in D.
  apply bind_ok_preserves in H; [|apply preserves__get_funding_source].
  destruct H as [f0 [_ H]].
  destruct (find _ _) as [first_payment|]; [|discriminate].
  apply bind_ok_preserves in H; [|apply preserves__get_funding_source].
  destruct H as [fs [_ H]].
  destruct (_ && _); [discriminate|].
  destruct (first_short_sku _ _ _); [discriminate|].
  cbv [bind modify ret] in H. injection H as <- <-. eauto.
Qed.

Lemma modify_pending_sale_payment_run sale_ref instrument_id db s' db' :
  modify_pending_sale_payment sale_ref instrument_id db = (Ok s', db') ->
  exists s p,
    dict_get sale_ref (sales db) = Some s /\
    _is_pending_sale s = true /\
    filter (fun e => entry_kind e =? "payment") (ledger s) = [p] /\
    ECommerce.instrument_id p <> instrument_id /\
    let entries :=
      [{| entry_kind := "payment"; value := value p;
          ECommerce.instrument_id := instrument_id |};
       {| entry_kind := "refund"; value := value p;
          ECommerce.instrument_id := ECommerce.instrument_id p |}] in
    s' = set_ledger (fun l => (l ++ entries)%list) s /\
    db' = upd_sale sale_ref (set_ledger (fun l => (l ++ entries)%list)) db.
Proof.
  intros H. unfold modify_pending_sale_payment in H.
  apply bind_ok_preserves in H; [|apply preserves__get_sale].
  destruct H as [s [Es H]]. apply _get_sale_ok in Es. destruct Es as [_ Es].
  destruct (_is_pending_sale s) eqn:Pn; simpl in H; [|discriminate].
  apply bind_ok_preserves in H; [|apply preserves__get_funding_source].
  destruct H as [f0 [_ H]].
  destruct (filter _ _) as [|p [|q rest]] eqn:F; try discriminate.
  destruct (String.eqb_spec (ECommerce.instrument_id p) instrument_id) as [|N];
    [discriminate|].
  cbv [bind modify ret] in H. injection H as <- <-.
  exists s, p. cbv zeta. auto 10.
Qed.

Lemma raised_returning {A} (wrap : A -> Value) (m : M ECommerceDB A) db msg :
  m db = (Raise (ValueError msg), db) ->
  returning wrap m db = (Raise (ValueError msg), db).
Proof. intros H. unfold returning, bind. rewrite H. reflexivity. Qed.

Lemma returned_returning {A} (wrap : A -> Value) (m : M ECommerceDB A) db v db' :
  returning wrap m db = (Ok v, db') -> exists a, m db = (Ok a, db') /\ v = wrap a.
Proof.
  unfold returning, bind. destruct (m db) as [[a|e] s]; [|discriminate].
  intros H. injection H as <- <-. eauto.
Qed.

End ECommerceRuns.

(** X24.  A sale is closed for good once cancelled or once a return or an
    exchange was requested.  When [cancel_pending_sale],
    [return_delivered_sale_lines] or [exchange_delivered_sale_lines]
    returns, the sale is left in state 'cancelled', 'return requested' or
    'exchange requested'; and on a sale in one of these states every WRITE
    tool that works on a sale (the two modifications of a pending sale,
    the cancellation, the return, the exchange), whatever its other
    arguments, raises a [ValueError] and leaves the database as it is.
    So a return or an exchange can be requested once only. *)
Theorem closed_sale_accepts_no_write :
  forall (py_calc : string -> result string) (json_dumps_sorted : json -> string),
    (forall (c : ECommerce.Call) (sale_ref : string) (db db' : ECommerce.ECommerceDB)
            (v : ECommerce.Value),
        Outcome.closes c = true ->
        Outcome.sale_of c = Some sale_ref ->
        ECommerce.use_tool py_calc json_dumps_sorted c db = (Ok v, db') ->
        exists sale,
          dict_get sale_ref (ECommerce.sales db') = Some sale /\
          In (ECommerce.state sale) Outcome.closed_states)
    /\
    (forall (c : ECommerce.Call) (sale_ref : string) (db : ECommerce.ECommerceDB)
            (sale : ECommerce.Sale),
        Outcome.sale_of c = Some sale_ref ->
        dict_get sale_ref (ECommerce.sales db) = Some sale ->
        In (ECommerce.state sale) Outcome.closed_states ->
        exists msg,
          ECommerce.use_tool py_calc json_dumps_sorted c db = (Raise (ValueError msg), db)).
Proof.
  intros py_calc dumps. split.
  - intros c ref db db' v Hc Hs H.
    destruct c; try discriminate Hc; simpl in Hs; injection Hs as ->; simpl in H;
      apply ECommerceRuns.returned_returning in H; destruct H as [s' [H _]].
    + apply ECommerceRuns.cancel_pending_sale_run in H. destruct H as [s [G [_ ->]]].
      eexists. split.
      * unfold ECommerce.upd_sale. simpl. rewrite !dict_get_update_same, G. reflexivity.
      * simpl. auto.
    + apply ECommerceRuns.return_delivered_sale_lines_run in H.
      destruct H as [s [G [_ [_ ->]]]].
      eexists. split.
      * unfold ECommerce.upd_sale. simpl. rewrite dict_get_update_same, G. reflexivity.
      * simpl. auto.
    + apply ECommerceFacts.exchange_run in H. destruct H as [s [G [_ [_ ->]]]].
      eexists. split.
      * unfold ECommerce.upd_sale. simpl. rewrite dict_get_update_same, G. reflexivity.
      * simpl. auto.
  - intros c ref db sale Hs G Hin.
    assert (Pn : ECommerce._is_pending_sale sale = false).
    { unfold ECommerce._is_pending_sale.
      destruct Hin as [<-|[<-|[<-|[]]]]; reflexivity. }
    assert (Np : (ECommerce.state sale =? "pending") = false).
    { destruct Hin as [<-|[<-|[<-|[]]]]; reflexivity. }
    assert (Nd : (ECommerce.state sale =? "delivered") = false).
    { destruct Hin as [<-|[<-|[<-|[]]]]; reflexivity. }
    destruct c; try discriminate Hs; simpl in Hs; injection Hs as ->; simpl;
      eexists; apply ECommerceRuns.raised_returning.
    + unfold ECommerce.modify_pending_sale_delivery, bind, ECommerce._get_sale.
      rewrite G, Pn. reflexivity.
    + unfold ECommerce.modify_pending_sale_payment, bind, ECommerce._get_sale.
      rewrite G, Pn. reflexivity.
    + unfold ECommerce.cancel_pending_sale, bind, ECommerce._get_sale.
      rewrite G, Np. reflexivity.
    + unfold ECommerce.return_delivered_sale_lines, bind, ECommerce._get_sale.
      rewrite G, Nd. reflexivity.
    + unfold ECommerce.exchange_delivered_sale_lines, bind, ECommerce._get_sale.
      rewrite G, Nd. reflexivity.
Qed.

Lemma closed_sale_accepts_no_write_witness :
  (exists v db',
     ECommerce.use_tool Examples.calc_stub Examples.dumps_stub
       (ECommerce.ReturnDeliveredSaleLines "S0000001" ["sku_blue_m"] "credit_card_1")
       (Examples.shop_db "delivered") = (Ok v, db') /\
     exists sale,
       dict_get "S0000001" (ECommerce.sales db') = Some sale /\
       In (ECommerce.state sale) Outcome.closed_states)
  /\
  (exists msg,
     ECommerce.use_tool Examples.calc_stub Examples.dumps_stub
       (ECommerce.ExchangeDeliveredSaleLines "S0000001" ["sku_blue_m"] ["sku_blue_l"]
          "credit_card_1")
       (Examples.shop_db "return requested")
     = (Raise (ValueError msg), Examples.shop_db "return requested")).
Proof.
  split.
  - eexists. eexists. split; [vm_compute; reflexivity|].
    eapply (proj1 (closed_sale_accepts_no_write Examples.calc_stub Examples.dumps_stub)
              (ECommerce.ReturnDeliveredSaleLines "S0000001" ["sku_blue_m"] "credit_card_1")
              "S0000001" (Examples.shop_db "delivered")).
    + reflexivity.
    + reflexivity.
    + vm_compute. reflexivity.
  - apply (proj2 (closed_sale_accepts_no_write Examples.calc_stub Examples.dumps_stub)
             (ECommerce.ExchangeDeliveredSaleLines "S0000001" ["sku_blue_m"] ["sku_blue_l"]
                "credit_card_1")
             "S0000001" (Examples.shop_db "return requested")
             (Examples.sale "return requested")).
    + reflexivity.
    + reflexivity.
    + simpl. auto.
Defined.

(** X25.  The funding instrument of a pending sale can be changed once.  When
    [modify_pending_sale_payment] returns, the sale was pending with
    exactly one payment entry, on another instrument; the ledger has
    gained, in this order, a payment of the same value on the new
    instrument and a refund of it on the old one, and nothing else of the
    sale or of the database has changed.  The ledger then holds two
    payment entries, so every later [modify_pending_sale_payment] on the
    sale, whatever the instrument, raises a [ValueError] and changes
    nothing. *)
Theorem modify_pending_sale_payment_once :
  forall (sale_ref instrument_id : string) (db db' : ECommerce.ECommerceDB)
         (sale' : ECommerce.Sale),
    ECommerce.modify_pending_sale_payment sale_ref instrument_id db = (Ok sale', db') ->
    (exists sale payment,
       dict_get sale_ref (ECommerce.sales db) = Some sale /\
       filter Outcome.is_payment (ECommerce.ledger sale) = [payment] /\
       ECommerce.instrument_id payment <> instrument_id /\
       ECommerce.ledger sale'
       = (ECommerce.ledger sale
            ++ [{| ECommerce.entry_kind := "payment";
                   ECommerce.value := ECommerce.value payment;
                   ECommerce.instrument_id := instrument_id |};
                {| ECommerce.entry_kind := "refund";
                   ECommerce.value := ECommerce.value payment;
                   ECommerce.instrument_id := ECommerce.instrument_id payment |}])%list /\
       sale' = ECommerce.set_ledger (fun _ => ECommerce.ledger sale') sale /\
       db' = ECommerce.upd_sale sale_ref (fun _ => sale') db) /\
    forall other_instrument,
    exists msg,
      ECommerce.modify_pending_sale_payment sale_ref other_instrument db'
      = (Raise (ValueError msg), db').
Proof.
  intros ref i db db' sale' H.
  apply ECommerceRuns.modify_pending_sale_payment_run in H.
  destruct H as [s [p [G [Pn [F [N H]]]]]]. cbv zeta in H. destruct H as [-> ->].
  split.
  - exists s, p. split; [exact G|]. split; [exact F|]. split; [exact N|].
    split; [reflexivity|]. split; [reflexivity|].
    unfold ECommerce.upd_sale, ECommerce.set_sales. f_equal.
    clear - G. induction (ECommerce.sales db) as [|[k v] d IH]; simpl in *; [reflexivity|].
    destruct (ref =? k); [injection G as ->; reflexivity|].
    f_equal. apply IH. exact G.
  - intros other.
    pose proof (ECommerceTools.preserves__get_funding_source (ECommerce.account_key s) other)
      as Pf.
    unfold ECommerce.modify_pending_sale_payment, bind at 1, ECommerce._get_sale.
    unfold ECommerce.upd_sale at 1. simpl. rewrite dict_get_update_same, G. simpl.
    unfold ECommerce._is_pending_sale in *. simpl. rewrite Pn. simpl.
    unfold bind.
    match goal with
    | |- context [ECommerce._get_funding_source ?a ?b ?d] =>
        specialize (Pf d); destruct (ECommerce._get_funding_source a b d) as [[f|e] d1] eqn:E
    end; simpl in Pf; subst d1.
    + rewrite filter_app. fold Outcome.is_payment in F.
      change (fun e : ECommerce.LedgerEntry => ECommerce.entry_kind e =? "payment")
        with Outcome.is_payment.
      rewrite F. simpl. eexists. reflexivity.
    + unfold ECommerce._get_funding_source, bind, ECommerce._get_account in E.
      destruct (dict_get _ (ECommerce.accounts _)) as [a|];
        [destruct (dict_get other _)|]; try discriminate;
        injection E as <-; eexists; reflexivity.
Qed.

Lemma modify_pending_sale_payment_once_witness :
  exists sale' db',
    ECommerce.modify_pending_sale_payment "S0000001" "gift_card_1"
      (Examples.gift_shop_db "pending") = (Ok sale', db') /\
    List.length (ECommerce.ledger sale') = 3%nat /\
    exists msg,
      ECommerce.modify_pending_sale_payment "S0000001" "credit_card_1" db'
      = (Raise (ValueError msg), db').
Proof.
  eexists. eexists. split; [vm_compute; reflexivity|]. split; [reflexivity|].
  apply (proj2 (modify_pending_sale_payment_once "S0000001" "gift_card_1"
                  (Examples.gift_shop_db "pending") _ _ ltac:(vm_compute; reflexivity))
           "credit_card_1").
Defined.

(** X26.  The READ and GENERIC tools of the railway and of the e-commerce
    toolkits hand the database back as they received it, whatever their
    arguments and whether they return or raise. *)
Theorem railway_and_ecommerce_reads_leave_db_unchanged :
  (forall (py_calc : string -> result string) (c : Railway.ReadCall) (db : Railway.TrainDB),
      snd (Railway.use_read_tool py_calc c db) = db)
  /\
  (forall (py_calc : string -> result string) (json_dumps_sorted : json -> string)
          (c : ECommerce.Call) (db : ECommerce.ECommerceDB),
      ECommerce.tool_type c <> WRITE ->
      snd (ECommerce.use_tool py_calc json_dumps_sorted c db) = db).
Proof.
  split.
  - intros py_calc c db.
    assert (F : Frame.preserves (Railway.use_read_tool py_calc c)); [|exact (F db)].
    destruct c; simpl; (apply preserves_bind; [|intros; apply preserves_ret]).
    + apply RailwayBooking.preserves__get_user.
    + apply RailwayUpdates.preserves_rail__get_reservation.
    + apply preserves_gets.
    + intros s.
      destruct (search_onestop_train_itineraries_run origin destination date s) as [r E].
      rewrite E. reflexivity.
    + unfold Railway.get_train_status.
      apply preserves_bind; [apply RailwayBooking.preserves__get_train_instance|].
      intros; apply preserves_ret.
    + apply preserves_gets.
    + unfold Railway.get_db_statistics. preserves_tac.
    + unfold Railway.calculate. preserves_tac.
    + apply preserves_ret.
  - intros py_calc dumps c db H.
    exact (ECommerceTools.shop_read_generic_preserves py_calc dumps c H db).
Qed.

Lemma railway_and_ecommerce_reads_leave_db_unchanged_witness :
  snd (Railway.use_read_tool Examples.calc_stub
         (Railway.SearchOnestopTrain "NYC" "PWM" "2024-06-01") (Examples.booking_db 500))
  = Examples.booking_db 500
  /\
  snd (ECommerce.use_tool Examples.calc_stub Examples.dumps_stub
         (ECommerce.FindAccountKeyByEmail "ADA@example.com") (Examples.shop_db "pending"))
  = Examples.shop_db "pending".
Proof.
  split.
  - apply (proj1 railway_and_ecommerce_reads_leave_db_unchanged).
  - apply (proj2 railway_and_ecommerce_reads_leave_db_unchanged). discriminate.
Defined.
(** *** The green agent's loop: what reaches the environment *)

Section GreenAgentSteps.

Import GreenAgent.

Variable Env : Type.
Variable env_step : json -> Env -> (string * bool) * Env.
Variable parse_tags : string -> dict string.
Variable json_loads : string -> result json.
Variable json_dumps : json -> string.

Local Abbreviation iteration :=
  (GreenAgent.iteration Env env_step parse_tags json_loads json_dumps).
Local Abbreviation run :=
  (GreenAgent.run Env env_step parse_tags json_loads json_dumps).
Local Abbreviation action_of := (Outcome.action_of parse_tags json_loads json_dumps).

(** A turn either fails, the environment not stepped, or steps the
    environment once on the action of the reply. *)
Lemma iteration_cases (r : ResponseRoot) (l l' : Locals Env) res :
  iteration r l = (res, l') ->
  (exists e, res = Raise e /\ stepped Env l' = stepped Env l /\ var_env Env l' = var_env Env l) \/
  (exists terminated action observation,
     res = Ok terminated /\ action_of r action /\
     env_step action (var_env Env l) = (observation, terminated, var_env Env l') /\
     next_green_message Env l' = observation /\
     stepped Env l' = (stepped Env l ++ [action])%list).
Proof.
  destruct r as [[m|]|]; unfold GreenAgent.iteration;
    try (intros H; injection H as <- <-; left; eauto).
  destruct (match var_context_id Env l with
            | Some c => _ | None => _ end) as [ctx|e];
    try (intros H; injection H as <- <-; left; eauto).
  destruct (get_text_parts (parts m)) as [|t [|? ?]] eqn:Et;
    try (intros H; injection H as <- <-; left; eauto).
  destruct (parse_action parse_tags json_loads json_dumps t) as [a|e] eqn:Ea;
    try (intros H; injection H as <- <-; left; eauto).
  cbn [var_env stepped].
  destruct (env_step a (var_env Env l)) as [[ob tm] e'] eqn:Es; cbv beta iota.
  intros H; injection H as <- <-. right.
  exists tm, a, ob. simpl. repeat split; auto.
  exists m, t. auto.
Qed.

End GreenAgentSteps.

(** X28.  The environment is stepped once per reply the loop accepts, in the
    order of the replies, on the action read off each, and on nothing
    else.  However the loop ends on the replies it is fed, the actions
    handed to [env.step] are those on file before followed by the actions
    of the first [n] replies: all the replies when the loop is left
    waiting for the next one, at least one when the environment has
    terminated, and fewer than all when the loop has crashed, the reply it
    crashed on (not a message, a foreign context id, not exactly one text
    part, no parsable action) having reached the environment not. *)
Theorem green_agent_steps_once_per_accepted_reply :
  forall (Env : Type) (env_step : json -> Env -> (string * bool) * Env)
         (parse_tags : string -> dict string) (json_loads : string -> result json)
         (json_dumps : json -> string)
         (replies : list GreenAgent.ResponseRoot) (l l' : GreenAgent.Locals Env)
         (o : GreenAgent.Outcome),
    GreenAgent.run Env env_step parse_tags json_loads json_dumps replies l = (o, l') ->
    exists actions,
      GreenAgent.stepped Env l' = (GreenAgent.stepped Env l ++ actions)%list /\
      Forall2 (Outcome.action_of parse_tags json_loads json_dumps)
        (firstn (List.length actions) replies) actions /\
      match o with
      | GreenAgent.AwaitingReply => List.length actions = List.length replies
      | GreenAgent.LoopExited => (1 <= List.length actions <= List.length replies)%nat
      | GreenAgent.Crashed _ => (List.length actions < List.length replies)%nat
      end.
Proof.
  intros Env env_step parse_tags json_loads json_dumps replies.
  induction replies as [|r rest IH]; intros l l' o; simpl.
  - intros H. injection H as <- <-. exists []. rewrite app_nil_r.
    split; [reflexivity|]. split; [constructor|reflexivity].
  - destruct (GreenAgent.iteration Env env_step parse_tags json_loads json_dumps r l)
      as [res l1] eqn:It.
    apply iteration_cases in It.
    destruct It as [[e [-> [St _]]]|[t [a [ob [-> [Ha [_ [_ St]]]]]]]].
    + intros H. injection H as <- <-. exists []. rewrite app_nil_r.
      split; [exact St|]. split; [constructor|simpl; lia].
    + destruct t.
      * intros H. injection H as <- <-. exists [a].
        split; [exact St|]. split; [repeat constructor; exact Ha|simpl; lia].
      * intros H. apply IH in H. destruct H as [actions [E [F Len]]].
        exists (a :: actions). rewrite E, St, <- app_assoc. split; [reflexivity|].
        split; [simpl; constructor; assumption|].
        destruct o; simpl; lia.
Qed.

Lemma green_agent_steps_once_per_accepted_reply_witness :
  exists l',
    GreenAgent.run unit Examples.echo_step Examples.tags_of Examples.loads Examples.dumps
      [Examples.reply (Some "ctx-A") "first"; Examples.reply (Some "ctx-B") "second";
       Examples.reply (Some "ctx-A") "third"]
      {| GreenAgent.var_context_id := None; GreenAgent.var_env := tt;
         GreenAgent.next_green_message := "task"; GreenAgent.stepped := [] |}
    = (GreenAgent.Crashed
         (AssertionError "Context ID should remain the same in a conversation"), l') /\
    exists actions,
      GreenAgent.stepped unit l'
      = (GreenAgent.stepped unit
           {| GreenAgent.var_context_id := None; GreenAgent.var_env := tt;
              GreenAgent.next_green_message := "task"; GreenAgent.stepped := [] |}
           ++ actions)%list /\
      Forall2 (Outcome.action_of Examples.tags_of Examples.loads Examples.dumps)
        (firstn (List.length actions)
           [Examples.reply (Some "ctx-A") "first"; Examples.reply (Some "ctx-B") "second";
            Examples.reply (Some "ctx-A") "third"]) actions /\
      (List.length actions < 3)%nat.
Proof.
  eexists. split; [vm_compute; reflexivity|].
  eapply (green_agent_steps_once_per_accepted_reply unit Examples.echo_step Examples.tags_of
            Examples.loads Examples.dumps
            [Examples.reply (Some "ctx-A") "first"; Examples.reply (Some "ctx-B") "second";
             Examples.reply (Some "ctx-A") "third"] _ _
            (GreenAgent.Crashed
               (AssertionError "Context ID should remain the same in a conversation"))).
  vm_compute. reflexivity.
Defined.
(** *** E-commerce: what a return has checked *)

Module ECommerceReturn.

Import ECommerce Frame ECommerceTools.

(** The quantity check of a return or an exchange: no SKU is asked for
    more often than the sale has it. *)
Lemma first_short_sku_none (wanted all_wanted have : list string) :
  first_short_sku wanted all_wanted have = None ->
  Forall (fun sku => (count_str sku all_wanted <= count_str sku have)%nat) wanted.
Proof.
  induction wanted as [|sku rest IH]; simpl; [constructor|].
  destruct (count_str sku have <? count_str sku all_wanted)%nat eqn:E; [discriminate|].
  intros H. constructor; [apply Nat.ltb_ge in E; exact E|exact (IH H)].
Qed.

Lemma count_str_not_in (sku : string) (l : list string) :
  ~ In sku l -> count_str sku l = 0%nat.
Proof.
  unfold count_str. induction l as [|x l IH]; simpl; [reflexivity|].
  intros N. destruct (String.eqb_spec sku x) as [->|Ne].
  - destruct N. left. reflexivity.
  - apply IH. intros H. apply N. right. exact H.
Qed.

Lemma enough_of_each (wanted have : list string) :
  first_short_sku wanted wanted have = None ->
  forall sku, (count_str sku wanted <= count_str sku have)%nat.
Proof.
  intros H sku. apply first_short_sku_none in H.
  destruct (in_dec String.string_dec sku wanted) as [Hin|N].
  - rewrite Forall_forall in H. exact (H sku Hin).
  - rewrite (count_str_not_in sku wanted N). lia.
Qed.

Lemma _get_funding_source_ok account_key instrument_id db fs db' :
  _get_funding_source account_key instrument_id db = (Ok fs, db') ->
  db' = db /\
  exists account,
    dict_get account_key (accounts db) = Some account /\
    dict_get instrument_id (funding_sources account) = Some fs.
Proof.
  unfold _get_funding_source, bind, _get_account.
  destruct (dict_get account_key (accounts db)) as [a|] eqn:Ea; [|discriminate].
  destruct (dict_get instrument_id (funding_sources a)) as [f|] eqn:Ef; [|discriminate].
  intros H. injection H as <- <-. eauto.
Qed.

End ECommerceReturn.

(** X27.  What a return request has checked, and what it records.  When
    [return_delivered_sale_lines] returns, the sale was 'delivered'; the
    instrument named for the refund is a funding source of the account of
    the sale and is a gift card or the instrument of the first payment in
    the ledger; and no SKU is returned more often than the sale has lines
    of it.  All the call records is the state 'return requested': neither
    the items nor the instrument are written anywhere. *)
Theorem return_delivered_sale_lines_checks :
  forall (sale_ref : string) (unit_skus : list string) (instrument_id : string)
         (db db' : ECommerce.ECommerceDB) (sale' : ECommerce.Sale),
    ECommerce.return_delivered_sale_lines sale_ref unit_skus instrument_id db
    = (Ok sale', db') ->
    exists sale account funding_source first_payment,
      dict_get sale_ref (ECommerce.sales db) = Some sale /\
      ECommerce.state sale = "delivered" /\
      dict_get (ECommerce.account_key sale) (ECommerce.accounts db) = Some account /\
      dict_get instrument_id (ECommerce.funding_sources account) = Some funding_source /\
      find Outcome.is_payment (ECommerce.ledger sale) = Some first_payment /\
      (ECommerce.fs_origin funding_source = "gift_card" \/
       instrument_id = ECommerce.instrument_id first_payment) /\
      (forall sku,
         (count_str sku unit_skus
          <= count_str sku (map ECommerce.unit_sku (ECommerce.lines sale)))%nat) /\
      sale' = ECommerce.set_state "return requested" sale /\
      db' = ECommerce.upd_sale sale_ref (ECommerce.set_state "return requested") db.
Proof.
  intros ref skus i db db' sale' H.
  unfold ECommerce.return_delivered_sale_lines in H.
  apply bind_ok_preserves in H; [|apply ECommerceTools.preserves__get_sale].
  destruct H as [s [Es H]]. apply ECommerceTools._get_sale_ok in Es. destruct Es as [_ Es].
  destruct (ECommerce.state s =? "delivered") eqn:D; simpl in H; [|discriminate].
  apply String.eqb_eq in D.
  apply bind_ok_preserves in H; [|apply ECommerceTools.preserves__get_funding_source].
  destruct H as [f0 [_ H]].
  change (fun e : ECommerce.LedgerEntry => ECommerce.entry_kind e =? "payment")
    with Outcome.is_payment in H.
  destruct (find Outcome.is_payment (ECommerce.ledger s)) as [first_payment|] eqn:Ef;
    [|discriminate].
  apply bind_ok_preserves in H; [|apply ECommerceTools.preserves__get_funding_source].
  destruct H as [fs [Efs H]].
  apply ECommerceReturn._get_funding_source_ok in Efs.
  destruct Efs as [_ [account [Ea Ei]]].
  destruct (negb (ECommerce.fs_origin fs =? "gift_card")
            && negb (i =? ECommerce.instrument_id first_payment)) eqn:C; [discriminate|].
  destruct (ECommerce.first_short_sku skus skus _) eqn:Q; [discriminate|].
  cbv [bind modify ret] in H. injection H as <- <-.
  exists s, account, fs, first_payment.
  repeat (split; [assumption || reflexivity|]).
  split.
  { apply andb_false_iff in C. destruct C as [C|C]; apply negb_false_iff in C;
      apply String.eqb_eq in C; auto. }
  split; [apply ECommerceReturn.enough_of_each; exact Q|].
  split; reflexivity.
Qed.

Lemma return_delivered_sale_lines_checks_witness :
  exists sale' db',
    ECommerce.return_delivered_sale_lines "S0000001" ["sku_blue_m"] "gift_card_1"
      (Examples.gift_shop_db "delivered") = (Ok sale', db') /\
    ECommerce.ledger sale' = ECommerce.ledger (Examples.sale "delivered") /\
    db' = ECommerce.upd_sale "S0000001" (ECommerce.set_state "return requested")
            (Examples.gift_shop_db "delivered").
Proof.
  eexists. eexists. split; [vm_compute; reflexivity|]. split; [reflexivity|].
  pose proof (return_delivered_sale_lines_checks "S0000001" ["sku_blue_m"] "gift_card_1"
                (Examples.gift_shop_db "delivered") _ _ ltac:(vm_compute; reflexivity))
    as [s [a [f [p [_ [_ [_ [_ [_ [_ [_ [_ R]]]]]]]]]]]].
  exact R.
Defined.
(** *** Bank: verifying and paying a beneficiary *)

Module BankPays.

Import Bank BankRuns.

Lemma _get_beneficiary_ok k db b db' :
  _get_beneficiary k db = (Ok b, db') -> dict_get k (beneficiaries db) = Some b.
Proof.
  unfold _get_beneficiary. destruct (dict_get k (beneficiaries db)); [|discriminate].
  intros H; injection H as <- _. reflexivity.
Qed.

Section Tools.

Variable now : string.

#[local] Hint Resolve BankFacts.preserves__get_client BankFacts.preserves__get_loan
  BankFacts.preserves__get_beneficiary BankFacts.preserves_getitem
  BankFacts.preserves__assert_account_active
  BankFacts.preserves__assert_beneficiary_owned_by_client
  BankFacts.preserves_new_Transaction BankFacts.preserves_account_at
  BankFacts.preserves__generate_transaction_id : frame.

Lemma _assert_beneficiary_owned_by_client_ok client_id beneficiary_id db u db' :
  _assert_beneficiary_owned_by_client client_id beneficiary_id db = (Ok u, db') ->
  exists client,
    dict_get client_id (clients db) = Some client /\
    mem_str beneficiary_id (beneficiary_ids client) = true.
Proof.
  unfold _assert_beneficiary_owned_by_client. intros H.
  apply bind_ok_preserves in H; [|auto with frame]. destruct H as (client & Hc & H).
  apply _get_client_ok in Hc.
  destruct (mem_str beneficiary_id (beneficiary_ids client)) eqn:M; [eauto|discriminate].
Qed.

(** What a call to [initiate_transfer_to_beneficiary] that returns has
    checked and written. *)
Lemma initiate_transfer_to_beneficiary_run client_id from beneficiary_id amount method
  description db tx db1 :
  initiate_transfer_to_beneficiary now client_id from beneficiary_id amount method
    description db = (Ok tx, db1) ->
  exists client acc b,
    (amount <=? 0)%float = false /\
    dict_get client_id (clients db) = Some client /\
    dict_get from (accounts client) = Some acc /\
    acc_status acc = "active" /\
    mem_str beneficiary_id (beneficiary_ids client) = true /\
    dict_get beneficiary_id (beneficiaries db) = Some b /\
    bnf_status b = "active" /\
    ver_status (verification b) = "verified" /\
    mem_str from (allowed_from_account_ids b) = true /\
    (Bank.per_transfer_limit (transfer_limits b) <? amount)%float = false /\
    (available (acc_balance acc) <? amount)%float = false /\
    mem_str method TransactionMethod_literals = true /\
    transaction_id tx = "tx_" ++ format_07d (List.length (transactions db) + 1) /\
    tx_type tx = "transfer" /\ direction tx = "debit" /\ tx_status tx = "posted" /\
    Bank.amount tx = round2 amount /\ timestamp tx = now /\ Bank.method tx = method /\
    tx_client_id tx = client_id /\ tx_account_id tx = from /\
    tx_currency tx = acc_currency acc /\
    clients db1
    = clients
        (upd_account client_id from
           (set_acc_balance (fun b => set_current (round2 (current b - amount)%float) b))
           (upd_account client_id from
              (set_acc_balance
                 (fun b => set_available (round2 (available b - amount)%float) b)) db)) /\
    transactions db1 = dict_set (transaction_id tx) tx (transactions db) /\
    loans db1 = loans db /\
    beneficiaries db1 = beneficiaries db.
Proof.
  unfold initiate_transfer_to_beneficiary. intros H.
  destruct (amount <=? 0)%float eqn:Hpos; [discriminate|].
  apply bind_ok_preserves in H; [|auto with frame]. destruct H as (client & Hc & H).
  apply _get_client_ok in Hc.
  destruct (dict_mem from (accounts client)) eqn:Hm; cbn [negb] in H; [|discriminate].
  apply bind_ok_preserves in H; [|auto with frame]. destruct H as (acc & Ha & H).
  apply getitem_ok in Ha.
  apply bind_ok_preserves in H; [|auto with frame]. destruct H as ([] & Hact & H).
  unfold _assert_account_active in Hact.
  destruct (String.eqb_spec (acc_status acc) "active") as [Hst|]; cbn [negb] in Hact;
    [|discriminate].
  apply bind_ok_preserves in H; [|auto with frame]. destruct H as ([] & Hown & H).
  apply _assert_beneficiary_owned_by_client_ok in Hown.
  destruct Hown as (client' & Hc' & Hown). rewrite Hc in Hc'. injection Hc' as <-.
  apply bind_ok_preserves in H; [|auto with frame]. destruct H as (b & Hb & H).
  apply _get_beneficiary_ok in Hb.
  destruct (String.eqb_spec (bnf_status b) "active") as [Hbs|]; cbn [negb] in H;
    [|discriminate].
  destruct (String.eqb_spec (ver_status (verification b)) "verified") as [Hbv|];
    cbn [negb] in H; [|discriminate].
  destruct (mem_str from (allowed_from_account_ids b)) eqn:Hal; cbn [negb] in H;
    [|discriminate].
  destruct (Bank.per_transfer_limit (transfer_limits b) <? amount)%float eqn:Hlim;
    [discriminate|].
  destruct (available (acc_balance acc) <? amount)%float eqn:Hbal; [discriminate|].
  rewrite debit_run in H.
  apply bind_ok_preserves in H; [|auto with frame]. destruct H as (tx_id & Hid & H).
  unfold _generate_transaction_id, gets in Hid. injection Hid as <-.
  apply bind_ok_preserves in H; [|unfold _now; auto with frame].
  destruct H as (ts & Hts & H). unfold _now, ret in Hts. injection Hts as <-.
  apply bind_ok_preserves in H; [|auto with frame]. destruct H as (acc' & _ & H).
  apply bind_ok_preserves in H; [|auto with frame]. destruct H as (t & Ht & H).
  pose proof (new_Transaction_method _ _ _ _ Ht) as Hmeth. cbn [Bank.method] in Hmeth.
  apply new_Transaction_ok in Ht. subst t.
  unfold bind, modify, ret in H. injection H as <- <-.
  exists client, acc, b. cbn.
  repeat (split; [assumption || reflexivity|]). reflexivity.
Qed.

(** What a call to [verify_beneficiary] that returns has checked and
    written. *)
Lemma verify_beneficiary_run client_id beneficiary_id method db b' db1 :
  verify_beneficiary now client_id beneficiary_id method db = (Ok b', db1) ->
  exists client b,
    dict_get client_id (clients db) = Some client /\
    mem_str beneficiary_id (beneficiary_ids client) = true /\
    dict_get beneficiary_id (beneficiaries db) = Some b /\
    b' = set_verification
           {| ver_status := "verified"; ver_method := method; verified_at := Some now |} b /\
    beneficiaries db1 = dict_update beneficiary_id (fun _ => b') (beneficiaries db) /\
    clients db1 = clients db /\ transactions db1 = transactions db /\
    loans db1 = loans db.
Proof.
  unfold verify_beneficiary. intros H.
  apply bind_ok_preserves in H; [|auto with frame]. destruct H as ([] & Hown & H).
  apply _assert_beneficiary_owned_by_client_ok in Hown. destruct Hown as (client & Hc & Hown).
  apply bind_ok_preserves in H; [|auto with frame]. destruct H as (b & Hb & H).
  apply _get_beneficiary_ok in Hb.
  unfold bind, modify, _now, ret in H. injection H as <- <-.
  exists client, b. unfold upd_beneficiary. cbn.
  repeat (split; [assumption || reflexivity|]).
  split; [|repeat split; reflexivity].
  rewrite !dict_update_compose.
  clear - Hb. induction (beneficiaries db) as [|[k v] d IH]; simpl in *; [reflexivity|].
  destruct (beneficiary_id =? k); [injection Hb as ->; reflexivity|].
  f_equal. apply IH. exact Hb.
Qed.

End Tools.

End BankPays.

(** X29.  What a transfer to a beneficiary has checked and written.  When
    [initiate_transfer_to_beneficiary] returns, the amount is above zero;
    the source account belongs to the client and was active with an
    available balance of at least the amount; the beneficiary is on file,
    listed by the client, active and verified, allows that account, and
    its per-transfer limit is not exceeded (its daily limit plays no
    part); the method is one of the literals.  The account's available
    and current balances are each lowered by the amount and rounded to
    two decimals; the transaction returned, a posted debit of type
    'transfer' of the rounded amount on that account, is stored under its
    identifier; beneficiaries and loans are untouched. *)
Theorem initiate_transfer_to_beneficiary_records :
  forall (now client_id from_account_id beneficiary_id : string) (amount : float)
         (method : string) (description : option string)
         (db db1 : Bank.BankDB) (tx : Bank.Transaction),
    Bank.initiate_transfer_to_beneficiary now client_id from_account_id beneficiary_id
      amount method description db = (Ok tx, db1) ->
    exists (client : Bank.Client) (acc : Bank.Account) (b : Bank.Beneficiary),
      (amount <=? 0)%float = false /\
      dict_get client_id (Bank.clients db) = Some client /\
      Outcome.lookup_account client_id from_account_id db = Some acc /\
      Bank.acc_status acc = "active" /\
      (Bank.available (Bank.acc_balance acc) <? amount)%float = false /\
      In beneficiary_id (Bank.beneficiary_ids client) /\
      Bank.get_beneficiary_details beneficiary_id db = (Ok b, db) /\
      Bank.bnf_status b = "active" /\
      Bank.ver_status (Bank.verification b) = "verified" /\
      In from_account_id (Bank.allowed_from_account_ids b) /\
      (Bank.per_transfer_limit (Bank.transfer_limits b) <? amount)%float = false /\
      In method Bank.TransactionMethod_literals /\
      option_map Bank.acc_balance (Outcome.lookup_account client_id from_account_id db1)
      = Some {| Bank.current := round2 (Bank.current (Bank.acc_balance acc) - amount);
                Bank.available := round2 (Bank.available (Bank.acc_balance acc) - amount);
                Bank.on_hold := Bank.on_hold (Bank.acc_balance acc) |} /\
      Bank.tx_type tx = "transfer" /\
      Bank.direction tx = "debit" /\
      Bank.tx_status tx = "posted" /\
      Bank.amount tx = round2 amount /\
      Bank.tx_account_id tx = from_account_id /\
      dict_get (Bank.transaction_id tx) (Bank.transactions db1) = Some tx /\
      Bank.beneficiaries db1 = Bank.beneficiaries db /\
      Bank.loans db1 = Bank.loans db.
Proof.
  intros now cid from bid amount method description db db1 tx H.
  destruct (BankPays.initiate_transfer_to_beneficiary_run _ _ _ _ _ _ _ _ _ _ H)
    as (client & acc & b & Hpos & Hc & Ha & Hst & Hown & Hb & Hbs & Hbv & Hal & Hlim & Hbal
        & Hm & _ & Ty & Di & St & Am & _ & _ & _ & Ac & _ & Ec & Et & El & Eb).
  exists client, acc, b.
  assert (L0 : Outcome.lookup_account cid from db = Some acc).
  { unfold Outcome.lookup_account. rewrite Hc. exact Ha. }
  split; [exact Hpos|]. split; [exact Hc|]. split; [exact L0|]. split; [exact Hst|].
  split; [exact Hbal|]. split; [apply mem_str_In, Hown|].
  split; [unfold Bank.get_beneficiary_details, Bank._get_beneficiary; rewrite Hb;
          reflexivity|].
  split; [exact Hbs|]. split; [exact Hbv|]. split; [apply mem_str_In, Hal|].
  split; [exact Hlim|]. split; [apply mem_str_In, Hm|].
  split.
  { unfold Outcome.lookup_account. rewrite Ec.
    fold (Outcome.lookup_account cid from
            (Bank.upd_account cid from
               (Bank.set_acc_balance
                  (fun b => Bank.set_current
                              (round2 (Bank.current b - amount)%float) b))
               (Bank.upd_account cid from
                  (Bank.set_acc_balance
                     (fun b => Bank.set_available
                                 (round2 (Bank.available b - amount)%float) b)) db))).
    rewrite !TransferFacts.lookup_upd_same, L0. reflexivity. }
  repeat (split; [assumption|]).
  split; [rewrite Et; apply dict_get_set_same|].
  repeat split; assumption.
Qed.

(** X30.  [verify_beneficiary] asks one thing only, that the client lists the
    beneficiary.  When it returns, the beneficiary on file, whatever its
    status, has its verification replaced by 'verified' with the method
    label given (any string) and the time of the call, and is otherwise
    as it was; [get_beneficiary_details] gives the beneficiary returned;
    the other beneficiaries, the clients, transactions and loans are
    untouched. *)
Theorem verify_beneficiary_marks_verified :
  forall (now client_id beneficiary_id method : string)
         (db db1 : Bank.BankDB) (b' : Bank.Beneficiary),
    Bank.verify_beneficiary now client_id beneficiary_id method db = (Ok b', db1) ->
    exists (client : Bank.Client) (b : Bank.Beneficiary),
      dict_get client_id (Bank.clients db) = Some client /\
      In beneficiary_id (Bank.beneficiary_ids client) /\
      Bank.get_beneficiary_details beneficiary_id db = (Ok b, db) /\
      b' = Bank.set_verification
             {| Bank.ver_status := "verified"; Bank.ver_method := method;
                Bank.verified_at := Some now |} b /\
      Bank.get_beneficiary_details beneficiary_id db1 = (Ok b', db1) /\
      (forall k, k <> beneficiary_id ->
                 dict_get k (Bank.beneficiaries db1) = dict_get k (Bank.beneficiaries db)) /\
      Bank.clients db1 = Bank.clients db /\
      Bank.transactions db1 = Bank.transactions db /\
      Bank.loans db1 = Bank.loans db.
Proof.
  intros now cid bid method db db1 b' H.
  destruct (BankPays.verify_beneficiary_run _ _ _ _ _ _ _ H)
    as (client & b & Hc & Hown & Hb & -> & Eb & Ec & Et & El).
  exists client, b.
  split; [exact Hc|]. split; [apply mem_str_In, Hown|].
  split; [unfold Bank.get_beneficiary_details, Bank._get_beneficiary; rewrite Hb;
          reflexivity|].
  split; [reflexivity|].
  split.
  { unfold Bank.get_beneficiary_details, Bank._get_beneficiary.
    rewrite Eb, dict_get_update_same, Hb. reflexivity. }
  split.
  { intros k N. rewrite Eb. apply dict_get_update_other. exact N. }
  repeat split; assumption.
Qed.

Lemma initiate_transfer_to_beneficiary_records_witness :
  exists tx db1,
    Bank.initiate_transfer_to_beneficiary Examples.clock "client_0001" "acc_0001" "bnf_0001"
      50%float "ACH" None Examples.bank_db = (Ok tx, db1) /\
    Bank.amount tx = 50%float /\
    Examples.balance_of db1 "client_0001" "acc_0001" = Some (Examples.balance 450%float) /\
    dict_get (Bank.transaction_id tx) (Bank.transactions db1) = Some tx.
Proof.
  eexists. eexists. split; [vm_compute; reflexivity|].
  split; [reflexivity|]. split; [reflexivity|].
  destruct (initiate_transfer_to_beneficiary_records Examples.clock "client_0001" "acc_0001"
              "bnf_0001" 50%float "ACH" None Examples.bank_db _ _
              ltac:(vm_compute; reflexivity))
    as (client & acc & b & _ & _ & _ & _ & _ & _ & _ & _ & _ & _ & _ & _ & _ & _ & _ & _ & _
        & _ & S & _).
  exact S.
Defined.

Lemma verify_beneficiary_marks_verified_witness :
  exists b' db1,
    Bank.verify_beneficiary Examples.clock "client_0001" "bnf_0001" "phone call"
      Examples.bank_db = (Ok b', db1) /\
    Bank.verification b'
    = {| Bank.ver_status := "verified"; Bank.ver_method := "phone call";
         Bank.verified_at := Some Examples.clock |} /\
    Bank.get_beneficiary_details "bnf_0001" db1 = (Ok b', db1).
Proof.
  eexists. eexists. split; [vm_compute; reflexivity|]. split; [reflexivity|].
  destruct (verify_beneficiary_marks_verified Examples.clock "client_0001" "bnf_0001"
              "phone call" Examples.bank_db _ _ ltac:(vm_compute; reflexivity))
    as (client & b & _ & _ & _ & _ & G & _).
  exact G.
Defined.
